(* ===== verification/_CoqProject ===== *)
-Q . S2P
Prelude.v
PyStr.v
PyRegex.v
Batcher.v
Codec.v
Timecode.v
World.v
ApiClient.v
Translator.v
SrtFile.v
Pipeline.v
StoryEditor.v
App.v
Build.v
VideoDownloader.v
ImageGenerator.v
GuiState.v
GuiSubtitle.v
GuiStory.v
GuiMedia.v
GuiApp.v
