(* ===== verification/Prelude.v ===== *)
(** * A verification development for Mot-Ai (AI Story Creator Pro)

    ** The program

    Mot-Ai is a desktop application.  [src/main.py] creates the working
    directories, sets up logging ([src/utils/logger.py]), writes or reads
    [config.json] and builds the window [MainApp] ([src/gui.py]).  The
    window's tabs drive four services:
    - [src/srt_translator.py]: [SRTTranslator.translate_file] splits the
      cues of a subtitle file into batches ([_create_batches]), encodes
      each batch as a numbered list ([_batch_to_text]), asks the language
      model for a translation, maps the reply back onto the cues by
      position ([_text_to_subtitles]) and renders SRT text
      ([_create_srt_content], [_timedelta_to_srt]);
    - [src/api_client.py]: [LMStudioClient], the HTTP client of the local
      language-model server ([generate_text], [translate_text],
      [chat_completion], [edit_story_text], [generate_image_script]);
    - [src/story_editor.py]: [StoryEditor], prompts for editing, analysing
      and continuing a story through the same client;
    - [src/video_downloader.py] and [src/image_generator.py]: a yt-dlp
      front end and a Stable Diffusion web-API client.

    ** How the development models it

    Python text is a list of UTF-8 bytes ([str], below); a call that may
    raise returns [exc + A]; code that threads effects (requests sent, log
    lines, callbacks, files written) is a function [PyM W A = W -> (exc + A)
    * W] of an explicit world [W], with [bind], [raise] and [try_except]
    written out (this file).  Libraries the code only calls (the HTTP
    server, yt-dlp, the clock) are oracles: arbitrary functions of what is
    asked and of a request counter, so every theorem holds for every
    behaviour of the outside world unless it says otherwise.  Files, in
    dependency order:
    - [Prelude]: text, exceptions, the monad, [for_each] (a Python [for]
      loop with an accumulator), the [pyrw] rewrite database.
    - [PyStr]: [strip], [split], [join], [str(n)], [f"{n:0wd}"], and
      [take_codepoints] ([s[:n]] on code points).
    - [PyRegex]: [re.sub(r'<[^>]+>', '', s)] (Module [TagRegex]) and
      [re.match(r'^\d+\.\s*(.+)', line)] (Module [NumberRegex]) as matchers
      that follow the [re] engine's backtracking; both were compared with
      Python on random inputs.
    - [Batcher]: [_create_batches] as a fold with the source's two local
      variables as state, and the reference slicing [chunk].
    - [Codec]: [_batch_to_text] and [_text_to_subtitles]; the record
      [SubRipItem] (pysrt's cue), whose times are values of [py_time]:
      pysrt's [SubRipTime] (what [pysrt.open] produces) or a
      [datetime.timedelta] (what the annotations name).
    - [Timecode]: [_timedelta_to_srt] in IEEE binary64 through the
      Standard Library's [SpecFloat], so the model computes CPython's bits;
      [td.total_seconds()] exists on a [timedelta] and raises
      [AttributeError] on a [SubRipTime].
    - [World]: requests, log lines and progress callbacks as events of the
      translator's world.
    - [ApiClient]: the [LMStudioClient] methods; the classes [AiClient] (what
      the translator needs of a client) and [AiTotal] (its law: a call
      never raises and emits no progress event), with the instances for
      [LMStudioClient].
    - [Translator]: [translate_file], proved against [AiClient]/[AiTotal]
      and instantiated with the LM Studio client and with an echo client.
    - [SrtFile]: the reader [pysrt.open] calls (a library: modelled from
      the spec's artifact format, blank-line separated blocks of an index,
      a [HH:MM:SS,mmm --> HH:MM:SS,mmm] line and text lines, malformed
      blocks skipped), its numbers read with the Standard Library's
      [NilEmpty.uint_of_string].
    - [Pipeline]: [translate_file] from the file path ([translate_path]),
      and [reference_translation], the loop-free reference the loop is
      proved equivalent to.
    - [StoryEditor]: the four methods against the class [AiTextClient]; the
      analysis dictionary as a stdpp [gmap].
    - [App]: [main()], [setup_logger], [create_default_config],
      [MainApp.__init__] and [setup_app] over a world of directories,
      files, loggers and printed or window events.
    - [VideoDownloader]: [get_video_info] and [download] against a yt-dlp
      oracle, the option dictionary, the format selector, the callback
      logger and [os.path.splitext] (compared with [posixpath] on random
      paths).
    - [ImageGenerator]: [generate], [_create_placeholder_images],
      [generate_batch] and [check_connection]; [base64.b64decode] is
      modelled after CPython's non-strict [binascii.a2b_base64] (compared
      with Python on random strings) and proved to invert a reference
      encoder.
    - [Build]: [src/build.py]'s [build_app], cut at its phases ([prepare],
      [bundle], [finish]), over a file system of folders and files;
      PyInstaller is an oracle that raises or writes the bundle into the
      working directory's [dist] folder.
    - [GuiState]: the window's state, the record [gui]: the values of the
      widgets of the five tabs ([create_tab1_content] ... [_5_]), the status
      bar, dialogs shown, files written, open [CTkToplevel] windows, Tk's
      queue of [self.after] callbacks, started threads, the closure cells
      of [except] blocks, and the clients' worlds.  The shared operations
      ([update_status], [read_file], [open_srt]: [SrtFile]'s reader on
      the file as the window sees it, [write_text], [worker]: the
      [try/except] shape of every worker thread) and the effect algebra
      ([eff], [frames], [still], the [gui] hint database) the proofs use.
    - [GuiSubtitle], [GuiStory], [GuiMedia]: the handlers of the subtitle,
      story, image-script, video and image tabs (Modules [SubtitleTab],
      [StoryTab], [ScriptTab], [VideoTab], [ImageTab]), each worker thread
      ([translate], [process], [generate], [check], [download]) calling
      the component files' models of the services.
    - [GuiApp]: [create_widgets] (which starts the connection check) and
      [setup_clients]; the sidebar, settings and status windows; the
      dispatch of user events ([handle]), of callbacks ([run_callback])
      and of threads ([run_thread]); and the step relations [bg_step]
      (the rest of [__init__], a thread step, or the main loop running the
      first callback) and [step] (also the user's events, once [__init__]
      has returned and unless the settings window holds the grab).
      Threads are interleaved arbitrarily: a thread runs its target as one
      step, and the end of its [except] block ([del e]) is a step of its
      own, so the race between it and the main loop is explicit.

    Each component file has a Module of definitions, a [...Facts] Module of
    lemmas and a [...Spec] Module with the properties and their witnesses
    (closed applications at concrete inputs).

    ** What the theorems show

    - Translation ([Translator]): with any client that never raises,
      [translate_file] on cues as pysrt reads them sends every batch and
      then raises [AttributeError], because [_create_srt_content] calls
      [total_seconds()] on pysrt's [SubRipTime]; with a client that echoes
      its prompt the result is the rendering of the cleaned cues (a
      refinement of the identity, whatever the time type); the progress
      callbacks are [(1,n) ... (n,n)], one request per batch, each
      callback before its batch's request; an empty file raises
      [ValueError].
    - Pipeline and file format ([Pipeline], [SrtFile]): for every client
      answering as a function of the prompt body, [translate_file] equals
      the reference pipeline (an equivalence); from the file path, every
      file with a cue ends in [AttributeError]; rendering [timedelta]
      cues then reading the text gives back the cues with their times in
      whole milliseconds, for times that render exactly.
    - Batching ([Batcher]): [_create_batches] equals [chunk (max 1 n)]:
      concatenation, size bounds, full batches, batch count.
    - Codec ([Codec], [PyRegex]): decoding a batch's own encoding gives back
      its cleaned texts with their timings; replies in the numbered format
      decode to their texts; the regex matchers are sound and complete for
      their patterns.
    - Timestamps ([Timecode]): every [timedelta] below one second renders
      exactly (checked over all 1000 millisecond values); 1.001 s renders
      as [00:00:01,000].
    - Start-up ([App]): [main()] never reaches [mainloop] — [setup_app] uses
      [Path], which gui.py never imports — and ends in [sys.exit(1)] at a
      console or in [input()]'s [RuntimeError] in the [--windowed]
      bundle; on a fresh installation the exact sequence of effects.
    - Images ([ImageGenerator]): the only exception [generate] lets escape
      is a failed save of a placeholder in its [except] block; on success
      it saves exactly the bytes the server encoded; a decoding failure
      keeps the files already written; a data URL's header, not its
      payload, is decoded; [generate_batch]'s keys are the distinct
      50-code-point prefixes.
    - Videos ([VideoDownloader]): the audio-only path ends in [.mp3];
      [splitext] splits and joins back; the description cut never splits a
      code point; the logger forwards exactly the [Downloading] debug lines.
    - The window ([GuiApp.WindowSpec]): once the threads are done every
      worker's error dialog raises [NameError] instead of showing (through
      the invariant [cells_ok]: each queued error dialog refers to a
      closure cell that is deleted or about to be);
      the video progress bar only ever holds 0 or 1; background steps are
      well founded (measure: the workers left, then the deletions and
      callbacks pending) and always reach a quiet state; the connection
      check that runs before [setup_clients] reports an error whatever the
      server; the image-folder button opens a folder the generator never
      writes to; server errors of the story worker become the edited
      story; saving then loading a story gives the text back through the
      text-mode newline translations, unchanged when it holds no [\r];
      the translation worker queues the progress updates [(1,n) ...
      (n,n)]; composed with [SrtFile]'s reader and the LM Studio client on
      a server that answers each prompt [p] with [m p], its last callback
      is the result or the error of the reference pipeline ([Pipeline]) on
      the cues pysrt reads from the file, and on any file with a cue it is
      the error dialog holding the [AttributeError]; translated subtitles
      never overwrite the original ([GuiSubtitle]).
    - Build ([Build.BuildSpec]): without [main.py] nothing happens; from
      the project folder the build copies both files into the bundle; from
      another working directory it fails with [FileNotFoundError] after
      printing "Build completed!"; a PyInstaller failure propagates and
      leaves no new file outside [build/assets] but PyInstaller's spec
      file in the working directory.

    ** Bounds and fuel

    [sub_tags] and [chunk] recurse on fuel equal to the length of their
    input, which bounds the number of steps (each step consumes at least
    one byte or one item); lemmas [sub_tags_fuel_indep] and
    [chunk_fuel_indep] show the result does not depend on larger fuel.
    Integers are [Z]; the only machine-width arithmetic of the program is
    binary64 ([Timecode]: [total_seconds()] and the products of
    [_timedelta_to_srt] in the Standard Library's [SpecFloat], whose
    rounding loses the millisecond of 1.001 s) and the [unsigned char] bytes of [a2b_base64], whose
    masks are written out and whose bit facts are checked over all byte
    pairs.

    ** Not modelled

    pysrt's leniencies beyond the spec's format (byte-order marks, CRLF
    line ends, blocks without an index line) and its writer; [SubRipTime]
    is kept as its ordinal only, since the program never reads more of it
    than [total_seconds], which it lacks; the failures of file writes are
    an oracle ([sd_write_error], [open_write_error]), not a model of the
    disk; widget
    layout, fonts and colours (only the values the handlers read
    and write are state); [float()] of an entry and PIL's format
    detection (oracles [py_float], [pil_identifies]); logging formats;
    image contents (a placeholder record); the [import] of [pathlib]
    missing from gui.py is assumed fixed from [create_widgets] on, since
    with it [MainApp.__init__] never completes ([App.AppSpec]).  A
    rounding analysis proving which timestamps [_timedelta_to_srt]
    renders exactly for all inputs below 2^53 µs is left open.
*)

From Stdlib Require Import String Ascii List ZArith Lia Bool.
Import ListNotations.

(** ** Text

    A Python [str] is modelled as the list of the bytes of its UTF-8
    encoding.  Every separator the code splits or matches on ([\n], [<],
    [>], [.], ASCII digits and blanks) is a single ASCII byte, and no
    continuation byte of a multi-byte UTF-8 sequence is ASCII, so splitting,
    replacing and scanning bytes agrees with Python's code-point semantics on
    these operations. *)

Abbreviation str := (list ascii) (only parsing).

(** A literal: [lit "abc"] is the byte list of the (UTF-8) string literal. *)
Definition lit (s : string) : str := list_ascii_of_string s.

Declare Scope py_scope.
Delimit Scope py_scope with py.

Definition NL : ascii := "010"%char.
Definition SP : ascii := " "%char.

(** Python exceptions the modelled code raises or catches. *)
Inductive exc :=
| ValueError (msg : str)
| IndexError (msg : str)
| OtherError (name msg : str).

(** ** A state-and-exception monad

    Python code threads an implicit world (callbacks called, requests sent,
    log lines written) and may raise.  A raise keeps the world changes made
    before it, so the world is returned on both paths. *)

Definition PyM (W A : Type) : Type := W -> (exc + A) * W.

Definition ret {W A} (a : A) : PyM W A := fun w => (inr a, w).
Definition bind {W A B} (m : PyM W A) (k : A -> PyM W B) : PyM W B :=
  fun w => match m w with
           | (inl e, w') => (inl e, w')
           | (inr a, w') => k a w'
           end.
Definition raise {W A} (e : exc) : PyM W A := fun w => (inl e, w).
Definition modify {W} (f : W -> W) : PyM W unit := fun w => (inr tt, f w).

(** [try: m except Exception as e: h(e)] *)
Definition try_except {W A} (m : PyM W A) (h : exc -> PyM W A) : PyM W A :=
  fun w => match m w with
           | (inl e, w') => h e w'
           | (inr a, w') => (inr a, w')
           end.

(** [str(e)] *)
Definition exc_str (e : exc) : list ascii :=
  match e with
  | ValueError msg | IndexError msg | OtherError _ msg => msg
  end.

Notation "x <- m ;; k" := (bind m (fun x => k))
  (at level 100, m at next level, right associativity) : py_scope.
Notation "m ;;; k" := (bind m (fun _ => k))
  (at level 100, right associativity) : py_scope.

Open Scope py_scope.

(** [for x in xs: body] with an accumulator, stopping at the first raise. *)
Fixpoint for_each {W A B} (xs : list A) (acc : B) (body : A -> B -> PyM W B)
  : PyM W B :=
  match xs with
  | [] => ret acc
  | x :: xs' => acc' <- body x acc ;; for_each xs' acc' body
  end.

(** ** Shared automation *)

Create Rewrite HintDb pyrw.

Ltac inv H := inversion H; subst; clear H.

(** ** Generic lemmas *)

Lemma bind_ret_l {W A B} (a : A) (k : A -> PyM W B) w :
  bind (ret a) k w = k a w.
Proof. reflexivity. Qed.

Lemma bind_inr {W A B} (m : PyM W A) (k : A -> PyM W B) w a w' :
  m w = (inr a, w') -> bind m k w = k a w'.
Proof. unfold bind. intros ->. reflexivity. Qed.

Lemma bind_inl {W A B} (m : PyM W A) (k : A -> PyM W B) w e w' :
  m w = (inl e, w') -> bind m k w = (inl e, w').
Proof. unfold bind. intros ->. reflexivity. Qed.

Lemma try_except_inl {W A} (m : PyM W A) h w e w' :
  m w = (inl e, w') -> try_except m h w = h e w'.
Proof. unfold try_except. intros ->. reflexivity. Qed.

Lemma try_except_inr {W A} (m : PyM W A) h w a w' :
  m w = (inr a, w') -> try_except m h w = (inr a, w').
Proof. unfold try_except. intros ->. reflexivity. Qed.

(** A body that never raises makes the loop never raise. *)
Lemma for_each_total {W A B} (xs : list A) (body : A -> B -> PyM W B) :
  (forall x b w, exists b' w', body x b w = (inr b', w')) ->
  forall acc w, exists r w', for_each xs acc body w = (inr r, w').
Proof.
  intros Hb. induction xs as [|x xs IH]; intros acc w; simpl.
  - eexists _, _. reflexivity.
  - destruct (Hb x acc w) as (b' & w' & E).
    rewrite (bind_inr _ _ _ _ _ E). apply IH.
Qed.

Lemma length_concat_map_const {A B} (f : A -> list B) (k : nat) (xs : list A) :
  (forall x, In x xs -> length (f x) = k) ->
  length (concat (map f xs)) = k * length xs.
Proof.
  induction xs as [|x xs IH]; intros H; simpl; [lia|].
  rewrite length_app, (H x (or_introl eq_refl)), IH by (intros; apply H; simpl; auto).
  lia.
Qed.

#[export] Hint Rewrite length_app length_map length_firstn length_skipn : pyrw.
