(* ===== verification/PyStr.v ===== *)
(** Models of the Python [str] methods the program calls. *)
From Stdlib Require Import String Ascii List ZArith Lia Bool.
From S2P Require Import Prelude.
Import ListNotations.
From Stdlib Require Import DecimalString DecimalPos.

(** [str.isspace] on one byte: the ASCII characters Python counts as
    whitespace ([\t\n\v\f\r], the separators [\x1c]-[\x1f] and the space).
    Non-ASCII whitespace (U+00A0, U+3000, ...) is multi-byte in UTF-8 and is
    not recognised by this model. *)
Definition isspace (c : ascii) : bool :=
  let n := nat_of_ascii c in
  ((9 <=? n) && (n <=? 13)) || ((28 <=? n) && (n <=? 32))%nat.

(** [str.isdigit] restricted to ASCII: the [\d] class on ASCII input. *)
Definition isdigit (c : ascii) : bool :=
  let n := nat_of_ascii c in ((48 <=? n) && (n <=? 57))%nat.

Definition ascii_eqb (a b : ascii) : bool := Ascii.eqb a b.

(** [s.lstrip()], [s.rstrip()], [s.strip()] *)
Fixpoint lstrip (s : str) : str :=
  match s with
  | [] => []
  | c :: s' => if isspace c then lstrip s' else s
  end.

Definition rstrip (s : str) : str := rev (lstrip (rev s)).

Definition strip (s : str) : str := rstrip (lstrip s).

(** [s.split(sep)] for a one-character separator: [k] separators give
    [k + 1] pieces, and the empty string gives [[""]]. *)
Fixpoint split_on (sep : ascii) (s : str) : list str :=
  match s with
  | [] => [[]]
  | c :: s' =>
      let rest := split_on sep s' in
      if ascii_eqb c sep then [] :: rest
      else match rest with
           | [] => [[c]]
           | p :: ps => (c :: p) :: ps
           end
  end.

(** [sep.join(parts)] *)
Fixpoint join (sep : str) (parts : list str) : str :=
  match parts with
  | [] => []
  | [p] => p
  | p :: ps => p ++ sep ++ join sep ps
  end.

(** [s.split(sep, 1)] for a one-character separator that occurs in [s]:
    the text before its first occurrence and the text after it. *)
Fixpoint split_once (sep : ascii) (s : str) : str * str :=
  match s with
  | [] => ([], [])
  | c :: s' =>
      if ascii_eqb c sep then ([], s')
      else let (a, b) := split_once sep s' in (c :: a, b)
  end.

(** [s.replace(a, b)] for one-character [a] and [b]. *)
Definition replace_char (a b : ascii) (s : str) : str :=
  map (fun c => if ascii_eqb c a then b else c) s.

(** [str(n)] for a Python [int]. *)
Definition py_str_Z (n : Z) : str := lit (NilEmpty.string_of_int (Z.to_int n)).

(** [f"{n:0wd}"]: zero padding goes between the sign and the digits, and
    the width counts the sign; wider numbers are not truncated. *)
Definition fmt_0d (w : nat) (n : Z) : str :=
  let sgn := if (n <? 0)%Z then lit "-" else [] in
  let ds := py_str_Z (Z.abs n) in
  sgn ++ repeat "0"%char (w - length sgn - length ds) ++ ds.

(** A UTF-8 continuation byte. *)
Definition is_cont (c : ascii) : bool :=
  let n := nat_of_ascii c in ((128 <=? n) && (n <=? 191))%nat.

(** [s[:n]] on code points, for the UTF-8 bytes of [s]. *)
Fixpoint take_codepoints (n : nat) (s : str) : str :=
  match s with
  | [] => []
  | c :: s' =>
      if is_cont c then c :: take_codepoints n s'
      else match n with
           | O => []
           | S n' => c :: take_codepoints n' s'
           end
  end.

(** The number of code points of UTF-8 bytes: the bytes that start one. *)
Definition count_cp (s : str) : nat := length (List.filter (fun c => negb (is_cont c)) s).

(** [int(s)] for a [str] in base 10, on ASCII input: blanks around, an
    optional sign, then digits with single underscores between them.
    Python also accepts non-ASCII decimal digits, which the program never
    receives from its numeric entries; [None] is the [ValueError]. *)
Definition digit_value (c : ascii) : Z := (Z.of_nat (nat_of_ascii c) - 48)%Z.

Fixpoint digits_us (s : str) (acc : Z) : option Z :=
  match s with
  | [] => Some acc
  | c :: s' =>
      if isdigit c then digits_us s' (acc * 10 + digit_value c)%Z
      else if ascii_eqb c "_"%char then
        match s' with
        | d :: s'' => if isdigit d then digits_us s'' (acc * 10 + digit_value d)%Z else None
        | [] => None
        end
      else None
  end.

Definition py_int_of_str (s : str) : option Z :=
  let t := strip s in
  let '(neg, body) := match t with
                      | c :: r => if ascii_eqb c "-"%char then (true, r)
                                  else if ascii_eqb c "+"%char then (false, r) else (false, t)
                      | [] => (false, t)
                      end in
  match body with
  | d :: r => if isdigit d then option_map (fun n => if neg then (- n)%Z else n) (digits_us r (digit_value d))
              else None
  | [] => None
  end.

(** ** Lemmas *)

Lemma ascii_eqb_spec (a b : ascii) : reflect (a = b) (ascii_eqb a b).
Proof. apply Ascii.eqb_spec. Qed.

Lemma split_on_not_nil sep s : split_on sep s <> [].
Proof.
  induction s as [|c s IH]; simpl; [discriminate|].
  destruct (ascii_eqb c sep); [discriminate|].
  destruct (split_on sep s); [discriminate|discriminate].
Qed.

Lemma join_cons_cons sep p q ps :
  join sep (p :: q :: ps) = p ++ sep ++ join sep (q :: ps).
Proof. reflexivity. Qed.

Lemma join_cons_sep sep p q ps :
  join [sep] (p :: q :: ps) = p ++ sep :: join [sep] (q :: ps).
Proof. reflexivity. Qed.

(** Splitting and joining back is the identity. *)
Lemma join_split_on sep s : join [sep] (split_on sep s) = s.
Proof.
  induction s as [|c s IH]; simpl; [reflexivity|].
  destruct (ascii_eqb_spec c sep) as [->|Hne].
  - pose proof (split_on_not_nil sep s) as Hn.
    destruct (split_on sep s) as [|p ps]; [congruence|].
    simpl in *. rewrite IH. reflexivity.
  - destruct (split_on sep s) as [|p [|q ps]] eqn:E; simpl in *.
    + exfalso. exact (split_on_not_nil sep s E).
    + rewrite IH. reflexivity.
    + rewrite IH. reflexivity.
Qed.

Lemma split_on_app_sep sep p s :
  ~ In sep p -> split_on sep (p ++ sep :: s) = p :: split_on sep s.
Proof.
  induction p as [|c p IH]; intros Hp; simpl.
  - destruct (ascii_eqb_spec sep sep); congruence.
  - destruct (ascii_eqb_spec c sep) as [->|Hne].
    + exfalso. apply Hp. left. reflexivity.
    + rewrite IH by (intros H; apply Hp; right; exact H). reflexivity.
Qed.

Lemma split_on_no_sep sep p : ~ In sep p -> split_on sep p = [p].
Proof.
  induction p as [|c p IH]; intros Hp; simpl; [reflexivity|].
  destruct (ascii_eqb_spec c sep) as [->|Hne].
  - exfalso. apply Hp. left. reflexivity.
  - rewrite IH by (intros H; apply Hp; right; exact H). reflexivity.
Qed.

(** Joining pieces that do not contain the separator and splitting again
    gives the pieces back. *)
Lemma split_on_join sep parts :
  parts <> [] -> Forall (fun p => ~ In sep p) parts ->
  split_on sep (join [sep] parts) = parts.
Proof.
  induction parts as [|p [|q ps] IH]; intros Hne Hall; [congruence| |].
  - inv Hall. simpl. apply split_on_no_sep. assumption.
  - inv Hall. rewrite join_cons_sep.
    rewrite split_on_app_sep by assumption. f_equal. apply IH; [discriminate|assumption].
Qed.

Lemma lstrip_app_nonspace c s t :
  isspace c = false -> lstrip (c :: s ++ t) = c :: s ++ t.
Proof. simpl. intros ->. reflexivity. Qed.

Lemma lstrip_nonspace_head c s : isspace c = false -> lstrip (c :: s) = c :: s.
Proof. simpl. intros ->. reflexivity. Qed.

(** A string that starts and ends with a non-blank character is left
    unchanged by [strip]. *)
Lemma strip_id c s d :
  isspace c = false -> isspace d = false -> strip (c :: s ++ [d]) = c :: s ++ [d].
Proof.
  intros Hc Hd. unfold strip, rstrip.
  rewrite lstrip_nonspace_head by exact Hc.
  assert (E : rev ((c :: s) ++ [d]) = d :: rev (c :: s))
    by (rewrite rev_app_distr; reflexivity).
  rewrite app_comm_cons, E, lstrip_nonspace_head by exact Hd.
  rewrite <- E. apply rev_involutive.
Qed.


Lemma uint_digits (d : Decimal.uint) :
  Forall (fun c => isdigit c = true) (lit (NilEmpty.string_of_uint d)).
Proof. induction d; simpl; constructor; auto. Qed.

Lemma uint_nonempty (d : Decimal.uint) :
  d <> Decimal.Nil -> lit (NilEmpty.string_of_uint d) <> [].
Proof. destruct d; simpl; congruence. Qed.

(** [str(n)] of a non-negative integer is a non-empty run of digits. *)
Lemma py_str_Z_digits n :
  (0 <= n)%Z ->
  py_str_Z n <> [] /\ Forall (fun c => isdigit c = true) (py_str_Z n).
Proof.
  intros Hn. unfold py_str_Z.
  destruct n as [|p|p]; simpl; [split; [discriminate|repeat constructor]| |lia].
  split; [apply uint_nonempty, Unsigned.to_uint_nonnil | apply uint_digits].
Qed.

#[export] Hint Resolve split_on_not_nil : core.

(** [strip] only removes characters. *)
Lemma lstrip_in c s : In c (lstrip s) -> In c s.
Proof. induction s as [|d s IH]; cbn; [tauto|]. destruct (isspace d); [intros H; right; auto|tauto]. Qed.

Lemma strip_in c s : In c (strip s) -> In c s.
Proof. unfold strip, rstrip. intros H. apply in_rev, lstrip_in, in_rev, lstrip_in in H. exact H. Qed.

Lemma strip_id_gen s :
  (forall c s', s = c :: s' -> isspace c = false) ->
  (forall s' d, s = s' ++ [d] -> isspace d = false) ->
  strip s = s.
Proof.
  intros Hh Hl. destruct s as [|c s']; [reflexivity|].
  destruct (exists_last (l := c :: s') ltac:(discriminate)) as (pre & d & E).
  destruct pre as [|c' mid].
  - simpl in E. injection E as E1 E2. subst. unfold strip, rstrip. simpl.
    rewrite (Hh _ [] eq_refl). simpl. rewrite (Hh _ [] eq_refl). reflexivity.
  - simpl in E. injection E as -> E. rewrite E in *.
    apply strip_id; [exact (Hh c' _ eq_refl)|].
    apply (Hl (c' :: mid)). reflexivity.
Qed.

(** The last piece of a join ends the joined text. *)
Lemma join_last sep ps p : exists pre, join sep (ps ++ [p]) = pre ++ p.
Proof.
  induction ps as [|q ps IH]; simpl; [exists []; reflexivity|].
  destruct (ps ++ [p]) as [|r rs] eqn:E; [destruct ps; discriminate|].
  destruct IH as (pre & IH). exists (q ++ sep ++ pre). rewrite IH, !app_assoc. reflexivity.
Qed.

Lemma join_first sep p ps : exists post, join sep (p :: ps) = p ++ post.
Proof. destruct ps; simpl; [exists []; rewrite app_nil_r|eexists]; reflexivity. Qed.

Lemma replace_char_not_in a b s : a <> b -> ~ In a (replace_char a b s).
Proof.
  intros Hab. unfold replace_char. rewrite in_map_iff. intros (c & Hc & _).
  destruct (ascii_eqb_spec c a); congruence.
Qed.

Lemma length_split_on_join sep parts :
  parts <> [] -> Forall (fun p => ~ In sep p) parts ->
  length (split_on sep (join [sep] parts)) = length parts.
Proof. intros. rewrite split_on_join; auto. Qed.

(** [s[:n]] on code points (as [description[:200]] in
    video_downloader.py): [take_codepoints n s] is a
    prefix of [s] holding [min n] of its code points, and it stops only at
    the start of a code point, never inside one. *)
Theorem take_codepoints_spec (n : nat) (s : str) :
  (exists r, s = take_codepoints n s ++ r) /\
  count_cp (take_codepoints n s) = Nat.min n (count_cp s) /\
  (forall c r, s = take_codepoints n s ++ c :: r -> is_cont c = false).
Proof.
  unfold count_cp. revert n.
  induction s as [|c s IH]; intros n; cbn [take_codepoints].
  - split; [exists []; reflexivity|]. split; [cbn [List.filter length]; lia|]. intros ? ? H; discriminate.
  - destruct (is_cont c) eqn:Hc; [|destruct n as [|n]].
    + destruct (IH n) as ((r & Hr) & Hn & Hm). split; [exists r; cbn; f_equal; exact Hr|].
      split; [cbn; rewrite Hc; exact Hn|].
      intros c' r' H. injection H as H. exact (Hm c' r' H).
    + split; [exists (c :: s); reflexivity|]. split; [reflexivity|].
      intros c' r' H. injection H as <- _. exact Hc.
    + destruct (IH n) as ((r & Hr) & Hn & Hm). split; [exists r; cbn; f_equal; exact Hr|].
      split; [cbn [List.filter length]; rewrite Hc; cbn [negb length]; lia|].
      intros c' r' H. injection H as H. exact (Hm c' r' H).
Qed.

