(* ===== verification/PyRegex.v ===== *)
(** Models of the two regular expressions of [src/srt_translator.py]:
    [re.sub(r'<[^>]+>', '', text)] (line 84, markup removal in
    [_batch_to_text]) and [re.match(r'^\d+\.\s*(.+)', line)] (line 103,
    number stripping in [_text_to_subtitles]).  Each is an executable
    matcher that follows the backtracking order of Python's [re] engine,
    and each is related to the language of its pattern. *)
From Stdlib Require Import String Ascii List ZArith Lia Bool Wf_nat.
From S2P Require Import Prelude PyStr.
Import ListNotations.

Definition LT : ascii := "<"%char.
Definition GT : ascii := ">"%char.
Definition DOT : ascii := "."%char.

(** Longest prefix whose characters satisfy [p], and the remainder. *)
Fixpoint span (p : ascii -> bool) (s : str) : str * str :=
  match s with
  | [] => ([], [])
  | c :: s' => if p c then let (a, b) := span p s' in (c :: a, b) else ([], s)
  end.

Definition not_gt (c : ascii) : bool := negb (ascii_eqb c GT).
Definition not_nl (c : ascii) : bool := negb (ascii_eqb c NL).

Module TagRegex.

(** One attempt of [<[^>]+>] at the head of [s]; on success, what follows
    the match.  [[^>]+] is greedy and the next item must be [>], which
    [[^>]] never consumes, so backtracking cannot produce another match. *)
Definition match_tag (s : str) : option str :=
  match s with
  | c :: s' =>
      if ascii_eqb c LT then
        match span not_gt s' with
        | ([], _) => None
        | (_, []) => None
        | (_, _ :: rest) => Some rest
        end
      else None
  | [] => None
  end.

(** [re.sub(r'<[^>]+>', '', s)]: try the pattern at each position from
    the left; a match is deleted and scanning resumes after it, otherwise
    the character is kept.  The fuel is the length of the input. *)
Fixpoint sub_tags_fuel (fuel : nat) (s : str) : str :=
  match fuel with
  | O => s
  | S f =>
      match s with
      | [] => []
      | c :: s' =>
          match match_tag s with
          | Some rest => sub_tags_fuel f rest
          | None => c :: sub_tags_fuel f s'
          end
      end
  end.

Definition sub_tags (s : str) : str := sub_tags_fuel (length s) s.

(** The language of [<[^>]+>]. *)
Definition tag_lang (m : str) : Prop :=
  exists t, m = LT :: t ++ [GT] /\ t <> [] /\ Forall (fun c => not_gt c = true) t.

End TagRegex.

Module NumberRegex.

(** [.+] at the head of [s]: greedy, stops before a newline. *)
Definition dot_plus (s : str) : option str :=
  match span not_nl s with
  | ([], _) => None
  | (g, _) => Some g
  end.

(** When [.+] fails right after the greedy [\s*], the engine gives back
    blanks one at a time; [.+] then matches the last given-back blank that
    is not a newline, and only that one (what follows it is a newline or
    the end). *)
Definition last_non_nl (ws : str) : option str :=
  match rev (filter not_nl ws) with
  | [] => None
  | c :: _ => Some [c]
  end.

(** [m = re.match(r'^\d+\.\s*(.+)', line)]; [Some g] is [m.group(1)].
    [\d+] is greedy and must be followed by [.], which is not a digit, so
    it never backtracks. *)
Definition match_numbered (line : str) : option str :=
  let (ds, r1) := span isdigit line in
  match ds, r1 with
  | _ :: _, c :: r2 =>
      if ascii_eqb c DOT then
        let (ws, r3) := span isspace r2 in
        match dot_plus r3 with
        | Some g => Some g
        | None => last_non_nl ws
        end
      else None
  | _, _ => None
  end.

(** The language of [\d+\.\s*(.+)] as a prefix of [line], with [g] the
    text of the group. *)
Definition numbered_lang (line g : str) : Prop :=
  exists ds ws rest,
    line = ds ++ DOT :: ws ++ g ++ rest /\ ds <> [] /\
    Forall (fun c => isdigit c = true) ds /\ Forall (fun c => isspace c = true) ws /\
    g <> [] /\ Forall (fun c => not_nl c = true) g.

End NumberRegex.

(** ** Lemmas on [span] *)

Lemma span_spec p s a b :
  span p s = (a, b) ->
  s = a ++ b /\ Forall (fun c => p c = true) a /\
  (forall c b', b = c :: b' -> p c = false).
Proof.
  revert a b. induction s as [|c s IH]; simpl; intros a b H.
  - inv H. split; [reflexivity|]. split; [constructor|]. discriminate.
  - destruct (p c) eqn:Pc.
    + destruct (span p s) as [a' b'] eqn:E. injection H as <- <-.
      destruct (IH a' b' eq_refl) as (-> & Ha & Hb).
      split; [reflexivity|]. split; [constructor; assumption|exact Hb].
    + injection H as <- <-. split; [reflexivity|]. split; [constructor|].
      intros c' b' Heq. injection Heq as -> _. exact Pc.
Qed.

Lemma span_stop p c s : p c = false -> span p (c :: s) = ([], c :: s).
Proof. simpl. intros ->. reflexivity. Qed.

Lemma span_app_l p a b :
  Forall (fun c => p c = true) a ->
  span p (a ++ b) = (a ++ fst (span p b), snd (span p b)).
Proof.
  induction 1 as [|c a Hc Ha IH]; simpl.
  - destruct (span p b); reflexivity.
  - rewrite Hc, IH. reflexivity.
Qed.

Lemma span_length p s : length (fst (span p s)) + length (snd (span p s)) = length s.
Proof.
  destruct (span p s) as [a b] eqn:E. apply span_spec in E as (-> & _).
  simpl. rewrite length_app. reflexivity.
Qed.

Lemma not_gt_false c : not_gt c = false -> c = GT.
Proof. unfold not_gt. destruct (ascii_eqb_spec c GT); simpl; congruence. Qed.

Lemma not_nl_false c : not_nl c = false -> c = NL.
Proof. unfold not_nl. destruct (ascii_eqb_spec c NL); simpl; congruence. Qed.

Module TagRegexFacts.
Import TagRegex.

(** The matcher recognises exactly the language of [<[^>]+>] at the head
    of its input. *)
Lemma match_tag_spec s rest :
  match_tag s = Some rest <-> exists m, s = m ++ rest /\ tag_lang m.
Proof.
  split.
  - destruct s as [|c s']; simpl; [discriminate|].
    destruct (ascii_eqb_spec c LT) as [->|]; [|discriminate].
    destruct (span not_gt s') as [a b] eqn:E.
    destruct a as [|x a]; [discriminate|]. destruct b as [|g b]; [discriminate|].
    intros H. inv H. apply span_spec in E as (-> & Ha & Hb).
    pose proof (not_gt_false g (Hb g rest eq_refl)) as ->.
    exists (LT :: (x :: a) ++ [GT]). split.
    + simpl. rewrite <- app_assoc. reflexivity.
    + exists (x :: a). split; [reflexivity|]. split; [discriminate|exact Ha].
  - intros (m & -> & t & -> & Ht & Hall). simpl.
    destruct (ascii_eqb_spec LT LT) as [_|]; [|congruence].
    rewrite <- app_assoc. simpl.
    rewrite span_app_l by exact Hall. rewrite span_stop by reflexivity. simpl.
    destruct t; [congruence|]. reflexivity.
Qed.

Lemma match_tag_shorter s rest : match_tag s = Some rest -> length rest < length s.
Proof.
  intros H. apply match_tag_spec in H as (m & -> & t & -> & _).
  rewrite length_app. simpl. rewrite length_app. simpl. lia.
Qed.

Lemma sub_tags_fuel_indep f1 f2 s :
  length s <= f1 -> length s <= f2 -> sub_tags_fuel f1 s = sub_tags_fuel f2 s.
Proof.
  revert f2 s. induction f1 as [|f1 IH]; intros f2 s H1 H2.
  - destruct s; [destruct f2; reflexivity|simpl in H1; lia].
  - destruct f2 as [|f2]; [destruct s; [reflexivity|simpl in H2; lia]|].
    destruct s as [|c s']; [reflexivity|]. cbn [sub_tags_fuel].
    destruct (match_tag (c :: s')) as [rest|] eqn:E.
    + apply match_tag_shorter in E. apply IH; lia.
    + simpl in *. f_equal. apply IH; lia.
Qed.

(** The recursion equation of [re.sub]: one step of the scan. *)
Lemma sub_tags_cons c s :
  sub_tags (c :: s) =
  match match_tag (c :: s) with
  | Some rest => sub_tags rest
  | None => c :: sub_tags s
  end.
Proof.
  unfold sub_tags at 1. cbn [length sub_tags_fuel].
  destruct (match_tag (c :: s)) as [rest|] eqn:E.
  - apply match_tag_shorter in E. simpl in E. apply sub_tags_fuel_indep; lia.
  - reflexivity.
Qed.

Lemma match_tag_not_lt c s : c <> LT -> match_tag (c :: s) = None.
Proof. simpl. destruct (ascii_eqb_spec c LT); congruence. Qed.

(** Text without [<] is left unchanged. *)
Lemma sub_tags_no_lt s : ~ In LT s -> sub_tags s = s.
Proof.
  induction s as [|c s IH]; intros H; [reflexivity|].
  rewrite sub_tags_cons, match_tag_not_lt by (intros ->; apply H; left; reflexivity).
  rewrite IH by (intros Hi; apply H; right; exact Hi). reflexivity.
Qed.

(** A complete tag after markup-free text is removed, and the scan goes on
    after it. *)
Lemma sub_tags_app_tag a m b :
  ~ In LT a -> tag_lang m -> sub_tags (a ++ m ++ b) = a ++ sub_tags b.
Proof.
  intros Ha Hm. induction a as [|c a IH]; cbn [app].
  - assert (Hmt : match_tag (m ++ b) = Some b) by (apply match_tag_spec; eauto).
    destruct m as [|x m]; [destruct Hm as (t & H & _); discriminate|].
    cbn [app] in *. rewrite sub_tags_cons, Hmt. reflexivity.
  - rewrite sub_tags_cons, match_tag_not_lt by (intros ->; apply Ha; left; reflexivity).
    rewrite IH by (intros Hi; apply Ha; right; exact Hi). reflexivity.
Qed.

(** Removing markup never adds characters. *)
Lemma sub_tags_incl s c : In c (sub_tags s) -> In c s.
Proof.
  induction s as [s IH] using (induction_ltof1 _ (@length ascii)). unfold ltof in IH.
  destruct s as [|x s']; [simpl; tauto|]. rewrite sub_tags_cons.
  destruct (match_tag (x :: s')) as [rest|] eqn:E.
  - intros Hin. pose proof (match_tag_shorter _ _ E) as Hl.
    apply match_tag_spec in E as (m & -> & _). apply in_or_app. right. apply IH; assumption.
  - intros [->|Hin]; [left; reflexivity|right]. apply IH; [simpl; lia|assumption].
Qed.

End TagRegexFacts.

Module NumberRegexFacts.
Import NumberRegex.

Lemma isdigit_DOT : isdigit DOT = false.
Proof. reflexivity. Qed.

Lemma span_digits_dot ds r :
  Forall (fun c => isdigit c = true) ds -> span isdigit (ds ++ DOT :: r) = (ds, DOT :: r).
Proof.
  intros H. rewrite span_app_l by exact H. rewrite span_stop by reflexivity.
  simpl. rewrite app_nil_r. reflexivity.
Qed.

Lemma span_all p s : Forall (fun c => p c = true) s -> span p s = (s, []).
Proof.
  intros H. rewrite <- (app_nil_r s) at 1. rewrite span_app_l by exact H.
  simpl. rewrite app_nil_r. reflexivity.
Qed.

Lemma dot_plus_all t : t <> [] -> Forall (fun c => not_nl c = true) t -> dot_plus t = Some t.
Proof.
  intros Hne Ht. unfold dot_plus. rewrite span_all by exact Ht. destruct t; congruence.
Qed.

Lemma last_non_nl_in ws g : last_non_nl ws = Some g -> exists c, g = [c] /\ In c ws /\ not_nl c = true.
Proof.
  unfold last_non_nl. destruct (rev (filter not_nl ws)) as [|c l] eqn:E; [discriminate|].
  intros H. inv H. exists c. split; [reflexivity|].
  assert (Hc : In c (filter not_nl ws)) by (apply in_rev; rewrite E; left; reflexivity).
  apply filter_In in Hc. exact Hc.
Qed.

Lemma last_non_nl_some ws c : In c ws -> not_nl c = true -> exists g, last_non_nl ws = Some g.
Proof.
  intros Hin Hc. unfold last_non_nl.
  destruct (rev (filter not_nl ws)) as [|x l] eqn:E; [|eauto].
  exfalso. assert (Hf : In c (filter not_nl ws)) by (apply filter_In; auto).
  apply in_rev in Hf. rewrite E in Hf. exact Hf.
Qed.

(** Soundness: every group the matcher returns is a group of a match of
    [\d+\.\s*(.+)] at the start of the line. *)
Lemma match_numbered_sound line g : match_numbered line = Some g -> numbered_lang line g.
Proof.
  unfold match_numbered.
  destruct (span isdigit line) as [ds r1] eqn:E1.
  destruct ds as [|d ds]; [discriminate|]. destruct r1 as [|c r2]; [discriminate|].
  destruct (ascii_eqb_spec c DOT) as [->|]; [|discriminate].
  destruct (span isspace r2) as [ws r3] eqn:E2.
  apply span_spec in E1 as (-> & Hd & _). apply span_spec in E2 as (-> & Hw & _).
  destruct (dot_plus r3) as [g'|] eqn:E3; intros H.
  - inv H. unfold dot_plus in E3. destruct (span not_nl r3) as [a rest] eqn:E4.
    destruct a; [discriminate|]. inv E3. apply span_spec in E4 as (-> & Hg & _).
    exists (d :: ds), ws, rest. repeat split; try assumption; discriminate.
  - apply last_non_nl_in in H as (x & -> & Hin & Hx). apply in_split in Hin as (w1 & w2 & ->).
    exists (d :: ds), w1, (w2 ++ r3).
    apply Forall_app in Hw as [Hw1 _].
    repeat split; try assumption; try discriminate.
    + rewrite <- !app_assoc. reflexivity.
    + repeat constructor. assumption.
Qed.

(** Completeness: when the line starts with a match of the pattern, the
    matcher finds one. *)
Lemma match_numbered_complete line g : numbered_lang line g -> exists g', match_numbered line = Some g'.
Proof.
  intros (ds & ws & rest & -> & Hne & Hd & Hw & Hg & Hgn).
  unfold match_numbered. rewrite span_digits_dot by exact Hd.
  destruct ds as [|d ds]; [congruence|]. cbn iota beta.
  destruct (ascii_eqb_spec DOT DOT) as [_|]; [|congruence].
  rewrite span_app_l by exact Hw.
  destruct g as [|x g']; [congruence|]. inv Hgn.
  destruct (isspace x) eqn:Sx.
  - simpl. rewrite Sx. destruct (span isspace (g' ++ rest)) as [w2 r3]. simpl.
    destruct (dot_plus r3); [eauto|].
    apply (last_non_nl_some _ x); [|assumption].
    apply in_or_app. right. left. reflexivity.
  - simpl. rewrite Sx. simpl.
    unfold dot_plus. simpl. rewrite H1.
    destruct (span not_nl (g' ++ rest)). eauto.
Qed.

(** The shape the encoder produces: digits, [". "], then text that does
    not start with a blank and has no newline; the group is the text. *)
Lemma match_numbered_prefix ds t :
  ds <> [] -> Forall (fun c => isdigit c = true) ds ->
  t <> [] -> Forall (fun c => not_nl c = true) t ->
  (forall c t', t = c :: t' -> isspace c = false) ->
  match_numbered (ds ++ DOT :: SP :: t) = Some t.
Proof.
  intros Hne Hd Ht Hn Hs. unfold match_numbered. rewrite span_digits_dot by exact Hd.
  destruct ds as [|d ds]; [congruence|]. cbn iota beta.
  destruct (ascii_eqb_spec DOT DOT) as [_|]; [|congruence].
  destruct t as [|c t']; [congruence|].
  simpl (span isspace (SP :: c :: t')). rewrite (Hs c t' eq_refl).
  rewrite dot_plus_all by assumption. reflexivity.
Qed.

(** An empty cue text gives the line ["k. "]: the engine backtracks and
    the group is the blank itself, not the empty text. *)
Lemma match_numbered_blank ds :
  ds <> [] -> Forall (fun c => isdigit c = true) ds ->
  match_numbered (ds ++ [DOT; SP]) = Some [SP].
Proof.
  intros Hne Hd. unfold match_numbered. rewrite span_digits_dot by exact Hd.
  destruct ds as [|d ds]; [congruence|]. reflexivity.
Qed.

(** A line that does not start with a digit is not matched. *)
Lemma match_numbered_nondigit c s : isdigit c = false -> match_numbered (c :: s) = None.
Proof. intros H. unfold match_numbered. rewrite span_stop by exact H. reflexivity. Qed.

End NumberRegexFacts.

Module RegexWitness.
Import TagRegex NumberRegex TagRegexFacts NumberRegexFacts.

Example match_numbered_sound_witness :
  match_numbered (lit "12. Xin chào") = Some (lit "Xin chào") /\ numbered_lang (lit "12. Xin chào") (lit "Xin chào").
Proof.
  assert (H : match_numbered (lit "12. Xin chào") = Some (lit "Xin chào")) by reflexivity.
  split; [exact H|]. exact (match_numbered_sound _ _ H).
Defined.

Example match_numbered_complete_witness :
  numbered_lang (lit "3.  ok") (lit "ok") /\ exists g', match_numbered (lit "3.  ok") = Some g'.
Proof.
  assert (H : numbered_lang (lit "3.  ok") (lit "ok")).
  { exists (lit "3"), (lit "  "), []. repeat split; try discriminate; repeat constructor. }
  split; [exact H|]. exact (match_numbered_complete _ _ H).
Defined.

Example sub_tags_app_tag_witness :
  ~ In LT (lit "a ") /\ tag_lang (lit "<i>") /\
  sub_tags (lit "a " ++ lit "<i>" ++ lit "b</i>") = lit "a " ++ sub_tags (lit "b</i>").
Proof.
  assert (H1 : ~ In LT (lit "a ")) by (cbn; intros [H|[H|[]]]; discriminate).
  assert (H2 : tag_lang (lit "<i>")) by (exists (lit "i"); repeat split; try discriminate; repeat constructor).
  split; [exact H1|]. split; [exact H2|]. exact (sub_tags_app_tag _ _ _ H1 H2).
Defined.

Example match_numbered_blank_witness :
  lit "7" <> [] /\ Forall (fun c => isdigit c = true) (lit "7") /\
  match_numbered (lit "7" ++ [DOT; SP]) = Some [SP].
Proof.
  assert (H1 : lit "7" <> []) by discriminate.
  assert (H2 : Forall (fun c => isdigit c = true) (lit "7")) by (repeat constructor).
  split; [exact H1|]. split; [exact H2|]. exact (match_numbered_blank _ H1 H2).
Defined.

End RegexWitness.
