(* ===== verification/Batcher.v ===== *)
(** The batcher: [SRTTranslator._create_batches] (src/srt_translator.py,
    lines 61-76), as a loop over the cues with the two local variables
    [batches] and [current_batch] as explicit state, and its reference
    specification [chunk] (consecutive slices of [k] items). *)
From Stdlib Require Import List ZArith Lia Bool.
From S2P Require Import Prelude.
Import ListNotations.

Module Batcher.
Section WithItem.
Context {A : Type}.

(** The loop state: the local variables of [_create_batches]. *)
Record batch_state := mk_batch_state {
  batches : list (list A);
  current_batch : list A
}.

(** One iteration of [for sub in subs]: append, and close the batch when
    [len(current_batch) >= batch_size].  [batch_size] is a Python [int]:
    nothing rejects zero or negative values. *)
Definition batch_step (batch_size : Z) (st : batch_state) (sub : A) : batch_state :=
  let cur := current_batch st ++ [sub] in
  if (batch_size <=? Z.of_nat (length cur))%Z
  then mk_batch_state (batches st ++ [cur]) []
  else mk_batch_state (batches st) cur.

(** [if current_batch: batches.append(current_batch)] *)
Definition batch_finish (st : batch_state) : list (list A) :=
  match current_batch st with
  | [] => batches st
  | cur => batches st ++ [cur]
  end.

Definition _create_batches (subs : list A) (batch_size : Z) : list (list A) :=
  batch_finish (fold_left (batch_step batch_size) subs (mk_batch_state [] [])).

(** Reference: split into consecutive slices of [k] items (the last one
    possibly shorter).  The fuel is the length of the list. *)
Fixpoint chunk_fuel (fuel k : nat) (l : list A) : list (list A) :=
  match fuel, l with
  | O, _ => []
  | _, [] => []
  | S f, _ => firstn k l :: chunk_fuel f k (skipn k l)
  end.

Definition chunk (k : nat) (l : list A) : list (list A) := chunk_fuel (length l) k l.

(** The batch size the loop actually uses: sizes below one act as one. *)
Definition effective_size (batch_size : Z) : nat := Z.to_nat (Z.max 1 batch_size).

End WithItem.
End Batcher.

Module BatcherFacts.
Import Batcher.
Section WithItem.
Context {A : Type}.
Implicit Types (l xs cur : list A) (bs : list (list A)).

Lemma chunk_fuel_indep k f1 f2 l :
  1 <= k -> length l <= f1 -> length l <= f2 -> chunk_fuel f1 k l = chunk_fuel f2 k l.
Proof.
  intros Hk. revert f2 l. induction f1 as [|f1 IH]; intros f2 l H1 H2.
  - destruct l; [destruct f2; reflexivity|cbn [length] in H1; lia].
  - destruct f2 as [|f2]; [destruct l; [reflexivity|cbn [length] in H2; lia]|].
    destruct l as [|x l']; [reflexivity|]. cbn [chunk_fuel]. f_equal.
    apply IH; rewrite length_skipn; cbn [length] in *; lia.
Qed.

Lemma chunk_nil k : chunk k (@nil A) = [].
Proof. reflexivity. Qed.

(** The unfolding equation of the reference. *)
Lemma chunk_cons k l :
  1 <= k -> l <> [] -> chunk k l = firstn k l :: chunk k (skipn k l).
Proof.
  intros Hk Hl. unfold chunk at 1. destruct l as [|x l']; [congruence|].
  simpl length. simpl chunk_fuel. f_equal.
  apply chunk_fuel_indep; [exact Hk| |reflexivity]. rewrite length_skipn. cbn [length] in *. lia.
Qed.

Lemma chunk_short k l : 1 <= k -> l <> [] -> length l <= k -> chunk k l = [l].
Proof.
  intros Hk Hl Hlen. rewrite chunk_cons by assumption.
  rewrite firstn_all2, skipn_all2 by assumption. reflexivity.
Qed.

Lemma chunk_app_full k cur xs :
  1 <= k -> length cur = k -> chunk k (cur ++ xs) = cur :: chunk k xs.
Proof.
  intros Hk Hlen. rewrite chunk_cons; [|assumption|destruct cur; simpl in *; [lia|discriminate]].
  rewrite firstn_app, skipn_app, <- Hlen, Nat.sub_diag, firstn_all, skipn_all.
  simpl. rewrite app_nil_r. reflexivity.
Qed.

Lemma effective_size_pos n : 1 <= effective_size n.
Proof. unfold effective_size. lia. Qed.

(** The loop's test [len(current_batch) >= batch_size] on a non-empty
    batch is the test against the effective size. *)
Lemma step_test n len :
  1 <= len -> (n <=? Z.of_nat len)%Z = (effective_size n <=? len).
Proof.
  intros H. unfold effective_size.
  destruct (Z.leb_spec n (Z.of_nat len)), (Nat.leb_spec (Z.to_nat (Z.max 1 n)) len); lia.
Qed.

(** Loop invariant: from a state whose open batch is shorter than the
    effective size, finishing the loop appends the slices of the open batch
    followed by the remaining input. *)
Lemma batch_loop n xs : forall bs cur,
  length cur < effective_size n ->
  batch_finish (fold_left (batch_step n) xs (mk_batch_state bs cur)) =
  bs ++ chunk (effective_size n) (cur ++ xs).
Proof.
  pose proof (effective_size_pos n) as Hk.
  induction xs as [|x xs IH]; intros bs cur Hcur; simpl.
  - rewrite app_nil_r. unfold batch_finish. simpl.
    destruct cur as [|c cur']; [rewrite app_nil_r; reflexivity|].
    rewrite chunk_short by (simpl in *; try discriminate; lia). reflexivity.
  - unfold batch_step at 2. simpl.
    rewrite step_test by (rewrite length_app; simpl; lia).
    destruct (Nat.leb_spec (effective_size n) (length (cur ++ [x]))) as [Hge|Hlt].
    + rewrite IH by (simpl; lia). rewrite <- app_assoc. simpl.
      replace (cur ++ x :: xs) with ((cur ++ [x]) ++ xs) by (rewrite <- app_assoc; reflexivity).
      rewrite chunk_app_full; [reflexivity|assumption|rewrite length_app in *; simpl in *; lia].
    + rewrite IH by exact Hlt. rewrite <- app_assoc. reflexivity.
Qed.

Lemma concat_chunk k l : 1 <= k -> concat (chunk k l) = l.
Proof.
  intros Hk. induction l as [l IH] using (induction_ltof1 _ (@length A)). unfold ltof in IH.
  destruct l as [|x l']; [reflexivity|].
  rewrite chunk_cons by (assumption || discriminate). simpl concat.
  rewrite IH by (rewrite length_skipn; cbn [length] in *; lia). apply firstn_skipn.
Qed.

Lemma chunk_bounds k l :
  1 <= k -> Forall (fun b => b <> [] /\ length b <= k) (chunk k l).
Proof.
  intros Hk. induction l as [l IH] using (induction_ltof1 _ (@length A)). unfold ltof in IH.
  destruct l as [|x l']; [constructor|].
  rewrite chunk_cons by (assumption || discriminate). constructor.
  - split; [destruct k; [lia|discriminate]|apply firstn_le_length].
  - apply IH. rewrite length_skipn. cbn [length] in *. lia.
Qed.

Lemma chunk_full k l i b :
  1 <= k -> nth_error (chunk k l) i = Some b -> S i < length (chunk k l) -> length b = k.
Proof.
  intros Hk. revert i. induction l as [l IH] using (induction_ltof1 _ (@length A)).
  unfold ltof in IH. intros i Hi Hlen.
  destruct l as [|x l']; [destruct i; discriminate|].
  rewrite chunk_cons in * by (assumption || discriminate).
  destruct i as [|i]; simpl in Hi, Hlen.
  - injection Hi as <-. destruct (Nat.le_gt_cases k (length (x :: l'))) as [Hle|Hgt].
    + apply firstn_length_le. exact Hle.
    + rewrite skipn_all2 in Hlen by lia. simpl in Hlen. lia.
  - refine (IH (skipn k (x :: l')) _ i Hi _); [rewrite length_skipn; cbn [length]; lia|lia].
Qed.

Lemma length_chunk k l : 1 <= k -> length (chunk k l) = (length l + k - 1) / k.
Proof.
  intros Hk. induction l as [l IH] using (induction_ltof1 _ (@length A)). unfold ltof in IH.
  destruct l as [|x l'].
  - simpl. symmetry. apply Nat.div_small. lia.
  - rewrite chunk_cons by (assumption || discriminate). simpl length at 1.
    rewrite IH by (rewrite length_skipn; cbn [length] in *; lia). rewrite length_skipn.
    set (n := length (x :: l')). assert (Hn : 1 <= n) by (subst n; simpl; lia). clearbody n.
    destruct (Nat.le_gt_cases n k) as [Hle|Hgt].
    + replace (n - k) with 0 by lia. rewrite (Nat.div_small (0 + k - 1)) by lia.
      apply (Nat.div_unique _ _ 1 (n - 1)); lia.
    + replace (n + k - 1) with ((n - k + k - 1) + 1 * k) by lia.
      rewrite Nat.div_add by lia. lia.
Qed.

Lemma chunk_one l : chunk 1 l = map (fun x => [x]) l.
Proof.
  induction l as [|x l IH]; [reflexivity|].
  rewrite chunk_cons by (lia || discriminate). simpl. rewrite IH. reflexivity.
Qed.

End WithItem.
End BatcherFacts.

(** Replace a run of [_create_batches] by the reference slicing. *)
Ltac batches_to_chunk :=
  unfold Batcher._create_batches;
  rewrite BatcherFacts.batch_loop by (simpl; apply BatcherFacts.effective_size_pos);
  cbn [app].

Module BatcherSpec.
Import Batcher BatcherFacts.
Section WithItem.
Context {A : Type}.

(** C4: [_create_batches] computes consecutive slices of the effective
    batch size, [max 1 batch_size]: the loop refines the reference [chunk]. *)
Theorem create_batches_chunk (subs : list A) (n : Z) :
  _create_batches subs n = chunk (effective_size n) subs.
Proof. batches_to_chunk. reflexivity. Qed.

(** flattening the batches gives back the cues, in order, for every
    batch size. *)
Theorem create_batches_concat (subs : list A) (n : Z) :
  concat (_create_batches subs n) = subs.
Proof. batches_to_chunk. apply concat_chunk, effective_size_pos. Qed.

(** every batch is non-empty and holds at most [max 1 batch_size]
    cues. *)
Theorem create_batches_bounds (subs : list A) (n : Z) :
  Forall (fun b => b <> [] /\ (length b <= Z.to_nat (Z.max 1 n))%nat) (_create_batches subs n).
Proof. batches_to_chunk. apply chunk_bounds, effective_size_pos. Qed.

(** for a batch size of at least one, every batch but the last holds
    exactly [batch_size] cues. *)
Theorem create_batches_full (subs : list A) (n : Z) i b :
  (1 <= n)%Z -> nth_error (_create_batches subs n) i = Some b ->
  S i < length (_create_batches subs n) -> Z.of_nat (length b) = n.
Proof.
  intros Hn. batches_to_chunk. intros Hi Hl.
  rewrite (chunk_full _ _ _ _ (effective_size_pos n) Hi Hl). unfold effective_size. lia.
Qed.

(** the number of batches is the number of cues divided by the
    effective batch size, rounded up. *)
Theorem create_batches_count (subs : list A) (n : Z) :
  length (_create_batches subs n) =
  (length subs + effective_size n - 1) / effective_size n.
Proof. batches_to_chunk. apply length_chunk, effective_size_pos. Qed.

(** C34: a batch size of one, zero or a negative number is not rejected:
    each cue becomes a batch of its own. *)
Theorem create_batches_nonpositive (subs : list A) (n : Z) :
  (n <= 1)%Z -> _create_batches subs n = map (fun x => [x]) subs.
Proof.
  intros Hn. batches_to_chunk.
  replace (effective_size n) with 1 by (unfold effective_size; lia). apply chunk_one.
Qed.

End WithItem.

Example create_batches_full_witness :
  (1 <= 2)%Z /\ nth_error (_create_batches [1;2;3;4;5] 2%Z) 1 = Some [3;4] /\
  S 1 < length (_create_batches [1;2;3;4;5] 2%Z) /\ Z.of_nat (length [3;4]) = 2%Z.
Proof.
  split; [lia|]. split; [reflexivity|]. split; [simpl; lia|].
  exact (create_batches_full [1;2;3;4;5] 2%Z 1 [3;4] ltac:(lia) eq_refl ltac:(simpl; lia)).
Defined.

Example create_batches_nonpositive_witness :
  (0 <= 1)%Z /\ _create_batches [7;8;9] 0%Z = [[7];[8];[9]].
Proof.
  split; [lia|]. exact (create_batches_nonpositive [7;8;9] 0%Z ltac:(lia)).
Defined.

End BatcherSpec.
