(* ===== verification/Codec.v ===== *)
(** The prompt codec of [src/srt_translator.py]: [_batch_to_text]
    (lines 78-89) turns a batch of cues into a numbered list, and
    [_text_to_subtitles] (lines 91-112) maps the model's reply back onto the
    batch, line by line and by position. *)
From Stdlib Require Import String Ascii List ZArith Lia Bool.
From S2P Require Import Prelude PyStr PyRegex.
Import ListNotations.

Module Codec.

(** A time value as Python sees it, by its class: pysrt's [SubRipTime]
    (what [pysrt.open] puts in [start] and [end], with its [ordinal] in
    milliseconds) or a [datetime.timedelta] (its exact count of
    microseconds, the representation [timedelta] itself uses).  The
    annotation of line 114 says [timedelta]; the values that reach it
    come from pysrt. *)
Inductive py_time :=
| SubRipTime (ordinal : Z)
| TimeDelta (us : Z).

(** A cue of [pysrt]: [SubRipItem] with its [index], [start], [end] and
    [text]. *)
Record SubRipItem := mk_item {
  index : Z;
  start : py_time;
  end_ : py_time;
  text : str
}.

(** A translated cue: the tuple [(translated_text, original.start,
    original.end)] built at line 110. *)
Definition translated_item : Type := (str * py_time * py_time)%type.

(** [enumerate(xs, k)] *)
Fixpoint enumerate {A} (k : nat) (xs : list A) : list (nat * A) :=
  match xs with
  | [] => []
  | x :: xs' => (k, x) :: enumerate (S k) xs'
  end.

(** Lines 84-85: drop markup with [re.sub(r'<[^>]+>', '', ...)], then
    replace each newline by a space. *)
Definition clean_text (t : str) : str := replace_char NL SP (TagRegex.sub_tags t).

(** Line 87: [f"{i}. {clean_text}"] *)
Definition batch_line (i : nat) (sub : SubRipItem) : str :=
  py_str_Z (Z.of_nat i) ++ lit ". " ++ clean_text (text sub).

(** [_batch_to_text]: the lines numbered from 1, joined by newlines. *)
Definition _batch_to_text (batch : list SubRipItem) : str :=
  join [NL] (map (fun '(i, sub) => batch_line i sub) (enumerate 1 batch)).

(** Lines 103-107: [match.group(1)] when the line starts with a number
    and a dot, the line itself otherwise. *)
Definition translate_line (line : str) : str :=
  match NumberRegex.match_numbered line with
  | Some g => g
  | None => line
  end.

(** One iteration of the loop of lines 98-110. *)
Definition text_to_subtitles_step (original_batch : list SubRipItem)
    (acc : list translated_item) (il : nat * str) : list translated_item :=
  let (i, line) := il in
  if i <? length original_batch then
    match nth_error original_batch i with
    | Some original => acc ++ [(translate_line line, start original, end_ original)]
    | None => acc
    end
  else acc.

(** [_text_to_subtitles]: [translated_text.strip().split('\n')], then
    the loop over the enumerated lines. *)
Definition _text_to_subtitles (translated_text : str) (original_batch : list SubRipItem)
  : list translated_item :=
  let lines := split_on NL (strip translated_text) in
  fold_left (text_to_subtitles_step original_batch) (enumerate 0 lines) [].

(** The numbered-list format of lines 82-89 applied to arbitrary texts:
    the shape of a reply that follows the prompt's format. *)
Definition numbered_reply (ts : list str) : str :=
  join [NL] (map (fun '(i, t) => py_str_Z (Z.of_nat i) ++ lit ". " ++ t) (enumerate 1 ts)).

(** A text the positional decoding returns unchanged: non-empty, one line,
    no blank at either end. *)
Definition well_formed_text (t : str) : Prop :=
  t <> [] /\ Forall (fun c => not_nl c = true) t /\
  (forall c t', t = c :: t' -> isspace c = false) /\
  (forall t' d, t = t' ++ [d] -> isspace d = false).

(** A decidable check of [well_formed_text]. *)
Definition well_formed_textb (t : str) : bool :=
  match t with
  | [] => false
  | c :: _ => forallb not_nl t && negb (isspace c) && negb (isspace (last t c))
  end.

End Codec.

(** Sample cues used by the concrete checks. *)
Module CodecSamples.
Import Codec.
Definition hello : SubRipItem := mk_item 1 (SubRipTime 1000) (SubRipTime 2000) (lit "Hello").
Definition world_cue : SubRipItem := mk_item 2 (SubRipTime 2000) (SubRipTime 3000) (lit "<i>World</i>").
Definition blank (i : Z) (s e : py_time) : SubRipItem := mk_item i s e [].
End CodecSamples.

Module CodecFacts.
Import Codec.

Definition decode_item (lo : str * SubRipItem) : translated_item :=
  let (line, o) := lo in (translate_line line, start o, end_ o).

Lemma nth_error_skipn_cons {A} (l : list A) k :
  k < length l -> exists o, nth_error l k = Some o /\ skipn k l = o :: skipn (S k) l.
Proof.
  revert k. induction l as [|x l IH]; intros k Hk; simpl in Hk; [lia|].
  destruct k as [|k]; [exists x; split; reflexivity|]. simpl. apply IH. lia.
Qed.

Lemma decode_loop batch lines : forall k acc,
  fold_left (text_to_subtitles_step batch) (enumerate k lines) acc =
  acc ++ map decode_item (combine lines (skipn k batch)).
Proof.
  induction lines as [|line lines IH]; intros k acc; simpl; [rewrite app_nil_r; reflexivity|].
  rewrite IH. destruct (Nat.ltb_spec k (length batch)) as [Hk|Hk].
  - destruct (nth_error_skipn_cons batch k Hk) as (o & -> & ->).
    simpl. rewrite <- app_assoc. reflexivity.
  - rewrite (skipn_all2 batch Hk), (skipn_all2 batch (n := S k)) by lia.
    destruct lines; reflexivity.
Qed.

(** The decoding loop is a positional zip of the reply's lines with the
    batch. *)
Lemma text_to_subtitles_zip t batch :
  _text_to_subtitles t batch = map decode_item (combine (split_on NL (strip t)) batch).
Proof. unfold _text_to_subtitles. rewrite decode_loop. reflexivity. Qed.

(** [split] never returns an empty list, so the first cue of a batch
    always gets a decoded line, with its own timing. *)
Lemma text_to_subtitles_head t o batch :
  exists x rest, _text_to_subtitles t (o :: batch) = (x, start o, end_ o) :: rest.
Proof.
  rewrite text_to_subtitles_zip. destruct (split_on NL (strip t)) as [|l ls] eqn:E;
    [exfalso; exact (split_on_not_nil _ _ E)|].
  cbn. eauto.
Qed.

Lemma lit_dot_space : lit ". " = [DOT; SP].
Proof. reflexivity. Qed.

Lemma digits_not_nl n : (0 <= n)%Z -> ~ In NL (py_str_Z n).
Proof.
  intros Hn Hin. destruct (py_str_Z_digits n Hn) as [_ Hd].
  rewrite Forall_forall in Hd. specialize (Hd NL Hin). discriminate.
Qed.

Lemma not_nl_not_in t : Forall (fun c => not_nl c = true) t -> ~ In NL t.
Proof.
  intros H Hin. rewrite Forall_forall in H. specialize (H NL Hin). discriminate.
Qed.

Lemma numbered_line_not_nl i t :
  Forall (fun c => not_nl c = true) t -> ~ In NL (py_str_Z (Z.of_nat i) ++ lit ". " ++ t).
Proof.
  intros Ht Hin. apply in_app_or in Hin as [Hin|Hin]; [exact (digits_not_nl _ (Nat2Z.is_nonneg i) Hin)|].
  destruct Hin as [H|[H|Hin]]; [discriminate|discriminate|exact (not_nl_not_in t Ht Hin)].
Qed.

Lemma translate_numbered_line i t :
  well_formed_text t -> translate_line (py_str_Z (Z.of_nat i) ++ lit ". " ++ t) = t.
Proof.
  intros (Hne & Hn & Hh & _). unfold translate_line. rewrite lit_dot_space.
  change ([DOT; SP] ++ t) with (DOT :: SP :: t).
  destruct (py_str_Z_digits (Z.of_nat i) (Nat2Z.is_nonneg i)) as [Hd1 Hd2].
  rewrite NumberRegexFacts.match_numbered_prefix; auto.
Qed.

Lemma enumerate_length {A} k (xs : list A) : length (enumerate k xs) = length xs.
Proof. revert k. induction xs; simpl; auto. Qed.

Lemma map_enumerate_snd {A B} (f : nat -> A -> B) g k (xs : list A) :
  (forall i x, g (f i x) = x) -> map g (map (fun '(i, x) => f i x) (enumerate k xs)) = xs.
Proof.
  intros H. revert k. induction xs as [|x xs IH]; intros k; simpl; [reflexivity|].
  rewrite H, IH. reflexivity.
Qed.

Lemma numbered_lines_not_nl k ts :
  Forall well_formed_text ts ->
  Forall (fun p => ~ In NL p)
    (map (fun '(i, t) => py_str_Z (Z.of_nat i) ++ lit ". " ++ t) (enumerate k ts)).
Proof.
  revert k. induction ts as [|t ts IH]; intros k H; simpl; [constructor|].
  inv H. constructor; [apply numbered_line_not_nl; apply H2|apply IH; assumption].
Qed.

Lemma enumerate_app_one {A} k (xs : list A) y :
  enumerate k (xs ++ [y]) = enumerate k xs ++ [(k + length xs, y)].
Proof.
  revert k. induction xs as [|x xs IH]; intros k; simpl; [rewrite Nat.add_0_r; reflexivity|].
  rewrite IH, Nat.add_succ_r. reflexivity.
Qed.

(** The reply in the prompt's own format is left unchanged by [strip]. *)
Lemma strip_numbered_reply ts :
  ts <> [] -> Forall well_formed_text ts -> strip (numbered_reply ts) = numbered_reply ts.
Proof.
  intros Hne Hwf. apply strip_id_gen.
  - destruct ts as [|t ts]; [congruence|]. unfold numbered_reply. cbn [enumerate map].
    destruct (join_first [NL] (py_str_Z (Z.of_nat 1) ++ lit ". " ++ t)
                (map (fun '(i, t0) => py_str_Z (Z.of_nat i) ++ lit ". " ++ t0) (enumerate 2 ts)))
      as (post & ->).
    intros c s' E. simpl in E. injection E as <- _. reflexivity.
  - destruct (exists_last Hne) as (pre & tl & ->).
    apply Forall_app in Hwf as [_ Hl]. inv Hl. destruct H1 as (Htl & _ & _ & Hlast).
    unfold numbered_reply. rewrite enumerate_app_one, map_app. cbn [map].
    match goal with
    | |- context [join [NL] (?ps ++ [?p])] => destruct (join_last [NL] ps p) as (pre' & ->)
    end.
    destruct (exists_last Htl) as (tl' & d' & ->).
    intros s' d E. rewrite !app_assoc in E. apply app_inj_tail in E as [_ <-].
    apply (Hlast tl'). reflexivity.
Qed.

Lemma decode_numbered_lines k ts batch :
  Forall well_formed_text ts ->
  map decode_item (combine (map (fun '(i, t) => py_str_Z (Z.of_nat i) ++ lit ". " ++ t) (enumerate k ts)) batch)
  = map (fun '(t, o) => (t, start o, end_ o)) (combine ts batch).
Proof.
  revert k batch. induction ts as [|t ts IH]; intros k batch H; [reflexivity|].
  destruct batch as [|o batch]; [reflexivity|]. inv H. cbn [enumerate map combine].
  unfold decode_item at 1. rewrite translate_numbered_line by assumption.
  rewrite IH by assumption. reflexivity.
Qed.

Lemma batch_to_text_numbered batch :
  _batch_to_text batch = numbered_reply (map (fun o => clean_text (text o)) batch).
Proof.
  unfold _batch_to_text, numbered_reply. f_equal. generalize 1.
  induction batch as [|o batch IH]; intros k; simpl; [reflexivity|]. rewrite IH. reflexivity.
Qed.

Lemma combine_map_l {A C} (f : A -> C) (xs : list A) :
  combine (map f xs) xs = map (fun x => (f x, x)) xs.
Proof. induction xs as [|x xs IH]; simpl; [reflexivity|]. rewrite IH. reflexivity. Qed.

Lemma clean_text_no_nl t : ~ In NL (clean_text t).
Proof. apply replace_char_not_in. discriminate. Qed.

Lemma well_formed_textb_sound t : well_formed_textb t = true -> well_formed_text t.
Proof.
  destruct t as [|c t']; [discriminate|]. unfold well_formed_textb. cbv beta iota.
  intros H. apply andb_prop in H as [H Hl]. apply andb_prop in H as [Hn Hc].
  apply negb_true_iff in Hc, Hl. split; [discriminate|]. split; [|split].
  - apply Forall_forall. apply (forallb_forall not_nl (c :: t')). exact Hn.
  - intros c0 t0 E. injection E as <- _. exact Hc.
  - intros t0 d E. rewrite E, last_last in Hl. exact Hl.
Qed.

(** Decoding the prompt body itself. *)
Lemma decode_encode_batch batch :
  batch <> [] -> Forall (fun o => well_formed_text (clean_text (text o))) batch ->
  _text_to_subtitles (_batch_to_text batch) batch =
  map (fun o => (clean_text (text o), start o, end_ o)) batch.
Proof.
  intros Hne Hwf. rewrite batch_to_text_numbered.
  rewrite text_to_subtitles_zip, strip_numbered_reply.
  - unfold numbered_reply. rewrite split_on_join.
    + rewrite decode_numbered_lines.
      * rewrite combine_map_l, map_map. reflexivity.
      * apply Forall_map. exact Hwf.
    + destruct batch; [congruence|discriminate].
    + apply numbered_lines_not_nl, Forall_map. exact Hwf.
  - destruct batch; [congruence|discriminate].
  - apply Forall_map. exact Hwf.
Qed.

End CodecFacts.

Module CodecSpec.
Import Codec CodecFacts.

(** C33: a reply in the prompt's numbered format is decoded into its texts,
    each attached to the timing of the cue at the same position. *)
Theorem decode_numbered_reply ts batch :
  ts <> [] -> Forall well_formed_text ts ->
  _text_to_subtitles (numbered_reply ts) batch =
  map (fun '(t, o) => (t, start o, end_ o)) (combine ts batch).
Proof.
  intros Hne Hwf. rewrite text_to_subtitles_zip, strip_numbered_reply by assumption.
  unfold numbered_reply. rewrite split_on_join.
  - apply decode_numbered_lines. exact Hwf.
  - destruct ts; [congruence|discriminate].
  - apply numbered_lines_not_nl. exact Hwf.
Qed.

(** C3: when the model echoes the prompt body, decoding returns the cleaned
    text of every cue with its own timing (provided each cleaned text is
    one non-blank-edged line). *)
Theorem decode_encode batch :
  batch <> [] -> Forall (fun o => well_formed_text (clean_text (text o))) batch ->
  _text_to_subtitles (_batch_to_text batch) batch =
  map (fun o => (clean_text (text o), start o, end_ o)) batch.
Proof. exact (decode_encode_batch batch). Qed.

(** the prompt body has exactly one line per cue, whatever newlines the
    cue texts contain. *)
Theorem batch_to_text_lines batch :
  batch <> [] -> length (split_on NL (_batch_to_text batch)) = length batch.
Proof.
  intros Hne. unfold _batch_to_text. rewrite split_on_join.
  - rewrite length_map, enumerate_length. reflexivity.
  - destruct batch; [congruence|discriminate].
  - generalize 1. induction batch as [|o batch IH]; intros k; [constructor|].
    simpl. constructor.
    + intros Hin. apply in_app_or in Hin as [Hin|Hin];
        [exact (digits_not_nl _ (Nat2Z.is_nonneg k) Hin)|].
      destruct Hin as [H|[H|Hin]]; [discriminate|discriminate|exact (clean_text_no_nl _ Hin)].
    + destruct batch; [constructor|apply IH; discriminate].
Qed.

(** C29: decoding yields one cue per reply line, up to the batch size: a
    reply with fewer lines than the batch loses the trailing cues instead
    of keeping a placeholder for them. *)
Theorem decode_length t batch :
  length (_text_to_subtitles t batch) = Nat.min (length (split_on NL (strip t))) (length batch).
Proof. rewrite text_to_subtitles_zip, length_map. apply length_combine. Qed.

(** the [i]-th decoded cue carries the start and end times of the
    [i]-th cue of the batch. *)
Theorem decode_timing t batch i x s e :
  nth_error (_text_to_subtitles t batch) i = Some (x, s, e) ->
  exists o, nth_error batch i = Some o /\ s = start o /\ e = end_ o.
Proof.
  rewrite text_to_subtitles_zip. revert i batch.
  induction (split_on NL (strip t)) as [|line lines IH]; intros i batch H;
    [destruct i; discriminate|].
  destruct batch as [|o batch]; [destruct i; discriminate|].
  destruct i as [|i]; simpl in H.
  - injection H as _ <- <-. exists o. auto.
  - exact (IH i batch H).
Qed.

(** an empty reply does not fail; it yields a single cue with empty
    text, for the first cue of the batch only. *)
Theorem decode_empty_reply o batch :
  _text_to_subtitles [] (o :: batch) = [([], start o, end_ o)].
Proof. reflexivity. Qed.

End CodecSpec.

Module CodecWitness.
Import Codec CodecSamples CodecFacts CodecSpec.


Example batch_to_text_hello_world :
  _batch_to_text [hello; world_cue] = lit "1. Hello
2. World".
Proof. reflexivity. Qed.

Example decode_numbered_reply_witness :
  [lit "Xin chào"; lit "Thế giới"] <> [] /\
  Forall well_formed_text [lit "Xin chào"; lit "Thế giới"] /\
  _text_to_subtitles (numbered_reply [lit "Xin chào"; lit "Thế giới"]) [hello; world_cue] =
  map (fun '(t, o) => (t, start o, end_ o)) (combine [lit "Xin chào"; lit "Thế giới"] [hello; world_cue]).
Proof.
  assert (Hne : [lit "Xin chào"; lit "Thế giới"] <> []) by discriminate.
  assert (Hwf : Forall well_formed_text [lit "Xin chào"; lit "Thế giới"])
    by (repeat constructor; apply well_formed_textb_sound; reflexivity).
  split; [exact Hne|]. split; [exact Hwf|]. exact (decode_numbered_reply _ _ Hne Hwf).
Defined.

Example decode_encode_witness :
  [hello; world_cue] <> [] /\
  Forall (fun o => well_formed_text (clean_text (text o))) [hello; world_cue] /\
  _text_to_subtitles (_batch_to_text [hello; world_cue]) [hello; world_cue] =
  map (fun o => (clean_text (text o), start o, end_ o)) [hello; world_cue].
Proof.
  assert (Hne : [hello; world_cue] <> []) by discriminate.
  assert (Hwf : Forall (fun o => well_formed_text (clean_text (text o))) [hello; world_cue])
    by (repeat constructor; apply well_formed_textb_sound; reflexivity).
  split; [exact Hne|]. split; [exact Hwf|]. exact (decode_encode _ Hne Hwf).
Defined.

Example batch_to_text_lines_witness :
  [hello; world_cue] <> [] /\ length (split_on NL (_batch_to_text [hello; world_cue])) = 2.
Proof.
  assert (Hne : [hello; world_cue] <> []) by discriminate.
  split; [exact Hne|]. exact (batch_to_text_lines _ Hne).
Defined.

Example decode_timing_witness :
  nth_error (_text_to_subtitles (lit "1. Xin chào
2. Thế giới") [hello; world_cue]) 1 = Some (lit "Thế giới", SubRipTime 2000, SubRipTime 3000) /\
  exists o, nth_error [hello; world_cue] 1 = Some o /\ SubRipTime 2000 = start o /\ SubRipTime 3000 = end_ o.
Proof.
  assert (H : nth_error (_text_to_subtitles (lit "1. Xin chào
2. Thế giới") [hello; world_cue]) 1 = Some (lit "Thế giới", SubRipTime 2000, SubRipTime 3000))
    by reflexivity.
  split; [exact H|]. exact (decode_timing _ _ _ _ _ _ H).
Defined.

(** An empty cue in the middle of a batch comes back as a single blank
    (the engine backtracks into [\s*]); an empty last cue comes back as
    its own number ["2."], because [strip] removed the blank after the dot
    and the pattern no longer matches. *)
Example empty_cue_echo :
  _text_to_subtitles (_batch_to_text [blank 1 (SubRipTime 0) (SubRipTime 1); hello]) [blank 1 (SubRipTime 0) (SubRipTime 1); hello] =
    [(lit " ", SubRipTime 0, SubRipTime 1); (lit "Hello", SubRipTime 1000, SubRipTime 2000)] /\
  _text_to_subtitles (_batch_to_text [hello; blank 2 (SubRipTime 0) (SubRipTime 1)]) [hello; blank 2 (SubRipTime 0) (SubRipTime 1)] =
    [(lit "Hello", SubRipTime 1000, SubRipTime 2000); (lit "2.", SubRipTime 0, SubRipTime 1)].
Proof. split; reflexivity. Qed.

(** A reply with one line for a batch of two drops the second cue. *)
Example short_reply_drops_cue :
  _text_to_subtitles (lit "1. Xin chào") [hello; world_cue] = [(lit "Xin chào", SubRipTime 1000, SubRipTime 2000)].
Proof. reflexivity. Qed.

End CodecWitness.
