(* ===== verification/Timecode.v ===== *)
(** Timestamp rendering: [SRTTranslator._timedelta_to_srt]
    (src/srt_translator.py, lines 130-139).  The code goes through Python
    floats: [td.total_seconds()] is a binary64 number, [int] truncates it,
    and the milliseconds are [int((td.total_seconds() - total_seconds) *
    1000)].  Floats are modelled with the Standard Library's [SpecFloat]
    (IEEE 754 binary64, round to nearest even), so the model computes the
    exact bits CPython computes.  The value passed in is a [py_time]:
    [td.total_seconds()] exists on a [timedelta] and raises
    [AttributeError] on pysrt's [SubRipTime], which is what the program
    passes. *)
From Stdlib Require Import String Ascii List ZArith Lia Bool.
From Stdlib Require Import SpecFloat.
From S2P Require Import Prelude PyStr PyRegex Codec.
Import ListNotations.

Module Timecode.
Import Codec.

(** IEEE 754 binary64 *)
Definition prec : Z := 53.
Definition emax : Z := 1024.

(** [float(n)] for a Python [int] (round to nearest even). *)
Definition float_of_int (n : Z) : spec_float := binary_normalize prec emax n 0 false.

Definition fdiv (x y : spec_float) : spec_float := SFdiv prec emax x y.
Definition fsub (x y : spec_float) : spec_float := SFsub prec emax x y.
Definition fmul (x y : spec_float) : spec_float := SFmul prec emax x y.

(** [int(x)] for a float: truncation toward zero; [int] of an infinity
    raises [OverflowError] and of a NaN raises [ValueError]. *)
Definition py_int (x : spec_float) : exc + Z :=
  match x with
  | S754_zero _ => inr 0%Z
  | S754_finite s m e =>
      let a := if (0 <=? e)%Z then Z.shiftl (Zpos m) e else Z.shiftr (Zpos m) (- e)%Z in
      inr (if s then (- a)%Z else a)
  | S754_infinity _ => inl (OtherError (lit "OverflowError") (lit "cannot convert float infinity to integer"))
  | S754_nan => inl (ValueError (lit "cannot convert float NaN to integer"))
  end.

(** [td.total_seconds()] for a [timedelta] of [us] microseconds: CPython
    computes [us / 10**6] with integer true division, which is correctly
    rounded; for [|us| < 2^53] both operands are exact floats and the IEEE
    quotient is that same correctly rounded value. *)
Definition total_seconds (us : Z) : spec_float :=
  fdiv (float_of_int us) (float_of_int 1000000).

(** Lines 135-137: [hours = total_seconds // 3600],
    [minutes = (total_seconds % 3600) // 60], [seconds = total_seconds % 60]
    (Python's [//] and [%] are [Z.div] and [Z.modulo]: both floor). *)
Definition split_hms (total : Z) : Z * Z * Z :=
  ((total / 3600)%Z, ((total mod 3600) / 60)%Z, (total mod 60)%Z).

(** What [td.total_seconds()] raises on pysrt's [SubRipTime], whose class
    has no attribute of that name. *)
Definition no_total_seconds : exc :=
  OtherError (lit "AttributeError") (lit "'SubRipTime' object has no attribute 'total_seconds'").

(** [td.total_seconds()] (line 132), on the value's class. *)
Definition total_seconds_of (td : py_time) : exc + spec_float :=
  match td with
  | TimeDelta us => inr (total_seconds us)
  | SubRipTime _ => inl no_total_seconds
  end.

(** [_timedelta_to_srt] *)
Definition _timedelta_to_srt (td : py_time) : exc + str :=
  match total_seconds_of td with
  | inl e => inl e
  | inr ts =>
      match py_int ts with
      | inl e => inl e
      | inr total =>
          match py_int (fmul (fsub ts (float_of_int total)) (float_of_int 1000)) with
          | inl e => inl e
          | inr milliseconds =>
              let '(hours, minutes, seconds) := split_hms total in
              inr (fmt_0d 2 hours ++ lit ":" ++ fmt_0d 2 minutes ++ lit ":" ++
                   fmt_0d 2 seconds ++ lit "," ++ fmt_0d 3 milliseconds)
          end
      end
  end.

(** The rendering the spec asks for, with exact integer arithmetic:
    [HH:MM:SS,mmm] with the milliseconds truncated. *)
Definition srt_time_exact (td : Z) : str :=
  let total := (td / 1000000)%Z in
  let ms := ((td mod 1000000) / 1000)%Z in
  fmt_0d 2 (total / 3600) ++ lit ":" ++ fmt_0d 2 ((total mod 3600) / 60) ++ lit ":" ++
  fmt_0d 2 (total mod 60) ++ lit "," ++ fmt_0d 3 ms.

(** Does the float rendering agree with the exact one? *)
Definition renders_exactly (td : Z) : bool :=
  match _timedelta_to_srt (TimeDelta td) with
  | inr s => if list_eq_dec ascii_dec s (srt_time_exact td) then true else false
  | inl _ => false
  end.

(** [renders_exactly] on [n] consecutive millisecond steps from [ms]. *)
Fixpoint check_ms_range (ms : Z) (n : nat) : bool :=
  match n with
  | O => true
  | S n' => renders_exactly (ms * 1000) && check_ms_range (ms + 1) n'
  end.

End Timecode.

Module TimecodeFacts.
Import Codec Timecode.

Lemma check_ms_range_spec ms0 n ms :
  check_ms_range ms0 n = true -> (ms0 <= ms < ms0 + Z.of_nat n)%Z -> renders_exactly (ms * 1000) = true.
Proof.
  revert ms0. induction n as [|n IH]; intros ms0 H Hr; [lia|].
  simpl in H. apply andb_prop in H as [H1 H2].
  destruct (Z.eq_dec ms ms0) as [->|Hne]; [exact H1|]. apply (IH (ms0 + 1)%Z H2). lia.
Qed.

Lemma renders_exactly_spec td :
  renders_exactly td = true -> _timedelta_to_srt (TimeDelta td) = inr (srt_time_exact td).
Proof.
  unfold renders_exactly. destruct (_timedelta_to_srt (TimeDelta td)) as [e|s]; [discriminate|].
  destruct (list_eq_dec ascii_dec s (srt_time_exact td)) as [->|]; [reflexivity|discriminate].
Qed.

End TimecodeFacts.

Module TimecodeSpec.
Import Codec Timecode TimecodeFacts.

(** the hour/minute/second split of lines 135-137 is exact for a
    non-negative number of seconds: the fields recombine to the total and
    minutes and seconds are below 60. *)
Theorem split_hms_spec total h m s :
  (0 <= total)%Z -> split_hms total = (h, m, s) ->
  (h * 3600 + m * 60 + s = total /\ 0 <= h /\ 0 <= m < 60 /\ 0 <= s < 60)%Z.
Proof.
  intros Ht E. unfold split_hms in E. injection E as <- <- <-.
  pose proof (Z.div_mod total 3600 ltac:(lia)). pose proof (Z.mod_pos_bound total 3600 ltac:(lia)).
  pose proof (Z.div_mod (total mod 3600) 60 ltac:(lia)).
  pose proof (Z.mod_pos_bound (total mod 3600) 60 ltac:(lia)).
  assert (Hs : (total mod 60 = (total mod 3600) mod 60)%Z).
  { rewrite <- (Z.mod_mod_divide total 3600 60) by (exists 60%Z; lia). reflexivity. }
  rewrite Hs. repeat split; try lia.
  all: first [apply Z.div_pos; lia | apply Z.div_lt_upper_bound; lia].
Qed.

(** below one second, the float computation of the milliseconds is
    exact: every millisecond value renders as [00:00:00,mmm]. *)
Theorem timedelta_to_srt_subsecond ms :
  (0 <= ms < 1000)%Z -> _timedelta_to_srt (TimeDelta (ms * 1000)) = inr (srt_time_exact (ms * 1000)).
Proof.
  intros H. apply renders_exactly_spec.
  apply (check_ms_range_spec 0 1000); [vm_compute; reflexivity|lia].
Qed.

(** from one second on, the float computation loses milliseconds: a
    timestamp of 1.001 s renders as [00:00:01,000], because
    [(1.001 - 1) * 1000] is [0.9999999999998899] in binary64 and [int]
    truncates it to 0. *)
Theorem timedelta_to_srt_1001ms :
  _timedelta_to_srt (TimeDelta 1001000) = inr (lit "00:00:01,000") /\
  srt_time_exact 1001000 = lit "00:00:01,001".
Proof. split; vm_compute; reflexivity. Qed.

Example split_hms_spec_witness :
  (0 <= 3723)%Z /\ split_hms 3723 = (1, 2, 3)%Z /\
  (1 * 3600 + 2 * 60 + 3 = 3723 /\ 0 <= 1 /\ 0 <= 2 < 60 /\ 0 <= 3 < 60)%Z.
Proof.
  assert (H1 : (0 <= 3723)%Z) by lia. assert (H2 : split_hms 3723 = (1, 2, 3)%Z) by reflexivity.
  split; [exact H1|]. split; [exact H2|]. exact (split_hms_spec _ _ _ _ H1 H2).
Defined.

Example timedelta_to_srt_subsecond_witness :
  (0 <= 999 < 1000)%Z /\ _timedelta_to_srt (TimeDelta (999 * 1000)) = inr (srt_time_exact (999 * 1000)).
Proof.
  assert (H : (0 <= 999 < 1000)%Z) by lia.
  split; [exact H|]. exact (timedelta_to_srt_subsecond 999 H).
Defined.

End TimecodeSpec.
