(* ===== verification/World.v ===== *)
(** The world the pipeline acts on: the requests it sends to the model
    server, the log lines it writes and the progress callbacks it makes, in
    the order they happen, together with the number of requests sent so far
    (which indexes the server's replies). *)
From Stdlib Require Import String Ascii List ZArith QArith.
From S2P Require Import Prelude.
Import ListNotations.

Module World.

(** The JSON payload [generate_text] posts (src/api_client.py, lines
    24-31).  Python floats are kept as exact rationals: the model never
    computes with them. *)
Record payload := mk_payload {
  p_prompt : str;
  p_max_tokens : Z;
  p_temperature : Q;
  p_top_p : Q;
  p_stop : list str;
  p_stream : bool
}.

(** The JSON payload [chat_completion] posts (lines 54-59): the messages
    are a list of [{role: ..., content: ...}] dictionaries, kept as
    association lists. *)
Record chat_payload := mk_chat_payload {
  cp_messages : list (list (str * str));
  cp_max_tokens : Z;
  cp_temperature : Q;
  cp_stream : bool
}.

(** A request sent through [self.session]. *)
Inductive request :=
| ReqCompletion (p : payload)
| ReqChat (p : chat_payload)
| ReqGet.

(** A choice object of the server's JSON reply: the fields the client
    reads.  [None] is an absent key. *)
Record choice := mk_choice {
  ch_text : option str;
  ch_message_content : option (option str)
}.

(** The decoded body of a reply: [response.json()] either raises
    ([JsonInvalid], with [str(e)]) or yields an object whose ["choices"] key
    may be absent. *)
Inductive json_body :=
| JsonInvalid (msg : str)
| JsonObject (choices : option (list choice)).

(** What [self.session.post(...)] does: it raises (connection refused,
    timeout; [str(e)] kept), or returns a response with a status code, a
    raw text and a body. *)
Inductive http_outcome :=
| HttpRaised (msg : str)
| HttpReply (status : Z) (text : str) (body : json_body).

Inductive log_level := LogInfo | LogWarning | LogError.

Inductive event :=
| EvPost (url : str) (p : payload)
| EvPostChat (url : str) (p : chat_payload)
| EvGet (url : str)
| EvLog (lvl : log_level) (msg : str)
| EvProgress (current total : Z).

Record world := mk_world {
  w_calls : nat;
  w_trace : list event
}.

(** The model server: its reply to the [n]-th request, which may depend on
    the URL and the payload.  Any behaviour, deterministic or not, is one
    such function. *)
Definition server := nat -> str -> request -> http_outcome.

Definition is_progress (e : event) : bool :=
  match e with EvProgress _ _ => true | _ => false end.

Definition emit (e : event) : PyM world unit :=
  modify (fun w => mk_world (w_calls w) (w_trace w ++ [e])).

Definition log (lvl : log_level) (msg : str) : PyM world unit := emit (EvLog lvl msg).

(** [self.session.post(url, json=p, timeout=60)] *)
Definition post (srv : server) (url : str) (p : payload) : PyM world http_outcome :=
  fun w => (inr (srv (w_calls w) url (ReqCompletion p)),
            mk_world (S (w_calls w)) (w_trace w ++ [EvPost url p])).

Definition post_chat (srv : server) (url : str) (p : chat_payload) : PyM world http_outcome :=
  fun w => (inr (srv (w_calls w) url (ReqChat p)),
            mk_world (S (w_calls w)) (w_trace w ++ [EvPostChat url p])).

(** [self.session.get(url, timeout=...)] *)
Definition get (srv : server) (url : str) : PyM world http_outcome :=
  fun w => (inr (srv (w_calls w) url ReqGet),
            mk_world (S (w_calls w)) (w_trace w ++ [EvGet url])).

End World.
