(* ===== verification/ApiClient.v ===== *)
(** The language-model client [LMStudioClient] (src/api_client.py):
    [generate_text] (lines 22-49) posts a completion request and turns
    every failure into a text, and [translate_text] (lines 92-110) builds
    the translation prompt from a style table.  The translator only needs
    [translate_text]; the [AiClient] class states that interface, and
    [ai_total] the law the translator's totality theorem relies on. *)
From Stdlib Require Import String Ascii List ZArith QArith.
From stdpp Require Import base gmap strings.
From S2P Require Import Prelude PyStr World.
Import ListNotations.
Open Scope py_scope.

Module ApiClient.
Import World.

Record LMStudioClient := mk_client { base_url : str }.

(** [LMStudioClient()] *)
Definition default_client : LMStudioClient := mk_client (lit "http://localhost:1234/v1").

(** The keyword arguments [generate_text] reads; [None] is an absent
    keyword. *)
Record gen_opts := mk_opts {
  o_max_tokens : option Z;
  o_temperature : option Q;
  o_top_p : option Q;
  o_stop : option (list str)
}.

Definition no_opts : gen_opts := mk_opts None None None None.

Definition get_or {A} (d : A) (o : option A) : A :=
  match o with Some a => a | None => d end.

(** Lines 24-31: the payload with [kwargs.get] defaults. *)
Definition make_payload (prompt : str) (kw : gen_opts) : payload :=
  mk_payload prompt (get_or 1000%Z (o_max_tokens kw)) (get_or (7 # 10) (o_temperature kw))
    (get_or (9 # 10) (o_top_p kw)) (get_or [] (o_stop kw)) false.

(** Lines 47-49: [except Exception as e]: log and return the message. *)
Definition connection_error (msg : str) : PyM world str :=
  log LogError (lit "Connection error: " ++ msg) ;;;
  ret (lit "Connection error: " ++ msg).

(** [generate_text]: the request, then lines 39-45 on the reply.
    [result.get("choices", [{}])[0]] raises [IndexError] on an empty
    list, and [response.json()] raises on a body that is not JSON; both
    are caught by the [except] of line 47. *)
Definition generate_text (srv : server) (self : LMStudioClient) (prompt : str) (kw : gen_opts)
  : PyM world str :=
  r <- post srv (base_url self ++ lit "/completions") (make_payload prompt kw) ;;
  match r with
  | HttpRaised msg => connection_error msg
  | HttpReply status text body =>
      if (status =? 200)%Z then
        match body with
        | JsonInvalid msg => connection_error msg
        | JsonObject chs =>
            match get_or [mk_choice None None] chs with
            | [] => connection_error (lit "list index out of range")
            | c :: _ => ret (strip (get_or [] (ch_text c)))
            end
        end
      else
        log LogError (lit "LM Studio error: " ++ text) ;;;
        ret (lit "Error: " ++ py_str_Z status)
  end.

(** Lines 94-100: the style table of [translate_text]. *)
Definition style_map : gmap string string :=
  list_to_map [("hiện đại", "văn phong hiện đại, tự nhiên");
               ("cổ đại", "văn phong cổ điển, trang trọng");
               ("văn học", "văn phong văn học, trau chuốt");
               ("giản dị", "văn phong giản dị, dễ hiểu");
               ("trẻ trung", "văn phong trẻ trung, năng động")]%string.

(** Line 102: [style_map.get(style, "văn phong tự nhiên")] *)
Definition style_desc (style : str) : str :=
  lit (get_or "văn phong tự nhiên"%string (style_map !! string_of_list_ascii style)).

(** Lines 104-108: the prompt. *)
Definition translate_prompt (text source_lang target_lang style : str) : str :=
  lit "Hãy dịch văn bản sau từ " ++ source_lang ++ lit " sang " ++ target_lang ++
  lit " với " ++ style_desc style ++ lit ":" ++ [NL; NL] ++ text ++ [NL; NL] ++
  lit "Bản dịch:".

(** [translate_text]: line 110, [generate_text(prompt)] with no options. *)
Definition translate_text (srv : server) (self : LMStudioClient)
    (text source_lang target_lang style : str) : PyM world str :=
  generate_text srv self (translate_prompt text source_lang target_lang style) no_opts.

(** Lines 14-20: [check_connection]: a GET of [/models]; any exception
    gives [False]. *)
Definition check_connection (srv : server) (self : LMStudioClient) : PyM world bool :=
  r <- get srv (base_url self ++ lit "/models") ;;
  match r with
  | HttpRaised _ => ret false
  | HttpReply status _ _ => ret (status =? 200)%Z
  end.

(** Lines 51-76: [chat_completion]: the same shape as [generate_text] on
    [/chat/completions], reading [choices[0]["message"]["content"]]. *)
Definition chat_completion (srv : server) (self : LMStudioClient) (messages : list (list (str * str)))
    (max_tokens : option Z) (temperature : option Q) : PyM world str :=
  r <- post_chat srv (base_url self ++ lit "/chat/completions")
         (mk_chat_payload messages (get_or 1000%Z max_tokens) (get_or (7 # 10) temperature) false) ;;
  match r with
  | HttpRaised msg => connection_error msg
  | HttpReply status text body =>
      if (status =? 200)%Z then
        match body with
        | JsonInvalid msg => connection_error msg
        | JsonObject chs =>
            match get_or [mk_choice None None] chs with
            | [] => connection_error (lit "list index out of range")
            | c :: _ => ret (strip (get_or [] (get_or None (ch_message_content c))))
            end
        end
      else
        log LogError (lit "LM Studio error: " ++ text) ;;;
        ret (lit "Error: " ++ py_str_Z status)
  end.

(** Lines 80-88: the editing prompt. *)
Definition edit_prompt (text instruction : str) : str :=
  lit "Hãy chỉnh sửa văn bản sau theo yêu cầu:

VĂN BẢN GỐC:
" ++ text ++ lit "

YÊU CẦU CHỈNH SỬA:
" ++ instruction ++ lit "

VĂN BẢN ĐÃ CHỈNH SỬA:".

(** Lines 78-90: [edit_story_text]: [generate_text(prompt, max_tokens=2000)]. *)
Definition edit_story_text (srv : server) (self : LMStudioClient) (text instruction : str) : PyM world str :=
  generate_text srv self (edit_prompt text instruction) (mk_opts (Some 2000%Z) None None None).

(** Lines 114-118: the detail table of [generate_image_script]. *)
Definition detail_map : gmap string string :=
  list_to_map [("cơ bản", "mô tả ngắn gọn");
               ("chi tiết", "mô tả chi tiết");
               ("rất chi tiết", "mô tả rất chi tiết với đầy đủ yếu tố")]%string.

(** Line 120: [detail_map.get(detail_level, "mô tả chi tiết")] *)
Definition detail_desc (detail_level : str) : str :=
  lit (get_or "mô tả chi tiết"%string (detail_map !! string_of_list_ascii detail_level)).

(** Lines 122-138: the image-script prompt; [num_scenes] is an [int]
    formatted with [str]. *)
Definition image_script_prompt (story : str) (num_scenes : Z) (style detail_level : str) : str :=
  lit "Hãy tạo kịch bản ảnh từ câu chuyện sau:

CÂU CHUYỆN:
" ++ story ++ lit "

YÊU CẦU:
- Tạo " ++ py_str_Z num_scenes ++ lit " cảnh quan trọng
- Phong cách: " ++ style ++ lit "
- Mức độ: " ++
  detail_desc detail_level ++ lit "
- Mỗi cảnh bao gồm:
  1. Tên cảnh
  2. Mô tả cảnh
  3. Các nhân vật
  4. Bối cảnh
  5. Prompt cho AI tạo ảnh

KỊCH BẢN ẢNH:".

(** Lines 112-140: [generate_image_script]: [max_tokens=3000]. *)
Definition generate_image_script (srv : server) (self : LMStudioClient) (story : str) (num_scenes : Z)
    (style detail_level : str) : PyM world str :=
  generate_text srv self (image_script_prompt story num_scenes style detail_level)
    (mk_opts (Some 3000%Z) None None None).

End ApiClient.

(** The interface the translator uses: [ai_client.translate_text(text=...,
    source_lang=..., target_lang=..., style=...)] (src/srt_translator.py,
    lines 41-46). *)
Class AiClient := {
  ai_translate_text : str -> str -> str -> str -> PyM World.world str
}.

(** The law that makes the pipeline total: translating never raises, and
    each call leaves the world changed only by appending events. *)
Class AiTotal (C : AiClient) := {
  ai_total : forall text sl tl st w,
    exists r evs, ai_translate_text text sl tl st w =
      (inr r, World.mk_world (World.w_calls w + 1) (World.w_trace w ++ evs)) /\
      Forall (fun e => World.is_progress e = false) evs
}.

#[export] Instance lm_studio_ai (srv : World.server) (self : ApiClient.LMStudioClient) : AiClient :=
  { ai_translate_text := ApiClient.translate_text srv self }.

(** Sample servers for the concrete checks. *)
Module ApiSamples.
Import World.
Definition srv_500 : server :=
  fun _ _ _ => HttpReply 500 (lit "Internal Server Error") (JsonInvalid (lit "Expecting value: line 1 column 1 (char 0)")).
Definition srv_echo_text (t : str) : server :=
  fun _ _ _ => HttpReply 200 (lit "{}") (JsonObject (Some [mk_choice (Some t) None])).
End ApiSamples.

Module ApiClientFacts.
Import World ApiClient.

Lemma connection_error_run msg w :
  connection_error msg w =
  (inr (lit "Connection error: " ++ msg),
   mk_world (w_calls w) (w_trace w ++ [EvLog LogError (lit "Connection error: " ++ msg)])).
Proof. reflexivity. Qed.

(** [generate_text] always returns: the request is recorded, and what
    follows it in the trace is at most one log line. *)
Lemma generate_text_total srv self prompt kw w :
  exists r evs, generate_text srv self prompt kw w =
    (inr r, mk_world (w_calls w + 1)
              (w_trace w ++ EvPost (base_url self ++ lit "/completions") (make_payload prompt kw) :: evs)) /\
    Forall (fun e => is_progress e = false) evs.
Proof.
  unfold generate_text, bind, post. cbn [w_calls w_trace].
  rewrite Nat.add_1_r.
  destruct (srv (w_calls w) _ _) as [msg|status text body].
  - rewrite connection_error_run. cbn [w_calls w_trace]. rewrite <- app_assoc. eauto.
  - destruct (status =? 200)%Z.
    + destruct body as [msg|chs].
      * rewrite connection_error_run. cbn [w_calls w_trace]. rewrite <- app_assoc. eauto.
      * destruct (get_or [mk_choice None None] chs) as [|c cs].
        -- rewrite connection_error_run. cbn [w_calls w_trace]. rewrite <- app_assoc. eauto.
        -- exists (strip (get_or [] (ch_text c))), []. split; [reflexivity|constructor].
    + exists (lit "Error: " ++ py_str_Z status).
      eexists. unfold log, emit, modify, ret. cbn. rewrite <- app_assoc. split; [reflexivity|eauto].
Qed.

End ApiClientFacts.

#[export] Instance lm_studio_total srv self : AiTotal (lm_studio_ai srv self).
Proof.
  constructor. intros text sl tl st w. cbn [ai_translate_text lm_studio_ai].
  destruct (ApiClientFacts.generate_text_total srv self
              (ApiClient.translate_prompt text sl tl st) ApiClient.no_opts w) as (r & evs & E & Hp).
  exists r, (World.EvPost (ApiClient.base_url self ++ lit "/completions")
    (ApiClient.make_payload (ApiClient.translate_prompt text sl tl st) ApiClient.no_opts) :: evs).
  split; [exact E|constructor; [reflexivity|exact Hp]].
Qed.

Module ApiClientSpec.
Import World ApiClient ApiClientFacts.

(** a reply with a status other than 200 does not raise: its text
    ["Error: <status>"] is returned as if it were the model's output, after
    one error log line. *)
Theorem generate_text_http_error srv self prompt kw w status text body :
  status <> 200%Z -> srv (w_calls w) (base_url self ++ lit "/completions") (ReqCompletion (make_payload prompt kw)) = HttpReply status text body ->
  generate_text srv self prompt kw w =
  (inr (lit "Error: " ++ py_str_Z status),
   mk_world (w_calls w + 1)
     (w_trace w ++ [EvPost (base_url self ++ lit "/completions") (make_payload prompt kw);
                    EvLog LogError (lit "LM Studio error: " ++ text)])).
Proof.
  intros Hs Hr. unfold generate_text, bind, post. cbn [w_calls w_trace]. rewrite Hr.
  rewrite <- Z.eqb_neq in Hs. rewrite Hs. unfold log, emit, modify, ret. cbn.
  rewrite Nat.add_1_r, <- app_assoc. reflexivity.
Qed.

(** on a 200 reply whose first choice has a text, [generate_text]
    returns that text stripped, with no log line. *)
Theorem generate_text_ok srv self prompt kw w t cs rtext :
  srv (w_calls w) (base_url self ++ lit "/completions") (ReqCompletion (make_payload prompt kw)) =
    HttpReply 200 rtext (JsonObject (Some (mk_choice (Some t) None :: cs))) ->
  generate_text srv self prompt kw w =
  (inr (strip t), mk_world (w_calls w + 1)
     (w_trace w ++ [EvPost (base_url self ++ lit "/completions") (make_payload prompt kw)])).
Proof.
  intros Hr. unfold generate_text, bind, post. cbn [w_calls w_trace]. rewrite Hr.
  rewrite Nat.add_1_r. reflexivity.
Qed.

(** an unknown style tag falls back to the generic style; in
    particular the default style ["modern"] of [translate_file] is not a
    key of the table, whose keys are Vietnamese. *)
Theorem style_desc_fallback :
  style_desc (lit "modern") = lit "văn phong tự nhiên" /\
  style_desc (lit "hiện đại") = lit "văn phong hiện đại, tự nhiên".
Proof. split; vm_compute; reflexivity. Qed.

Example generate_text_http_error_witness :
  let w := mk_world 0 [] in
  (500 <> 200)%Z /\
  ApiSamples.srv_500 (w_calls w) (base_url default_client ++ lit "/completions") (ReqCompletion (make_payload (lit "x") no_opts)) =
    HttpReply 500 (lit "Internal Server Error") (JsonInvalid (lit "Expecting value: line 1 column 1 (char 0)")) /\
  generate_text ApiSamples.srv_500 default_client (lit "x") no_opts w =
  (inr (lit "Error: " ++ py_str_Z 500),
   mk_world (w_calls w + 1)
     (w_trace w ++ [EvPost (base_url default_client ++ lit "/completions") (make_payload (lit "x") no_opts);
                    EvLog LogError (lit "LM Studio error: " ++ lit "Internal Server Error")])).
Proof.
  intros w.
  assert (H1 : (500 <> 200)%Z) by discriminate.
  assert (H2 : ApiSamples.srv_500 (w_calls w) (base_url default_client ++ lit "/completions")
                 (ReqCompletion (make_payload (lit "x") no_opts)) =
               HttpReply 500 (lit "Internal Server Error")
                 (JsonInvalid (lit "Expecting value: line 1 column 1 (char 0)"))) by reflexivity.
  split; [exact H1|]. split; [exact H2|]. exact (generate_text_http_error _ _ _ _ _ _ _ _ H1 H2).
Defined.

Example generate_text_ok_witness :
  let w := mk_world 0 [] in
  ApiSamples.srv_echo_text (lit " Xin chào ") (w_calls w) (base_url default_client ++ lit "/completions")
    (ReqCompletion (make_payload (lit "x") no_opts)) =
    HttpReply 200 (lit "{}") (JsonObject (Some [mk_choice (Some (lit " Xin chào ")) None])) /\
  generate_text (ApiSamples.srv_echo_text (lit " Xin chào ")) default_client (lit "x") no_opts w =
  (inr (strip (lit " Xin chào ")), mk_world (w_calls w + 1)
     (w_trace w ++ [EvPost (base_url default_client ++ lit "/completions") (make_payload (lit "x") no_opts)])).
Proof.
  intros w.
  assert (H : ApiSamples.srv_echo_text (lit " Xin chào ") (w_calls w) (base_url default_client ++ lit "/completions")
                (ReqCompletion (make_payload (lit "x") no_opts)) =
              HttpReply 200 (lit "{}") (JsonObject (Some [mk_choice (Some (lit " Xin chào ")) None])))
    by reflexivity.
  split; [exact H|]. exact (generate_text_ok _ _ _ _ _ _ _ _ H).
Defined.

End ApiClientSpec.
