(* ===== verification/Translator.v ===== *)
(** The orchestrator [SRTTranslator.translate_file] (src/srt_translator.py,
    lines 15-59) and the SRT renderer [_create_srt_content] (lines 114-128).
    The translator is parameterised by an [AiClient]; its theorems are
    proved against that interface and its [AiTotal] law, and instantiated
    with [LMStudioClient] through the instances of [ApiClient].  On the
    cues pysrt produces, whose times are [SubRipTime] values, the renderer
    raises [AttributeError] ([Timecode.total_seconds_of]). *)
From Stdlib Require Import String Ascii List ZArith Lia Bool.
From S2P Require Import Prelude PyStr PyRegex Batcher Codec Timecode World ApiClient.
Import ListNotations.
Open Scope py_scope.

Module Translator.
Import World Codec Timecode Batcher.

Definition lift {A} (r : exc + A) : PyM world A := fun w => (r, w).

(** Lines 118-126: for each [(text, start, end)] numbered from [i]: the
    number, the timing line, the text and an empty line.  The start time
    is rendered before the end time, and a cue before the next one, so the
    first failing rendering is the one that raises. *)
Fixpoint srt_lines (i : nat) (subs : list translated_item) : exc + list str :=
  match subs with
  | [] => inr []
  | (text, start, end_) :: rest =>
      match _timedelta_to_srt start with
      | inl e => inl e
      | inr start_str =>
          match _timedelta_to_srt end_ with
          | inl e => inl e
          | inr end_str =>
              match srt_lines (S i) rest with
              | inl e => inl e
              | inr ls =>
                  inr (py_str_Z (Z.of_nat i) :: (start_str ++ lit " --> " ++ end_str) ::
                       text :: [] :: ls)
              end
          end
      end
  end.

(** [_create_srt_content]: line 128, ["\n".join(lines)]. *)
Definition _create_srt_content (subs : list translated_item) : exc + str :=
  match srt_lines 1 subs with
  | inl e => inl e
  | inr ls => inr (join [NL] ls)
  end.

(** Line 54: [f"Translated batch {i}/{total_batches}"] *)
Definition batch_log_msg (i : nat) (total : Z) : str :=
  lit "Translated batch " ++ py_str_Z (Z.of_nat i) ++ lit "/" ++ py_str_Z total.

(** The events of one loop iteration around the client's own events. *)
Definition batch_segment (has_callback : bool) (total : Z) (i : nat) (client_evs : list event)
  : list event :=
  (if has_callback then [EvProgress (Z.of_nat i) total] else []) ++ client_evs ++
  [EvLog LogInfo (batch_log_msg i total)].

(** The progress callbacks made, in order. *)
Definition progress_calls (tr : list event) : list (Z * Z) :=
  flat_map (fun e => match e with EvProgress c t => [(c, t)] | _ => [] end) tr.

Section WithClient.
Context `{C : AiClient}.

(** One iteration of lines 33-54 for batch number [i] of [total]: the
    progress callback (when one is given) comes first, then the encoding,
    the model call, the decoding, the accumulation and the log line. *)
Definition translate_batch (src_lang tgt_lang style : str) (has_callback : bool) (total : Z)
    (ib : nat * list SubRipItem) (translated_subs : list translated_item)
    : PyM world (list translated_item) :=
  let (i, batch) := ib in
  (if has_callback then emit (EvProgress (Z.of_nat i) total) else ret tt) ;;;
  let batch_text := _batch_to_text batch in
  translated_text <- ai_translate_text batch_text src_lang tgt_lang style ;;
  let translated_batch := _text_to_subtitles translated_text batch in
  log LogInfo (batch_log_msg i total) ;;;
  ret (translated_subs ++ translated_batch).

(** [translate_file] on the cues [pysrt.open] read: lines 23-24 reject an
    empty file, then batching, the loop and the rendering. *)
Definition translate_file (subs : list SubRipItem) (src_lang tgt_lang style : str)
    (batch_size : Z) (has_callback : bool) : PyM world str :=
  match subs with
  | [] => raise (ValueError (lit "File SRT trống hoặc không đọc được"))
  | _ =>
      let batches := _create_batches subs batch_size in
      let total_batches := Z.of_nat (length batches) in
      translated_subs <- for_each (enumerate 1 batches) []
                           (translate_batch src_lang tgt_lang style has_callback total_batches) ;;
      lift (_create_srt_content translated_subs)
  end.

End WithClient.

(** A client that returns the prompt body unchanged: the reference point
    for the end-to-end theorem. *)
#[export] Instance echo_ai : AiClient :=
  { ai_translate_text := fun text _ _ _ w => (inr text, mk_world (w_calls w + 1) (w_trace w)) }.

End Translator.

(** Sample inputs for the concrete checks: the cues and servers of the
    scenarios of the spec's section 8. *)
Module TranslatorSamples.
Import World Codec.
Definition hello : SubRipItem := mk_item 1 (SubRipTime 1000) (SubRipTime 2000) (lit "Hello").
Definition world_cue : SubRipItem := mk_item 2 (SubRipTime 2000) (SubRipTime 3000) (lit "World").
Definition cue (k : Z) : SubRipItem := mk_item k (SubRipTime (k * 1000)) (SubRipTime (k * 1000 + 500)) (lit "line").
Definition w0 : world := mk_world 0 [].
(** The reply of the spec's first scenario, whatever the request. *)
Definition spec_srv : server := ApiSamples.srv_echo_text (lit "1. Xin chào
2. Thế giới").
(** Fails with HTTP 500 on the second request, answers ["1. ok"] otherwise. *)
Definition fail2_srv : server := fun n _ _ =>
  if Nat.eqb n 1 then HttpReply 500 (lit "Internal Server Error") (JsonInvalid (lit "Expecting value"))
  else HttpReply 200 (lit "{}") (JsonObject (Some [mk_choice (Some (lit "1. ok")) None])).
End TranslatorSamples.

Module TranslatorFacts.
Import World Codec Timecode Batcher Translator.

Section WithClient.
Context `{C : AiClient}.
Variables (src tgt style : str) (cb : bool) (total : Z).

(** What the loop needs of the client, for a property [P] of the prompt
    body, the reply and the events of one call: the call returns, and
    appends events, with [P] holding. *)
Variable P : str -> str -> list event -> Prop.
Hypothesis HP : forall text w, exists r evs,
  ai_translate_text text src tgt style w =
    (inr r, mk_world (w_calls w + 1) (w_trace w ++ evs)) /\ P text r evs.

(** One iteration: it never raises, it appends the decoded batch, and its
    events are the progress call, the client's events and the log line. *)
Lemma translate_batch_run i batch acc w :
  exists reply evs,
    translate_batch src tgt style cb total (i, batch) acc w =
      (inr (acc ++ _text_to_subtitles reply batch),
       mk_world (w_calls w + 1) (w_trace w ++ batch_segment cb total i evs)) /\
    P (_batch_to_text batch) reply evs.
Proof.
  destruct (HP (_batch_to_text batch)
              (mk_world (w_calls w) (w_trace w ++ if cb then [EvProgress (Z.of_nat i) total] else [])))
    as (reply & evs & E & Hp).
  exists reply, evs. split; [|exact Hp].
  unfold translate_batch, batch_segment, bind.
  replace ((if cb then emit (EvProgress (Z.of_nat i) total) else ret tt) w)
    with (@inr exc unit tt, mk_world (w_calls w) (w_trace w ++ if cb then [EvProgress (Z.of_nat i) total] else []))
    by (destruct cb; [reflexivity|destruct w; cbn; rewrite app_nil_r; reflexivity]).
  rewrite E. cbn. rewrite !app_assoc. reflexivity.
Qed.

(** The loop over the enumerated batches: the result is the decoded
    batches in order, and the trace is one segment per batch. *)
Lemma translate_loop_run ibs : forall acc w,
  exists outs,
    length outs = length ibs /\
    Forall (fun '((i, b), o) => P (_batch_to_text b) (fst o) (snd o)) (combine ibs outs) /\
    for_each ibs acc (translate_batch src tgt style cb total) w =
      (inr (acc ++ concat (map (fun '((i, b), o) => _text_to_subtitles (fst o) b) (combine ibs outs))),
       mk_world (w_calls w + length ibs)
         (w_trace w ++ concat (map (fun '((i, b), o) => batch_segment cb total i (snd o)) (combine ibs outs)))).
Proof.
  induction ibs as [|[i b] ibs IH]; intros acc w.
  - exists []. split; [reflexivity|]. split; [constructor|].
    cbn. rewrite !app_nil_r, Nat.add_0_r. destruct w; reflexivity.
  - destruct (translate_batch_run i b acc w) as (reply & evs & E & Hp).
    cbn [for_each]. rewrite (bind_inr _ _ _ _ _ E).
    destruct (IH (acc ++ _text_to_subtitles reply b)
                 (mk_world (w_calls w + 1) (w_trace w ++ batch_segment cb total i evs)))
      as (outs & Hl & Hf & E').
    exists ((reply, evs) :: outs). split; [cbn; lia|]. split; [constructor; assumption|].
    rewrite E'. cbn [combine map concat fst snd length w_calls w_trace]. rewrite <- !app_assoc.
    replace (w_calls w + 1 + length ibs) with (w_calls w + S (length ibs)) by lia. reflexivity.
Qed.

End WithClient.

Lemma progress_calls_app t1 t2 : progress_calls (t1 ++ t2) = progress_calls t1 ++ progress_calls t2.
Proof. unfold progress_calls. apply flat_map_app. Qed.

Lemma progress_calls_none evs :
  Forall (fun e => is_progress e = false) evs -> progress_calls evs = [].
Proof.
  induction 1 as [|e evs He _ IH]; [reflexivity|].
  destruct e; try discriminate; cbn; exact IH.
Qed.

Lemma progress_calls_segment total i evs :
  Forall (fun e => is_progress e = false) evs ->
  progress_calls (batch_segment true total i evs) = [(Z.of_nat i, total)].
Proof.
  intros H. unfold batch_segment. rewrite !progress_calls_app, (progress_calls_none evs H).
  reflexivity.
Qed.

Lemma progress_calls_segments {A} total (ibs : list (nat * list SubRipItem)) (outs : list (A * list event)) :
  Forall (fun '((i, b), o) => Forall (fun e => is_progress e = false) (snd (o : A * list event)))
    (combine ibs outs) ->
  progress_calls (concat (map (fun '((i, b), o) => batch_segment true total i (snd o)) (combine ibs outs))) =
  map (fun '(i, _) => (Z.of_nat i, total)) (firstn (length outs) ibs).
Proof.
  revert outs. induction ibs as [|[i b] ibs IH]; intros outs Hf; [destruct outs; reflexivity|].
  destruct outs as [|o outs]; [reflexivity|]. cbn [combine] in Hf. inv Hf. cbn [combine map concat firstn length].
  rewrite progress_calls_app, progress_calls_segment by assumption. rewrite IH by assumption.
  reflexivity.
Qed.

Lemma map_enumerate_fst {A} k (xs : list A) :
  map (fun '(i, _) => i) (enumerate k xs) = seq k (length xs).
Proof. revert k. induction xs as [|x xs IH]; intros k; cbn; [reflexivity|]. rewrite IH. reflexivity. Qed.

Lemma map_enumerate_progress {A} k (total : Z) (xs : list A) :
  map (fun '((i, _) : nat * A) => (Z.of_nat i, total)) (enumerate k xs) =
  map (fun i => (Z.of_nat i, total)) (seq k (length xs)).
Proof. revert k. induction xs as [|x xs IH]; intros k; cbn; [reflexivity|]. rewrite IH. reflexivity. Qed.

Lemma translate_file_nonempty `{C : AiClient} subs src tgt style bs cb w :
  subs <> [] ->
  translate_file subs src tgt style bs cb w =
  bind (for_each (enumerate 1 (_create_batches subs bs)) []
          (translate_batch src tgt style cb (Z.of_nat (length (_create_batches subs bs)))))
       (fun r => lift (_create_srt_content r)) w.
Proof. destruct subs; [congruence|reflexivity]. Qed.

Lemma ai_total_hyp `{C : AiClient} `{T : !AiTotal C} src tgt style :
  forall text w, exists r evs,
    ai_translate_text text src tgt style w =
      (inr r, mk_world (w_calls w + 1) (w_trace w ++ evs)) /\
    (fun (_ _ : str) evs => Forall (fun e => is_progress e = false) evs) text r evs.
Proof. intros text w. exact (ai_total text src tgt style w). Qed.

Lemma echo_hyp src tgt style :
  forall text w, exists r evs,
    @ai_translate_text echo_ai text src tgt style w =
      (inr r, mk_world (w_calls w + 1) (w_trace w ++ evs)) /\
    (fun text r (evs : list event) => r = text /\ evs = []) text r evs.
Proof. intros text w. exists text, []. rewrite app_nil_r. split; [reflexivity|split; reflexivity]. Qed.

Lemma Forall_enumerate {A} (Q : A -> Prop) k xs :
  Forall Q xs -> Forall (fun '((_, x) : nat * A) => Q x) (enumerate k xs).
Proof.
  intros H. revert k. induction H as [|x xs Hx _ IH]; intros k; constructor; [exact Hx|apply IH].
Qed.

(** When every reply is the prompt body itself, the loop's result is the
    cleaned cues. *)
Lemma echo_loop_result {A} (ibs : list (nat * list SubRipItem)) (outs : list (str * A)) :
  length outs = length ibs ->
  Forall (fun '((_, b), o) => fst o = _batch_to_text b) (combine ibs outs) ->
  Forall (fun '((_, b) : nat * list SubRipItem) =>
            b <> [] /\ Forall (fun o => well_formed_text (clean_text (text o))) b) ibs ->
  concat (map (fun '((i, b), o) => _text_to_subtitles (fst o) b) (combine ibs outs)) =
  concat (map (fun '((_, b) : nat * list SubRipItem) =>
                 map (fun o => (clean_text (text o), start o, end_ o)) b) ibs).
Proof.
  revert outs. induction ibs as [|[i b] ibs IH]; intros outs Hl Hr Hb; [reflexivity|].
  destruct outs as [|o outs]; [discriminate|]. cbn [combine] in Hr. inv Hr. inv Hb.
  destruct H3 as [Hne Hwf]. cbn [combine map concat]. rewrite H1.
  rewrite CodecFacts.decode_encode_batch by assumption. f_equal.
  apply IH; [simpl in Hl; lia|assumption|assumption].
Qed.

Lemma concat_map_enumerate {A B} (f : A -> list B) k xs :
  concat (map (fun '((_, x) : nat * A) => f x) (enumerate k xs)) = concat (map f xs).
Proof. revert k. induction xs as [|x xs IH]; intros k; cbn; [reflexivity|]. rewrite IH. reflexivity. Qed.

(** The first batch starts with the first cue. *)
Lemma first_batch (o : SubRipItem) rest bs : exists b bs', _create_batches (o :: rest) bs = (o :: b) :: bs'.
Proof.
  batches_to_chunk. pose proof (BatcherFacts.effective_size_pos bs) as Hk.
  rewrite BatcherFacts.chunk_cons by (first [exact Hk | discriminate]).
  destruct (effective_size bs) as [|k]; [lia|]. cbn. eauto.
Qed.

(** The accumulated cues start with the first cue's timing. *)
Lemma loop_items_head {A} o b bs' (outs : list (str * A)) :
  length outs = length (enumerate 1 ((o :: b) :: bs')) ->
  exists x rest,
    concat (map (fun '((i, b), o) => _text_to_subtitles (fst o) b) (combine (enumerate 1 ((o :: b) :: bs')) outs)) =
      (x, start o, end_ o) :: rest.
Proof.
  destruct outs as [|out outs]; [discriminate|]. intros _. cbn [enumerate combine map concat].
  destruct (CodecFacts.text_to_subtitles_head (fst out) o b) as (x & r & ->). cbn. eauto.
Qed.

(** Rendering raises on the first cue whose start is pysrt's [SubRipTime]. *)
Lemma srt_lines_subriptime i t ms e rest : srt_lines i ((t, SubRipTime ms, e) :: rest) = inl no_total_seconds.
Proof. reflexivity. Qed.

Lemma Forall2_combine_map {A B C} (R : A -> C -> Prop) (g : A * B -> C) xs ys :
  length ys = length xs -> Forall (fun p => R (fst p) (g p)) (combine xs ys) ->
  Forall2 R xs (map g (combine xs ys)).
Proof.
  revert ys. induction xs as [|x xs IH]; intros ys Hl H; [constructor|].
  destruct ys as [|y ys]; [discriminate|]. inv H. constructor; [exact H2|].
  apply IH; [simpl in Hl; lia|exact H3].
Qed.

Lemma lm_hyp srv self src tgt style :
  forall text w, exists r evs,
    @ai_translate_text (lm_studio_ai srv self) text src tgt style w =
      (inr r, mk_world (w_calls w + 1) (w_trace w ++ evs)) /\
    (fun text (_ : str) evs => exists rest, evs =
       EvPost (ApiClient.base_url self ++ lit "/completions")
         (ApiClient.make_payload (ApiClient.translate_prompt text src tgt style) ApiClient.no_opts) :: rest)
      text r evs.
Proof.
  intros text w.
  destruct (ApiClientFacts.generate_text_total srv self
              (ApiClient.translate_prompt text src tgt style) ApiClient.no_opts w) as (r & evs & E & _).
  do 2 eexists. split; [exact E|eauto].
Qed.

(** With a callback, [translate_file] calls it once per batch, with
    [(1, n)], [(2, n)], ..., [(n, n)] in that order, where [n] is the number
    of batches; it sends exactly one request per batch. *)
Lemma translate_file_progress_run `{C : AiClient} `{T : !AiTotal C} subs src tgt style bs w :
  subs <> [] ->
  exists tr,
    snd (translate_file subs src tgt style bs true w) =
      mk_world (w_calls w + length (_create_batches subs bs)) (w_trace w ++ tr) /\
    progress_calls tr =
      map (fun k => (Z.of_nat k, Z.of_nat (length (_create_batches subs bs))))
          (seq 1 (length (_create_batches subs bs))).
Proof.
  intros Hne. rewrite translate_file_nonempty by exact Hne.
  set (batches := _create_batches subs bs).
  destruct (translate_loop_run src tgt style true (Z.of_nat (length batches)) _
              (ai_total_hyp src tgt style) (enumerate 1 batches) [] w) as (outs & Hl & Hf & E).
  unfold bind. rewrite E. cbn [snd lift].
  eexists. split; [rewrite CodecFacts.enumerate_length; reflexivity|].
  rewrite progress_calls_segments by exact Hf.
  rewrite Hl, firstn_all, map_enumerate_progress. reflexivity.
Qed.

(** [translate_file] on cues whose first start is a [SubRipTime]: every
    batch is sent, then the rendering raises. *)
Lemma translate_file_first_subriptime `{C : AiClient} `{T : !AiTotal C} o rest ms src tgt style bs cb w :
  start o = SubRipTime ms ->
  exists w', translate_file (o :: rest) src tgt style bs cb w = (inl no_total_seconds, w') /\
             w_calls w' = w_calls w + length (_create_batches (o :: rest) bs).
Proof.
  intros Hs. rewrite translate_file_nonempty by discriminate.
  destruct (first_batch o rest bs) as (b & bs' & Hb).
  destruct (translate_loop_run src tgt style cb (Z.of_nat (length (_create_batches (o :: rest) bs))) _
              (ai_total_hyp src tgt style) (enumerate 1 (_create_batches (o :: rest) bs)) [] w) as (outs & Hl & _ & E).
  unfold bind. rewrite E. cbn [app]. unfold lift, _create_srt_content. rewrite Hb in Hl |- *.
  destruct (loop_items_head o b bs' outs Hl) as (x & r & ->). rewrite Hs, srt_lines_subriptime.
  eexists. split; [reflexivity|]. cbn [w_calls]. rewrite CodecFacts.enumerate_length. reflexivity.
Qed.

End TranslatorFacts.

Module TranslatorSpec.
Import World Codec Timecode Batcher Translator TranslatorFacts.

(** an empty subtitle file raises [ValueError] before anything else
    happens: no callback, no request, no log line. *)
Theorem translate_file_empty `{C : AiClient} src tgt style bs cb w :
  translate_file [] src tgt style bs cb w =
  (inl (ValueError (lit "File SRT trống hoặc không đọc được")), w).
Proof. reflexivity. Qed.

(** C10: with a callback, [translate_file] calls it once per batch, with
    [(1, n)], [(2, n)], ..., [(n, n)] in that order, where [n] is the number
    of batches; it sends exactly one request per batch. *)
Theorem translate_file_progress `{C : AiClient} `{T : !AiTotal C} subs src tgt style bs w :
  subs <> [] ->
  exists tr,
    snd (translate_file subs src tgt style bs true w) =
      mk_world (w_calls w + length (_create_batches subs bs)) (w_trace w ++ tr) /\
    progress_calls tr =
      map (fun k => (Z.of_nat k, Z.of_nat (length (_create_batches subs bs))))
          (seq 1 (length (_create_batches subs bs))).
Proof. intros Hne. exact (translate_file_progress_run subs src tgt style bs w Hne). Qed.

(** C2: end to end, with a model that returns its input: the output file
    is the rendering of the original cues, in order, with their own timings
    and their cleaned texts, for every batch size (each cleaned text being
    one line without blanks at its ends). *)
Theorem translate_file_echo subs src tgt style bs cb w :
  subs <> [] -> Forall (fun o => well_formed_text (clean_text (text o))) subs ->
  fst (@translate_file echo_ai subs src tgt style bs cb w) =
  _create_srt_content (map (fun o => (clean_text (text o), start o, end_ o)) subs).
Proof.
  intros Hne Hwf. rewrite translate_file_nonempty by exact Hne.
  set (batches := _create_batches subs bs).
  assert (Hcat : concat batches = subs)
    by (subst batches; batches_to_chunk; apply BatcherFacts.concat_chunk, BatcherFacts.effective_size_pos).
  assert (Hb : Forall (fun b => b <> [] /\ Forall (fun o => well_formed_text (clean_text (text o))) b) batches).
  { apply Forall_forall. intros b Hin. split.
    - subst batches. revert b Hin. apply Forall_forall. batches_to_chunk.
      eapply Forall_impl; [|apply BatcherFacts.chunk_bounds, BatcherFacts.effective_size_pos].
      intros b [Hb _]. exact Hb.
    - rewrite <- Hcat in Hwf. apply Forall_concat in Hwf. rewrite Forall_forall in Hwf. auto. }
  destruct (translate_loop_run src tgt style cb (Z.of_nat (length batches)) _
              (echo_hyp src tgt style) (enumerate 1 batches) [] w) as (outs & Hl & Hf & E).
  unfold bind. rewrite E. cbn [fst lift app]. f_equal.
  rewrite echo_loop_result.
  - rewrite concat_map_enumerate, <- concat_map, Hcat. reflexivity.
  - exact Hl.
  - eapply Forall_impl; [|exact Hf]. intros [[i b] o] [H _]. exact H.
  - apply Forall_enumerate. exact Hb.
Qed.

(** C1: for any client that satisfies [AiTotal] (the LM Studio client
    does), [translate_file] on cues as pysrt reads them raises
    [AttributeError] after translating every batch: the first cue's start
    is a [SubRipTime], which has no [total_seconds], so [_create_srt_content]
    raises on it (line 132) once all the requests have been made. *)
Theorem translate_file_subriptime `{C : AiClient} `{T : !AiTotal C} o rest ms src tgt style bs cb w :
  start o = SubRipTime ms ->
  exists w', translate_file (o :: rest) src tgt style bs cb w = (inl no_total_seconds, w') /\
             w_calls w' = w_calls w + length (_create_batches (o :: rest) bs).
Proof. intros Hs. exact (translate_file_first_subriptime o rest ms src tgt style bs cb w Hs). Qed.

(** C6: with the LM Studio client, each batch's progress callback is made
    before the batch's request is sent: the events of batch [i] start with
    the callback [(i, n)] followed by the request carrying that batch's
    prompt.  The count therefore reports the batch being started, not the
    batches already merged. *)
Theorem translate_file_progress_first srv self subs src tgt style bs w :
  subs <> [] ->
  exists segs,
    snd (@translate_file (lm_studio_ai srv self) subs src tgt style bs true w) =
      mk_world (w_calls w + length (_create_batches subs bs)) (w_trace w ++ concat segs) /\
    Forall2 (fun '((i, b) : nat * list SubRipItem) seg => exists rest, seg =
               EvProgress (Z.of_nat i) (Z.of_nat (length (_create_batches subs bs))) ::
               EvPost (ApiClient.base_url self ++ lit "/completions")
                 (ApiClient.make_payload (ApiClient.translate_prompt (_batch_to_text b) src tgt style)
                    ApiClient.no_opts) :: rest)
      (enumerate 1 (_create_batches subs bs)) segs.
Proof.
  intros Hne. rewrite translate_file_nonempty by exact Hne.
  set (batches := _create_batches subs bs).
  destruct (translate_loop_run src tgt style true (Z.of_nat (length batches)) _
              (lm_hyp srv self src tgt style) (enumerate 1 batches) [] w) as (outs & Hl & Hf & E).
  unfold bind. rewrite E. cbn [snd lift].
  eexists. split; [rewrite CodecFacts.enumerate_length; reflexivity|].
  apply Forall2_combine_map; [exact Hl|].
  eapply Forall_impl; [|exact Hf]. intros [[i b] [r evs]] (rest & Hr). cbn in Hr |- *.
  rewrite Hr. unfold batch_segment. eexists. reflexivity.
Qed.

(** The spec's first scenario, on the code: two cues as pysrt reads
    them, one batch, the reply ["1. Xin chào\n2. Thế giới"]; the request
    is made, then the rendering raises [AttributeError]. *)
Example scenario_two_cues :
  fst (@translate_file (lm_studio_ai TranslatorSamples.spec_srv ApiClient.default_client)
         [TranslatorSamples.hello; TranslatorSamples.world_cue] (lit "zh") (lit "vi") (lit "hiện đại") 10 true
         TranslatorSamples.w0) = inl no_total_seconds.
Proof. vm_compute. reflexivity. Qed.

(** The spec's failure scenario, on the code: the model server fails on
    batch 2 of 3; the loop goes on (the server's error text becomes the
    second cue's translation), the callback is called three times, and the
    rendering then raises [AttributeError] on the first cue. *)
Example scenario_failure_batch2 :
  let r := @translate_file (lm_studio_ai TranslatorSamples.fail2_srv ApiClient.default_client)
             [TranslatorSamples.cue 1; TranslatorSamples.cue 2; TranslatorSamples.cue 3]
             (lit "zh") (lit "vi") (lit "x") 1 true TranslatorSamples.w0 in
  fst r = inl no_total_seconds /\ progress_calls (w_trace (snd r)) = [(1, 3); (2, 3); (3, 3)]%Z.
Proof. vm_compute. split; reflexivity. Qed.

Example translate_file_progress_witness :
  let subs := map TranslatorSamples.cue [1; 2; 3; 4; 5]%Z in
  subs <> [] /\
  exists tr,
    snd (@translate_file (lm_studio_ai TranslatorSamples.spec_srv ApiClient.default_client)
           subs (lit "zh") (lit "vi") (lit "x") 1 true TranslatorSamples.w0) =
      mk_world (w_calls TranslatorSamples.w0 + length (_create_batches subs 1))
        (w_trace TranslatorSamples.w0 ++ tr) /\
    progress_calls tr =
      map (fun k => (Z.of_nat k, Z.of_nat (length (_create_batches subs 1))))
          (seq 1 (length (_create_batches subs 1))).
Proof.
  intros subs. assert (H : subs <> []) by discriminate. split; [exact H|].
  exact (translate_file_progress (T := lm_studio_total _ _) subs _ _ _ 1 TranslatorSamples.w0 H).
Defined.

Example translate_file_echo_witness :
  let subs := [CodecSamples.hello; CodecSamples.world_cue] in
  subs <> [] /\ Forall (fun o => well_formed_text (clean_text (text o))) subs /\
  fst (@translate_file echo_ai subs (lit "zh") (lit "vi") (lit "x") 10 true TranslatorSamples.w0) =
  _create_srt_content (map (fun o => (clean_text (text o), start o, end_ o)) subs).
Proof.
  intros subs. assert (H1 : subs <> []) by discriminate.
  assert (H2 : Forall (fun o => well_formed_text (clean_text (text o))) subs)
    by (repeat constructor; apply CodecFacts.well_formed_textb_sound; reflexivity).
  split; [exact H1|]. split; [exact H2|]. exact (translate_file_echo subs _ _ _ 10 true _ H1 H2).
Defined.

Example translate_file_subriptime_witness :
  start (TranslatorSamples.cue 1) = SubRipTime 1000 /\
  exists w', @translate_file (lm_studio_ai TranslatorSamples.fail2_srv ApiClient.default_client)
      [TranslatorSamples.cue 1; TranslatorSamples.cue 2; TranslatorSamples.cue 3] (lit "zh") (lit "vi") (lit "x") 1 true
      TranslatorSamples.w0 = (inl no_total_seconds, w') /\
    w_calls w' = w_calls TranslatorSamples.w0 +
                 length (_create_batches [TranslatorSamples.cue 1; TranslatorSamples.cue 2; TranslatorSamples.cue 3] 1).
Proof.
  split; [reflexivity|].
  exact (translate_file_subriptime (T := lm_studio_total _ _) (TranslatorSamples.cue 1)
           [TranslatorSamples.cue 2; TranslatorSamples.cue 3] 1000 _ _ _ 1 true _ eq_refl).
Defined.

Example translate_file_progress_first_witness :
  let subs := [TranslatorSamples.hello; TranslatorSamples.world_cue] in
  let self := ApiClient.default_client in
  subs <> [] /\
  exists segs,
    snd (@translate_file (lm_studio_ai TranslatorSamples.spec_srv self) subs (lit "zh") (lit "vi") (lit "x") 1 true
           TranslatorSamples.w0) =
      mk_world (w_calls TranslatorSamples.w0 + length (_create_batches subs 1))
        (w_trace TranslatorSamples.w0 ++ concat segs) /\
    Forall2 (fun '((i, b) : nat * list SubRipItem) seg => exists rest, seg =
               EvProgress (Z.of_nat i) (Z.of_nat (length (_create_batches subs 1))) ::
               EvPost (ApiClient.base_url self ++ lit "/completions")
                 (ApiClient.make_payload (ApiClient.translate_prompt (_batch_to_text b) (lit "zh") (lit "vi") (lit "x"))
                    ApiClient.no_opts) :: rest)
      (enumerate 1 (_create_batches subs 1)) segs.
Proof.
  intros subs self. assert (H : subs <> []) by discriminate. split; [exact H|].
  exact (translate_file_progress_first TranslatorSamples.spec_srv self subs _ _ _ 1 TranslatorSamples.w0 H).
Defined.

End TranslatorSpec.
