(* ===== verification/SrtFile.v ===== *)
(** The subtitle file format: what [pysrt.open(file_path,
    encoding='utf-8')] (src/srt_translator.py, line 21) reads.  pysrt is a
    library the program only calls; its reader is modelled from the
    spec's artifact format (sections 4.4 and 5): blocks separated by blank
    lines, each an index line, a timing line [HH:MM:SS,mmm -->
    HH:MM:SS,mmm] and the text lines.  Like pysrt's default error handling,
    a block that does not have this shape is skipped, not an error.  The
    numbers are read with the Standard Library's decimal reader
    [NilEmpty.uint_of_string], the inverse of the printer [str(n)] uses.

    Its cues carry pysrt's [SubRipTime] values, which the renderer cannot
    format ([Timecode.total_seconds_of]).  The theorems relate the reader
    to the renderer [_create_srt_content] ([Translator]) on [timedelta]
    times, the type its annotation names: rendering then parsing gives
    back every cue whose times render exactly, with its times truncated
    to the millisecond, and a cue at 1.001 s comes back one millisecond
    early. *)
From Stdlib Require Import String Ascii List ZArith Lia Bool DecimalString.
From S2P Require Import Prelude PyStr Codec Timecode World ApiClient Translator.
Import ListNotations.
Open Scope py_scope.

Module SrtFile.
Import Codec Timecode.

(** A non-empty run of decimal digits, leading zeros allowed. *)
Definition parse_number (s : str) : option Z :=
  match s with
  | [] => None
  | _ => option_map Z.of_uint (NilEmpty.uint_of_string (string_of_list_ascii s))
  end.

(** [HH:MM:SS,mmm] as the [ordinal] of a [SubRipTime]: milliseconds. *)
Definition parse_time (s : str) : option Z :=
  match split_on ":"%char s with
  | [h; m; rest] =>
      match split_on ","%char rest with
      | [sec; ms] =>
          match parse_number h, parse_number m, parse_number sec, parse_number ms with
          | Some h, Some m, Some sec, Some ms =>
              Some ((((h * 60 + m) * 60 + sec) * 1000 + ms)%Z)
          | _, _, _, _ => None
          end
      | _ => None
      end
  | _ => None
  end.

(** The timing line [start --> end]. *)
Definition parse_timing (line : str) : option (Z * Z) :=
  match split_on SP line with
  | [a; arrow; b] =>
      if List.list_eq_dec ascii_dec arrow (lit "-->") then
        match parse_time a, parse_time b with
        | Some s, Some e => Some (s, e)
        | _, _ => None
        end
      else None
  | _ => None
  end.

(** The lines grouped into blocks at the blank lines; [cur] holds the
    lines of the current block, last first. *)
Fixpoint blocks (cur : list str) (lines : list str) : list (list str) :=
  match lines with
  | [] => match cur with [] => [] | _ => [rev cur] end
  | [] :: ls => match cur with [] => blocks [] ls | _ => rev cur :: blocks [] ls end
  | l :: ls => blocks (l :: cur) ls
  end.

(** A block: the index, the timing, and the text lines joined. *)
Definition parse_block (b : list str) : option SubRipItem :=
  match b with
  | idx :: timing :: txt =>
      match parse_number idx, parse_timing timing with
      | Some i, Some (s, e) => Some (mk_item i (SubRipTime s) (SubRipTime e) (join [NL] txt))
      | _, _ => None
      end
  | _ => None
  end.

(** The cues of a file's text, malformed blocks skipped. *)
Definition parse_srt (content : str) : list SubRipItem :=
  flat_map (fun b => match parse_block b with Some c => [c] | None => [] end)
    (blocks [] (split_on NL content)).

(** [pysrt.open(file_path, encoding='utf-8')], with [read] the file
    system's answer to reading [file_path]. *)
Definition pysrt_open (read : str -> exc + str) (file_path : str) : exc + list SubRipItem :=
  match read file_path with
  | inl e => inl e
  | inr content => inr (parse_srt content)
  end.

End SrtFile.

(** ** Reading back what [str(n)] and [f"{n:0wd}"] print *)
Module SrtFileFacts.
Import Codec Timecode Translator SrtFile.

Lemma uint_of_zeros k s :
  NilEmpty.uint_of_string (string_of_list_ascii (repeat "0"%char k ++ s)) =
  option_map (Nat.iter k Decimal.D0) (NilEmpty.uint_of_string (string_of_list_ascii s)).
Proof.
  induction k as [|k IH]; simpl; [destruct (NilEmpty.uint_of_string _); reflexivity|].
  rewrite IH. destruct (NilEmpty.uint_of_string (string_of_list_ascii s)); reflexivity.
Qed.

Lemma of_uint_zeros k u : Z.of_uint (Nat.iter k Decimal.D0 u) = Z.of_uint u.
Proof. induction k as [|k IH]; [reflexivity|]. exact IH. Qed.

Lemma py_str_Z_uint n :
  (0 <= n)%Z -> exists u, py_str_Z n = lit (NilEmpty.string_of_uint u) /\ Z.of_uint u = n.
Proof.
  intros Hn. destruct n as [|p|p]; [exists (Decimal.D0 Decimal.Nil); split; reflexivity| |lia].
  exists (Pos.to_uint p). split; [reflexivity|].
  unfold Z.of_uint. rewrite DecimalPos.Unsigned.of_to. reflexivity.
Qed.

(** [f"{n:0wd}"] of a non-negative [n] reads back as [n]. *)
Lemma parse_number_fmt w n : (0 <= n)%Z -> parse_number (fmt_0d w n) = Some n.
Proof.
  intros Hn. destruct (py_str_Z_uint n Hn) as (u & Hs & Hv).
  destruct (py_str_Z_digits n Hn) as [Hne _].
  unfold fmt_0d. replace (n <? 0)%Z with false by (symmetry; apply Z.ltb_ge; exact Hn).
  rewrite Z.abs_eq by exact Hn. cbn [app].
  match goal with |- parse_number (repeat _ ?k ++ _) = _ => generalize k end. intros k.
  unfold parse_number. destruct (repeat "0"%char k ++ py_str_Z n) as [|c r] eqn:E.
  { apply app_eq_nil in E as [_ E]. contradiction. }
  rewrite <- E, uint_of_zeros, Hs. unfold lit.
  rewrite string_of_list_ascii_of_string, NilEmpty.usu. cbn [option_map].
  rewrite of_uint_zeros, Hv. reflexivity.
Qed.

Lemma parse_number_str n : (0 <= n)%Z -> parse_number (py_str_Z n) = Some n.
Proof.
  intros Hn. rewrite <- (parse_number_fmt 0 n Hn). unfold fmt_0d.
  replace (n <? 0)%Z with false by (symmetry; apply Z.ltb_ge; exact Hn).
  rewrite Z.abs_eq by exact Hn. reflexivity.
Qed.

Lemma fmt_digits w n : (0 <= n)%Z -> Forall (fun c => isdigit c = true) (fmt_0d w n).
Proof.
  intros Hn. unfold fmt_0d. replace (n <? 0)%Z with false by (symmetry; apply Z.ltb_ge; exact Hn).
  cbn [app]. apply Forall_app. split; [apply Forall_forall; intros c Hc; apply repeat_spec in Hc; subst; reflexivity|].
  apply py_str_Z_digits. lia.
Qed.

Lemma digits_not_in c s : isdigit c = false -> Forall (fun d => isdigit d = true) s -> ~ In c s.
Proof. intros Hc H Hin. rewrite Forall_forall in H. rewrite (H c Hin) in Hc. discriminate. Qed.

Lemma fmt_no c w n : isdigit c = false -> (0 <= n)%Z -> ~ In c (fmt_0d w n).
Proof. intros Hc Hn. apply digits_not_in; [exact Hc | apply fmt_digits, Hn]. Qed.

Ltac fmt_no := apply fmt_no; [first [reflexivity | assumption] | Z.div_mod_to_equations; lia].

(** The exact rendering of a non-negative time reads back as the time
    in whole milliseconds. *)
Lemma parse_time_exact td : (0 <= td)%Z -> parse_time (srt_time_exact td) = Some (td / 1000)%Z.
Proof.
  intros Htd. unfold srt_time_exact, parse_time.
  match goal with |- context [?h ++ lit ":" ++ ?m ++ lit ":" ++ ?s ++ lit "," ++ ?ms] =>
    change (h ++ lit ":" ++ m ++ lit ":" ++ s ++ lit "," ++ ms) with (join [":"%char] [h; m; s ++ [","%char] ++ ms]);
    rewrite split_on_join;
    [change (s ++ [","%char] ++ ms) with (join [","%char] [s; ms]); rewrite split_on_join
    | discriminate
    | repeat constructor; try fmt_no; rewrite !in_app_iff; intros [H|[[H|[]]|H]];
      [revert H; fmt_no | discriminate | revert H; fmt_no]]
  end.
  - rewrite !parse_number_fmt by (Z.div_mod_to_equations; lia).
    f_equal. Z.div_mod_to_equations. lia.
  - discriminate.
  - repeat constructor; fmt_no.
Qed.

(** Only digits, [:] and [,] occur in a rendered time. *)
Lemma time_chars c td :
  isdigit c = false -> c <> ":"%char -> c <> ","%char -> (0 <= td)%Z -> ~ In c (srt_time_exact td).
Proof.
  intros Hd H1 H2 Htd. unfold srt_time_exact.
  repeat (let H := fresh in intro H; apply in_app_or in H; destruct H as [H|H]; revert H;
          [first [fmt_no | cbn; intuition congruence] |]).
  fmt_no.
Qed.

Lemma parse_timing_exact s e :
  (0 <= s)%Z -> (0 <= e)%Z ->
  parse_timing (srt_time_exact s ++ lit " --> " ++ srt_time_exact e) = Some (s / 1000, e / 1000)%Z.
Proof.
  intros Hs He. unfold parse_timing.
  change (srt_time_exact s ++ lit " --> " ++ srt_time_exact e)
    with (join [SP] [srt_time_exact s; lit "-->"; srt_time_exact e]).
  rewrite split_on_join by (try discriminate; repeat constructor;
    try (apply time_chars; [reflexivity|discriminate|discriminate|assumption]); intros [H|[H|[H|[]]]]; discriminate).
  destruct (List.list_eq_dec ascii_dec (lit "-->") (lit "-->")) as [_|N]; [|contradiction N; reflexivity].
  rewrite !parse_time_exact by assumption. reflexivity.
Qed.

(** A [timedelta] time the float rendering gets right. *)
Definition exact_time (t : py_time) : Prop :=
  match t with
  | TimeDelta us => (0 <= us)%Z /\ renders_exactly us = true
  | SubRipTime _ => False
  end.

(** Its microseconds. *)
Definition time_us (t : py_time) : Z :=
  match t with TimeDelta us => us | SubRipTime o => (o * 1000)%Z end.

Lemma exact_render t : exact_time t -> _timedelta_to_srt t = inr (srt_time_exact (time_us t)) /\ (0 <= time_us t)%Z.
Proof.
  destruct t as [o|us]; [contradiction|]. intros [Hn He]. split; [|exact Hn].
  exact (TimecodeFacts.renders_exactly_spec us He).
Qed.

(** A cue the renderer and the reader agree on: a one-line text and
    non-negative [timedelta] times that render exactly. *)
Definition exact_item (it : translated_item) : Prop :=
  let '(t, s, e) := it in ~ In NL t /\ exact_time s /\ exact_time e.

(** The lines [srt_lines] produces for such cues. *)
Fixpoint rendered_lines (i : nat) (items : list translated_item) : list str :=
  match items with
  | [] => []
  | (t, s, e) :: rest =>
      py_str_Z (Z.of_nat i) :: (srt_time_exact (time_us s) ++ lit " --> " ++ srt_time_exact (time_us e)) :: t :: [] ::
      rendered_lines (S i) rest
  end.

(** The cue read back from the block of item [i]: pysrt's times, in whole
    milliseconds. *)
Definition read_back (it : nat * translated_item) : SubRipItem :=
  let '(i, (t, s, e)) := it in
  mk_item (Z.of_nat i) (SubRipTime (time_us s / 1000)) (SubRipTime (time_us e / 1000)) t.

Lemma srt_lines_exact i items :
  Forall exact_item items -> srt_lines i items = inr (rendered_lines i items).
Proof.
  revert i. induction items as [|[[t s] e] items IH]; intros i H; [reflexivity|].
  inv H. destruct H2 as (_ & Hs & He). cbn [srt_lines rendered_lines].
  rewrite (proj1 (exact_render s Hs)), (proj1 (exact_render e He)), (IH (S i) H3). reflexivity.
Qed.

Lemma blocks_block a b t rest :
  a <> [] -> b <> [] ->
  blocks [] (a :: b :: t :: [] :: rest) = (a :: b :: match t with [] => [] | _ => [t] end) :: blocks [] rest.
Proof. destruct a, b; try congruence. intros _ _. destruct t; reflexivity. Qed.

Lemma timing_nonempty a b : a ++ lit " --> " ++ b <> [].
Proof. destruct a; discriminate. Qed.

Lemma parse_rendered i items :
  Forall exact_item items ->
  flat_map (fun b => match parse_block b with Some c => [c] | None => [] end)
    (blocks [] (rendered_lines i items)) = map read_back (enumerate i items).
Proof.
  revert i. induction items as [|[[t s] e] items IH]; intros i H; [reflexivity|].
  inv H. destruct H2 as (_ & Hs & He). cbn [rendered_lines].
  apply exact_render in Hs as [_ Hs]. apply exact_render in He as [_ He].
  rewrite blocks_block by first [apply timing_nonempty | apply (fun H => proj1 (py_str_Z_digits _ H)); lia].
  cbn [flat_map parse_block]. rewrite parse_number_str, parse_timing_exact by lia.
  rewrite (IH (S i) H3). destruct t; reflexivity.
Qed.

Lemma rendered_no_nl i items :
  Forall exact_item items -> Forall (fun l => ~ In NL l) (rendered_lines i items).
Proof.
  revert i. induction items as [|[[t s] e] items IH]; intros i H; [constructor|].
  inv H. destruct H2 as (Ht & Hs & He). cbn [rendered_lines].
  apply exact_render in Hs as [_ Hs]. apply exact_render in He as [_ He].
  repeat constructor; [| |exact Ht|intros []|apply IH, H3].
  - apply digits_not_in; [reflexivity|apply (fun H => proj2 (py_str_Z_digits _ H)); lia].
  - rewrite !in_app_iff. intros [H|[H|H]];
      [revert H; apply time_chars; [reflexivity|discriminate|discriminate|exact Hs]
      | cbn in H; intuition discriminate
      | revert H; apply time_chars; [reflexivity|discriminate|discriminate|exact He]].
Qed.

Lemma render_read items :
  Forall exact_item items ->
  exists out, _create_srt_content items = inr out /\ parse_srt out = map read_back (enumerate 1 items).
Proof.
  intros H. exists (join [NL] (rendered_lines 1 items)). split.
  - unfold _create_srt_content. rewrite srt_lines_exact by exact H. reflexivity.
  - destruct items as [|[[t s] e] rest]; [reflexivity|]. unfold parse_srt.
    rewrite split_on_join; [apply parse_rendered, H | discriminate | apply rendered_no_nl, H].
Qed.

(** Every cue pysrt reads carries [SubRipTime] values. *)
Lemma parse_srt_subriptime content :
  Forall (fun o => exists s e, start o = SubRipTime s /\ end_ o = SubRipTime e) (parse_srt content).
Proof.
  unfold parse_srt. apply Forall_flat_map, Forall_forall. intros b _.
  unfold parse_block. destruct b as [|idx [|timing txt]]; try constructor.
  destruct (parse_number idx), (parse_timing timing) as [[s e]|]; repeat constructor. eauto.
Qed.

End SrtFileFacts.

(** ** The renderer and the reader *)
Module SrtFileSpec.
Import Codec Timecode Translator SrtFile SrtFileFacts.

(** C19: the spec's round-trip law, as far as the code keeps it: the text
    [_create_srt_content] renders reads back as the same cues, numbered
    from 1, with their texts and with their times truncated to the
    millisecond, for one-line texts and times the float computation
    renders exactly. *)
Theorem parse_render items :
  Forall exact_item items ->
  exists out, _create_srt_content items = inr out /\ parse_srt out = map read_back (enumerate 1 items).
Proof. exact (render_read items). Qed.

(** The round trip fails for a cue at 1.001 s: the float rendering
    writes 00:00:01,000, so the cue reads back one millisecond early. *)
Example parse_render_1001ms :
  match _create_srt_content [(lit "a", TimeDelta 1001000, TimeDelta 2000000)] with
  | inr out => parse_srt out
  | inl _ => []
  end = [mk_item 1 (SubRipTime 1000) (SubRipTime 2000) (lit "a")].
Proof. vm_compute. reflexivity. Qed.

Ltac exact_items :=
  repeat constructor; unfold exact_item, exact_time; repeat split;
  first [cbn; intuition discriminate | lia | vm_compute; reflexivity].

Lemma parse_render_witness :
  Forall exact_item [(lit "Hello", TimeDelta 1000000, TimeDelta 2000000); ([], TimeDelta 3723000000, TimeDelta 3723500000)] /\
  exists out, _create_srt_content [(lit "Hello", TimeDelta 1000000, TimeDelta 2000000);
                                   ([], TimeDelta 3723000000, TimeDelta 3723500000)] = inr out /\
    parse_srt out = [mk_item 1 (SubRipTime 1000) (SubRipTime 2000) (lit "Hello");
                     mk_item 2 (SubRipTime 3723000) (SubRipTime 3723500) []].
Proof.
  split; [exact_items|].
  apply (parse_render [(lit "Hello", TimeDelta 1000000, TimeDelta 2000000); ([], TimeDelta 3723000000, TimeDelta 3723500000)]).
  exact_items.
Defined.

End SrtFileSpec.
