(* ===== verification/Pipeline.v ===== *)
(** The translation pipeline end to end: [SRTTranslator.translate_file]
    (src/srt_translator.py, lines 15-59) from the file path, through
    [pysrt.open] ([SrtFile]), batching ([Batcher]), the prompt codec
    ([Codec]), the client ([ApiClient]) and the renderer ([Translator]).

    [reference_translation] says what the loop computes without the loop:
    the batches are the consecutive slices of [max 1 batch_size] cues, each
    is encoded, answered by a function [f] of the prompt body and decoded,
    and the decoded cues are rendered.  For every client whose answer is a
    function of the prompt body, [translate_file] agrees with it, whatever
    progress callback, log lines and other events the client adds.  From
    the file path, the cues pysrt reads carry [SubRipTime] values, so the
    rendering raises [AttributeError] on every file with a cue. *)
From Stdlib Require Import String Ascii List ZArith Lia Bool.
From S2P Require Import Prelude PyStr PyRegex Batcher Codec Timecode World ApiClient Translator SrtFile.
Import ListNotations.
Open Scope py_scope.

Module Pipeline.
Import World Codec Timecode Batcher Translator SrtFile.


(** The reference: what the loop computes, for a client answering [f]. *)
Definition reference_translation (f : str -> str) (subs : list SubRipItem) (batch_size : Z) : exc + str :=
  match subs with
  | [] => inl (ValueError (lit "File SRT trống hoặc không đọc được"))
  | _ => _create_srt_content
           (flat_map (fun b => _text_to_subtitles (f (_batch_to_text b)) b)
              (chunk (effective_size batch_size) subs))
  end.

(** A client whose answer is [f] of the prompt body, one call per
    request, adding only events to the world. *)
Definition answers `{C : AiClient} (f : str -> str) (src tgt style : str) : Prop :=
  forall text w, exists evs,
    ai_translate_text text src tgt style w = (inr (f text), mk_world (w_calls w + 1) (w_trace w ++ evs)).

(** An LM Studio server that, whatever the request number, answers the
    completion request of prompt [p] with a 200 reply whose first choice
    has the text [m p]: a model [m] behind [/completions]. *)
Definition serves (srv : server) (self : ApiClient.LMStudioClient) (m : str -> str) : Prop :=
  forall n p, exists rtext cs,
    srv n (ApiClient.base_url self ++ lit "/completions")
      (ReqCompletion (ApiClient.make_payload p ApiClient.no_opts)) =
      HttpReply 200 rtext (JsonObject (Some (mk_choice (Some (m p)) None :: cs))).

(** What the LM Studio client then answers to the prompt body [t]. *)
Definition lm_answer (m : str -> str) (src tgt style t : str) : str :=
  strip (m (ApiClient.translate_prompt t src tgt style)).

End Pipeline.

Module PipelineFacts.
Import World Codec Timecode Batcher Translator SrtFile Pipeline.

(** The loop's result when the answer to each batch is [g] of it. *)
Lemma loop_result {A} (g : list SubRipItem -> str) (ibs : list (nat * list SubRipItem)) (outs : list (str * A)) :
  length outs = length ibs ->
  Forall (fun '((_, b), o) => fst o = g b) (combine ibs outs) ->
  concat (map (fun '((i, b), o) => _text_to_subtitles (fst o) b) (combine ibs outs)) =
  concat (map (fun '((_, b) : nat * list SubRipItem) => _text_to_subtitles (g b) b) ibs).
Proof.
  revert outs. induction ibs as [|[i b] ibs IH]; intros outs Hl Hr; [reflexivity|].
  destruct outs as [|o outs]; [discriminate|]. cbn [combine] in Hr. inv Hr.
  cbn [combine map concat]. rewrite H1. f_equal. apply IH; [simpl in Hl; lia|assumption].
Qed.

(** [translate_file] computes the reference, for a client answering [f]. *)
Lemma translate_file_ref `{C : AiClient} (f : str -> str) subs src tgt style bs cb w :
  answers f src tgt style ->
  fst (translate_file subs src tgt style bs cb w) = reference_translation f subs bs.
Proof.
  intros Hf. destruct subs as [|s0 rest]; [reflexivity|].
  rewrite TranslatorFacts.translate_file_nonempty by discriminate.
  set (subs := s0 :: rest). set (batches := _create_batches subs bs).
  assert (HP : forall text w, exists r evs,
             ai_translate_text text src tgt style w = (inr r, mk_world (w_calls w + 1) (w_trace w ++ evs)) /\
             (fun text r (_ : list event) => r = f text) text r evs)
    by (intros text w'; destruct (Hf text w') as (evs & E); exists (f text), evs; split; [exact E|reflexivity]).
  destruct (TranslatorFacts.translate_loop_run src tgt style cb (Z.of_nat (length batches)) _ HP
              (enumerate 1 batches) [] w) as (outs & Hl & Hr & E).
  unfold bind. rewrite E. cbn [fst lift app]. unfold reference_translation, subs.
  rewrite (loop_result (fun b => f (_batch_to_text b))); [|exact Hl|].
  - rewrite TranslatorFacts.concat_map_enumerate, flat_map_concat_map. subst batches.
    batches_to_chunk. reflexivity.
  - eapply Forall_impl; [|exact Hr]. intros [[i b] o] H. exact H.
Qed.

(** The echo client answers the prompt body itself. *)
Lemma echo_answers src tgt style : @answers echo_ai (fun t => t) src tgt style.
Proof. intros text w. exists []. rewrite app_nil_r. reflexivity. Qed.

(** The LM Studio client on a server serving [m] answers [lm_answer m]. *)
Lemma lm_studio_answers srv self m src tgt style :
  serves srv self m -> @answers (lm_studio_ai srv self) (lm_answer m src tgt style) src tgt style.
Proof.
  intros Hs text w. destruct (Hs (w_calls w) (ApiClient.translate_prompt text src tgt style)) as (rt & cs & Hr).
  eexists. cbn [ai_translate_text lm_studio_ai]. unfold ApiClient.translate_text.
  rewrite (ApiClientSpec.generate_text_ok _ _ _ _ _ _ _ _ Hr). reflexivity.
Qed.

End PipelineFacts.

Module PipelineSpec.
Import World Codec Timecode Batcher Translator SrtFile Pipeline PipelineFacts.

(** C18: [translate_file] is equivalent to its reference: for every
    client whose answer is a function [f] of the prompt body, its result
    is the rendering of the decoded answers to the consecutive slices of
    [max 1 batch_size] cues, whatever the progress callback and the
    events the client adds; an empty cue list raises [ValueError] in
    both. *)
Theorem translate_file_reference `{C : AiClient} (f : str -> str) subs src tgt style bs cb w :
  answers f src tgt style ->
  fst (translate_file subs src tgt style bs cb w) = reference_translation f subs bs.
Proof. exact (translate_file_ref f subs src tgt style bs cb w). Qed.


(** ** Witnesses *)

Lemma translate_file_reference_witness :
  @answers echo_ai (fun t => t) (lit "en") (lit "vi") (lit "modern") /\
  fst (@translate_file echo_ai [TranslatorSamples.hello; TranslatorSamples.world_cue]
         (lit "en") (lit "vi") (lit "modern") 1 true TranslatorSamples.w0) =
  reference_translation (fun t => t) [TranslatorSamples.hello; TranslatorSamples.world_cue] 1.
Proof.
  pose proof (echo_answers (lit "en") (lit "vi") (lit "modern")) as H.
  split; [exact H|]. apply (translate_file_reference (fun t => t)). exact H.
Defined.



End PipelineSpec.
