(* ===== verification/StoryEditor.v ===== *)
(** The story editor [StoryEditor] (src/story_editor.py): prompts for
    editing, analysis and continuation sent through the client's
    [generate_text], and the parsing of the analysis reply into a
    dictionary (lines 80-88), modelled as a [gmap]. *)
From Stdlib Require Import String Ascii List ZArith QArith.
From stdpp Require Import base gmap strings.
From S2P Require Import Prelude PyStr World ApiClient.
Import ListNotations.
Open Scope py_scope.

(** What the story editor uses of its [ai_client]: [generate_text] with
    keyword arguments and [generate_image_script]. *)
Class AiTextClient := {
  ai_generate_text : str -> ApiClient.gen_opts -> PyM World.world str;
  ai_generate_image_script : str -> Z -> str -> str -> PyM World.world str
}.

#[export] Instance lm_studio_text (srv : World.server) (self : ApiClient.LMStudioClient) : AiTextClient :=
  { ai_generate_text := ApiClient.generate_text srv self;
    ai_generate_image_script := ApiClient.generate_image_script srv self }.

Module StoryEditor.
Import World ApiClient.

(** Lines 17-23 *)
Definition instruction_map : gmap string string :=
  list_to_map [("Chỉnh văn phong", "Hãy chỉnh sửa văn phong của truyện cho hay hơn, tự nhiên hơn");
               ("Tóm tắt", "Hãy tóm tắt truyện một cách ngắn gọn nhưng vẫn giữ được nội dung chính");
               ("Mở rộng", "Hãy mở rộng truyện thêm chi tiết, làm phong phú hơn");
               ("Sửa lỗi chính tả", "Hãy sửa tất cả lỗi chính tả và ngữ pháp trong truyện");
               ("Tối ưu hóa", "Hãy tối ưu hóa cấu trúc và cách diễn đạt của truyện")]%string.

(** Lines 25-31: the instruction, with the length request appended. *)
Definition edit_instruction (edit_type length_preference : str) : str :=
  let instruction := lit (ApiClient.get_or "Hãy chỉnh sửa truyện"%string
                            (instruction_map !! string_of_list_ascii edit_type)) in
  if List.list_eq_dec ascii_dec length_preference (lit "ngắn hơn") then
    instruction ++ lit ". Hãy làm cho truyện ngắn gọn hơn"
  else if List.list_eq_dec ascii_dec length_preference (lit "dài hơn") then
    instruction ++ lit ". Hãy mở rộng truyện dài hơn"
  else instruction.

(** Lines 34-39 *)
Definition edit_story_prompt (instruction story : str) : str :=
  instruction ++ lit "

TRUYỆN GỐC:
" ++ story ++ lit "

TRUYỆN ĐÃ CHỈNH SỬA:".

Section WithClient.
Context `{A : AiTextClient}.

(** Lines 12-48: [edit_story]: [max_tokens=4000, temperature=0.7]. *)
Definition edit_story (story edit_type length_preference : str) : PyM world str :=
  ai_generate_text (edit_story_prompt (edit_instruction edit_type length_preference) story)
    (mk_opts (Some 4000%Z) (Some (7 # 10)) None None).

(** Lines 50-61: [generate_image_script] delegates to the client;
    [include_prompts] is accepted and ignored. *)
Definition generate_image_script (story : str) (num_scenes : Z) (style detail_level : str)
    (include_prompts : bool) : PyM world str :=
  ai_generate_image_script story num_scenes style detail_level.

(** Lines 65-75 *)
Definition analyze_prompt (story : str) : str := lit "Hãy phân tích truyện sau:

" ++ story ++ lit "

PHÂN TÍCH:
1. Thể loại:
2. Nhân vật chính:
3. Bối cảnh:
4. Cốt truyện chính:
5. Điểm mạnh:
6. Điểm cần cải thiện:".

(** Lines 84-86: a line with a colon is split at its first colon; key and
    value are stripped and the entry overwrites an earlier one. *)
Definition analysis_step (result : gmap string str) (line : str) : gmap string str :=
  if List.in_dec ascii_dec ":"%char line then
    let '(key, value) := split_once ":"%char line in
    <[string_of_list_ascii (strip key) := strip value]> result
  else result.

(** Lines 80-88: [analysis.split('\n')], then the loop. *)
Definition parse_analysis (analysis : str) : gmap string str :=
  fold_left analysis_step (split_on NL analysis) ∅.

(** Lines 63-88: [analyze_story]. *)
Definition analyze_story (story : str) : PyM world (gmap string str) :=
  analysis <- ai_generate_text (analyze_prompt story) ApiClient.no_opts ;;
  ret (parse_analysis analysis).

(** Lines 90-101: [generate_continuation]: [max_tokens=length * 2]. *)
Definition continuation_prompt (story : str) (length : Z) : str :=
  lit "Hãy tiếp tục câu chuyện sau (khoảng " ++ py_str_Z length ++ lit " từ):

" ++ story ++ lit "

PHẦN TIẾP THEO:".

Definition generate_continuation (story : str) (length : Z) : PyM world str :=
  ai_generate_text (continuation_prompt story length) (mk_opts (Some (length * 2)%Z) None None None).

End WithClient.

(** Reference for the parsing loop: the stripped value of the last line
    whose stripped key is [k]. *)
Definition last_entry (k : string) (lines : list str) : option str :=
  fold_left (fun acc line =>
    if List.in_dec ascii_dec ":"%char line then
      let '(key, value) := split_once ":"%char line in
      if String.eqb (string_of_list_ascii (strip key)) k then Some (strip value) else acc
    else acc) lines None.

End StoryEditor.

Module StoryEditorSpec.
Import StoryEditor.

Lemma analysis_loop k lines : forall m acc,
  (forall v, acc = Some v -> m !! k = Some v) -> (acc = None -> m !! k = None) ->
  fold_left analysis_step lines m !! k =
  match fold_left (fun acc line =>
    if List.in_dec ascii_dec ":"%char line then
      let '(key, value) := split_once ":"%char line in
      if String.eqb (string_of_list_ascii (strip key)) k then Some (strip value) else acc
    else acc) lines acc with
  | Some v => Some v
  | None => None
  end.
Proof.
  induction lines as [|line lines IH]; intros m acc Hs Hn; cbn [fold_left].
  - destruct acc as [v|]; [apply Hs; reflexivity|apply Hn; reflexivity].
  - apply IH; unfold analysis_step;
      destruct (List.in_dec ascii_dec ":"%char line); try (exact Hs || exact Hn);
      destruct (split_once ":"%char line) as [key value];
      destruct (String.eqb_spec (string_of_list_ascii (strip key)) k) as [<-|Hne];
      intros; simplify_eq; try (apply lookup_insert_eq);
      rewrite lookup_insert_ne by congruence; auto.
Qed.

(** after parsing, a key maps to the value of the last reply line
    that carries it: later lines overwrite earlier ones, and keys are
    compared after stripping. *)
Theorem parse_analysis_last analysis k :
  parse_analysis analysis !! k = last_entry k (split_on NL analysis).
Proof.
  unfold parse_analysis, last_entry.
  rewrite (analysis_loop k _ ∅ None) by (intros; discriminate || apply lookup_empty).
  destruct (fold_left _ _ None); reflexivity.
Qed.

End StoryEditorSpec.
