(* ===== verification/App.v ===== *)
(** Application start-up: [main] (src/main.py, lines 21-85), the logger
    set-up [setup_logger] (src/utils/logger.py) and the construction of the
    window [MainApp.__init__] / [setup_app] (src/gui.py, lines 18-43).  The
    file system, the loggers and what the process prints are explicit state;
    the point of the model is that [setup_app] uses [Path], which gui.py never
    imports, so the window is never built.  What [input()] raises in the
    [except] block is a parameter: nothing at a console, [RuntimeError] in
    the [--windowed] bundle build.py makes, where [sys.stdin] is [None]. *)
From Stdlib Require Import String Ascii List ZArith Lia.
From S2P Require Import Prelude PyStr.
Import ListNotations.
Open Scope py_scope.

Module App.

(** JSON values as [json.load] returns them. *)
#[warnings="-register-all"]
Inductive json :=
| JStr (s : str)
| JList (l : list json)
| JObj (kv : list (str * json)).

(** A file's content: JSON text, or text [json.load] rejects. *)
Inductive file_content := FJson (j : json) | FRaw (s : str).

(** The handlers of a [logging.Logger]. *)
Inductive handler := ConsoleHandler | FileHandler (path : str).

Inductive app_event :=
| AMkdir (path : str)
| AWrite (path : str)
| ALog (msg : str)
| APrint (msg : str)
| AInput (prompt : str)
| ATitle (title : str)
| AGeometry (g : str)
| AMinsize (w h : Z)
| AMainloop
| AExit (code : Z).

Record app_world := mk_app {
  a_dirs : list str;
  a_files : list (str * file_content);
  a_loggers : list (str * list handler);
  a_events : list app_event
}.

Definition emit (e : app_event) : PyM app_world unit :=
  modify (fun w => mk_app (a_dirs w) (a_files w) (a_loggers w) (a_events w ++ [e])).

Definition path_join (p q : str) : str := p ++ lit "/" ++ q.

Definition file_lookup (p : str) (fs : list (str * file_content)) : option file_content :=
  option_map snd (find (fun '(q, _) => if List.list_eq_dec ascii_dec p q then true else false) fs).

Definition str_in (p : str) (l : list str) : bool :=
  if List.in_dec (List.list_eq_dec ascii_dec) p l then true else false.

(** [Path(p).mkdir(exist_ok=True)]: an existing directory is fine, an
    existing file raises [FileExistsError]. *)
Definition mkdir_exist_ok (p : str) : PyM app_world unit :=
  fun w =>
    match file_lookup p (a_files w) with
    | Some _ => (inl (OtherError (lit "FileExistsError") (lit "[Errno 17] File exists: '" ++ p ++ lit "'")), w)
    | None =>
        if str_in p (a_dirs w) then (inr tt, w)
        else (inr tt, mk_app (a_dirs w ++ [p]) (a_files w) (a_loggers w) (a_events w ++ [AMkdir p]))
    end.

(** [Path(p).exists()] *)
Definition path_exists (p : str) (w : app_world) : bool :=
  str_in p (a_dirs w) || match file_lookup p (a_files w) with Some _ => true | None => false end.

(** Writing a file (opened with ['w']): the content replaces any old one. *)
Definition write_file (p : str) (c : file_content) : PyM app_world unit :=
  fun w => (inr tt, mk_app (a_dirs w)
                      ((p, c) :: filter (fun '(q, _) => if List.list_eq_dec ascii_dec p q then false else true) (a_files w))
                      (a_loggers w) (a_events w ++ [AWrite p])).

(** [open(p)] and [json.load]: a missing file, a directory and text that is
    not JSON raise. *)
Definition read_json (p : str) : PyM app_world json :=
  fun w =>
    match file_lookup p (a_files w) with
    | Some (FJson j) => (inr j, w)
    | Some (FRaw _) => (inl (ValueError (lit "Expecting value: line 1 column 1 (char 0)")), w)
    | None =>
        if str_in p (a_dirs w)
        then (inl (OtherError (lit "IsADirectoryError") (lit "[Errno 21] Is a directory: '" ++ p ++ lit "'")), w)
        else (inl (OtherError (lit "FileNotFoundError") (lit "[Errno 2] No such file or directory: '" ++ p ++ lit "'")), w)
    end.

(** [d[k]] on a loaded JSON value: the last occurrence of a duplicated key
    wins, as in [json.load]; a missing key raises [KeyError] (whose [str] is
    the quoted key) and a non-object raises [TypeError]. *)
Definition json_getitem (j : json) (k : str) : exc + json :=
  match j with
  | JObj kv =>
      match find (fun '(q, _) => if List.list_eq_dec ascii_dec k q then true else false) (rev kv) with
      | Some (_, v) => inr v
      | None => inl (OtherError (lit "KeyError") (lit "'" ++ k ++ lit "'"))
      end
  | JStr _ => inl (OtherError (lit "TypeError") (lit "string indices must be integers, not 'str'"))
  | JList _ => inl (OtherError (lit "TypeError") (lit "list indices must be integers or slices, not str"))
  end.

(** [f"{v}"] for a JSON value: a string as itself, a list or dictionary by
    its [repr]. *)
Fixpoint json_repr (j : json) : str :=
  match j with
  | JStr s => lit "'" ++ s ++ lit "'"
  | JList l => lit "[" ++ join (lit ", ") (map json_repr l) ++ lit "]"
  | JObj kv => lit "{" ++ join (lit ", ") (map (fun '(k, v) => lit "'" ++ k ++ lit "': " ++ json_repr v) kv) ++ lit "}"
  end.

Definition json_format (j : json) : str :=
  match j with JStr s => s | _ => json_repr j end.

Definition lift_exc {A} (r : exc + A) : PyM app_world A := fun w => (r, w).

(** [setup_logger(name)] (src/utils/logger.py, lines 6-39): the [logs]
    directory at the repository root, then a console handler and a file
    handler [logs/app_<date>.log] appended to the named logger.  The logger
    registry is global: a second call appends two more handlers. *)
Definition setup_logger (root today : str) (name : str) : PyM app_world unit :=
  let log_dir := path_join root (lit "logs") in
  mkdir_exist_ok log_dir ;;;
  let log_file := path_join log_dir (lit "app_" ++ today ++ lit ".log") in
  fun w =>
    let hs := match find (fun '(n, _) => if List.list_eq_dec ascii_dec n name then true else false) (a_loggers w) with
              | Some (_, hs) => hs
              | None => []
              end in
    (inr tt, mk_app (a_dirs w) (a_files w)
               ((name, hs ++ [ConsoleHandler; FileHandler log_file]) ::
                filter (fun '(n, _) => if List.list_eq_dec ascii_dec n name then false else true) (a_loggers w))
               (a_events w)).

(** [logger.info(msg)] *)
Definition log_info (msg : str) : PyM app_world unit := emit (ALog msg).

(** The configuration [create_default_config] writes (src/main.py, lines
    57-82). *)
Definition default_config : json :=
  JObj [(lit "app_name", JStr (lit "AI Story Creator Pro"));
        (lit "version", JStr (lit "1.0.0"));
        (lit "lm_studio_url", JStr (lit "http://localhost:1234/v1"));
        (lit "sd_api_url", JStr (lit "http://localhost:7860"));
        (lit "themes", JObj [(lit "light", JStr (lit "#FFFFFF")); (lit "dark", JStr (lit "#1E1E1E"));
                             (lit "primary", JStr (lit "#6366F1")); (lit "secondary", JStr (lit "#8B5CF6"))]);
        (lit "translation_styles", JList (map JStr [lit "hiện đại"; lit "cổ đại"; lit "văn học"; lit "giản dị"; lit "trẻ trung"]));
        (lit "platforms", JList (map JStr [lit "bilibili.com"; lit "v.qq.com"; lit "youku.com"; lit "iqiyi.com"; lit "douyin.com"]))].

(** [create_default_config(config_path)] (lines 55-85) *)
Definition create_default_config (config_path : str) : PyM app_world unit :=
  write_file config_path (FJson default_config).

(** [MainApp.setup_app] (src/gui.py, lines 26-43): the title, geometry and
    minimum size are set, then line 33 evaluates [Path(__file__)], and
    [Path] is not defined in gui.py: [NameError].  The lines after it are
    never reached. *)
Definition setup_app (config : json) : PyM app_world unit :=
  title <- lift_exc (json_getitem config (lit "app_name")) ;;
  emit (ATitle (json_format title)) ;;;
  emit (AGeometry (lit "1200x800")) ;;;
  emit (AMinsize 1000 700) ;;;
  raise (OtherError (lit "NameError") (lit "name 'Path' is not defined")).

(** [MainApp.__init__] (lines 18-24): [setup_app] comes first and always
    raises, so [create_widgets] and [setup_clients] never run. *)
Definition main_app_init (config : json) : PyM app_world unit := setup_app config.

(** The [try] block of [main()] (src/main.py, lines 23-48), run from the
    directory [src_dir] of main.py inside the repository [root], on the day
    [today]. *)
Definition main_body (root src_dir today : str) : PyM app_world unit :=
  for_each [lit "output"; lit "logs"; lit "temp"; lit "models"] tt
    (fun d _ => mkdir_exist_ok (path_join src_dir d)) ;;;
  setup_logger root today (lit "AI_Story_App") ;;;
  log_info (lit "============================================================") ;;;
  log_info (lit "Khởi động AI Story Creator Pro") ;;;
  log_info (lit "============================================================") ;;;
  let config_path := path_join src_dir (lit "config.json") in
  (fun w => (if path_exists config_path w then ret tt else create_default_config config_path) w) ;;;
  config <- read_json config_path ;;
  version <- lift_exc (json_getitem config (lit "version")) ;;
  log_info (lit "Phiên bản: " ++ json_format version) ;;;
  main_app_init config ;;;
  emit AMainloop.

(** The [except Exception as e] block (lines 50-53).  [input_error] is
    what [input()] raises: [None] at a console, where it returns once the
    user presses Enter; in the [--windowed] bundle of build.py (line 46)
    [sys.stdin] is [None] and [input()] raises [RuntimeError], which
    leaves [main] before [sys.exit(1)].  Otherwise [sys.exit(1)] raises
    [SystemExit], which leaves [main]. *)
Definition main_except (input_error : option exc) (e : exc) : PyM app_world unit :=
  emit (APrint (lit "Lỗi khởi động ứng dụng: " ++ exc_str e)) ;;;
  emit (AInput (lit "Nhấn Enter để thoát...")) ;;;
  match input_error with
  | Some ie => raise ie
  | None => emit (AExit 1) ;;; raise (OtherError (lit "SystemExit") (lit "1"))
  end.

(** [main()] (lines 21-53) *)
Definition main (input_error : option exc) (root src_dir today : str) : PyM app_world unit :=
  try_except (main_body root src_dir today) (main_except input_error).

(** The guard of lines 87-88: [main()] runs when main.py is the script
    Python was started with ([__name__] is ["__main__"]); importing the
    module runs nothing more. *)
Definition run_module (input_error : option exc) (name root src_dir today : str) : PyM app_world unit :=
  if List.list_eq_dec ascii_dec name (lit "__main__") then main input_error root src_dir today else ret tt.

End App.

Module AppFacts.
Import App.

(** [m] runs into an exception, whatever the state. *)
Definition raises {A} (m : PyM app_world A) : Prop := forall w, exists e, fst (m w) = inl e.

(** [m] never records the main loop as started. *)
Definition no_mainloop {A} (m : PyM app_world A) : Prop :=
  forall w, ~ In AMainloop (a_events w) -> ~ In AMainloop (a_events (snd (m w))).

Create HintDb appdb.

Lemma raises_raise {A} e : raises (@raise app_world A e).
Proof. intros w. exists e. reflexivity. Qed.

Lemma raises_bind_r {A B} (m : PyM app_world A) (k : A -> PyM app_world B) :
  (forall a, raises (k a)) -> raises (bind m k).
Proof.
  intros Hk w. unfold bind. destruct (m w) as [[e|a] w']; [exists e; reflexivity|apply Hk].
Qed.

Lemma raises_bind_l {A B} (m : PyM app_world A) (k : A -> PyM app_world B) :
  raises m -> raises (bind m k).
Proof.
  intros Hm w. destruct (Hm w) as [e He]. unfold bind.
  destruct (m w) as [[e'|a] w']; cbn in He; [exists e'; reflexivity|discriminate].
Qed.

Lemma no_mainloop_ret {A} (a : A) : no_mainloop (ret a).
Proof. intros w H. exact H. Qed.

Lemma no_mainloop_raise {A} e : no_mainloop (@raise app_world A e).
Proof. intros w H. exact H. Qed.

Lemma no_mainloop_lift {A} (r : exc + A) : no_mainloop (lift_exc r).
Proof. intros w H. exact H. Qed.

Lemma no_mainloop_emit e : e <> AMainloop -> no_mainloop (emit e).
Proof.
  intros Hne w H. cbn. intros Hin. apply in_app_or in Hin as [Hin|[Hin|[]]]; [exact (H Hin)|congruence].
Qed.

Lemma no_mainloop_bind {A B} (m : PyM app_world A) (k : A -> PyM app_world B) :
  no_mainloop m -> (forall a, no_mainloop (k a)) -> no_mainloop (bind m k).
Proof.
  intros Hm Hk w H. specialize (Hm w H). unfold bind.
  destruct (m w) as [[e|a] w']; [exact Hm|exact (Hk a w' Hm)].
Qed.

(** A step that raises hides what would follow it. *)
Lemma no_mainloop_bind_raises {A B} (m : PyM app_world A) (k : A -> PyM app_world B) :
  raises m -> no_mainloop m -> no_mainloop (bind m k).
Proof.
  intros Hr Hm w H. destruct (Hr w) as [e He]. specialize (Hm w H). unfold bind.
  destruct (m w) as [[e'|a] w']; cbn in He; [exact Hm|discriminate].
Qed.

Lemma no_mainloop_mkdir p : no_mainloop (mkdir_exist_ok p).
Proof.
  intros w H. unfold mkdir_exist_ok. destruct (file_lookup p (a_files w)); [exact H|].
  destruct (str_in p (a_dirs w)); [exact H|]. cbn.
  intros Hin. apply in_app_or in Hin as [Hin|[Hin|[]]]; [exact (H Hin)|discriminate].
Qed.

Lemma no_mainloop_write p c : no_mainloop (write_file p c).
Proof.
  intros w H. cbn. intros Hin. apply in_app_or in Hin as [Hin|[Hin|[]]]; [exact (H Hin)|discriminate].
Qed.

Lemma no_mainloop_read p : no_mainloop (read_json p).
Proof.
  intros w H. unfold read_json.
  destruct (file_lookup p (a_files w)) as [[j|s]|]; [exact H|exact H|].
  destruct (str_in p (a_dirs w)); exact H.
Qed.

Lemma no_mainloop_setup_logger root today name : no_mainloop (setup_logger root today name).
Proof.
  unfold setup_logger. apply no_mainloop_bind; [apply no_mainloop_mkdir|].
  intros _ w H. exact H.
Qed.

Lemma no_mainloop_for_each {A B} (xs : list A) (acc : B) body :
  (forall x b, no_mainloop (body x b)) -> no_mainloop (for_each xs acc body).
Proof.
  intros Hb. revert acc. induction xs as [|x xs IH]; intros acc; cbn.
  - apply no_mainloop_ret.
  - apply no_mainloop_bind; [apply Hb|intros; apply IH].
Qed.

Lemma setup_app_raises config : raises (setup_app config).
Proof.
  unfold setup_app. apply raises_bind_r. intros t.
  repeat (apply raises_bind_r; intros _). apply raises_raise.
Qed.

Lemma setup_app_no_mainloop config : no_mainloop (setup_app config).
Proof.
  unfold setup_app. apply no_mainloop_bind; [apply no_mainloop_lift|intros t].
  repeat (apply no_mainloop_bind; [apply no_mainloop_emit; discriminate|intros _]).
  apply no_mainloop_raise.
Qed.

Lemma main_body_raises root src_dir today : raises (main_body root src_dir today).
Proof.
  unfold main_body. do 9 (apply raises_bind_r; intros ?).
  apply raises_bind_l. apply setup_app_raises.
Qed.

Lemma main_body_no_mainloop root src_dir today : no_mainloop (main_body root src_dir today).
Proof.
  unfold main_body.
  apply no_mainloop_bind; [apply no_mainloop_for_each; intros; apply no_mainloop_mkdir|intros _].
  apply no_mainloop_bind; [apply no_mainloop_setup_logger|intros _].
  repeat (apply no_mainloop_bind; [apply no_mainloop_emit; discriminate|intros _]).
  apply no_mainloop_bind.
  { intros w H. destruct (path_exists _ w); [exact H|apply no_mainloop_write; exact H]. }
  intros _. apply no_mainloop_bind; [apply no_mainloop_read|intros config].
  apply no_mainloop_bind; [apply no_mainloop_lift|intros version].
  apply no_mainloop_bind; [apply no_mainloop_emit; discriminate|intros _].
  apply no_mainloop_bind_raises; [apply setup_app_raises|apply setup_app_no_mainloop].
Qed.

End AppFacts.

Module AppSpec.
Import App AppFacts.

(** What [main()]'s [except] block leaves: the exception it raises and
    the events it records after the start-up error. *)
Definition exit_exc (input_error : option exc) : exc :=
  match input_error with Some ie => ie | None => OtherError (lit "SystemExit") (lit "1") end.
Definition exit_events (input_error : option exc) (e : exc) : list app_event :=
  [APrint (lit "Lỗi khởi động ứng dụng: " ++ exc_str e); AInput (lit "Nhấn Enter để thoát...")] ++
  match input_error with Some _ => [] | None => [AExit 1] end.

(** C5: the application never starts: whatever the file system holds and
    whatever [input()] does, [main()] never reaches [app.mainloop()]; it
    prints the start-up error and waits for Enter, then exits with status
    1 at a console, or raises [input()]'s own error where there is no
    standard input (the [--windowed] bundle), before [sys.exit(1)]. *)
Theorem main_never_starts input_error root src_dir today w :
  ~ In AMainloop (a_events w) ->
  exists e w1,
    main input_error root src_dir today w =
      (inl (exit_exc input_error),
       mk_app (a_dirs w1) (a_files w1) (a_loggers w1) (a_events w1 ++ exit_events input_error e)) /\
    ~ In AMainloop (a_events w1).
Proof.
  intros H. destruct (main_body_raises root src_dir today w) as [e He].
  pose proof (main_body_no_mainloop root src_dir today w H) as Hn.
  unfold main, try_except. destruct (main_body root src_dir today w) as [[e'|u] w1]; [|discriminate].
  cbn in He, Hn. injection He as ->. exists e, w1. split; [|exact Hn].
  destruct input_error; cbn; rewrite <- !app_assoc; reflexivity.
Qed.

(** on a fresh installation (no config.json yet), [main()] creates the
    directories and the default configuration, logs the version, sets the
    window title, geometry and minimum size, and then fails with
    [NameError: name 'Path' is not defined], which it prints before exiting
    with status 1. *)
Theorem main_fresh_install :
  let r := main None (lit "/repo") (lit "/repo/src") (lit "20261109")
             (mk_app [lit "/repo"; lit "/repo/src"] [] [] []) in
  fst r = inl (OtherError (lit "SystemExit") (lit "1")) /\
  skipn 10 (a_events (snd r)) =
    [ATitle (lit "AI Story Creator Pro"); AGeometry (lit "1200x800"); AMinsize 1000 700;
     APrint (lit "Lỗi khởi động ứng dụng: name 'Path' is not defined");
     AInput (lit "Nhấn Enter để thoát..."); AExit 1].
Proof. vm_compute. split; reflexivity. Qed.

(** The [--windowed] bundle: [input()] raises [RuntimeError]. *)
Example main_never_starts_witness :
  ~ In AMainloop (a_events (mk_app [] [] [] [])) /\
  exists e w1,
    main (Some (OtherError (lit "RuntimeError") (lit "input(): lost sys.stdin")))
      (lit "/r") (lit "/r/src") (lit "d") (mk_app [] [] [] []) =
      (inl (OtherError (lit "RuntimeError") (lit "input(): lost sys.stdin")),
       mk_app (a_dirs w1) (a_files w1) (a_loggers w1)
         (a_events w1 ++ exit_events (Some (OtherError (lit "RuntimeError") (lit "input(): lost sys.stdin"))) e)) /\
    ~ In AMainloop (a_events w1).
Proof.
  assert (H : ~ In AMainloop (a_events (mk_app [] [] [] []))) by (cbn; tauto).
  split; [exact H|]. exact (main_never_starts _ _ _ _ _ H).
Defined.

End AppSpec.
