(* ===== verification/Build.v ===== *)
(** The build script src/build.py: [build_app] checks for [src/main.py],
    copies the assets into [build/], runs PyInstaller and copies
    [config.json] and [README.md] next to the executable.  The file system
    is the set of folders and files that exist; PyInstaller is an oracle
    that, given its arguments, raises before or after writing its spec
    file into the working directory, or writes the spec file and builds the
    bundle in [./dist/AI_Story_Creator_Pro] of the working directory (its
    default [--distpath]); [print] appends a line to the output. *)
From Stdlib Require Import String Ascii List Lia Bool.
From S2P Require Import Prelude PyStr.
Import ListNotations.
Open Scope py_scope.

Module Build.

Record bstate := mk_bstate {
  b_dirs : list str;     (* the folders that exist *)
  b_files : list str;    (* the files that exist *)
  b_out : list str       (* the lines printed *)
}.

Definition str_eqb (a b : str) : bool := if List.list_eq_dec ascii_dec a b then true else false.

(** [Path(p) / q] *)
Definition path_div (p q : str) : str := p ++ lit "/" ++ q.

Fixpoint starts_with (pre s : str) : bool :=
  match pre, s with
  | [], _ => true
  | a :: pre', b :: s' => Ascii.eqb a b && starts_with pre' s'
  | _ :: _, [] => false
  end.

(** Is [f] inside the folder [d]? *)
Definition under (d f : str) : bool := starts_with (d ++ lit "/") f.

(** [p.exists()] *)
Definition exists_ (w : bstate) (p : str) : bool :=
  existsb (str_eqb p) (b_dirs w) || existsb (str_eqb p) (b_files w).

Definition is_dir (w : bstate) (p : str) : bool := existsb (str_eqb p) (b_dirs w).

(** The folder part of [p]: everything before its last slash. *)
Fixpoint drop_to_slash (s : str) : str :=
  match s with
  | [] => []
  | c :: s' => if Ascii.eqb c "/"%char then s' else drop_to_slash s'
  end.

Definition parent (p : str) : str := rev (drop_to_slash (rev p)).

Definition print (line : str) : PyM bstate unit :=
  modify (fun w => mk_bstate (b_dirs w) (b_files w) (b_out w ++ [line])).

Definition not_found (p : str) : exc :=
  OtherError (lit "FileNotFoundError") (lit "[Errno 2] No such file or directory: '" ++ p ++ lit "'").

(** [p.mkdir(exist_ok=True)] *)
Definition mkdir_exist_ok (p : str) : PyM bstate unit :=
  fun w =>
    if is_dir w p then (inr tt, w)
    else if existsb (str_eqb p) (b_files w) then
      (inl (OtherError (lit "FileExistsError") (lit "[Errno 17] File exists: '" ++ p ++ lit "'")), w)
    else if is_dir w (parent p) then (inr tt, mk_bstate (b_dirs w ++ [p]) (b_files w) (b_out w))
    else (inl (not_found p), w).

(** [shutil.rmtree(p)] of an existing folder *)
Definition rmtree (p : str) : PyM bstate unit :=
  modify (fun w => mk_bstate (List.filter (fun d => negb (str_eqb d p || under p d)) (b_dirs w))
                             (List.filter (fun f => negb (under p f)) (b_files w)) (b_out w)).

(** [shutil.copytree(src, dst)] into a [dst] that does not exist *)
Definition copytree (src dst : str) : PyM bstate unit :=
  let moved l := map (fun f => dst ++ skipn (length src) f) (List.filter (under src) l) in
  modify (fun w => mk_bstate (b_dirs w ++ dst :: moved (b_dirs w)) (b_files w ++ moved (b_files w)) (b_out w)).

(** [shutil.copy2(src, dst)]: the folder of [dst] must exist. *)
Definition copy2 (src dst : str) : PyM bstate unit :=
  fun w => if is_dir w (parent dst) then (inr tt, mk_bstate (b_dirs w) (b_files w ++ [dst]) (b_out w))
           else (inl (not_found dst), w).

Definition rule : str := repeat "="%char 60.

(** What [PyInstaller.__main__.run(args)] does with the arguments: it
    writes the spec file [<name>.spec] into the working directory (its
    default [--specpath]) and then analyses and bundles; it raises either
    before writing the spec file (arguments it rejects) or after it (an
    analysis or bundling failure, such as a missing data folder). *)
Inductive pyi_outcome :=
| PyiBuilt
| PyiFailsEarly (e : exc)
| PyiFailsAfterSpec (e : exc).

Section Script.
(** [Path(__file__).parent], the working directory, [os.pathsep], and
    what PyInstaller does with the given arguments. *)
Variables (current_dir cwd pathsep : str).
Variable pyinstaller : list str -> pyi_outcome.

Definition src_dir := path_div current_dir (lit "src").
Definition assets_dir := path_div current_dir (lit "assets").
Definition build_dir := path_div current_dir (lit "build").
Definition dist_dir := path_div current_dir (lit "dist").
Definition main_py := path_div src_dir (lit "main.py").

(** Lines 42-58 *)
Definition pyinstaller_args : list str :=
  [main_py; lit "--name=AI_Story_Creator_Pro"; lit "--windowed";
   lit "--icon=" ++ path_div assets_dir (lit "icon.ico");
   lit "--add-data=" ++ assets_dir ++ pathsep ++ lit "assets";
   lit "--add-data=" ++ path_div current_dir (lit "config.json") ++ pathsep ++ lit ".";
   lit "--hidden-import=customtkinter"; lit "--hidden-import=PIL"; lit "--hidden-import=PIL._imagingtk";
   lit "--hidden-import=PIL._tkinter_finder"; lit "--collect-all=customtkinter"; lit "--collect-all=PIL";
   lit "--clean"; lit "--noconfirm"; lit "--paths=" ++ src_dir].

(** The spec file [--name=AI_Story_Creator_Pro] makes PyInstaller write. *)
Definition spec_file : str := path_div cwd (lit "AI_Story_Creator_Pro.spec").

(** [PyInstaller.__main__.run(args)]: on success the bundle is in the
    working directory's [dist] folder, next to the spec file. *)
Definition run_pyinstaller (args : list str) : PyM bstate unit :=
  fun w =>
    match pyinstaller args with
    | PyiFailsEarly e => (inl e, w)
    | PyiFailsAfterSpec e => (inl e, mk_bstate (b_dirs w) (b_files w ++ [spec_file]) (b_out w))
    | PyiBuilt =>
        let d := path_div cwd (lit "dist") in
        (inr tt, mk_bstate (b_dirs w ++ [d; path_div d (lit "AI_Story_Creator_Pro")])
                   (b_files w ++ [spec_file; path_div (path_div d (lit "AI_Story_Creator_Pro")) (lit "AI_Story_Creator_Pro")])
                   (b_out w))
    end.

(** Lines 68-76: the loop over the additional files. *)
Definition copy_additional (file_name : str) : PyM bstate unit :=
  fun w =>
    let src_file := path_div current_dir file_name in
    if exists_ w src_file
    then copy2 src_file (path_div (path_div dist_dir (lit "AI_Story_Creator_Pro")) file_name) w
    else (inr tt, w).

(** Lines 29-40: after the check of [main.py], the build folder and the
    copy of the assets. *)
Definition prepare : PyM bstate unit :=
  print (lit "✅ Tìm thấy main.py tại: " ++ main_py) ;;;
  mkdir_exist_ok build_dir ;;;
  print (NL :: lit "📁 Copying assets...") ;;;
  fun w => if exists_ w assets_dir then
             let dest_assets := path_div build_dir (lit "assets") in
             ((fun w => if exists_ w dest_assets then rmtree dest_assets w else (inr tt, w)) ;;;
              copytree assets_dir dest_assets) w
           else (inr tt, w).

(** Lines 62-63 *)
Definition bundle : PyM bstate unit :=
  print (NL :: lit "🚀 Building executable...") ;;;
  run_pyinstaller pyinstaller_args.

(** Lines 65-84 *)
Definition finish : PyM bstate unit :=
  print (NL :: lit "✅ Build completed!") ;;;
  print (lit "📁 Output: " ++ path_div dist_dir (lit "AI_Story_Creator_Pro")) ;;;
  print (NL :: lit "📋 Copying additional files...") ;;;
  for_each [lit "config.json"; lit "README.md"] tt (fun f _ => copy_additional f) ;;;
  print (NL :: lit "🎉 Build process completed successfully!") ;;;
  print (NL :: lit "📝 Next steps:") ;;;
  print (lit "1. Run the executable from dist/AI_Story_Creator_Pro/") ;;;
  print (lit "2. Make sure LM Studio is running on http://localhost:1234") ;;;
  print (lit "3. For image generation, run Stable Diffusion WebUI") ;;;
  print (NL :: lit "Need help? Check README.md for more information.").

(** [build_app] (lines 9-85) *)
Definition build_app : PyM bstate unit :=
  print rule ;;; print (lit "Building AI Story Creator Pro...") ;;; print rule ;;;
  fun w =>
    if negb (exists_ w main_py) then print (lit "❌ Lỗi: Không tìm thấy " ++ main_py) w
    else (prepare ;;; bundle ;;; finish) w.

End Script.
End Build.

(** ** The shape of each phase *)
Module BuildFacts.
Import Build.

Lemma str_eqb_true a b : str_eqb a b = true <-> a = b.
Proof. unfold str_eqb. destruct (List.list_eq_dec ascii_dec a b); split; congruence. Qed.

Lemma existsb_in x l : existsb (str_eqb x) l = true <-> In x l.
Proof.
  rewrite existsb_exists. split.
  - intros (y & Hy & E). apply str_eqb_true in E. subst. exact Hy.
  - intros H. exists x. split; [exact H | apply str_eqb_true; reflexivity].
Qed.

Lemma existsb_notin x l : existsb (str_eqb x) l = false <-> ~ In x l.
Proof. rewrite <- existsb_in. destruct (existsb _ _); split; congruence. Qed.

Lemma starts_with_app c x y : starts_with (c ++ x) (c ++ y) = starts_with x y.
Proof. induction c as [|a c IH]; simpl; [reflexivity|]. rewrite Ascii.eqb_refl. exact IH. Qed.

Lemma drop_to_slash_app x y :
  Forall (fun c => c <> "/"%char) x -> drop_to_slash (x ++ y) = drop_to_slash y.
Proof.
  induction 1 as [|c x Hc _ IH]; simpl; [reflexivity|].
  destruct (Ascii.eqb_spec c "/"%char); [contradiction | exact IH].
Qed.

(** [Path(p / f).parent == p] for a name [f] without a slash. *)
Lemma parent_path_div p f :
  Forall (fun c => c <> "/"%char) f -> parent (path_div p f) = p.
Proof.
  intros Hf. unfold parent, path_div. change (lit "/") with ["/"%char].
  simpl. rewrite rev_app_distr. simpl. rewrite <- app_assoc.
  rewrite drop_to_slash_app by (apply Forall_rev; exact Hf).
  simpl. rewrite rev_involutive. reflexivity.
Qed.

Lemma last_app_cons (l : str) a l' d : last (l ++ a :: l') d = last (a :: l') d.
Proof.
  induction l as [|x l IH]; [reflexivity|]. simpl.
  destruct (l ++ a :: l') as [|b r] eqn:E; [destruct l; discriminate|].
  exact IH.
Qed.

(** A phase keeps [P] of the folders and files. *)
Definition keeps (P : list str -> list str -> Prop) {A} (m : PyM bstate A) : Prop :=
  forall w, P (b_dirs w) (b_files w) -> P (b_dirs (snd (m w))) (b_files (snd (m w))).

Lemma keeps_bind P {A B} (m : PyM bstate A) (k : A -> PyM bstate B) :
  keeps P m -> (forall a, keeps P (k a)) -> keeps P (bind m k).
Proof.
  intros Hm Hk w H. specialize (Hm w H). unfold bind.
  destruct (m w) as [[e|a] w']; simpl in *; [exact Hm | exact (Hk a w' Hm)].
Qed.

Lemma keeps_print P l : keeps P (print l).
Proof. intros w H. exact H. Qed.

Lemma keeps_for_each P {A B} xs acc (body : A -> B -> PyM bstate B) :
  (forall x b, keeps P (body x b)) -> keeps P (for_each xs acc body).
Proof.
  intros Hb. revert acc. induction xs as [|x xs IH]; intros acc; simpl.
  - intros w H. exact H.
  - apply keeps_bind; auto.
Qed.

Lemma keeps_if P (c : bstate -> bool) {A} (m1 m2 : PyM bstate A) :
  keeps P m1 -> keeps P m2 -> keeps P (fun w => if c w then m1 w else m2 w).
Proof. intros H1 H2 w H. destruct (c w); auto. Qed.

Lemma keeps_skip P : keeps P (fun w => (inr tt, w)).
Proof. intros w H. exact H. Qed.

Ltac keeps_step :=
  match goal with
  | |- keeps _ (bind _ _) => apply keeps_bind; [|intros ?]
  | |- keeps _ (print _) => apply keeps_print
  | |- keeps _ (for_each _ _ _) => apply keeps_for_each; intros ? ?
  | |- keeps _ (fun w => (inr tt, w)) => apply keeps_skip
  | |- keeps _ (pair (inr tt)) => apply keeps_skip
  | |- keeps _ (fun w => if _ then _ else _) => apply keeps_if
  | |- keeps _ (fun w => let _ := _ in _) => cbv zeta
  end.

(** What the file-system primitives do to a folder [d] that does not
    exist and to a file [f] that does. *)
Lemma keeps_mkdir_absent d p : d <> p -> keeps (fun ds _ => ~ In d ds) (mkdir_exist_ok p).
Proof.
  intros Hp w H. unfold mkdir_exist_ok.
  destruct (is_dir w p); [exact H|]. destruct (existsb _ _); [exact H|].
  destruct (is_dir w (parent p)); simpl; [|exact H].
  rewrite in_app_iff. simpl. intuition.
Qed.

Lemma keeps_rmtree_absent d p : keeps (fun ds _ => ~ In d ds) (rmtree p).
Proof. intros w H. simpl. rewrite filter_In. intuition. Qed.

Lemma keeps_copytree_absent d src dst :
  (forall z, d <> dst ++ z) -> keeps (fun ds _ => ~ In d ds) (copytree src dst).
Proof.
  intros Hd w H. simpl. rewrite in_app_iff. simpl. rewrite in_map_iff.
  intros [Hin | [E | (f & E & _)]]; [exact (H Hin) | | exact (Hd _ (eq_sym E))].
  apply (Hd []). rewrite app_nil_r. congruence.
Qed.

Lemma keeps_mkdir_file f p : keeps (fun _ fs => In f fs) (mkdir_exist_ok p).
Proof.
  intros w H. unfold mkdir_exist_ok.
  destruct (is_dir w p); [exact H|]. destruct (existsb _ _); [exact H|].
  destruct (is_dir w (parent p)); exact H.
Qed.

Lemma keeps_rmtree_file f p : under p f = false -> keeps (fun _ fs => In f fs) (rmtree p).
Proof. intros Hf w H. simpl. rewrite filter_In, Hf. auto. Qed.

Lemma keeps_copytree_file f src dst : keeps (fun _ fs => In f fs) (copytree src dst).
Proof. intros w H. simpl. apply in_or_app. left. exact H. Qed.






Section Paths.
Variables (current_dir cwd pathsep : str) (pyinstaller : list str -> pyi_outcome).

(** [dist_dir / 'AI_Story_Creator_Pro'], where the files are copied to. *)
Definition bundle_dir : str := path_div (dist_dir current_dir) (lit "AI_Story_Creator_Pro").

Lemma build_path z :
  path_div (build_dir current_dir) (lit "assets") ++ z
  = current_dir ++ "/"%char :: "b"%char :: (lit "uild/assets" ++ z).
Proof. unfold build_dir, path_div. rewrite <- !app_assoc. reflexivity. Qed.

Lemma build_dir_eq : build_dir current_dir = current_dir ++ "/"%char :: "b"%char :: lit "uild".
Proof. reflexivity. Qed.

Lemma bundle_dir_eq : bundle_dir = current_dir ++ "/"%char :: "d"%char :: lit "ist/AI_Story_Creator_Pro".
Proof. unfold bundle_dir, dist_dir, path_div. rewrite <- !app_assoc. reflexivity. Qed.

(** A folder outside [build/] is never created by [prepare]. *)
Lemma prepare_keeps_absent d :
  (forall z, d <> current_dir ++ "/"%char :: "b"%char :: z) ->
  keeps (fun ds _ => ~ In d ds) (prepare current_dir).
Proof.
  intros Hd. unfold prepare. repeat keeps_step.
  - apply keeps_mkdir_absent. rewrite build_dir_eq. apply Hd.
  - apply keeps_rmtree_absent.
  - apply keeps_copytree_absent. intros z. rewrite build_path. apply Hd.
Qed.

(** A file outside [build/assets] survives [prepare]. *)
Lemma prepare_keeps_file f :
  under (path_div (build_dir current_dir) (lit "assets")) f = false ->
  keeps (fun _ fs => In f fs) (prepare current_dir).
Proof.
  intros Hf. unfold prepare. repeat keeps_step.
  - apply keeps_mkdir_file.
  - apply keeps_rmtree_file, Hf.
  - apply keeps_copytree_file.
Qed.

(** [prepare] returns when the project folder exists and [build] is not a file. *)
Lemma prepare_inr w :
  In current_dir (b_dirs w) -> ~ In (build_dir current_dir) (b_files w) ->
  fst (prepare current_dir w) = inr tt.
Proof.
  intros Hc Hb. unfold prepare, bind, print, modify, mkdir_exist_ok, is_dir.
  cbn -[parent build_dir exists_ existsb lit].
  assert (Hp : parent (build_dir current_dir) = current_dir)
    by (apply parent_path_div; repeat constructor; discriminate).
  rewrite (proj2 (existsb_notin _ _) Hb), Hp, (proj2 (existsb_in _ _) Hc).
  destruct (existsb _ (b_dirs w)); cbn -[exists_];
    destruct (exists_ _ _); cbn -[exists_]; try destruct (exists_ _ _); reflexivity.
Qed.

Lemma bundle_inr w :
  pyinstaller (pyinstaller_args current_dir pathsep) = PyiBuilt ->
  bundle current_dir cwd pathsep pyinstaller w
  = (inr tt, mk_bstate (b_dirs w ++ [path_div cwd (lit "dist"); path_div (path_div cwd (lit "dist")) (lit "AI_Story_Creator_Pro")])
                       (b_files w ++ [spec_file cwd; path_div (path_div (path_div cwd (lit "dist")) (lit "AI_Story_Creator_Pro")) (lit "AI_Story_Creator_Pro")])
                       (b_out w ++ [NL :: lit "🚀 Building executable..."])).
Proof. intros Hp. unfold bundle, bind, print, modify, run_pyinstaller. simpl. rewrite Hp. reflexivity. Qed.


Lemma exists_out w o p : exists_ (mk_bstate (b_dirs w) (b_files w) o) p = exists_ w p.
Proof. reflexivity. Qed.

(** PyInstaller run from another working directory does not create the
    folder [build_app] copies into. *)
Lemma bundle_dir_elsewhere :
  cwd <> current_dir ->
  ~ In bundle_dir [path_div cwd (lit "dist"); path_div (path_div cwd (lit "dist")) (lit "AI_Story_Creator_Pro")].
Proof.
  intros Hne [E | [E | []]].
  - apply (f_equal (fun l => last l "a"%char)) in E.
    rewrite bundle_dir_eq in E. unfold path_div in E. cbn -[last] in E.
    rewrite !last_app_cons in E. discriminate.
  - unfold bundle_dir, dist_dir, path_div in E. rewrite <- !app_assoc in E.
    apply app_inv_tail in E. congruence.
Qed.

Lemma under_assets_outside x :
  under (path_div (build_dir current_dir) (lit "assets")) (current_dir ++ "/"%char :: x)
  = starts_with (lit "build/assets/") x.
Proof.
  unfold under. rewrite build_path, starts_with_app. reflexivity.
Qed.

Lemma finish_fails w :
  ~ In bundle_dir (b_dirs w) -> In (path_div current_dir (lit "config.json")) (b_files w) ->
  exists w', finish current_dir w = (inl (not_found (path_div bundle_dir (lit "config.json"))), w')
             /\ In (NL :: lit "✅ Build completed!") (b_out w').
Proof.
  intros Hd Hf. unfold finish, for_each, bind, print, modify, ret, copy_additional, copy2, is_dir.
  cbn -[exists_ parent existsb lit path_div dist_dir].
  rewrite exists_out. unfold exists_ at 1. rewrite (proj2 (existsb_in _ _) Hf), orb_true_r.
  rewrite parent_path_div by (repeat constructor; discriminate).
  fold bundle_dir. rewrite (proj2 (existsb_notin _ _) Hd).
  eexists. split; [reflexivity|]. simpl. rewrite !in_app_iff. simpl. auto.
Qed.

Lemma finish_copies w :
  In bundle_dir (b_dirs w) ->
  In (path_div current_dir (lit "config.json")) (b_files w) ->
  In (path_div current_dir (lit "README.md")) (b_files w) ->
  exists w', finish current_dir w = (inr tt, w')
             /\ In (path_div bundle_dir (lit "config.json")) (b_files w')
             /\ In (path_div bundle_dir (lit "README.md")) (b_files w').
Proof.
  intros Hd Hc Hr. unfold finish, for_each, bind, print, modify, ret, copy_additional, copy2, is_dir.
  cbn -[exists_ parent existsb lit path_div dist_dir].
  rewrite exists_out. unfold exists_ at 1. rewrite (proj2 (existsb_in _ _) Hc), orb_true_r.
  rewrite parent_path_div by (repeat constructor; discriminate).
  fold bundle_dir. rewrite (proj2 (existsb_in _ _) Hd).
  unfold exists_. cbn -[parent existsb lit path_div dist_dir].
  rewrite existsb_app, (proj2 (existsb_in _ _) Hr), !orb_true_r.
  rewrite parent_path_div by (repeat constructor; discriminate).
  fold bundle_dir. rewrite (proj2 (existsb_in _ _) Hd).
  eexists. split; [reflexivity|]. simpl. rewrite !in_app_iff. simpl. auto.
Qed.

Lemma build_app_main w :
  exists_ w (main_py current_dir) = true ->
  build_app current_dir cwd pathsep pyinstaller w
  = (prepare current_dir ;;; bundle current_dir cwd pathsep pyinstaller ;;; finish current_dir)
      (mk_bstate (b_dirs w) (b_files w) (b_out w ++ [rule; lit "Building AI Story Creator Pro..."; rule])).
Proof.
  intros H. unfold build_app at 1. unfold bind at 1 2 3, print at 1 2 3, modify. cbn beta iota.
  cbn [b_dirs b_files b_out]. rewrite exists_out, H. cbn [negb].
  rewrite <- !app_assoc. reflexivity.
Qed.

End Paths.
End BuildFacts.

(** ** A checkout to run the script on *)
Module BuildSamples.
Import Build.

Definition home : str := lit "/home/dev".
Definition project : str := lit "/home/dev/Mot-Ai".
Definition built : list str -> pyi_outcome := fun _ => PyiBuilt.

(** A fresh checkout: the sources, the configuration and the README. *)
Definition checkout : bstate :=
  mk_bstate [lit "/"; lit "/home"; home; project; src_dir project]
            [main_py project; path_div project (lit "config.json"); path_div project (lit "README.md")] [].

(** The same folder after the sources were deleted. *)
Definition no_sources : bstate := mk_bstate [lit "/"; lit "/home"; home; project] [] [].

End BuildSamples.

(** ** What [build_app] does *)
Module BuildSpec.
Import Build BuildFacts.

Section Runs.
Variables (current_dir cwd pathsep : str) (pyinstaller : list str -> pyi_outcome).

Lemma bundle_dir_not_build z : bundle_dir current_dir <> current_dir ++ "/"%char :: "b"%char :: z.
Proof. rewrite bundle_dir_eq. intros E. apply app_inv_head in E. discriminate. Qed.

Lemma top_file_kept f w :
  In (path_div current_dir f) (b_files w) ->
  starts_with (lit "build/assets/") f = false ->
  In (path_div current_dir f) (b_files (snd (prepare current_dir w))).
Proof.
  intros Hin Hf. apply prepare_keeps_file; [|exact Hin].
  exact (eq_trans (under_assets_outside current_dir f) Hf).
Qed.

(** The run up to PyInstaller: the state it leaves. *)
Lemma run_to_bundle w :
  exists_ w (main_py current_dir) = true ->
  In current_dir (b_dirs w) -> ~ In (build_dir current_dir) (b_files w) ->
  exists w2, build_app current_dir cwd pathsep pyinstaller w
             = (bundle current_dir cwd pathsep pyinstaller ;;; finish current_dir) w2
    /\ (forall P, keeps P (prepare current_dir) -> P (b_dirs w) (b_files w) -> P (b_dirs w2) (b_files w2)).
Proof.
  intros Hm Hc Hb. rewrite build_app_main by exact Hm.
  set (w1 := mk_bstate _ _ _).
  pose proof (prepare_inr current_dir w1 Hc Hb) as Hr.
  destruct (prepare current_dir w1) as [r w2] eqn:Ep. simpl in Hr. subst r.
  exists w2. split.
  - exact (bind_inr _ _ _ _ _ Ep).
  - intros P HP H. specialize (HP w1 H). rewrite Ep in HP. exact HP.
Qed.

Lemma run_to_finish w :
  exists_ w (main_py current_dir) = true ->
  In current_dir (b_dirs w) -> ~ In (build_dir current_dir) (b_files w) ->
  pyinstaller (pyinstaller_args current_dir pathsep) = PyiBuilt ->
  exists w2, build_app current_dir cwd pathsep pyinstaller w = finish current_dir (snd (bundle current_dir cwd pathsep pyinstaller w2))
    /\ (forall P, keeps P (prepare current_dir) -> P (b_dirs w) (b_files w) -> P (b_dirs w2) (b_files w2))
    /\ bundle current_dir cwd pathsep pyinstaller w2
       = (inr tt, mk_bstate (b_dirs w2 ++ [path_div cwd (lit "dist"); path_div (path_div cwd (lit "dist")) (lit "AI_Story_Creator_Pro")])
                (b_files w2 ++ [spec_file cwd; path_div (path_div (path_div cwd (lit "dist")) (lit "AI_Story_Creator_Pro")) (lit "AI_Story_Creator_Pro")])
                (b_out w2 ++ [NL :: lit "🚀 Building executable..."])).
Proof.
  intros Hm Hc Hb Hpy. destruct (run_to_bundle w Hm Hc Hb) as (w2 & E & Hk).
  pose proof (bundle_inr current_dir cwd pathsep pyinstaller w2 Hpy) as Hbd.
  exists w2. rewrite E, (bind_inr _ _ _ _ _ Hbd), Hbd. auto.
Qed.

(** Without [src/main.py] the script prints its banner and the
    error line and returns: nothing is created, PyInstaller is not run. *)
Theorem build_missing_main w :
  exists_ w (main_py current_dir) = false ->
  build_app current_dir cwd pathsep pyinstaller w
  = (inr tt, mk_bstate (b_dirs w) (b_files w)
               (b_out w ++ [rule; lit "Building AI Story Creator Pro..."; rule;
                            lit "❌ Lỗi: Không tìm thấy " ++ main_py current_dir])).
Proof.
  intros H. unfold build_app, bind, print, modify. cbn [b_dirs b_files b_out].
  rewrite exists_out, H. cbn [negb]. rewrite <- !app_assoc. reflexivity.
Qed.

(** C16: Run from a working directory other than the project folder, a
    successful PyInstaller build lands in [cwd/dist], and the copy of
    [config.json] into [current_dir/dist/AI_Story_Creator_Pro] raises
    FileNotFoundError after "Build completed!" has been printed. *)
Theorem build_outside_cwd_fails w :
  cwd <> current_dir ->
  exists_ w (main_py current_dir) = true ->
  In current_dir (b_dirs w) -> ~ In (build_dir current_dir) (b_files w) ->
  In (path_div current_dir (lit "config.json")) (b_files w) ->
  ~ In (bundle_dir current_dir) (b_dirs w) ->
  pyinstaller (pyinstaller_args current_dir pathsep) = PyiBuilt ->
  exists w', build_app current_dir cwd pathsep pyinstaller w
             = (inl (not_found (path_div (bundle_dir current_dir) (lit "config.json"))), w')
             /\ In (NL :: lit "✅ Build completed!") (b_out w').
Proof.
  intros Hne Hm Hc Hb Hcfg Hd Hpy.
  destruct (run_to_finish w Hm Hc Hb Hpy) as (w2 & -> & Hk & ->).
  apply finish_fails; simpl.
  - rewrite in_app_iff. intros [H | H].
    + revert H. apply (Hk (fun ds _ => ~ In (bundle_dir current_dir) ds)); [|exact Hd].
      apply prepare_keeps_absent, bundle_dir_not_build.
    + exact (bundle_dir_elsewhere current_dir cwd Hne H).
  - apply in_or_app. left.
    apply (Hk (fun _ fs => In (path_div current_dir (lit "config.json")) fs)); [|exact Hcfg].
    intros w' H'. apply top_file_kept; [exact H' | reflexivity].
Qed.

(** C27: Run from the project folder with PyInstaller succeeding, the
    build returns normally and [config.json] and [README.md] are in the
    bundle folder. *)
Theorem build_in_place_copies w :
  cwd = current_dir ->
  exists_ w (main_py current_dir) = true ->
  In current_dir (b_dirs w) -> ~ In (build_dir current_dir) (b_files w) ->
  In (path_div current_dir (lit "config.json")) (b_files w) ->
  In (path_div current_dir (lit "README.md")) (b_files w) ->
  pyinstaller (pyinstaller_args current_dir pathsep) = PyiBuilt ->
  exists w', build_app current_dir cwd pathsep pyinstaller w = (inr tt, w')
             /\ In (path_div (bundle_dir current_dir) (lit "config.json")) (b_files w')
             /\ In (path_div (bundle_dir current_dir) (lit "README.md")) (b_files w').
Proof.
  intros E Hm Hc Hb Hcfg Hrd Hpy.
  destruct (run_to_finish w Hm Hc Hb Hpy) as (w2 & -> & Hk & ->).
  apply finish_copies; simpl; rewrite in_app_iff.
  - right. rewrite E. simpl. auto.
  - left. apply (Hk (fun _ fs => In (path_div current_dir (lit "config.json")) fs)); [|exact Hcfg].
    intros w' H'. apply top_file_kept; [exact H' | reflexivity].
  - left. apply (Hk (fun _ fs => In (path_div current_dir (lit "README.md")) fs)); [|exact Hrd].
    intros w' H'. apply top_file_kept; [exact H' | reflexivity].
Qed.


End Runs.

Import BuildSamples.

Ltac build_hyp :=
  match goal with
  | |- ~ In _ _ => apply existsb_notin; vm_compute; reflexivity
  | |- In _ _ => apply existsb_in; vm_compute; reflexivity
  | |- _ <> _ => vm_compute; congruence
  | |- _ => vm_compute; reflexivity
  end.

Lemma build_missing_main_witness :
  exists_ no_sources (main_py project) = false /\
  build_app project project (lit ":") built no_sources
  = (inr tt, mk_bstate (b_dirs no_sources) (b_files no_sources)
               ([rule; lit "Building AI Story Creator Pro..."; rule;
                 lit "❌ Lỗi: Không tìm thấy " ++ main_py project])).
Proof. split; [build_hyp | apply (build_missing_main project project (lit ":") built no_sources); build_hyp]. Defined.

Lemma build_outside_cwd_fails_witness :
  exists w', build_app project home (lit ":") built checkout
             = (inl (not_found (path_div (bundle_dir project) (lit "config.json"))), w')
             /\ In (NL :: lit "✅ Build completed!") (b_out w').
Proof. apply (build_outside_cwd_fails project home (lit ":") built checkout); build_hyp. Defined.

Lemma build_in_place_copies_witness :
  exists w', build_app project project (lit ":") built checkout = (inr tt, w')
             /\ In (path_div (bundle_dir project) (lit "config.json")) (b_files w')
             /\ In (path_div (bundle_dir project) (lit "README.md")) (b_files w').
Proof. apply (build_in_place_copies project project (lit ":") built checkout); build_hyp. Defined.


End BuildSpec.
