(* ===== verification/VideoDownloader.v ===== *)
(** The video downloader [VideoDownloader] (src/video_downloader.py): the
    platform table, [get_video_info], the yt-dlp option dictionary of
    [download], the format selector and the callback logger.  yt-dlp itself
    is a library: it is an oracle that, given the options and a URL, returns
    the extracted information or raises, and names the output file. *)
From Stdlib Require Import String Ascii List ZArith Lia Bool.
From stdpp Require Import base gmap strings.
From S2P Require Import Prelude PyStr.
Import ListNotations.
Open Scope py_scope.

Module VideoDownloader.

(** Lines 14-46: the platform table (never read by the class's methods). *)
Definition platforms : gmap string (string * list (string * string)) :=
  list_to_map
    [("bilibili.com", ("BiliBili", [("format", "bestvideo+bestaudio/best"); ("merge_output_format", "mp4")]));
     ("v.qq.com", ("Tencent", [("format", "best")]));
     ("youku.com", ("Youku", [("format", "best")]));
     ("iqiyi.com", ("Iqiyi", [("format", "best")]));
     ("douyin.com", ("TikTok", [("format", "best")]))]%string.

(** Lines 129-136 *)
Definition quality_map : gmap string string :=
  list_to_map
    [("best", "bestvideo+bestaudio/best");
     ("1080p", "bestvideo[height<=1080]+bestaudio/best[height<=1080]");
     ("720p", "bestvideo[height<=720]+bestaudio/best[height<=720]");
     ("480p", "bestvideo[height<=480]+bestaudio/best[height<=480]");
     ("360p", "bestvideo[height<=360]+bestaudio/best[height<=360]");
     ("worst", "worstvideo+worstaudio/worst")]%string.

(** [_get_format_selector] (lines 124-138) *)
Definition _get_format_selector (quality : str) (audio_only : bool) : str :=
  if audio_only then lit "bestaudio/best"
  else lit (match quality_map !! string_of_list_ascii quality with
            | Some f => f
            | None => "bestvideo+bestaudio/best"%string
            end).

Fixpoint take_while (f : ascii -> bool) (s : str) : str :=
  match s with
  | [] => []
  | c :: s' => if f c then c :: take_while f s' else []
  end.

(** Is [pat] a contiguous part of [s]? ([pat in s]) *)
Fixpoint is_infix (pat s : str) : bool :=
  match s with
  | [] => match pat with [] => true | _ => false end
  | _ :: s' =>
      (if List.list_eq_dec ascii_dec (firstn (length pat) s) pat then true else false) || is_infix pat s'
  end.

Inductive log_kind := LDebug | LInfo | LWarning | LError.

(** [_get_logger(callback)] (lines 140-159): what the [CustomLogger]
    forwards to the callback for a yt-dlp message of each kind, when a
    callback is given. *)
Definition custom_logger (has_callback : bool) (k : log_kind) (msg : str) : option str :=
  if has_callback then
    match k with
    | LDebug => if is_infix (lit "Downloading") msg then Some msg else None
    | LInfo => Some msg
    | LWarning => Some (lit "Warning: " ++ msg)
    | LError => Some (lit "Error: " ++ msg)
    end
  else None.

(** A post-processor entry of the options (lines 91-102). *)
Inductive postprocessor :=
| FFmpegVideoConvertor (preferedformat : str)
| FFmpegExtractAudio (preferredcodec preferredquality : str).

(** The option dictionary of [download] (lines 81-104).  A progress hook
    is [Some] callback or the [None] that [kwargs.get] returns. *)
Record ydl_opts := mk_ydl_opts {
  outtmpl : str;
  progress_hooks : list (option str);
  quiet : bool;
  no_warnings : bool;
  format : str;
  merge_output_format : str;
  writesubtitles : bool;
  writeautomaticsub : bool;
  subtitleslangs : list str;
  postprocessors : list postprocessor;
  logger_has_callback : bool
}.

(** [os.path.join(a, b)] for a relative [b] *)
Definition os_path_join (a b : str) : str :=
  match rev a with
  | [] => b
  | c :: _ => if ascii_eqb c "/"%char then a ++ b else a ++ lit "/" ++ b
  end.

Definition download_opts (output_path quality output_format : str) (subtitles audio_only : bool)
    (progress_callback status_callback : option str) : ydl_opts :=
  mk_ydl_opts (os_path_join output_path (lit "%(title)s.%(ext)s"))
    [progress_callback] false true
    (_get_format_selector quality audio_only) output_format subtitles subtitles
    (if subtitles then [lit "zh"; lit "en"; lit "vi"] else [])
    (if audio_only then [FFmpegExtractAudio (lit "mp3") (lit "192")]
     else [FFmpegVideoConvertor output_format])
    (match status_callback with Some _ => true | None => false end).

(** Position of the first occurrence of [c]. *)
Fixpoint index_of (c : ascii) (s : str) : option nat :=
  match s with
  | [] => None
  | x :: s' => if ascii_eqb x c then Some 0 else option_map S (index_of c s')
  end.

(** [os.path.splitext(p)] (posixpath): the extension starts at the last
    dot of the last path component, unless what precedes that dot in the
    component is only dots.  [rcomp] is the last component reversed, so its
    first dot is the component's last one, [k] characters from the end. *)
Definition splitext (p : str) : str * str :=
  let rp := rev p in
  let rcomp := take_while (fun x => negb (ascii_eqb x "/"%char)) rp in
  match index_of "."%char rcomp with
  | Some k =>
      if forallb (fun c => ascii_eqb c "."%char) (skipn (S k) rcomp)
      then (p, [])
      else (rev (skipn (S k) rp), rev (firstn (S k) rp))
  | None => (p, [])
  end.

(** What yt-dlp's [extract_info] returns, by the keys the code reads. *)
Record video_info := mk_info {
  vi_title : option str;
  vi_duration : option Z;
  vi_formats : option (list (option str));
  vi_ext : option str;
  vi_thumbnail : option str;
  vi_description : option str
}.

(** The dictionary [get_video_info] returns (lines 60-67). *)
Record info_summary := mk_summary {
  s_title : str;
  s_duration : Z;
  s_formats : list str;
  s_ext : str;
  s_thumbnail : str;
  s_description : str
}.

(** yt-dlp as the code uses it: [extract_info] with the options of
    [get_video_info] ([None]) or of [download] ([Some opts]), and
    [prepare_filename]. *)
Record ydl := mk_ydl {
  extract_info : option ydl_opts -> str -> bool -> exc + video_info;
  prepare_filename : video_info -> str
}.

Definition get_or {A} (d : A) (o : option A) : A := match o with Some a => a | None => d end.

(** Line 63: [[f['format'] for f in info.get('formats', [])[:5]]]; a
    format without the key raises [KeyError]. *)
Fixpoint format_names (fs : list (option str)) : exc + list str :=
  match fs with
  | [] => inr []
  | None :: _ => inl (OtherError (lit "KeyError") (lit "'format'"))
  | Some f :: fs' => match format_names fs' with inl e => inl e | inr l => inr (f :: l) end
  end.

Definition summarize (info : video_info) : exc + info_summary :=
  match format_names (firstn 5 (get_or [] (vi_formats info))) with
  | inl e => inl e
  | inr fs =>
      inr (mk_summary (get_or (lit "Unknown") (vi_title info)) (get_or 0%Z (vi_duration info)) fs
             (get_or (lit "Unknown") (vi_ext info)) (get_or [] (vi_thumbnail info))
             (take_codepoints 200 (get_or [] (vi_description info))))
  end.

(** [get_video_info] (lines 48-70): an error is logged and re-raised. *)
Definition get_video_info (y : ydl) (url : str) : PyM (list str) info_summary :=
  fun logs =>
    match match extract_info y None url false with inl e => inl e | inr i => summarize i end with
    | inl e => (inl e, logs ++ [lit "Error getting video info: " ++ exc_str e])
    | inr r => (inr r, logs)
    end.

(** [download] (lines 72-122): the options, the download, and the output
    file name ([.mp3] replacing the extension for audio only). *)
Definition download (y : ydl) (home url quality output_format : str) (output_path : option str)
    (subtitles audio_only : bool) (progress_callback status_callback : option str)
    : PyM (list str) str :=
  let out := get_or (os_path_join home (lit "Downloads")) output_path in
  let opts := download_opts out quality output_format subtitles audio_only progress_callback status_callback in
  fun logs =>
    match extract_info y (Some opts) url true with
    | inl e => (inl e, logs ++ [lit "Download error: " ++ exc_str e])
    | inr info =>
        let filename := prepare_filename y info in
        (inr (if audio_only then fst (splitext filename) ++ lit ".mp3" else filename), logs)
    end.

(** The last path component of [p] (the reversed component of [splitext]). *)
Definition last_component (p : str) : str :=
  rev (take_while (fun x => negb (ascii_eqb x "/"%char)) (rev p)).


End VideoDownloader.

Module VideoDownloaderFacts.
Import VideoDownloader.

Lemma is_infix_spec pat s :
  is_infix pat s = true <-> exists a b, s = a ++ pat ++ b.
Proof.
  induction s as [|c s IH]; cbn [is_infix].
  - destruct pat as [|p pat]; split.
    + intros _. exists [], []. reflexivity.
    + reflexivity.
    + discriminate.
    + intros ([|a0 a] & b & H); discriminate.
  - rewrite orb_true_iff, IH. split.
    + intros [Hp | (a & b & ->)].
      * destruct (List.list_eq_dec _ _ _) as [E|]; [|discriminate].
        exists [], (skipn (length pat) (c :: s)). cbn [app].
        rewrite <- (firstn_skipn (length pat) (c :: s)) at 1. rewrite E. reflexivity.
      * exists (c :: a), b. reflexivity.
    + intros ([|a0 a] & b & H).
      * left. rewrite H. cbn [app].
        destruct (List.list_eq_dec _ _ _) as [|n]; [reflexivity|].
        exfalso. apply n. rewrite firstn_app, Nat.sub_diag, firstn_all. cbn. apply app_nil_r.
      * right. injection H as _ ->. eauto.
Qed.

Lemma forallb_dots_false b :
  (exists c, In c (last_component b) /\ c <> "."%char) ->
  forallb (fun c => ascii_eqb c "."%char) (take_while (fun x => negb (ascii_eqb x "/"%char)) (rev b)) = false.
Proof.
  intros (c & Hin & Hc). unfold last_component in Hin. rewrite <- in_rev in Hin.
  destruct forallb eqn:E; [|reflexivity].
  rewrite forallb_forall in E. specialize (E c Hin).
  destruct (ascii_eqb_spec c "."%char); [contradiction | discriminate].
Qed.

Lemma rev_firstn_skipn (k : nat) (p : str) :
  rev (skipn k (rev p)) ++ rev (firstn k (rev p)) = p.
Proof. rewrite <- rev_app_distr, firstn_skipn. apply rev_involutive. Qed.

Lemma splitext_app_ext (b : str) :
  (exists c, In c (last_component b) /\ c <> "."%char) ->
  splitext (b ++ lit ".mp3") = (b, lit ".mp3").
Proof.
  intros H. unfold splitext. rewrite rev_app_distr. cbn. rewrite !skipn_O, firstn_O; cbn [rev app].
  rewrite (forallb_dots_false b H), rev_involutive. reflexivity.
Qed.

Lemma splitext_app p : fst (splitext p) ++ snd (splitext p) = p.
Proof.
  unfold splitext. destruct (index_of _ _); [destruct forallb|]; cbn [fst snd];
    [apply app_nil_r | apply rev_firstn_skipn | apply app_nil_r].
Qed.

Lemma take_while_all (f : ascii -> bool) l : Forall (fun x => f x = true) (take_while f l).
Proof.
  induction l as [|x l IH]; cbn [take_while]; [constructor|].
  destruct (f x) eqn:Hx; constructor; assumption.
Qed.

Lemma take_while_app_all (f : ascii -> bool) l1 l2 :
  Forall (fun x => f x = true) l1 -> take_while f (l1 ++ l2) = l1 ++ take_while f l2.
Proof. induction 1 as [|x l1 Hx _ IH]; cbn; [reflexivity|]. rewrite Hx, IH. reflexivity. Qed.

End VideoDownloaderFacts.

Module VideoDownloaderSpec.
Import VideoDownloader VideoDownloaderFacts.

Definition song_ydl : ydl :=
  mk_ydl (fun _ _ _ => inr (mk_info (Some (lit "Song")) (Some 215%Z) None None None None))
         (fun _ => lit "/home/u/Downloads/Song.webm").

(** [os.path.splitext] splits: the root followed by the extension is
    the path again, and the extension is empty or starts with a dot. *)
Theorem splitext_roundtrip (p : str) :
  fst (splitext p) ++ snd (splitext p) = p /\
  (snd (splitext p) = [] \/ exists e, snd (splitext p) = "."%char :: e).
Proof.
  unfold splitext.
  destruct (index_of _ _) as [k|] eqn:Ek; [|split; [apply app_nil_r | left; reflexivity]].
  destruct forallb; [split; [apply app_nil_r | left; reflexivity]|].
  split; [apply rev_firstn_skipn|right]. cbn [snd].
  (* the first dot of the reversed component is the [k]-th character of [rev p] *)
  revert k Ek. generalize (rev p) as rp. clear p.
  induction rp as [|x rp IH]; intros k Ek; [discriminate|].
  cbn [take_while] in Ek. destruct (negb _); [|discriminate].
  cbn [index_of] in Ek. destruct (ascii_eqb_spec x "."%char) as [->|Hx].
  - injection Ek as <-. exists []. reflexivity.
  - destruct (index_of _ _) as [k'|]; [|discriminate]. injection Ek as <-.
    destruct (IH k' eq_refl) as (e & He). exists (e ++ [x]).
    cbn [firstn rev]. rewrite He. reflexivity.
Qed.

(** C32: [download] with [audio_only]: when yt-dlp succeeds and the name it
    prepares has a stem whose last component is not only dots, the
    returned path is that stem with the extension [.mp3], which is what
    [splitext] reads back; nothing is logged.  The options handed to
    yt-dlp select [bestaudio/best] and the [FFmpegExtractAudio] mp3
    post-processor. *)
Theorem download_audio_only (y : ydl) (home url quality fmt : str) (output_path : option str)
    (subtitles : bool) (pc sc : option str) (logs : list str) (info : video_info) :
  let opts := download_opts (get_or (os_path_join home (lit "Downloads")) output_path)
                quality fmt subtitles true pc sc in
  extract_info y (Some opts) url true = inr info ->
  (exists c, In c (last_component (fst (splitext (prepare_filename y info)))) /\ c <> "."%char) ->
  exists out,
    download y home url quality fmt output_path subtitles true pc sc logs = (inr out, logs) /\
    splitext out = (fst (splitext (prepare_filename y info)), lit ".mp3") /\
    format opts = lit "bestaudio/best" /\
    postprocessors opts = [FFmpegExtractAudio (lit "mp3") (lit "192")].
Proof.
  intros opts He Hc. eexists. unfold download. fold opts. rewrite He.
  split; [reflexivity|]. split; [apply splitext_app_ext, Hc|]. split; reflexivity.
Qed.

(** the callback logger forwards a yt-dlp debug message exactly when
    the message contains ["Downloading"], and forwards nothing without a
    callback. *)
Theorem custom_logger_debug (has_callback : bool) (msg : str) :
  custom_logger has_callback LDebug msg = Some msg <->
  has_callback = true /\ exists a b, msg = a ++ lit "Downloading" ++ b.
Proof.
  unfold custom_logger. destruct has_callback; [|split; [discriminate | intros [H _]; discriminate]].
  rewrite <- is_infix_spec. destruct is_infix; intuition congruence.
Qed.

(** [get_video_info] when yt-dlp raises: the error is logged as
    ["Error getting video info: " + str(e)] and the same exception is
    raised again. *)
Theorem get_video_info_reraise (y : ydl) (url : str) (e : exc) (logs : list str) :
  extract_info y None url false = inl e ->
  get_video_info y url logs = (inl e, logs ++ [lit "Error getting video info: " ++ exc_str e]).
Proof. intros H. unfold get_video_info. rewrite H. reflexivity. Qed.

(** A format entry without a ["format"] key raises [KeyError]. *)
Example get_video_info_keyerror :
  get_video_info (mk_ydl (fun _ _ _ => inr (mk_info None None (Some [Some (lit "mp4"); None]) None None None))
                         (fun _ => [])) (lit "u") [] =
  (inl (OtherError (lit "KeyError") (lit "'format'")), [lit "Error getting video info: 'format'"]).
Proof. vm_compute. reflexivity. Qed.

Lemma download_audio_only_witness :
  exists out,
    download song_ydl (lit "/home/u") (lit "u") (lit "best") (lit "mp4") None true true None None [] = (inr out, []) /\
    splitext out = (lit "/home/u/Downloads/Song", lit ".mp3") /\
    format (download_opts (lit "/home/u/Downloads") (lit "best") (lit "mp4") true true None None) = lit "bestaudio/best" /\
    postprocessors (download_opts (lit "/home/u/Downloads") (lit "best") (lit "mp4") true true None None) =
      [FFmpegExtractAudio (lit "mp3") (lit "192")].
Proof.
  apply (download_audio_only song_ydl (lit "/home/u") (lit "u") (lit "best") (lit "mp4") None true None None [] 
           (mk_info (Some (lit "Song")) (Some 215%Z) None None None None)).
  - reflexivity.
  - exists "S"%char. split; [vm_compute; tauto | discriminate].
Defined.

Lemma get_video_info_reraise_witness :
  get_video_info (mk_ydl (fun _ _ _ => inl (OtherError (lit "DownloadError") (lit "404"))) (fun _ => [])) (lit "u") [] =
  (inl (OtherError (lit "DownloadError") (lit "404")), [lit "Error getting video info: " ++ lit "404"]).
Proof. apply (get_video_info_reraise _ (lit "u") (OtherError (lit "DownloadError") (lit "404")) []). reflexivity. Defined.

End VideoDownloaderSpec.
