(* ===== verification/ImageGenerator.v ===== *)
(** The image generator [ImageGenerator] (src/image_generator.py): the
    request to the Stable Diffusion web API, the decoding and saving of the
    returned images, the placeholder fallback and the batch over several
    prompts.  [base64.b64decode], which the code calls on each image, is
    modelled after CPython's [binascii.a2b_base64] in non-strict mode (the
    decoder [b64decode] uses), so that what the code hands it can be
    evaluated; the HTTP server, the clock and the failures of file writes
    (a missing folder, a full disk) are oracles. *)
From Stdlib Require Import String Ascii List ZArith Lia Bool QArith.
From S2P Require Import Prelude PyStr World.
Import ListNotations.
Open Scope py_scope.
Open Scope Z_scope.

Module Base64.

(** [table_a2b_base64]: the value of a base64 alphabet character. *)
Definition b64_value (c : ascii) : option Z :=
  let n := Z.of_nat (nat_of_ascii c) in
  if (65 <=? n) && (n <=? 90) then Some (n - 65)
  else if (97 <=? n) && (n <=? 122) then Some (n - 71)
  else if (48 <=? n) && (n <=? 57) then Some (n + 4)
  else if n =? 43 then Some 62
  else if n =? 47 then Some 63
  else None.

Definition binascii_error (msg : str) : exc := OtherError (lit "binascii.Error") msg.

(** The loop of [a2b_base64] with [strict_mode = 0]: characters outside
    the alphabet are skipped, a complete pad sequence ends the input, and
    the output byte is the [unsigned char] the C code stores.  [acc] holds
    the bytes written so far, last first. *)
Fixpoint a2b_loop (s : str) (quad_pos leftchar pads : Z) (acc : list Z) : exc + list Z :=
  match s with
  | [] =>
      if quad_pos =? 0 then inr (rev acc)
      else if quad_pos =? 1 then
        inl (binascii_error (lit "Invalid base64-encoded string: number of data characters (" ++
               py_str_Z (Z.of_nat (length acc) / 3 * 4 + 1) ++
               lit ") cannot be 1 more than a multiple of 4"))
      else inl (binascii_error (lit "Incorrect padding"))
  | c :: s' =>
      if ascii_eqb c "="%char then
        if 2 <=? quad_pos then
          if 4 <=? quad_pos + (pads + 1) then inr (rev acc)
          else a2b_loop s' quad_pos leftchar (pads + 1) acc
        else a2b_loop s' quad_pos leftchar pads acc
      else
        match b64_value c with
        | None => a2b_loop s' quad_pos leftchar pads acc
        | Some v =>
            if quad_pos =? 0 then a2b_loop s' 1 v 0 acc
            else if quad_pos =? 1 then
              a2b_loop s' 2 (Z.land v 15) 0
                (Z.land (Z.lor (Z.shiftl leftchar 2) (Z.shiftr v 4)) 255 :: acc)
            else if quad_pos =? 2 then
              a2b_loop s' 3 (Z.land v 3) 0
                (Z.land (Z.lor (Z.shiftl leftchar 4) (Z.shiftr v 2)) 255 :: acc)
            else
              a2b_loop s' 0 0 0 (Z.land (Z.lor (Z.shiftl leftchar 6) v) 255 :: acc)
        end
  end.

(** [base64.b64decode(s)] for a [str]: it must be ASCII, then
    [binascii.a2b_base64(s, strict_mode=False)]. *)
Definition b64decode (s : str) : exc + list Z :=
  if forallb (fun c => nat_of_ascii c <? 128)%nat s then a2b_loop s 0 0 0 []
  else inl (ValueError (lit "string argument should contain only ASCII characters")).

End Base64.

(** The encoder the server uses ([base64.b64encode]), as the reference the
    decoder inverts. *)
Module Base64Ref.
Import Base64.

Definition b64_char (v : Z) : ascii :=
  ascii_of_nat (Z.to_nat (if v <? 26 then 65 + v else if v <? 52 then 71 + v
                          else if v <? 62 then v - 4 else if v =? 62 then 43 else 47)).

Definition enc1 (a : Z) : Z := Z.shiftr a 2.
Definition enc2 (a b : Z) : Z := Z.lor (Z.shiftl (Z.land a 3) 4) (Z.shiftr b 4).
Definition enc3 (b c : Z) : Z := Z.lor (Z.shiftl (Z.land b 15) 2) (Z.shiftr c 6).
Definition enc4 (c : Z) : Z := Z.land c 63.

Fixpoint b64encode (bs : list Z) : str :=
  match bs with
  | a :: b :: c :: rest =>
      b64_char (enc1 a) :: b64_char (enc2 a b) :: b64_char (enc3 b c) :: b64_char (enc4 c) :: b64encode rest
  | [a; b] => [b64_char (enc1 a); b64_char (enc2 a b); b64_char (enc3 b 0); "="%char]
  | [a] => [b64_char (enc1 a); b64_char (enc2 a 0); "="%char; "="%char]
  | [] => []
  end.

Definition char_ok (v : Z) : bool :=
  match b64_value (b64_char v) with Some x => x =? v | None => false end &&
  negb (ascii_eqb (b64_char v) "="%char) && (nat_of_ascii (b64_char v) <? 128)%nat.

Definition in64 (v : Z) : bool := (0 <=? v) && (v <? 64).

(** The first two bytes of a group: the first decoded byte, and the
    [leftchar] kept for the second. *)
Definition pair_ab_ok (a b : Z) : bool :=
  in64 (enc1 a) && in64 (enc2 a b) &&
  (Z.land (Z.lor (Z.shiftl (enc1 a) 2) (Z.shiftr (enc2 a b) 4)) 255 =? a) &&
  (Z.land (enc2 a b) 15 =? Z.shiftr b 4).

Definition pair_bc_ok (b c : Z) : bool :=
  in64 (enc3 b c) && in64 (enc4 c) &&
  (Z.land (Z.lor (Z.shiftl (Z.shiftr b 4) 4) (Z.shiftr (enc3 b c) 2)) 255 =? b) &&
  (Z.land (enc3 b c) 3 =? Z.shiftr c 6) &&
  (Z.land (Z.lor (Z.shiftl (Z.shiftr c 6) 6) (enc4 c)) 255 =? c).

Definition is_byte (b : Z) : Prop := 0 <= b < 256.

End Base64Ref.

Module ImageGenerator.
Import World Base64.

(** [ImageGenerator(api_url)] (lines 14-21): the API address and the
    directory [Path(__file__).parent.parent / 'output' / 'images'], created
    by [__init__]. *)
Record ImageGenerator := mk_generator { api_url : str; output_dir : str }.

(** The [json=payload] of line 45. *)
Record sd_payload := mk_sd_payload {
  prompt : str;
  negative_prompt : str;
  width : Z;
  height : Z;
  steps : Z;
  cfg_scale : Q;
  sampler_index : str;
  batch_size : Z;
  n_iter : Z;
  seed : Z
}.

(** What [session.get]/[session.post] give: a raised [requests] error, or a
    response whose [.json()] raises or yields the [images] entry, if any. *)
Inductive sd_outcome :=
| SdRaised (msg : str)
| SdReply (status : Z) (text : str) (body : exc + option (list str)).

(** The server answers the [n]-th request of the run; [clock n] is
    [datetime.now().strftime("%Y%m%d_%H%M%S")] at the [n]-th reading. *)
Definition sd_server := nat -> str -> option sd_payload -> sd_outcome.
Definition clock := nat -> str.

(** A file the code writes: the decoded bytes, or the 512x512 image of one
    colour that [Image.new] makes. *)
Inductive image_file :=
| PngBytes (bytes : list Z)
| Placeholder (w h : Z) (rgb : Z * Z * Z).

Record img_world := mk_img_world {
  iw_dirs : list str;
  iw_files : list (str * image_file);
  iw_log : list (log_level * str);
  iw_requests : nat;
  iw_tick : nat
}.

Definition path_div (p q : str) : str := p ++ lit "/" ++ q.

Section Effects.
Variable srv : sd_server.
Variable now_str : clock.
(** What opening a path for writing, or [img.save] on it, raises, if
    anything: a missing directory, a full disk, a read-only file system. *)
Variable write_error : str -> option exc.

Definition request (url : str) (p : option sd_payload) : PyM img_world sd_outcome :=
  fun w => (inr (srv (iw_requests w) url p),
            mk_img_world (iw_dirs w) (iw_files w) (iw_log w) (S (iw_requests w)) (iw_tick w)).

Definition now : PyM img_world str :=
  fun w => (inr (now_str (iw_tick w)),
            mk_img_world (iw_dirs w) (iw_files w) (iw_log w) (iw_requests w) (S (iw_tick w))).

Definition write_file (path : str) (f : image_file) : PyM img_world unit :=
  fun w => match write_error path with
           | Some e => (inl e, w)
           | None => (inr tt, mk_img_world (iw_dirs w) (iw_files w ++ [(path, f)]) (iw_log w) (iw_requests w) (iw_tick w))
           end.

Definition log (lvl : log_level) (msg : str) : PyM img_world unit :=
  modify (fun w => mk_img_world (iw_dirs w) (iw_files w) (iw_log w ++ [(lvl, msg)]) (iw_requests w) (iw_tick w)).

Definition lift {A} (r : exc + A) : PyM img_world A :=
  match r with inl e => raise e | inr a => ret a end.

(** [__init__] (lines 14-21) *)
Definition __init__ (api_url package_dir : str) : PyM img_world ImageGenerator :=
  let out := path_div (path_div package_dir (lit "output")) (lit "images") in
  modify (fun w => mk_img_world (iw_dirs w ++ [out]) (iw_files w) (iw_log w) (iw_requests w) (iw_tick w)) ;;;
  ret (mk_generator api_url out).

(** [check_connection] (lines 23-29) *)
Definition check_connection (self : ImageGenerator) : PyM img_world bool :=
  r <- request (api_url self ++ lit "/sdapi/v1/sd-models") None ;;
  match r with
  | SdRaised _ => ret false
  | SdReply st _ _ => ret (st =? 200)
  end.

(** Lines 37-42: the model table, which [generate] never reads. *)
Definition model_map : list (str * str) :=
  [(lit "stable-diffusion", []); (lit "midjourney-style", lit "midjourney");
   (lit "anime-diffusion", lit "anything-v4"); (lit "realistic-vision", lit "realistic-vision")].

(** Line 76: [img_data.split(",", 1)[0] if "," in img_data else img_data]. *)
Definition image_part (img_data : str) : str :=
  if List.in_dec ascii_dec ","%char img_data then fst (split_once ","%char img_data) else img_data.

(** Lines 79-80: the name of the [i]-th saved image, [i] from 0. *)
Definition ai_image_path (self : ImageGenerator) (timestamp : str) (i : nat) : str :=
  path_div (output_dir self) (lit "ai_image_" ++ timestamp ++ lit "_" ++ py_str_Z (Z.of_nat (S i)) ++ lit ".png").

(** Lines 74-86: decode and save each image, [i] counting from 0. *)
Fixpoint save_images (self : ImageGenerator) (timestamp : str) (i : nat) (images : list str)
  : PyM img_world (list str) :=
  match images with
  | [] => ret []
  | img_data :: rest =>
      img_bytes <- lift (b64decode (image_part img_data)) ;;
      let filepath := ai_image_path self timestamp i in
      write_file filepath (PngBytes img_bytes) ;;;
      paths <- save_images self timestamp (S i) rest ;;
      ret (filepath :: paths)
  end.

(** [_create_placeholder_images] (lines 102-118) *)
Definition placeholder_path (self : ImageGenerator) (timestamp : str) (i : nat) : str :=
  path_div (output_dir self) (lit "placeholder_" ++ timestamp ++ lit "_" ++ py_str_Z (Z.of_nat (S i)) ++ lit ".png").

Definition _create_placeholder_images (self : ImageGenerator) (num_images : Z) (prompt : str)
  : PyM img_world (list str) :=
  timestamp <- now ;;
  paths <- for_each (seq 0 (Z.to_nat num_images)) []
             (fun i acc =>
                let filepath := placeholder_path self timestamp i in
                write_file filepath (Placeholder 512 512 (73, 109, 137)) ;;;
                ret (acc ++ [filepath])) ;;
  log LogWarning (lit "Created " ++ py_str_Z num_images ++ lit " placeholder images") ;;;
  ret paths.

(** Lines 45-56 *)
Definition txt2img_payload (prompt : str) (width height num_images steps : Z) (cfg_scale : Q)
    (sampler : str) : sd_payload :=
  mk_sd_payload prompt (lit "blurry, low quality, distorted, ugly, deformed")
    width height steps cfg_scale sampler num_images 1 (-1).

(** [generate] (lines 31-100).  [model] is accepted and not used. *)
Definition generate (self : ImageGenerator) (prompt model : str) (width height num_images steps : Z)
    (cfg_scale : Q) (sampler : str) : PyM img_world (list str) :=
  let payload := txt2img_payload prompt width height num_images steps cfg_scale sampler in
  try_except
    (response <- request (api_url self ++ lit "/sdapi/v1/txt2img") (Some payload) ;;
     match response with
     | SdRaised msg => raise (OtherError (lit "RequestException") msg)
     | SdReply status text body =>
         if status =? 200 then
           result <- lift body ;;
           let images := match result with Some l => l | None => [] end in
           timestamp <- now ;;
           saved_paths <- save_images self timestamp 0 images ;;
           log LogInfo (lit "Generated " ++ py_str_Z (Z.of_nat (length saved_paths)) ++ lit " images") ;;;
           ret saved_paths
         else
           let error_msg := lit "API error: " ++ py_str_Z status ++ lit " - " ++ text in
           log LogError error_msg ;;;
           raise (OtherError (lit "Exception") error_msg)
     end)
    (fun e =>
       log LogError (lit "Generation error: " ++ exc_str e) ;;;
       _create_placeholder_images self num_images prompt).

(** The keyword arguments [generate_batch] passes on, with [generate]'s
    defaults (line 31-33). *)
Record gen_kwargs := mk_kwargs {
  kw_model : str; kw_width : Z; kw_height : Z; kw_num_images : Z;
  kw_steps : Z; kw_cfg_scale : Q; kw_sampler : str
}.

Definition default_kwargs : gen_kwargs :=
  mk_kwargs (lit "stable-diffusion") 512 512 1 30 (15 # 2) (lit "Euler a").

(** [d[k] = v] on a dict as an association list in insertion order: an
    existing key keeps its place and takes the new value. *)
Fixpoint dict_set {V} (k : str) (v : V) (d : list (str * V)) : list (str * V) :=
  match d with
  | [] => [(k, v)]
  | (k', v') :: d' =>
      if List.list_eq_dec ascii_dec k k' then (k, v) :: d' else (k', v') :: dict_set k v d'
  end.

Definition dict_get {V} (k : str) (d : list (str * V)) : option V :=
  option_map snd (find (fun kv => if List.list_eq_dec ascii_dec k (fst kv) then true else false) d).

(** [generate_batch] (lines 120-133) *)
Definition generate_batch (self : ImageGenerator) (prompts : list str) (kw : gen_kwargs)
  : PyM img_world (list (str * list str)) :=
  let total := py_str_Z (Z.of_nat (length prompts)) in
  for_each (combine (seq 0 (length prompts)) prompts) []
    (fun '(i, p) results =>
       let n := py_str_Z (Z.of_nat (S i)) in
       try_except
         (images <- generate self p (kw_model kw) (kw_width kw) (kw_height kw) (kw_num_images kw)
                      (kw_steps kw) (kw_cfg_scale kw) (kw_sampler kw) ;;
          let results' := dict_set (take_codepoints 50 p) images results in
          log LogInfo (lit "Generated images for prompt " ++ n ++ lit "/" ++ total) ;;;
          ret results')
         (fun e =>
            log LogError (lit "Error generating for prompt " ++ n ++ lit ": " ++ exc_str e) ;;;
            ret (dict_set (take_codepoints 50 p) [] results))).

End Effects.

(** The files a run adds, for stating its effect. *)
Definition add_files (w : img_world) (fs : list (str * image_file)) : img_world :=
  mk_img_world (iw_dirs w) (iw_files w ++ fs) (iw_log w) (iw_requests w) (iw_tick w).

Definition placeholder_files self timestamp (n : Z) : list (str * image_file) :=
  map (fun i => (placeholder_path self timestamp i, Placeholder 512 512 (73, 109, 137))) (seq 0 (Z.to_nat n)).
End ImageGenerator.

Module ImageGeneratorSamples.
Import World ImageGenerator.

Definition sd_gen : ImageGenerator := mk_generator (lit "http://localhost:7860") (lit "/out").
Definition clock0 : clock := fun k => py_str_Z (Z.of_nat k).
Definition world0 : img_world := mk_img_world [] [] [] 0 0.
Definition reply_images (imgs : list str) : sd_server := fun _ _ _ => SdReply 200 [] (inr (Some imgs)).

Definition srv503 : sd_server := fun _ _ _ => SdReply 503 (lit "busy") (inr None).
(** A file system that accepts every write. *)
Definition disk_ok : str -> option exc := fun _ => None.
(** A full disk: every write raises [OSError]. *)
Definition enospc : exc := OtherError (lit "OSError") (lit "[Errno 28] No space left on device").
Definition disk_full : str -> option exc := fun _ => Some enospc.
End ImageGeneratorSamples.

Module Base64Facts.
Import Base64 Base64Ref.

(** ** Decoding inverts encoding

    The bit-level facts are checked over every byte (or pair of bytes) by
    evaluating a boolean test, then read back as statements. *)

Lemma forall_range (n : nat) (P : Z -> bool) :
  forallb (fun k => P (Z.of_nat k)) (seq 0 n) = true -> forall a, 0 <= a < Z.of_nat n -> P a = true.
Proof.
  intros H a Ha. rewrite forallb_forall in H. specialize (H (Z.to_nat a)).
  rewrite Z2Nat.id in H by lia. apply H, in_seq. lia.
Qed.

Lemma forall_range2 (n : nat) (P : Z -> Z -> bool) :
  forallb (fun k => forallb (fun j => P (Z.of_nat k) (Z.of_nat j)) (seq 0 n)) (seq 0 n) = true ->
  forall a b, 0 <= a < Z.of_nat n -> 0 <= b < Z.of_nat n -> P a b = true.
Proof.
  intros H a b Ha Hb.
  apply (forall_range n (fun b => P a b)); [|exact Hb].
  apply (forall_range n (fun a => forallb (fun j => P a (Z.of_nat j)) (seq 0 n))); [exact H | exact Ha].
Qed.

Lemma char_ok_all v : 0 <= v < 64 -> char_ok v = true.
Proof. apply (forall_range 64 char_ok). vm_compute. reflexivity. Qed.

Lemma b64_char_value v : 0 <= v < 64 -> b64_value (b64_char v) = Some v.
Proof.
  intros H. generalize (char_ok_all v H). unfold char_ok.
  destruct (b64_value (b64_char v)) as [x|]; [|discriminate].
  intros E. apply andb_prop in E as [E _]. apply andb_prop in E as [E _]. apply Z.eqb_eq in E. congruence.
Qed.

Lemma b64_char_not_pad v : 0 <= v < 64 -> ascii_eqb (b64_char v) "="%char = false.
Proof.
  intros H. generalize (char_ok_all v H). unfold char_ok.
  destruct (ascii_eqb _ _); [|reflexivity]. rewrite andb_false_r. cbn. discriminate.
Qed.

Lemma b64_char_ascii v : 0 <= v < 64 -> (nat_of_ascii (b64_char v) < 128)%nat.
Proof.
  intros H. generalize (char_ok_all v H). unfold char_ok.
  intros E. apply andb_prop in E as [_ E]. apply Nat.ltb_lt, E.
Qed.

Lemma pair_ab_all a b : 0 <= a < 256 -> 0 <= b < 256 -> pair_ab_ok a b = true.
Proof. apply (forall_range2 256 pair_ab_ok). vm_compute. reflexivity. Qed.

Lemma pair_bc_all b c : 0 <= b < 256 -> 0 <= c < 256 -> pair_bc_ok b c = true.
Proof. apply (forall_range2 256 pair_bc_ok). vm_compute. reflexivity. Qed.

Ltac unpack_ok H :=
  unfold pair_ab_ok, pair_bc_ok, in64 in H;
  repeat match goal with
         | H' : (_ && _) = true |- _ => apply andb_prop in H' as [? ?]
         end.

Ltac bool_to_prop :=
  repeat match goal with
         | H : (_ <=? _) = true |- _ => apply Z.leb_le in H
         | H : (_ <? _) = true |- _ => apply Z.ltb_lt in H
         | H : (_ =? _) = true |- _ => apply Z.eqb_eq in H
         end.

Ltac rewrite_bits :=
  repeat match goal with H : Z.land _ _ = _ |- _ => progress rewrite H end.

(** One step of the loop on an alphabet character, at each [quad_pos]. *)
Section Steps.
Variables (v : Z) (s : str) (l p : Z) (acc : list Z).
Hypothesis Hv : 0 <= v < 64.

Lemma a2b_char0 : a2b_loop (b64_char v :: s) 0 l p acc = a2b_loop s 1 v 0 acc.
Proof. cbn [a2b_loop]. rewrite b64_char_not_pad, b64_char_value by exact Hv. reflexivity. Qed.

Lemma a2b_char1 : a2b_loop (b64_char v :: s) 1 l p acc =
  a2b_loop s 2 (Z.land v 15) 0 (Z.land (Z.lor (Z.shiftl l 2) (Z.shiftr v 4)) 255 :: acc).
Proof. cbn [a2b_loop]. rewrite b64_char_not_pad, b64_char_value by exact Hv. reflexivity. Qed.

Lemma a2b_char2 : a2b_loop (b64_char v :: s) 2 l p acc =
  a2b_loop s 3 (Z.land v 3) 0 (Z.land (Z.lor (Z.shiftl l 4) (Z.shiftr v 2)) 255 :: acc).
Proof. cbn [a2b_loop]. rewrite b64_char_not_pad, b64_char_value by exact Hv. reflexivity. Qed.

Lemma a2b_char3 : a2b_loop (b64_char v :: s) 3 l p acc =
  a2b_loop s 0 0 0 (Z.land (Z.lor (Z.shiftl l 6) v) 255 :: acc).
Proof. cbn [a2b_loop]. rewrite b64_char_not_pad, b64_char_value by exact Hv. reflexivity. Qed.

End Steps.

Lemma a2b_pad2 s l acc : a2b_loop ("="%char :: s) 2 l 0 acc = a2b_loop s 2 l 1 acc.
Proof. reflexivity. Qed.

Lemma a2b_pad_done s q l p acc : 2 <= q -> 4 <= q + (p + 1) -> a2b_loop ("="%char :: s) q l p acc = inr (rev acc).
Proof.
  intros H1 H2. cbn [a2b_loop ascii_eqb]. cbn.
  apply Z.leb_le in H1, H2. rewrite H1, H2. reflexivity.
Qed.

Lemma a2b_quad a b c rest l p acc :
  is_byte a -> is_byte b -> is_byte c ->
  a2b_loop (b64_char (enc1 a) :: b64_char (enc2 a b) :: b64_char (enc3 b c) :: b64_char (enc4 c) :: rest) 0 l p acc =
  a2b_loop rest 0 0 0 (c :: b :: a :: acc).
Proof.
  intros Ha Hb Hc. pose proof (pair_ab_all a b Ha Hb) as P1. pose proof (pair_bc_all b c Hb Hc) as P2.
  unpack_ok P1. unpack_ok P2. bool_to_prop.
  rewrite a2b_char0, a2b_char1, a2b_char2, a2b_char3 by lia. rewrite_bits. reflexivity.
Qed.

Lemma a2b_encode : forall bs acc, Forall is_byte bs ->
  a2b_loop (b64encode bs) 0 0 0 acc = inr (rev acc ++ bs).
Proof.
  fix IH 1. intros [|a [|b [|c rest]]] acc Hall.
  - cbn. rewrite app_nil_r. reflexivity.
  - inversion Hall as [|? ? Ha _]. pose proof (pair_ab_all a 0 Ha ltac:(split; lia)) as P1.
    unpack_ok P1. bool_to_prop. cbn [b64encode].
    rewrite a2b_char0, a2b_char1, a2b_pad2, a2b_pad_done by lia. rewrite_bits. reflexivity.
  - inversion Hall as [|? ? Ha Hall']. inversion Hall' as [|? ? Hb _].
    pose proof (pair_ab_all a b Ha Hb) as P1. pose proof (pair_bc_all b 0 Hb ltac:(split; lia)) as P2.
    unpack_ok P1. unpack_ok P2. bool_to_prop. cbn [b64encode].
    rewrite a2b_char0, a2b_char1, a2b_char2, a2b_pad_done by lia. rewrite_bits.
    cbn [rev]. rewrite <- !app_assoc. reflexivity.
  - inversion Hall as [|? ? Ha Hall1]. inversion Hall1 as [|? ? Hb Hall2].
    inversion Hall2 as [|? ? Hc Hrest].
    cbn [b64encode]. rewrite a2b_quad by assumption. rewrite (IH rest _ Hrest). cbn [rev].
    rewrite <- !app_assoc. reflexivity.
Qed.

(** Every character of an encoding is a pad or an alphabet character. *)
Lemma b64encode_chars : forall bs c, Forall is_byte bs -> In c (b64encode bs) ->
  c = "="%char \/ exists v, 0 <= v < 64 /\ c = b64_char v.
Proof.
  fix IH 1. intros [|a [|b [|x rest]]] ch Hall Hin.
  - destruct Hin.
  - inversion Hall as [|? ? Ha _]. pose proof (pair_ab_all a 0 Ha ltac:(split; lia)) as P1.
    unpack_ok P1. bool_to_prop.
    destruct Hin as [<-|[<-|[<-|[<-|[]]]]]; eauto 6.
  - inversion Hall as [|? ? Ha Hall']. inversion Hall' as [|? ? Hb _].
    pose proof (pair_ab_all a b Ha Hb) as P1. pose proof (pair_bc_all b 0 Hb ltac:(split; lia)) as P2.
    unpack_ok P1. unpack_ok P2. bool_to_prop.
    destruct Hin as [<-|[<-|[<-|[<-|[]]]]]; eauto 6.
  - inversion Hall as [|? ? Ha Hall1]. inversion Hall1 as [|? ? Hb Hall2].
    inversion Hall2 as [|? ? Hx Hrest].
    pose proof (pair_ab_all a b Ha Hb) as P1. pose proof (pair_bc_all b x Hb Hx) as P2.
    unpack_ok P1. unpack_ok P2. bool_to_prop.
    destruct Hin as [<-|[<-|[<-|[<-|Hin]]]]; eauto 6.
Qed.

Lemma b64decode_encode bs : Forall is_byte bs -> b64decode (b64encode bs) = inr bs.
Proof.
  intros Hall. unfold b64decode.
  replace (forallb _ _) with true.
  - apply a2b_encode, Hall.
  - symmetry. apply forallb_forall. intros c Hin.
    destruct (b64encode_chars bs c Hall Hin) as [->|(v & Hv & ->)]; [reflexivity|].
    apply Nat.ltb_lt, b64_char_ascii, Hv.
Qed.

Lemma b64encode_no_comma bs : Forall is_byte bs -> ~ In ","%char (b64encode bs).
Proof.
  intros Hall Hin. destruct (b64encode_chars bs _ Hall Hin) as [E|(v & Hv & E)]; [discriminate|].
  pose proof (b64_char_value v Hv) as Hval. rewrite <- E in Hval. discriminate.
Qed.

End Base64Facts.

Module ImageGeneratorFacts.
Import World Base64 ImageGenerator.

Section Run.
Variable srv : sd_server.
Variable now_str : clock.
Variable werr : str -> option exc.

(** A run in which the placeholder loop raises: the error is that of
    saving one of the placeholders. *)
Lemma placeholder_loop_raises self timestamp (xs : list nat) acc w e w' :
  for_each xs acc
    (fun i acc =>
       let filepath := placeholder_path self timestamp i in
       write_file werr filepath (Placeholder 512 512 (73, 109, 137)) ;;;
       ret (acc ++ [filepath])) w = (inl e, w') ->
  exists i, In i xs /\ werr (placeholder_path self timestamp i) = Some e.
Proof.
  revert acc w. induction xs as [|x xs IH]; intros acc w; cbn [for_each]; [discriminate|].
  unfold bind at 1, bind at 1, write_file. destruct (werr (placeholder_path self timestamp x)) as [e'|] eqn:E.
  - intros H. injection H as -> _. exists x. split; [left; reflexivity|exact E].
  - cbn [ret]. intros H. destruct (IH _ _ H) as (i & Hi & Hw). exists i. split; [right; exact Hi|exact Hw].
Qed.

Lemma create_placeholder_raises self n prompt w e w' :
  _create_placeholder_images now_str werr self n prompt w = (inl e, w') ->
  exists ts i, werr (placeholder_path self ts i) = Some e.
Proof.
  unfold _create_placeholder_images, bind at 1, now. cbn -[for_each placeholder_path].
  unfold bind at 1. destruct (for_each _ _ _ _) as [[e'|paths] w1] eqn:E.
  - intros H. injection H as -> _. destruct (placeholder_loop_raises _ _ _ _ _ _ _ E) as (i & _ & Hw). eauto.
  - unfold bind, log, modify, ret. discriminate.
Qed.

Hypothesis writes_ok : forall p, werr p = None.

Lemma write_file_ok p f w : write_file werr p f w = (inr tt, add_files w [(p, f)]).
Proof. unfold write_file. rewrite writes_ok. reflexivity. Qed.

Lemma add_files_app w fs gs : add_files (add_files w fs) gs = add_files w (fs ++ gs).
Proof. unfold add_files. cbn. rewrite app_assoc. reflexivity. Qed.

Lemma add_files_nil w : add_files w [] = w.
Proof. destruct w. unfold add_files. cbn. rewrite app_nil_r. reflexivity. Qed.

Lemma placeholder_loop self timestamp (xs : list nat) acc w :
  for_each xs acc
    (fun i acc =>
       let filepath := placeholder_path self timestamp i in
       write_file werr filepath (Placeholder 512 512 (73, 109, 137)) ;;;
       ret (acc ++ [filepath])) w =
  (inr (acc ++ map (placeholder_path self timestamp) xs),
   add_files w (map (fun i => (placeholder_path self timestamp i, Placeholder 512 512 (73, 109, 137))) xs)).
Proof.
  revert acc w. induction xs as [|x xs IH]; intros acc w; cbn [for_each map].
  - rewrite app_nil_r, add_files_nil. reflexivity.
  - unfold bind at 1, bind at 1. rewrite write_file_ok. cbn -[for_each placeholder_path add_files].
    rewrite IH, add_files_app, <- app_assoc. reflexivity.
Qed.

(** The fallback writes [num_images] placeholders (none when it is not
    positive) and returns their paths. *)
Lemma create_placeholder_run self n prompt w :
  _create_placeholder_images now_str werr self n prompt w =
  (inr (map (placeholder_path self (now_str (iw_tick w))) (seq 0 (Z.to_nat n))),
   mk_img_world (iw_dirs w) (iw_files w ++ placeholder_files self (now_str (iw_tick w)) n)
     (iw_log w ++ [(LogWarning, lit "Created " ++ py_str_Z n ++ lit " placeholder images")])
     (iw_requests w) (S (iw_tick w))).
Proof.
  unfold _create_placeholder_images, bind at 1, now. cbn -[for_each placeholder_path].
  unfold bind at 1. rewrite placeholder_loop. reflexivity.
Qed.

(** Saving images that all decode writes one file per image, in order. *)
Lemma save_images_ok self timestamp images bytes :
  Forall2 (fun img b => b64decode (image_part img) = inr b) images bytes -> forall i w,
  save_images werr self timestamp i images w =
  (inr (map (ai_image_path self timestamp) (seq i (length images))),
   add_files w (combine (map (ai_image_path self timestamp) (seq i (length images))) (map PngBytes bytes))).
Proof.
  induction 1 as [|img b images bytes Hb Hall IH]; intros; cbn [save_images].
  - rewrite add_files_nil. reflexivity.
  - (* the remaining images start one index later *)
    unfold bind at 1, lift. rewrite Hb. cbn -[save_images ai_image_path].
    unfold bind at 1. rewrite write_file_ok. cbn -[save_images ai_image_path add_files].
    unfold bind. rewrite IH. cbn -[ai_image_path]. rewrite add_files_app. reflexivity.
Qed.

(** A decoding failure stops the loop with the files already written. *)
Lemma save_images_fail self timestamp good bytes bad rest e :
  Forall2 (fun img b => b64decode (image_part img) = inr b) good bytes ->
  b64decode (image_part bad) = inl e -> forall i w,
  save_images werr self timestamp i (good ++ bad :: rest) w =
  (inl e, add_files w (combine (map (ai_image_path self timestamp) (seq i (length good))) (map PngBytes bytes))).
Proof.
  induction 1 as [|img b images bytes Hb Hall IH]; intros He i w; cbn [save_images app].
  - unfold bind, lift. rewrite He. rewrite add_files_nil. reflexivity.
  - unfold bind at 1, lift. rewrite Hb. cbn -[save_images ai_image_path].
    unfold bind at 1. rewrite write_file_ok. cbn -[save_images ai_image_path add_files].
    unfold bind. rewrite (IH He). cbn -[ai_image_path]. rewrite add_files_app. reflexivity.
Qed.

(** The handler of [generate] after a failure [e] of its body. *)
Lemma generate_handler self n prompt e w :
  (log LogError (lit "Generation error: " ++ exc_str e) ;;; _create_placeholder_images now_str werr self n prompt) w =
  (inr (map (placeholder_path self (now_str (iw_tick w))) (seq 0 (Z.to_nat n))),
   mk_img_world (iw_dirs w) (iw_files w ++ placeholder_files self (now_str (iw_tick w)) n)
     (iw_log w ++ [(LogError, lit "Generation error: " ++ exc_str e);
                   (LogWarning, lit "Created " ++ py_str_Z n ++ lit " placeholder images")])
     (iw_requests w) (S (iw_tick w))).
Proof.
  unfold bind at 1, log, modify. rewrite create_placeholder_run. cbn -[placeholder_files placeholder_path].
  rewrite <- app_assoc. reflexivity.
Qed.

(** [generate] on a 200 reply whose images all decode: one file
    [ai_image_<timestamp>_<i>.png] per image, [i] from 1, holding the
    decoded bytes, their paths returned in order, one info line logged. *)
Lemma generate_success_run self prompt model width height n steps cfg sampler text imgs bytes w :
  let images := match imgs with Some l => l | None => [] end in
  let paths := map (ai_image_path self (now_str (iw_tick w))) (seq 0 (length images)) in
  srv (iw_requests w) (api_url self ++ lit "/sdapi/v1/txt2img")
      (Some (txt2img_payload prompt width height n steps cfg sampler)) = SdReply 200 text (inr imgs) ->
  Forall2 (fun img b => b64decode (image_part img) = inr b) images bytes ->
  generate srv now_str werr self prompt model width height n steps cfg sampler w =
  (inr paths,
   mk_img_world (iw_dirs w) (iw_files w ++ combine paths (map PngBytes bytes))
     (iw_log w ++ [(LogInfo, lit "Generated " ++ py_str_Z (Z.of_nat (length images)) ++ lit " images")])
     (S (iw_requests w)) (S (iw_tick w))).
Proof.
  intros images paths Hsrv Hall.
  unfold generate, try_except, bind at 1, request. rewrite Hsrv. cbn -[save_images].
  unfold bind at 1, now. cbn -[save_images].
  unfold bind at 1. rewrite (save_images_ok _ _ _ _ Hall). cbn.
  rewrite length_map, length_seq. reflexivity.
Qed.

End Run.

Lemma dict_set_keys {V} (k : str) (v : V) d k' :
  In k' (map fst (dict_set k v d)) <-> k' = k \/ In k' (map fst d).
Proof.
  induction d as [|[k0 v0] d IH]; cbn [dict_set map fst In]; [intuition congruence|].
  destruct (List.list_eq_dec ascii_dec k k0) as [->|]; cbn [map fst In]; [intuition congruence|].
  rewrite IH. intuition congruence.
Qed.

Lemma dict_set_nodup {V} (k : str) (v : V) d :
  NoDup (map fst d) -> NoDup (map fst (dict_set k v d)).
Proof.
  induction d as [|[k0 v0] d IH]; cbn [dict_set map fst]; intros Hd.
  - constructor; [intros []|constructor].
  - inversion Hd as [|? ? Hn Hd']; subst.
    destruct (List.list_eq_dec ascii_dec k k0) as [->|Hne]; cbn [map fst]; [constructor; assumption|].
    constructor; [|exact (IH Hd')]. rewrite dict_set_keys. intros [E|]; [congruence | contradiction].
Qed.

Lemma dict_get_set {V} (k : str) (v : V) d : dict_get k (dict_set k v d) = Some v.
Proof.
  induction d as [|[k0 v0] d IH]; cbn [dict_set].
  - unfold dict_get. cbn. destruct (List.list_eq_dec ascii_dec k k); [reflexivity | congruence].
  - destruct (List.list_eq_dec ascii_dec k k0) as [->|Hne]; unfold dict_get; cbn [find fst].
    + destruct (List.list_eq_dec ascii_dec k0 k0); [reflexivity | congruence].
    + destruct (List.list_eq_dec ascii_dec k k0); [congruence|]. exact IH.
Qed.

Lemma map_snd_combine_seq {A} (ps : list A) s : map snd (combine (seq s (length ps)) ps) = ps.
Proof. revert s; induction ps as [|p ps IH]; intros s; cbn; [reflexivity | f_equal; apply IH]. Qed.

(** Each round of [generate_batch] stores some list under the prompt's
    key, whether [generate] returned or raised. *)
Lemma batch_round srv now_str werr self kw total (i : nat) (p : str) results w :
  exists v w',
  (let n := py_str_Z (Z.of_nat (S i)) in
   try_except
     (images <- generate srv now_str werr self p (kw_model kw) (kw_width kw) (kw_height kw) (kw_num_images kw)
                  (kw_steps kw) (kw_cfg_scale kw) (kw_sampler kw) ;;
      let results' := dict_set (take_codepoints 50 p) images results in
      log LogInfo (lit "Generated images for prompt " ++ n ++ lit "/" ++ total) ;;;
      ret results')
     (fun e =>
        log LogError (lit "Error generating for prompt " ++ n ++ lit ": " ++ exc_str e) ;;;
        ret (dict_set (take_codepoints 50 p) [] results))) w
  = (inr (dict_set (take_codepoints 50 p) v results), w').
Proof.
  cbn zeta. unfold try_except, bind at 1.
  destruct (generate _ _ _ _ _ _ _ _ _ _ _ _ w) as [[e|images] w1]; eexists _, _; reflexivity.
Qed.

Section BatchLoop.
Context {V : Type}.
Variable body : nat * str -> list (str * V) -> PyM img_world (list (str * V)).
Hypothesis Hbody : forall ip results w, exists v w',
  body ip results w = (inr (dict_set (take_codepoints 50 (snd ip)) v results), w').

(** The dict the loop builds has one entry per distinct key. *)
Lemma batch_dict_loop xs : forall acc w, NoDup (map fst acc) ->
  exists r w', for_each xs acc body w = (inr r, w') /\ NoDup (map fst r) /\
  forall k, In k (map fst r) <-> In k (map fst acc) \/ exists p, In p (map snd xs) /\ take_codepoints 50 p = k.
Proof.
  induction xs as [|ip xs IH]; intros acc w Hnd; cbn [for_each].
  - exists acc, w. split; [reflexivity|]. split; [exact Hnd|]. intros k. cbn. split; [tauto | intros [H|(p & [] & _)]; exact H].
  - destruct (Hbody ip acc w) as (v & w1 & E). unfold bind at 1. rewrite E.
    destruct (IH _ w1 (dict_set_nodup (take_codepoints 50 (snd ip)) v _ Hnd)) as (r & w' & Er & Hr & Hk).
    exists r, w'. split; [exact Er|]. split; [exact Hr|]. intros k.
    rewrite Hk, dict_set_keys. cbn [map In]. split.
    + intros [[->|]|(p & ? & ?)]; eauto.
    + intros [|(p & [<-|] & ?)]; eauto.
Qed.

End BatchLoop.

Lemma image_part_plain s : ~ In ","%char s -> image_part s = s.
Proof. unfold image_part. destruct (List.in_dec _ _ _); [contradiction | reflexivity]. Qed.

Lemma split_once_app sep h t : ~ In sep h -> split_once sep (h ++ sep :: t) = (h, t).
Proof.
  induction h as [|c h IH]; intros Hn; cbn [app split_once].
  - destruct (ascii_eqb_spec sep sep); [reflexivity | congruence].
  - destruct (ascii_eqb_spec c sep) as [->|]; [destruct Hn; left; reflexivity|].
    rewrite IH by (intros H; apply Hn; right; exact H). reflexivity.
Qed.

End ImageGeneratorFacts.

Module ImageGeneratorSpec.
Import World Base64 Base64Ref Base64Facts ImageGenerator ImageGeneratorSamples ImageGeneratorFacts.

Section Generate.
Variable srv : sd_server.
Variable now_str : clock.
Variable werr : str -> option exc.

(** C9: the only exception [generate] lets escape is the failure of
    saving a placeholder image in its [except] block (line 114): every
    failure of the request, of the reply, of the decoding and of saving
    the server's images ends in the placeholder fallback, and only a
    write that fails there leaves the method. *)
Theorem generate_raises_only_placeholder self prompt model width height n steps cfg sampler w e :
  fst (generate srv now_str werr self prompt model width height n steps cfg sampler w) = inl e ->
  exists ts i, werr (placeholder_path self ts i) = Some e.
Proof.
  unfold generate, try_except.
  match goal with |- context [match ?m w with _ => _ end] => destruct (m w) as [[e0|paths] w0] end;
    [|discriminate].
  unfold bind at 1, log, modify. cbn -[_create_placeholder_images].
  destruct (_create_placeholder_images _ _ _ _ _ _) as [r w1] eqn:E. cbn [fst]. intros ->.
  exact (create_placeholder_raises _ _ _ _ _ _ _ _ E).
Qed.

Hypothesis writes_ok : forall p, werr p = None.

(** [generate] on a reply other than 200: the API error is logged,
    raised, caught, logged again as a generation error, and [num_images]
    placeholders are written and returned (none if it is not positive). *)
Theorem generate_api_error self prompt model width height n steps cfg sampler st text body w :
  let msg := lit "API error: " ++ py_str_Z st ++ lit " - " ++ text in
  srv (iw_requests w) (api_url self ++ lit "/sdapi/v1/txt2img")
      (Some (txt2img_payload prompt width height n steps cfg sampler)) = SdReply st text body ->
  st <> 200 ->
  generate srv now_str werr self prompt model width height n steps cfg sampler w =
  (inr (map (placeholder_path self (now_str (iw_tick w))) (seq 0 (Z.to_nat n))),
   mk_img_world (iw_dirs w) (iw_files w ++ placeholder_files self (now_str (iw_tick w)) n)
     (iw_log w ++ [(LogError, msg); (LogError, lit "Generation error: " ++ msg);
                   (LogWarning, lit "Created " ++ py_str_Z n ++ lit " placeholder images")])
     (S (iw_requests w)) (S (iw_tick w))).
Proof.
  intros msg Hsrv Hst. apply Z.eqb_neq in Hst. unfold generate.
  erewrite try_except_inl; cycle 1.
  { unfold bind at 1, request. rewrite Hsrv. cbn -[lit py_str_Z]. rewrite Hst. reflexivity. }
  rewrite (generate_handler now_str werr writes_ok). cbn -[placeholder_files placeholder_path lit py_str_Z].
  rewrite <- app_assoc. reflexivity.
Qed.

(** C30: an image that does not decode, after images that did: the files
    of the earlier images stay written, and the placeholders are written
    after them, under the second clock reading. *)
Theorem generate_decode_failure self prompt model width height n steps cfg sampler text
    good bad rest bytes e w :
  let ts := now_str (iw_tick w) in
  let ts' := now_str (S (iw_tick w)) in
  srv (iw_requests w) (api_url self ++ lit "/sdapi/v1/txt2img")
      (Some (txt2img_payload prompt width height n steps cfg sampler))
    = SdReply 200 text (inr (Some (good ++ bad :: rest))) ->
  Forall2 (fun img b => b64decode (image_part img) = inr b) good bytes ->
  b64decode (image_part bad) = inl e ->
  generate srv now_str werr self prompt model width height n steps cfg sampler w =
  (inr (map (placeholder_path self ts') (seq 0 (Z.to_nat n))),
   mk_img_world (iw_dirs w)
     (iw_files w ++ combine (map (ai_image_path self ts) (seq 0 (length good))) (map PngBytes bytes)
                 ++ placeholder_files self ts' n)
     (iw_log w ++ [(LogError, lit "Generation error: " ++ exc_str e);
                   (LogWarning, lit "Created " ++ py_str_Z n ++ lit " placeholder images")])
     (S (iw_requests w)) (S (S (iw_tick w)))).
Proof.
  intros ts ts' Hsrv Hall Hbad. unfold generate.
  erewrite try_except_inl; cycle 1.
  { unfold bind at 1, request. rewrite Hsrv. cbn -[save_images].
    unfold bind. rewrite (save_images_fail werr writes_ok _ _ _ _ _ _ _ Hall Hbad). reflexivity. }
  rewrite (generate_handler now_str werr writes_ok). cbn -[placeholder_files placeholder_path ai_image_path lit py_str_Z].
  rewrite <- ?app_assoc. reflexivity.
Qed.

(** C7: [generate] saves what the server sent: when the reply carries the
    plain base64 encodings of byte strings, one file per image is written
    holding exactly those bytes, and the paths are returned in order. *)
Theorem generate_saves_server_bytes self prompt model width height n steps cfg sampler text payloads w :
  let paths := map (ai_image_path self (now_str (iw_tick w))) (seq 0 (length payloads)) in
  Forall (Forall is_byte) payloads ->
  srv (iw_requests w) (api_url self ++ lit "/sdapi/v1/txt2img")
      (Some (txt2img_payload prompt width height n steps cfg sampler))
    = SdReply 200 text (inr (Some (map b64encode payloads))) ->
  generate srv now_str werr self prompt model width height n steps cfg sampler w =
  (inr paths,
   mk_img_world (iw_dirs w) (iw_files w ++ combine paths (map PngBytes payloads))
     (iw_log w ++ [(LogInfo, lit "Generated " ++ py_str_Z (Z.of_nat (length payloads)) ++ lit " images")])
     (S (iw_requests w)) (S (iw_tick w))).
Proof.
  intros paths Hall Hsrv. unfold paths.
  rewrite (generate_success_run srv now_str werr writes_ok _ _ _ _ _ _ _ _ _ _ _ payloads w Hsrv); cbn zeta; rewrite ?length_map;
    [reflexivity|].
  clear Hsrv paths. induction Hall as [|bs payloads Hbs Hall IH]; cbn [map]; constructor; [|exact IH].
  rewrite image_part_plain by (apply b64encode_no_comma, Hbs). apply b64decode_encode, Hbs.
Qed.

End Generate.

(** C8: line 76 keeps what precedes the first comma: for a data URL
    [header,payload] the code decodes the header and drops the image. *)
Theorem image_part_data_url (header payload : str) :
  ~ In ","%char header -> image_part (header ++ ","%char :: payload) = header.
Proof. intros H. unfold image_part. rewrite split_once_app by exact H. destruct (List.in_dec _ _ _) as [|n]; [reflexivity|].
  exfalso. apply n, in_or_app. right. left. reflexivity. Qed.

Lemma image_part_data_url_witness :
  image_part (lit "data:image/png;base64" ++ ","%char :: b64encode [137; 80; 78; 71]) = lit "data:image/png;base64".
Proof. apply image_part_data_url. vm_compute. intuition discriminate. Defined.

(** a PNG data URL from a server that answers 200: its header does not
    decode ([Incorrect padding]), so the image is lost and a placeholder
    is saved instead. *)
Example generate_data_url_png :
  generate (reply_images [lit "data:image/png;base64," ++ b64encode [137; 80; 78; 71]]) clock0 disk_ok sd_gen
    (lit "cat") (lit "stable-diffusion") 512 512 1 30 (15 # 2) (lit "Euler a") world0 =
  (inr [lit "/out/placeholder_1_1.png"],
   mk_img_world [] [(lit "/out/placeholder_1_1.png", Placeholder 512 512 (73, 109, 137))]
     [(LogError, lit "Generation error: Incorrect padding");
      (LogWarning, lit "Created 1 placeholder images")] 1 2).
Proof. vm_compute. reflexivity. Qed.

(** A JPEG data URL: the header decodes to 15 bytes, which are saved as
    the image whatever the payload. *)
Example generate_data_url_jpeg :
  generate (reply_images [lit "data:image/jpeg;base64," ++ b64encode [255; 216; 255; 224]]) clock0 disk_ok sd_gen
    (lit "cat") (lit "stable-diffusion") 512 512 1 30 (15 # 2) (lit "Euler a") world0 =
  (inr [lit "/out/ai_image_0_1.png"],
   mk_img_world [] [(lit "/out/ai_image_0_1.png",
                     PngBytes [117; 171; 90; 138; 102; 160; 123; 248; 233; 122; 6; 218; 177; 238; 184])]
     [(LogInfo, lit "Generated 1 images")] 1 1).
Proof. vm_compute. reflexivity. Qed.

(** C31: [generate_batch] keys its result by [prompt[:50]]: the keys are
    distinct and are exactly the truncated prompts, so prompts that share
    their first 50 code points share one entry. *)
Theorem generate_batch_keys srv now_str werr self prompts kw w :
  exists results w',
    generate_batch srv now_str werr self prompts kw w = (inr results, w') /\
    NoDup (map fst results) /\
    forall k, In k (map fst results) <-> exists p, In p prompts /\ take_codepoints 50 p = k.
Proof.
  unfold generate_batch.
  match goal with |- context [for_each ?xs [] ?body w] =>
    assert (Hb : forall ip results w0, exists v w',
              body ip results w0 = (inr (dict_set (take_codepoints 50 (snd ip)) v results), w'))
      by (intros [i p] results w0; apply batch_round);
    destruct (batch_dict_loop body Hb xs [] w (NoDup_nil _)) as (r & w' & E & Hnd & Hk)
  end.
  exists r, w'. split; [exact E|]. split; [exact Hnd|].
  intros k. rewrite Hk, map_snd_combine_seq. cbn. intuition.
Qed.

(** Two prompts that agree on their first 50 code points: one entry, the
    images of the second prompt; the first prompt's images are dropped. *)
Example generate_batch_collision :
  let long := lit "A watercolor painting of a lighthouse on a rocky cliff at dawn" in
  exists w',
    generate_batch (fun _ _ _ => SdRaised (lit "refused")) clock0 disk_ok sd_gen
      [long ++ lit ", calm sea"; long ++ lit ", storm"] default_kwargs world0 =
    (inr [(take_codepoints 50 long, [lit "/out/placeholder_1_1.png"])], w').
Proof. eexists. vm_compute. reflexivity. Qed.

(** Stable Diffusion is busy and the disk is full: the fallback's first
    placeholder cannot be saved, and [generate] raises. *)
Lemma generate_raises_only_placeholder_witness :
  fst (generate srv503 clock0 disk_full sd_gen (lit "cat") (lit "m") 512 512 1 30 (15 # 2) (lit "Euler a") world0)
    = inl enospc /\
  exists ts i, disk_full (placeholder_path sd_gen ts i) = Some enospc.
Proof.
  assert (H : fst (generate srv503 clock0 disk_full sd_gen (lit "cat") (lit "m") 512 512 1 30 (15 # 2)
                     (lit "Euler a") world0) = inl enospc) by (vm_compute; reflexivity).
  split; [exact H|]. exact (generate_raises_only_placeholder srv503 clock0 disk_full sd_gen _ _ _ _ _ _ _ _ world0 enospc H).
Defined.

Lemma generate_api_error_witness :
  generate srv503 clock0 disk_ok sd_gen (lit "cat") (lit "anime-diffusion") 512 512 2 30 (15 # 2) (lit "Euler a") world0 =
  (inr (map (placeholder_path sd_gen (clock0 0%nat)) (seq 0 2%nat)),
   mk_img_world [] ([] ++ placeholder_files sd_gen (clock0 0%nat) 2)
     ([] ++ [(LogError, lit "API error: " ++ py_str_Z 503 ++ lit " - " ++ lit "busy");
             (LogError, lit "Generation error: " ++ (lit "API error: " ++ py_str_Z 503 ++ lit " - " ++ lit "busy"));
             (LogWarning, lit "Created " ++ py_str_Z 2 ++ lit " placeholder images")]) 1%nat 1%nat).
Proof.
  apply (generate_api_error srv503 clock0 disk_ok (fun _ => eq_refl) sd_gen (lit "cat") (lit "anime-diffusion") 512 512 2 30 (15 # 2)
           (lit "Euler a") 503 (lit "busy") (inr None) world0); [reflexivity | discriminate].
Defined.

Lemma generate_decode_failure_witness :
  generate (reply_images [b64encode [1; 2; 3]; lit "QQ"]) clock0 disk_ok sd_gen (lit "cat") (lit "m") 512 512 1 30 (15 # 2)
    (lit "Euler a") world0 =
  (inr (map (placeholder_path sd_gen (clock0 1%nat)) (seq 0 1%nat)),
   mk_img_world []
     ([] ++ combine (map (ai_image_path sd_gen (clock0 0%nat)) (seq 0 1%nat)) (map PngBytes [[1; 2; 3]])
         ++ placeholder_files sd_gen (clock0 1%nat) 1)
     ([] ++ [(LogError, lit "Generation error: " ++ exc_str (binascii_error (lit "Incorrect padding")));
             (LogWarning, lit "Created " ++ py_str_Z 1 ++ lit " placeholder images")]) 1%nat 2%nat).
Proof.
  apply (generate_decode_failure (reply_images [b64encode [1; 2; 3]; lit "QQ"]) clock0 disk_ok (fun _ => eq_refl) sd_gen (lit "cat") (lit "m")
           512 512 1 30 (15 # 2) (lit "Euler a") [] [b64encode [1; 2; 3]] (lit "QQ") [] [[1; 2; 3]]
           (binascii_error (lit "Incorrect padding")) world0).
  - reflexivity.
  - constructor; [vm_compute; reflexivity | constructor].
  - vm_compute. reflexivity.
Defined.

Lemma generate_saves_server_bytes_witness :
  generate (reply_images (map b64encode [[137; 80]; [255]])) clock0 disk_ok sd_gen (lit "cat") (lit "m") 512 512 1 30
    (15 # 2) (lit "Euler a") world0 =
  (inr (map (ai_image_path sd_gen (clock0 0%nat)) (seq 0 2%nat)),
   mk_img_world [] ([] ++ combine (map (ai_image_path sd_gen (clock0 0%nat)) (seq 0 2%nat)) (map PngBytes [[137; 80]; [255]]))
     ([] ++ [(LogInfo, lit "Generated " ++ py_str_Z (Z.of_nat 2) ++ lit " images")]) 1%nat 1%nat).
Proof.
  apply (generate_saves_server_bytes (reply_images (map b64encode [[137; 80]; [255]])) clock0 disk_ok (fun _ => eq_refl) sd_gen (lit "cat")
           (lit "m") 512 512 1 30 (15 # 2) (lit "Euler a") [] [[137; 80]; [255]] world0).
  - repeat constructor; unfold is_byte; lia.
  - reflexivity.
Defined.

End ImageGeneratorSpec.
