(* ===== verification/GuiState.v ===== *)
(** The state of the main window [MainApp] (src/gui.py) and the
    machinery its handlers share: the widgets of the five tabs and of the
    status bar, the dialogs shown, the files written, the clients built by
    [setup_clients], Tk's queue of [after] callbacks, the started threads
    and the closure cells of their [except] blocks.

    A widget is modelled by the value it holds: a [ScrolledText] or
    [CTkEntry] by its text, a [CTkComboBox] or [StringVar] by its string, a
    [BooleanVar] by a [bool], a [CTkProgressBar] by its float, the image
    canvas by the path of the image it shows.  The outside world the
    handlers consult (the file system as it was before the run, the answers
    of the user to yes/no questions, the servers, yt-dlp, [float()], PIL's
    format detection, the platform, the failures of writes) is the record
    [env].  Files are read and written in text mode, with Python's newline
    translations ([read_text], [write_text]). *)
From Stdlib Require Import String Ascii List ZArith QArith Lia Bool SpecFloat Relations.
From S2P Require Import Prelude PyStr World Codec Timecode ApiClient SrtFile VideoDownloader ImageGenerator.
Import ListNotations.
Open Scope py_scope.
Open Scope nat_scope.

Module GuiState.
Import World Codec Timecode ApiClient.

(** ** Paths ([posixpath]) *)

Definition is_slash (c : ascii) : bool := ascii_eqb c "/"%char.

(** [os.path.basename(p)]: what follows the last slash. *)
Definition basename (p : str) : str := VideoDownloader.last_component p.

(** [os.path.dirname(p)]: what precedes the last component, without its
    trailing slashes unless it is only slashes.  [Path(p).parent] agrees
    with it on the normalised absolute paths the code builds. *)
Definition dirname (p : str) : str :=
  let head := rev (skipn (length (basename p)) (rev p)) in
  if negb (forallb is_slash head)
  then rev (skipn (length (VideoDownloader.take_while is_slash (rev head))) (rev head))
  else head.

(** ** [f"{x:.1f}"] for a binary64 [x]: the exact value rounded to one
    decimal, ties to even. *)

Definition div_half_even (n d : Z) : Z :=
  let q := (n / d)%Z in
  let r := (n mod d)%Z in
  if (d <? 2 * r)%Z then (q + 1)%Z
  else if (2 * r <? d)%Z then q
  else if Z.even q then q else (q + 1)%Z.

Definition fmt_1f (x : spec_float) : str :=
  match x with
  | S754_zero s => (if s then lit "-" else []) ++ lit "0.0"
  | S754_finite s m e =>
      let k := if (0 <=? e)%Z then (Zpos m * 10 * 2 ^ e)%Z
               else div_half_even (Zpos m * 10) (2 ^ (- e)) in
      (if s then lit "-" else []) ++ py_str_Z (k / 10) ++ lit "." ++ py_str_Z (k mod 10)
  | S754_infinity s => (if s then lit "-" else []) ++ lit "inf"
  | S754_nan => lit "nan"
  end.

(** ** Dialogs, callbacks and threads *)

Inductive dialog :=
| DWarning (title msg : str)
| DInfo (title msg : str)
| DError (title msg : str)
| DAskYesNo (title msg : str).

(** What yt-dlp does with the hooks of a download: it calls the progress
    hook with its status dictionary, and the logger with a message. *)
Inductive ydl_event :=
| YProgress (d : list (str * str))
| YLog (k : VideoDownloader.log_kind) (msg : str).

(** A function queued by [self.after(0, f)]. *)
Inductive callback :=
| CbTranslationUpdate (progress : spec_float) (label : str)   (* [update], lines 1048-1052 *)
| CbShowTranslation (result original_path : str)               (* line 1034 *)
| CbShowEditResult (result : str)                              (* line 935 *)
| CbShowVideoInfo (info : str)                                 (* line 1114 *)
| CbDownloadProgress (percent : list (str * str))             (* [update], lines 1178-1179 *)
| CbDownloadStatus (status : str)                              (* [update], lines 1185-1187 *)
| CbDownloadComplete (result : str)                            (* line 1165 *)
| CbShowScript (script : str)                                  (* line 1226 *)
| CbShowImages (image_paths : list str)                        (* line 1330 *)
| CbErrorDialog (title prefix : str) (cell : nat).             (* the [lambda]s reading [e] *)

(** A started thread: the target of [threading.Thread], with the values
    it captured, or the end of an [except] block ([del e] of the cell it
    allocated). *)
Inductive thread :=
| TCheckLM                                                     (* [check], lines 801-817 *)
| TTranslate (file_path src_lang tgt_lang style : str) (batch_size : Z)
| TStoryEdit (story edit_type length_pref : str)
| TCheckUrl (url : str)
| TDownload (url quality fmt download_path : str) (subtitle audio_only : bool)
| TScript (story : str) (num_scenes : Z) (style detail : str) (include_prompts : bool)
| TGenImages (prompt model size : str) (num_images steps : Z) (cfg_scale : Q) (sampler : str)
| TDelCell (cell : nat).

(** The outside world. *)
Record env := mk_env {
  disk_read : str -> exc + str;             (* [open(p, 'r').read()] of a file not written in the run *)
  disk_exists : str -> bool;                (* [os.path.exists] before the run *)
  open_write_error : str -> option exc;     (* what [open(p, 'w')] raises, if anything *)
  now_hms : nat -> str;                     (* [datetime.now().strftime("%H:%M:%S")] *)
  answer_yes : nat -> bool;                 (* the answer to the question shown after [n] dialogs *)
  lm_server : World.server;
  config_lm_url : str;
  config_sd_url : str;
  ydl : VideoDownloader.ydl;
  ydl_events : str -> list ydl_event;       (* the hook calls during the download of a URL *)
  home : str;
  sd_server : ImageGenerator.sd_server;
  sd_clock : ImageGenerator.clock;
  sd_write_error : str -> option exc;       (* what saving an image at a path raises, if anything *)
  py_float : str -> option Q;               (* [float(s)] *)
  pil_identifies : list Z -> bool;          (* [Image.open] recognises these bytes *)
  gui_dir : str;                            (* [Path(__file__).parent] of gui.py *)
  platform_system : str;
  open_folder_error : str -> option exc     (* what the command that opens a folder raises *)
}.

(** [setup_clients] (lines 45-51): [VideoDownloader()], [SRTTranslator]
    and [StoryEditor] keep no state besides the LM Studio client. *)
Record client_set := mk_clients {
  lm_client : LMStudioClient;
  image_gen : ImageGenerator.ImageGenerator
}.

(** ** The window *)

Record story_widgets := mk_story_widgets {
  story_text : str;
  edit_type : str;
  length_var : str;
  result_text : str
}.

Record subtitle_widgets := mk_subtitle_widgets {
  srt_file_path : str;
  src_lang : str;
  tgt_lang : str;
  trans_style : str;
  batch_size : str;
  orig_text : str;
  progress_bar : spec_float;
  progress_label : str;
  trans_text : str
}.

Record video_widgets := mk_video_widgets {
  video_url : str;
  quality : str;
  format_var : str;
  subtitle_var : bool;
  audio_only_var : bool;
  download_path : str;
  download_status : str;
  download_progress : spec_float
}.

Record script_widgets := mk_script_widgets {
  script_story_text : str;
  image_style : str;
  num_scenes : str;
  detail_level : str;
  include_prompts : bool;
  script_output : str
}.

Record image_widgets := mk_image_widgets {
  image_prompt_text : str;
  image_model : str;
  image_size : str;
  num_images : str;
  steps : str;
  cfg_scale : str;
  sampler : str;
  canvas : option str
}.

Record gui := mk_gui {
  story_tab : story_widgets;
  subtitle_tab : subtitle_widgets;
  video_tab : video_widgets;
  script_tab : script_widgets;
  image_tab : image_widgets;
  current_tab : str;  (* the tab [self.tabview] shows *)
  left_status : str;  (* [self.left_status]'s text *)
  center_status : str;  (* [self.center_status]'s text (LM Studio) *)
  clipboard : str;  (* the clipboard's content *)
  clients : option client_set;  (* what [setup_clients] assigned *)
  opened : list (str * str);  (* (command, folder) run to show a folder *)
  toplevels : list str;  (* the titles of the open [CTkToplevel] windows *)
  dialogs : list dialog;  (* the message boxes shown, in order *)
  written : list (str * str);  (* (path, content) of each file written *)
  after_queue : list callback;  (* Tk's queue of [after(0, f)] callbacks *)
  threads : list thread;  (* the started threads yet to run *)
  cells : list (option exc);  (* the closure cells of [except] blocks *)
  tk_errors : list exc;  (* exceptions reported on standard error *)
  tick : nat;  (* readings of the clock *)
  lm_world : World.world;  (* the LM Studio client's world *)
  vlogs : list str;  (* the video downloader's log *)
  img_world : ImageGenerator.img_world  (* the image generator's world (its files and folders) *)
}.

(** Field updates. *)

Definition set_story_tab (v : story_widgets) (g : gui) : gui :=
  mk_gui v (subtitle_tab g) (video_tab g) (script_tab g) (image_tab g) (current_tab g)
    (left_status g) (center_status g) (clipboard g) (clients g) (opened g) (toplevels g)
    (dialogs g) (written g) (after_queue g) (threads g) (cells g) (tk_errors g) (tick g)
    (lm_world g) (vlogs g) (img_world g).

Definition set_subtitle_tab (v : subtitle_widgets) (g : gui) : gui :=
  mk_gui (story_tab g) v (video_tab g) (script_tab g) (image_tab g) (current_tab g)
    (left_status g) (center_status g) (clipboard g) (clients g) (opened g) (toplevels g)
    (dialogs g) (written g) (after_queue g) (threads g) (cells g) (tk_errors g) (tick g)
    (lm_world g) (vlogs g) (img_world g).

Definition set_video_tab (v : video_widgets) (g : gui) : gui :=
  mk_gui (story_tab g) (subtitle_tab g) v (script_tab g) (image_tab g) (current_tab g)
    (left_status g) (center_status g) (clipboard g) (clients g) (opened g) (toplevels g)
    (dialogs g) (written g) (after_queue g) (threads g) (cells g) (tk_errors g) (tick g)
    (lm_world g) (vlogs g) (img_world g).

Definition set_script_tab (v : script_widgets) (g : gui) : gui :=
  mk_gui (story_tab g) (subtitle_tab g) (video_tab g) v (image_tab g) (current_tab g)
    (left_status g) (center_status g) (clipboard g) (clients g) (opened g) (toplevels g)
    (dialogs g) (written g) (after_queue g) (threads g) (cells g) (tk_errors g) (tick g)
    (lm_world g) (vlogs g) (img_world g).

Definition set_image_tab (v : image_widgets) (g : gui) : gui :=
  mk_gui (story_tab g) (subtitle_tab g) (video_tab g) (script_tab g) v (current_tab g)
    (left_status g) (center_status g) (clipboard g) (clients g) (opened g) (toplevels g)
    (dialogs g) (written g) (after_queue g) (threads g) (cells g) (tk_errors g) (tick g)
    (lm_world g) (vlogs g) (img_world g).

Definition set_current_tab (v : str) (g : gui) : gui :=
  mk_gui (story_tab g) (subtitle_tab g) (video_tab g) (script_tab g) (image_tab g) v
    (left_status g) (center_status g) (clipboard g) (clients g) (opened g) (toplevels g)
    (dialogs g) (written g) (after_queue g) (threads g) (cells g) (tk_errors g) (tick g)
    (lm_world g) (vlogs g) (img_world g).

Definition set_left_status (v : str) (g : gui) : gui :=
  mk_gui (story_tab g) (subtitle_tab g) (video_tab g) (script_tab g) (image_tab g) (current_tab g)
    v (center_status g) (clipboard g) (clients g) (opened g) (toplevels g) (dialogs g) (written g)
    (after_queue g) (threads g) (cells g) (tk_errors g) (tick g) (lm_world g) (vlogs g)
    (img_world g).

Definition set_center_status (v : str) (g : gui) : gui :=
  mk_gui (story_tab g) (subtitle_tab g) (video_tab g) (script_tab g) (image_tab g) (current_tab g)
    (left_status g) v (clipboard g) (clients g) (opened g) (toplevels g) (dialogs g) (written g)
    (after_queue g) (threads g) (cells g) (tk_errors g) (tick g) (lm_world g) (vlogs g)
    (img_world g).

Definition set_clipboard (v : str) (g : gui) : gui :=
  mk_gui (story_tab g) (subtitle_tab g) (video_tab g) (script_tab g) (image_tab g) (current_tab g)
    (left_status g) (center_status g) v (clients g) (opened g) (toplevels g) (dialogs g)
    (written g) (after_queue g) (threads g) (cells g) (tk_errors g) (tick g) (lm_world g)
    (vlogs g) (img_world g).

Definition set_clients (v : option client_set) (g : gui) : gui :=
  mk_gui (story_tab g) (subtitle_tab g) (video_tab g) (script_tab g) (image_tab g) (current_tab g)
    (left_status g) (center_status g) (clipboard g) v (opened g) (toplevels g) (dialogs g)
    (written g) (after_queue g) (threads g) (cells g) (tk_errors g) (tick g) (lm_world g)
    (vlogs g) (img_world g).

Definition set_opened (v : list (str * str)) (g : gui) : gui :=
  mk_gui (story_tab g) (subtitle_tab g) (video_tab g) (script_tab g) (image_tab g) (current_tab g)
    (left_status g) (center_status g) (clipboard g) (clients g) v (toplevels g) (dialogs g)
    (written g) (after_queue g) (threads g) (cells g) (tk_errors g) (tick g) (lm_world g)
    (vlogs g) (img_world g).

Definition set_toplevels (v : list str) (g : gui) : gui :=
  mk_gui (story_tab g) (subtitle_tab g) (video_tab g) (script_tab g) (image_tab g) (current_tab g)
    (left_status g) (center_status g) (clipboard g) (clients g) (opened g) v (dialogs g)
    (written g) (after_queue g) (threads g) (cells g) (tk_errors g) (tick g) (lm_world g)
    (vlogs g) (img_world g).

Definition set_dialogs (v : list dialog) (g : gui) : gui :=
  mk_gui (story_tab g) (subtitle_tab g) (video_tab g) (script_tab g) (image_tab g) (current_tab g)
    (left_status g) (center_status g) (clipboard g) (clients g) (opened g) (toplevels g) v
    (written g) (after_queue g) (threads g) (cells g) (tk_errors g) (tick g) (lm_world g)
    (vlogs g) (img_world g).

Definition set_written (v : list (str * str)) (g : gui) : gui :=
  mk_gui (story_tab g) (subtitle_tab g) (video_tab g) (script_tab g) (image_tab g) (current_tab g)
    (left_status g) (center_status g) (clipboard g) (clients g) (opened g) (toplevels g)
    (dialogs g) v (after_queue g) (threads g) (cells g) (tk_errors g) (tick g) (lm_world g)
    (vlogs g) (img_world g).

Definition set_after_queue (v : list callback) (g : gui) : gui :=
  mk_gui (story_tab g) (subtitle_tab g) (video_tab g) (script_tab g) (image_tab g) (current_tab g)
    (left_status g) (center_status g) (clipboard g) (clients g) (opened g) (toplevels g)
    (dialogs g) (written g) v (threads g) (cells g) (tk_errors g) (tick g) (lm_world g) (vlogs g)
    (img_world g).

Definition set_threads (v : list thread) (g : gui) : gui :=
  mk_gui (story_tab g) (subtitle_tab g) (video_tab g) (script_tab g) (image_tab g) (current_tab g)
    (left_status g) (center_status g) (clipboard g) (clients g) (opened g) (toplevels g)
    (dialogs g) (written g) (after_queue g) v (cells g) (tk_errors g) (tick g) (lm_world g)
    (vlogs g) (img_world g).

Definition set_cells (v : list (option exc)) (g : gui) : gui :=
  mk_gui (story_tab g) (subtitle_tab g) (video_tab g) (script_tab g) (image_tab g) (current_tab g)
    (left_status g) (center_status g) (clipboard g) (clients g) (opened g) (toplevels g)
    (dialogs g) (written g) (after_queue g) (threads g) v (tk_errors g) (tick g) (lm_world g)
    (vlogs g) (img_world g).

Definition set_tk_errors (v : list exc) (g : gui) : gui :=
  mk_gui (story_tab g) (subtitle_tab g) (video_tab g) (script_tab g) (image_tab g) (current_tab g)
    (left_status g) (center_status g) (clipboard g) (clients g) (opened g) (toplevels g)
    (dialogs g) (written g) (after_queue g) (threads g) (cells g) v (tick g) (lm_world g)
    (vlogs g) (img_world g).

Definition set_tick (v : nat) (g : gui) : gui :=
  mk_gui (story_tab g) (subtitle_tab g) (video_tab g) (script_tab g) (image_tab g) (current_tab g)
    (left_status g) (center_status g) (clipboard g) (clients g) (opened g) (toplevels g)
    (dialogs g) (written g) (after_queue g) (threads g) (cells g) (tk_errors g) v (lm_world g)
    (vlogs g) (img_world g).

Definition set_lm_world (v : World.world) (g : gui) : gui :=
  mk_gui (story_tab g) (subtitle_tab g) (video_tab g) (script_tab g) (image_tab g) (current_tab g)
    (left_status g) (center_status g) (clipboard g) (clients g) (opened g) (toplevels g)
    (dialogs g) (written g) (after_queue g) (threads g) (cells g) (tk_errors g) (tick g) v
    (vlogs g) (img_world g).

Definition set_vlogs (v : list str) (g : gui) : gui :=
  mk_gui (story_tab g) (subtitle_tab g) (video_tab g) (script_tab g) (image_tab g) (current_tab g)
    (left_status g) (center_status g) (clipboard g) (clients g) (opened g) (toplevels g)
    (dialogs g) (written g) (after_queue g) (threads g) (cells g) (tk_errors g) (tick g)
    (lm_world g) v (img_world g).

Definition set_img_world (v : ImageGenerator.img_world) (g : gui) : gui :=
  mk_gui (story_tab g) (subtitle_tab g) (video_tab g) (script_tab g) (image_tab g) (current_tab g)
    (left_status g) (center_status g) (clipboard g) (clients g) (opened g) (toplevels g)
    (dialogs g) (written g) (after_queue g) (threads g) (cells g) (tk_errors g) (tick g)
    (lm_world g) (vlogs g) v.

Definition set_story_text (v : str) (g : gui) : gui :=
  let t := story_tab g in
  set_story_tab (mk_story_widgets v (edit_type t) (length_var t) (result_text t)) g.

Definition set_edit_type (v : str) (g : gui) : gui :=
  let t := story_tab g in
  set_story_tab (mk_story_widgets (story_text t) v (length_var t) (result_text t)) g.

Definition set_length_var (v : str) (g : gui) : gui :=
  let t := story_tab g in
  set_story_tab (mk_story_widgets (story_text t) (edit_type t) v (result_text t)) g.

Definition set_result_text (v : str) (g : gui) : gui :=
  let t := story_tab g in
  set_story_tab (mk_story_widgets (story_text t) (edit_type t) (length_var t) v) g.

Definition set_srt_file_path (v : str) (g : gui) : gui :=
  let t := subtitle_tab g in
  set_subtitle_tab (mk_subtitle_widgets v (src_lang t) (tgt_lang t) (trans_style t) (batch_size t)
    (orig_text t) (progress_bar t) (progress_label t) (trans_text t)) g.

Definition set_src_lang (v : str) (g : gui) : gui :=
  let t := subtitle_tab g in
  set_subtitle_tab (mk_subtitle_widgets (srt_file_path t) v (tgt_lang t) (trans_style t)
    (batch_size t) (orig_text t) (progress_bar t) (progress_label t) (trans_text t)) g.

Definition set_tgt_lang (v : str) (g : gui) : gui :=
  let t := subtitle_tab g in
  set_subtitle_tab (mk_subtitle_widgets (srt_file_path t) (src_lang t) v (trans_style t)
    (batch_size t) (orig_text t) (progress_bar t) (progress_label t) (trans_text t)) g.

Definition set_trans_style (v : str) (g : gui) : gui :=
  let t := subtitle_tab g in
  set_subtitle_tab (mk_subtitle_widgets (srt_file_path t) (src_lang t) (tgt_lang t) v
    (batch_size t) (orig_text t) (progress_bar t) (progress_label t) (trans_text t)) g.

Definition set_batch_size (v : str) (g : gui) : gui :=
  let t := subtitle_tab g in
  set_subtitle_tab (mk_subtitle_widgets (srt_file_path t) (src_lang t) (tgt_lang t)
    (trans_style t) v (orig_text t) (progress_bar t) (progress_label t) (trans_text t)) g.

Definition set_orig_text (v : str) (g : gui) : gui :=
  let t := subtitle_tab g in
  set_subtitle_tab (mk_subtitle_widgets (srt_file_path t) (src_lang t) (tgt_lang t)
    (trans_style t) (batch_size t) v (progress_bar t) (progress_label t) (trans_text t)) g.

Definition set_progress_bar (v : spec_float) (g : gui) : gui :=
  let t := subtitle_tab g in
  set_subtitle_tab (mk_subtitle_widgets (srt_file_path t) (src_lang t) (tgt_lang t)
    (trans_style t) (batch_size t) (orig_text t) v (progress_label t) (trans_text t)) g.

Definition set_progress_label (v : str) (g : gui) : gui :=
  let t := subtitle_tab g in
  set_subtitle_tab (mk_subtitle_widgets (srt_file_path t) (src_lang t) (tgt_lang t)
    (trans_style t) (batch_size t) (orig_text t) (progress_bar t) v (trans_text t)) g.

Definition set_trans_text (v : str) (g : gui) : gui :=
  let t := subtitle_tab g in
  set_subtitle_tab (mk_subtitle_widgets (srt_file_path t) (src_lang t) (tgt_lang t)
    (trans_style t) (batch_size t) (orig_text t) (progress_bar t) (progress_label t) v) g.

Definition set_video_url (v : str) (g : gui) : gui :=
  let t := video_tab g in
  set_video_tab (mk_video_widgets v (quality t) (format_var t) (subtitle_var t) (audio_only_var t)
    (download_path t) (download_status t) (download_progress t)) g.

Definition set_quality (v : str) (g : gui) : gui :=
  let t := video_tab g in
  set_video_tab (mk_video_widgets (video_url t) v (format_var t) (subtitle_var t)
    (audio_only_var t) (download_path t) (download_status t) (download_progress t)) g.

Definition set_format_var (v : str) (g : gui) : gui :=
  let t := video_tab g in
  set_video_tab (mk_video_widgets (video_url t) (quality t) v (subtitle_var t) (audio_only_var t)
    (download_path t) (download_status t) (download_progress t)) g.

Definition set_subtitle_var (v : bool) (g : gui) : gui :=
  let t := video_tab g in
  set_video_tab (mk_video_widgets (video_url t) (quality t) (format_var t) v (audio_only_var t)
    (download_path t) (download_status t) (download_progress t)) g.

Definition set_audio_only_var (v : bool) (g : gui) : gui :=
  let t := video_tab g in
  set_video_tab (mk_video_widgets (video_url t) (quality t) (format_var t) (subtitle_var t) v
    (download_path t) (download_status t) (download_progress t)) g.

Definition set_download_path (v : str) (g : gui) : gui :=
  let t := video_tab g in
  set_video_tab (mk_video_widgets (video_url t) (quality t) (format_var t) (subtitle_var t)
    (audio_only_var t) v (download_status t) (download_progress t)) g.

Definition set_download_status (v : str) (g : gui) : gui :=
  let t := video_tab g in
  set_video_tab (mk_video_widgets (video_url t) (quality t) (format_var t) (subtitle_var t)
    (audio_only_var t) (download_path t) v (download_progress t)) g.

Definition set_download_progress (v : spec_float) (g : gui) : gui :=
  let t := video_tab g in
  set_video_tab (mk_video_widgets (video_url t) (quality t) (format_var t) (subtitle_var t)
    (audio_only_var t) (download_path t) (download_status t) v) g.

Definition set_script_story_text (v : str) (g : gui) : gui :=
  let t := script_tab g in
  set_script_tab (mk_script_widgets v (image_style t) (num_scenes t) (detail_level t)
    (include_prompts t) (script_output t)) g.

Definition set_image_style (v : str) (g : gui) : gui :=
  let t := script_tab g in
  set_script_tab (mk_script_widgets (script_story_text t) v (num_scenes t) (detail_level t)
    (include_prompts t) (script_output t)) g.

Definition set_num_scenes (v : str) (g : gui) : gui :=
  let t := script_tab g in
  set_script_tab (mk_script_widgets (script_story_text t) (image_style t) v (detail_level t)
    (include_prompts t) (script_output t)) g.

Definition set_detail_level (v : str) (g : gui) : gui :=
  let t := script_tab g in
  set_script_tab (mk_script_widgets (script_story_text t) (image_style t) (num_scenes t) v
    (include_prompts t) (script_output t)) g.

Definition set_include_prompts (v : bool) (g : gui) : gui :=
  let t := script_tab g in
  set_script_tab (mk_script_widgets (script_story_text t) (image_style t) (num_scenes t)
    (detail_level t) v (script_output t)) g.

Definition set_script_output (v : str) (g : gui) : gui :=
  let t := script_tab g in
  set_script_tab (mk_script_widgets (script_story_text t) (image_style t) (num_scenes t)
    (detail_level t) (include_prompts t) v) g.

Definition set_image_prompt_text (v : str) (g : gui) : gui :=
  let t := image_tab g in
  set_image_tab (mk_image_widgets v (image_model t) (image_size t) (num_images t) (steps t)
    (cfg_scale t) (sampler t) (canvas t)) g.

Definition set_image_model (v : str) (g : gui) : gui :=
  let t := image_tab g in
  set_image_tab (mk_image_widgets (image_prompt_text t) v (image_size t) (num_images t) (steps t)
    (cfg_scale t) (sampler t) (canvas t)) g.

Definition set_image_size (v : str) (g : gui) : gui :=
  let t := image_tab g in
  set_image_tab (mk_image_widgets (image_prompt_text t) (image_model t) v (num_images t) (steps t)
    (cfg_scale t) (sampler t) (canvas t)) g.

Definition set_num_images (v : str) (g : gui) : gui :=
  let t := image_tab g in
  set_image_tab (mk_image_widgets (image_prompt_text t) (image_model t) (image_size t) v (steps t)
    (cfg_scale t) (sampler t) (canvas t)) g.

Definition set_steps (v : str) (g : gui) : gui :=
  let t := image_tab g in
  set_image_tab (mk_image_widgets (image_prompt_text t) (image_model t) (image_size t)
    (num_images t) v (cfg_scale t) (sampler t) (canvas t)) g.

Definition set_cfg_scale (v : str) (g : gui) : gui :=
  let t := image_tab g in
  set_image_tab (mk_image_widgets (image_prompt_text t) (image_model t) (image_size t)
    (num_images t) (steps t) v (sampler t) (canvas t)) g.

Definition set_sampler (v : str) (g : gui) : gui :=
  let t := image_tab g in
  set_image_tab (mk_image_widgets (image_prompt_text t) (image_model t) (image_size t)
    (num_images t) (steps t) (cfg_scale t) v (canvas t)) g.

Definition set_canvas (v : option str) (g : gui) : gui :=
  let t := image_tab g in
  set_image_tab (mk_image_widgets (image_prompt_text t) (image_model t) (image_size t)
    (num_images t) (steps t) (cfg_scale t) (sampler t) v) g.

(** ** The widgets' initial values *)

(** [create_tab1_content] (lines 155-249): a [CTkComboBox] shows its
    first value until [set] is called. *)
Definition create_tab1_content : story_widgets :=
  mk_story_widgets [] (lit "Chỉnh văn phong") (lit "giữ nguyên") [].

(** [create_tab2_content] (lines 251-376) *)
Definition create_tab2_content : subtitle_widgets :=
  mk_subtitle_widgets [] (lit "auto") (lit "vi") (lit "hiện đại") (lit "10") [] (float_of_int 0)
    (lit "Sẵn sàng...") [].

(** [create_tab3_content] (lines 378-524); the URL entry shows its
    placeholder, and [get] returns the empty string. *)
Definition create_tab3_content (home : str) : video_widgets :=
  mk_video_widgets [] (lit "best") (lit "mp4") true false
    (VideoDownloader.os_path_join home (lit "Downloads")) [] (float_of_int 0).

(** [create_tab4_content] (lines 526-626) *)
Definition create_tab4_content : script_widgets :=
  mk_script_widgets [] (lit "anime") (lit "5") (lit "chi tiết") true [].

(** [create_tab5_content] (lines 628-765) *)
Definition create_tab5_content : image_widgets :=
  mk_image_widgets [] (lit "stable-diffusion") (lit "512x512") (lit "1") (lit "30") (lit "7.5")
    (lit "Euler a") None.

(** [lst[i] = v] where [i] is a valid index. *)
Fixpoint set_nth {A} (i : nat) (v : A) (l : list A) : list A :=
  match l, i with
  | [], _ => []
  | _ :: l', O => v :: l'
  | x :: l', S i' => x :: set_nth i' v l'
  end.

Definition str_eqb (a b : str) : bool := if List.list_eq_dec ascii_dec a b then true else false.

(** The message of the [NameError] raised when a closure reads [e] after
    its [except] block ended. *)
Definition free_e_error : exc :=
  OtherError (lit "NameError")
    (lit "cannot access free variable 'e' where it is not associated with a value in enclosing scope").

(** Reading an attribute [setup_clients] has not assigned yet: [Tk]'s
    [__getattr__] passes the lookup on to the Tcl interpreter object,
    whose class names the error. *)
Definition attribute_error (name : str) : exc :=
  OtherError (lit "AttributeError") (lit "'_tkinter.tkapp' object has no attribute '" ++ name ++ lit "'").

(** [w.get(1.0, tk.END)] of a text widget: Tk keeps a newline after the
    last line. *)
Definition text_get (content : str) : str := content ++ [NL].

(** ** Text files *)

Definition CR : ascii := "013"%char.

(** Reading a file in text mode ([newline=None]): [\r\n] and a lone [\r]
    both become [\n]. *)
Fixpoint universal_newlines (s : str) : str :=
  match s with
  | [] => []
  | c :: r =>
      if ascii_eqb c CR then
        NL :: match r with
              | d :: r' => if ascii_eqb d NL then universal_newlines r' else universal_newlines r
              | [] => []
              end
      else c :: universal_newlines r
  end.

(** Writing in text mode: each [\n] becomes [os.linesep], [\r\n] on
    Windows. *)
Definition os_newlines (windows : bool) (s : str) : str :=
  if windows then flat_map (fun c => if ascii_eqb c NL then [CR; NL] else [c]) s else s.

(** A value or the exception a library call raised. *)
Definition lift {A} (r : exc + A) : PyM gui A := fun g => (r, g).

Section Ops.
Variable E : env.

Definition show (d : dialog) : PyM gui unit := modify (fun g => set_dialogs (dialogs g ++ [d]) g).
Definition after (cb : callback) : PyM gui unit := modify (fun g => set_after_queue (after_queue g ++ [cb]) g).
Definition start (t : thread) : PyM gui unit := modify (fun g => set_threads (threads g ++ [t]) g).

(** [update_status] (lines 1406-1410) *)
Definition update_status (message : str) : PyM gui unit :=
  fun g => (inr tt, set_tick (S (tick g))
                      (set_left_status (lit "[" ++ now_hms E (tick g) ++ lit "] " ++ message) g)).

(** [messagebox.askyesno]: the dialog is shown and the user answers. *)
Definition ask_yes_no (title msg : str) : PyM gui bool :=
  fun g => (inr (answer_yes E (length (dialogs g))), set_dialogs (dialogs g ++ [DAskYesNo title msg]) g).

(** The characters the file at [path] holds: the last content written to
    [path] during the run, or the file on disk. *)
Definition read_file (path : str) : PyM gui str :=
  fun g => match find (fun kv => str_eqb path (fst kv)) (rev (written g)) with
           | Some (_, c) => (inr c, g)
           | None => (disk_read E path, g)
           end.

(** [open(path, 'r', encoding='utf-8').read()]: the file in text mode. *)
Definition read_text (path : str) : PyM gui str :=
  fun g => match read_file path g with
           | (inr c, g') => (inr (universal_newlines c), g')
           | (inl e, g') => (inl e, g')
           end.

(** [pysrt.open(file_path, encoding='utf-8')] as [translate_file] calls it
    from a worker: [SrtFile]'s reader on the characters of the file
    ([codecs.open] reads without newline translation). *)
Definition open_srt (path : str) : PyM gui (list SubRipItem) :=
  fun g => (SrtFile.pysrt_open (fun p => fst (read_file p g)) path, g).

(** [with open(path, 'w', encoding='utf-8') as f: f.write(content)] *)
Definition write_text (path content : str) : PyM gui unit :=
  fun g => match open_write_error E path with
           | Some e => (inl e, g)
           | None => (inr tt, set_written (written g ++ [(path, os_newlines (str_eqb (platform_system E) (lit "Windows")) content)]) g)
           end.

(** [os.path.exists(path)] *)
Definition path_exists (g : gui) (path : str) : bool :=
  existsb (fun kv => str_eqb path (fst kv)) (written g) ||
  existsb (str_eqb path) (ImageGenerator.iw_dirs (img_world g)) || disk_exists E path.

(** [self.lm_client], [self.editor], ... once [setup_clients] has run. *)
Definition get_clients (name : str) : PyM gui client_set :=
  fun g => match clients g with
           | Some c => (inr c, g)
           | None => (inl (attribute_error name), g)
           end.

(** The clients' own effects, on their part of the state. *)
Definition on_lm {A} (m : PyM World.world A) : PyM gui A :=
  fun g => let '(r, w') := m (lm_world g) in (r, set_lm_world w' g).
Definition on_video {A} (m : PyM (list str) A) : PyM gui A :=
  fun g => let '(r, w') := m (vlogs g) in (r, set_vlogs w' g).
Definition on_img {A} (m : PyM ImageGenerator.img_world A) : PyM gui A :=
  fun g => let '(r, w') := m (img_world g) in (r, set_img_world w' g).

(** [except Exception as e: self.after(0, lambda: messagebox.showerror(
    title, f"{prefix}{str(e)}"))] in a thread: [e] is stored in a fresh
    closure cell, and the end of the block, which deletes it, is a step of
    its own. *)
Definition except_cell (title prefix : str) (e : exc) : PyM gui unit :=
  fun g => let cell := length (cells g) in
           (after (CbErrorDialog title prefix cell) ;;; start (TDelCell cell))
             (set_cells (cells g ++ [Some e]) g).

(** The shape of every worker thread of the window:
    [try: r = body; self.after(0, lambda: ok(r)) except Exception as e: ...]. *)
Definition worker {A} (body : PyM gui A) (ok : A -> callback) (title prefix : str) : PyM gui unit :=
  try_except (r <- body ;; after (ok r)) (except_cell title prefix).

(** The end of an [except] block: [del e] empties the cell. *)
Definition del_cell (c : nat) : PyM gui unit := modify (fun g => set_cells (set_nth c None (cells g)) g).

(** The error [lambda] run by the main loop: it reads the cell of [e]. *)
Definition run_error_dialog (title prefix : str) (cell : nat) : PyM gui unit :=
  fun g => match nth_error (cells g) cell with
           | Some (Some e) => show (DError title (prefix ++ exc_str e)) g
           | _ => (inl free_e_error, g)
           end.

End Ops.

(** Tk runs a handler or callback, or a thread its target; an exception
    it lets escape is printed on standard error and the program goes on. *)
Definition tk_run (m : PyM gui unit) (g : gui) : gui :=
  match m g with
  | (inl e, g') => set_tk_errors (tk_errors g' ++ [e]) g'
  | (inr _, g') => g'
  end.

(** Every queued error [lambda] refers to an allocated cell that is
    either deleted already or whose deletion is still a pending step. *)
Definition cells_ok (g : gui) : Prop :=
  forall title prefix c, In (CbErrorDialog title prefix c) (after_queue g) ->
    c < length (cells g) /\ (nth_error (cells g) c = Some None \/ In (TDelCell c) (threads g)).

End GuiState.

Module GuiStateFacts.
Import GuiState.

(** Unfolds the monad, the field updates and the projections; destruct
    the state first, so that the projections of [mk_gui] reduce. *)
Ltac gui_simpl :=
  unfold cells_ok in *;
  cbv beta iota zeta delta [show after start modify bind ret
    set_story_tab set_subtitle_tab set_video_tab set_script_tab set_image_tab set_current_tab
    set_left_status set_center_status set_clipboard set_clients set_opened set_toplevels
    set_dialogs set_written set_after_queue set_threads set_cells set_tk_errors set_tick
    set_lm_world set_vlogs set_img_world set_story_text set_edit_type set_length_var
    set_result_text set_srt_file_path set_src_lang set_tgt_lang set_trans_style set_batch_size
    set_orig_text set_progress_bar set_progress_label set_trans_text set_video_url set_quality
    set_format_var set_subtitle_var set_audio_only_var set_download_path set_download_status
    set_download_progress set_script_story_text set_image_style set_num_scenes set_detail_level
    set_include_prompts set_script_output set_image_prompt_text set_image_model set_image_size
    set_num_images set_steps set_cfg_scale set_sampler set_canvas story_tab subtitle_tab
    video_tab script_tab image_tab current_tab left_status center_status clipboard clients
    opened toplevels dialogs written after_queue threads cells tk_errors tick lm_world vlogs
    img_world story_text edit_type length_var result_text srt_file_path src_lang tgt_lang
    trans_style batch_size orig_text progress_bar progress_label trans_text video_url quality
    format_var subtitle_var audio_only_var download_path download_status download_progress
    script_story_text image_style num_scenes detail_level include_prompts script_output
    image_prompt_text image_model image_size num_images steps cfg_scale sampler canvas
    fst snd] in *.

(** A queued callback that is not an error [lambda]. *)
Definition no_err (cb : callback) : Prop :=
  match cb with CbErrorDialog _ _ _ => False | _ => True end.

(** What a computation does to the queue, the cells, the threads and the
    clients: it queues callbacks that satisfy [Pq], starts threads that
    satisfy [Pt], and leaves the cells and the clients alone. *)
Definition eff (Pq : callback -> Prop) (Pt : thread -> Prop) {A} (m : PyM gui A) : Prop :=
  forall g, exists q ts, after_queue (snd (m g)) = after_queue g ++ q /\ Forall Pq q /\
            cells (snd (m g)) = cells g /\ threads (snd (m g)) = threads g ++ ts /\ Forall Pt ts /\
            clients (snd (m g)) = clients g.

(** A handler of the main thread: it queues no error [lambda]. *)
Abbreviation frames := (eff no_err (fun _ => True)).

(** A callback or a [setup] step: it queues nothing and starts nothing. *)
Definition none_cb (_ : callback) : Prop := False.
Definition none_thread (_ : thread) : Prop := False.
Abbreviation still := (eff none_cb none_thread).

Create HintDb gui.

Section Eff.
Variables (Pq : callback -> Prop) (Pt : thread -> Prop).

Lemma eff_bind {A B} (m : PyM gui A) (k : A -> PyM gui B) :
  eff Pq Pt m -> (forall u, eff Pq Pt (k u)) -> eff Pq Pt (bind m k).
Proof.
  intros Hm Hk g. unfold bind. destruct (Hm g) as (q1 & t1 & Q1 & F1 & Q2 & Q3 & T1 & C1).
  destruct (m g) as [[e|u] g1]; cbn in *; [eauto 10|].
  destruct (Hk u g1) as (q2 & t2 & R1 & F2 & R2 & R3 & T2 & C2).
  exists (q1 ++ q2), (t1 ++ t2). rewrite R1, Q1, R3, Q3, !app_assoc.
  repeat split; [apply Forall_app; auto|congruence|apply Forall_app; auto|congruence].
Qed.

Lemma eff_try {A} (m : PyM gui A) h : eff Pq Pt m -> (forall e, eff Pq Pt (h e)) -> eff Pq Pt (try_except m h).
Proof.
  intros Hm Hh g. unfold try_except. destruct (Hm g) as (q1 & t1 & Q1 & F1 & Q2 & Q3 & T1 & C1).
  destruct (m g) as [[e|u] g1]; cbn in *; [|eauto 10].
  destruct (Hh e g1) as (q2 & t2 & R1 & F2 & R2 & R3 & T2 & C2).
  exists (q1 ++ q2), (t1 ++ t2). rewrite R1, Q1, R3, Q3, !app_assoc.
  repeat split; [apply Forall_app; auto|congruence|apply Forall_app; auto|congruence].
Qed.

(** A computation that keeps the queue, the cells and the threads. *)
Lemma eff_keep {A} (m : PyM gui A) :
  (forall g, after_queue (snd (m g)) = after_queue g /\ cells (snd (m g)) = cells g /\
             threads (snd (m g)) = threads g /\ clients (snd (m g)) = clients g) -> eff Pq Pt m.
Proof.
  intros H g. destruct (H g) as (A1 & A2 & A3 & A4). exists [], [].
  rewrite !app_nil_r. repeat split; auto.
Qed.

Lemma eff_after cb : Pq cb -> eff Pq Pt (after cb).
Proof. intros H g. exists [cb], []. rewrite app_nil_r. repeat split; auto. Qed.

Lemma eff_start t : Pt t -> eff Pq Pt (start t).
Proof. intros H g. exists [], [t]. rewrite app_nil_r. repeat split; auto. Qed.

End Eff.

Lemma eff_weaken (Pq Pq' : callback -> Prop) (Pt Pt' : thread -> Prop) {A} (m : PyM gui A) :
  (forall x, Pq x -> Pq' x) -> (forall t, Pt t -> Pt' t) -> eff Pq Pt m -> eff Pq' Pt' m.
Proof.
  intros Hq Ht Hm g. destruct (Hm g) as (q & ts & Q1 & F1 & Q2 & Q3 & T1 & C1).
  exists q, ts. repeat split; auto; eapply Forall_impl; eauto.
Qed.

(** Proves [eff_keep]'s premise by computation. *)
Ltac keeps :=
  apply eff_keep; intros [];
  cbv beta delta [show update_status ask_yes_no read_file write_text get_clients on_lm on_video
                  on_img run_error_dialog del_cell lift modify ret raise];
  cbn -[app length str_eqb find rev existsb];
  repeat match goal with |- context [match ?x with _ => _ end] => destruct x eqn:? end;
  cbn; auto.

Section Prims.
Variables (Pq : callback -> Prop) (Pt : thread -> Prop).
Variable E : env.

Lemma eff_ret {A} (a : A) : eff Pq Pt (ret a).
Proof. keeps. Qed.

Lemma eff_raise {A} e : eff Pq Pt (@raise gui A e).
Proof. keeps. Qed.

Lemma eff_show d : eff Pq Pt (show d).
Proof. keeps. Qed.

Lemma eff_status msg : eff Pq Pt (update_status E msg).
Proof. keeps. Qed.

Lemma eff_ask t m : eff Pq Pt (ask_yes_no E t m).
Proof. keeps. Qed.

Lemma eff_read p : eff Pq Pt (read_file E p).
Proof. keeps. Qed.

Lemma eff_open_srt p : eff Pq Pt (open_srt E p).
Proof. apply eff_keep. intros g. repeat split. Qed.

Lemma eff_read_text p : eff Pq Pt (read_text E p).
Proof. apply eff_keep. intros g. unfold read_text, read_file. destruct (find _ _) as [[? ?]|]; [|destruct (disk_read E p)]; repeat split. Qed.

Lemma eff_write p c : eff Pq Pt (write_text E p c).
Proof. keeps. Qed.

Lemma eff_clients n : eff Pq Pt (get_clients n).
Proof. keeps. Qed.

Lemma eff_lm {A} (m : PyM World.world A) : eff Pq Pt (on_lm m).
Proof. keeps. Qed.

Lemma eff_video {A} (m : PyM (list str) A) : eff Pq Pt (on_video m).
Proof. keeps. Qed.

Lemma eff_img {A} (m : PyM ImageGenerator.img_world A) : eff Pq Pt (on_img m).
Proof. keeps. Qed.

Lemma eff_error_dialog t p c : eff Pq Pt (run_error_dialog t p c).
Proof. keeps. Qed.

Lemma eff_lift {A} (r : exc + A) : eff Pq Pt (lift r).
Proof. keeps. Qed.

End Prims.

#[export] Hint Resolve eff_ret eff_raise eff_show eff_status eff_ask eff_read eff_read_text eff_open_srt eff_write eff_clients
  eff_lm eff_video eff_img eff_error_dialog eff_lift : gui.

(** Splits a computation into the steps above. *)
Ltac eff_tac :=
  repeat first
    [ apply eff_bind; [|intros ?]
    | apply eff_try; [|intros ?]
    | apply eff_after; exact I
    | apply eff_start; exact I
    | solve [auto with gui]
    | solve [keeps]
    | match goal with |- eff _ _ (if ?b then _ else _) => destruct b end
    | match goal with |- eff _ _ (match ?x with _ => _ end) => destruct x end ].

(** ** Fields a computation leaves alone *)

Definition keeps_field {X} (f : gui -> X) {A} (m : PyM gui A) : Prop := forall g, f (snd (m g)) = f g.

Section KeepsField.
Context {X : Type} (f : gui -> X).

Lemma kf_bind {A B} (m : PyM gui A) (k : A -> PyM gui B) :
  keeps_field f m -> (forall u, keeps_field f (k u)) -> keeps_field f (bind m k).
Proof.
  intros Hm Hk g. unfold bind. specialize (Hm g).
  destruct (m g) as [[e|u] g1]; cbn in *; [exact Hm|]. rewrite Hk. exact Hm.
Qed.

Lemma kf_try {A} (m : PyM gui A) h :
  keeps_field f m -> (forall e, keeps_field f (h e)) -> keeps_field f (try_except m h).
Proof.
  intros Hm Hh g. unfold try_except. specialize (Hm g).
  destruct (m g) as [[e|u] g1]; cbn in *; [|exact Hm]. rewrite Hh. exact Hm.
Qed.

Lemma kf_lm {A} (m : PyM World.world A) :
  (forall w g, f (set_lm_world w g) = f g) -> keeps_field f (on_lm m).
Proof. intros H g. unfold on_lm. destruct (m (lm_world g)). apply H. Qed.

Lemma kf_video {A} (m : PyM (list str) A) :
  (forall w g, f (set_vlogs w g) = f g) -> keeps_field f (on_video m).
Proof. intros H g. unfold on_video. destruct (m (vlogs g)). apply H. Qed.

Lemma kf_img {A} (m : PyM ImageGenerator.img_world A) :
  (forall w g, f (set_img_world w g) = f g) -> keeps_field f (on_img m).
Proof. intros H g. unfold on_img. destruct (m (img_world g)). apply H. Qed.

End KeepsField.

(** Proves [keeps_field] of a primitive by computation. *)
Ltac kf_prim :=
  intros [];
  cbv beta delta [show after start update_status ask_yes_no read_file write_text get_clients on_lm
                  on_video on_img run_error_dialog del_cell except_cell lift modify ret raise];
  cbn -[app length str_eqb find rev existsb];
  repeat match goal with |- context [match ?x with _ => _ end] => destruct x eqn:? end;
  cbn; auto.

Ltac kf_tac :=
  repeat first
    [ apply kf_bind; [|intros ?]
    | apply kf_try; [|intros ?]
    | apply kf_lm; intros ? []; reflexivity
    | apply kf_video; intros ? []; reflexivity
    | apply kf_img; intros ? []; reflexivity
    | solve [kf_prim]
    | match goal with |- keeps_field _ (if ?b then _ else _) => destruct b end
    | match goal with |- keeps_field _ (match ?x with _ => _ end) => destruct x end ].

(** [keeps_field] of a computation of the form
    [fun g => match .. g .. with ... end], taken apart into the branch it
    runs. *)
Ltac kf_branch :=
  intros ?g; cbv beta zeta;
  repeat match goal with |- context [snd (match ?x with _ => _ end)] => destruct x end;
  match goal with |- ?f (snd (?m ?g)) = ?f ?g => assert (Hm : keeps_field f m) by kf_tac; apply Hm end.

(** ** The closure-cell invariant *)

Lemma cells_ok_frame g g' q ts :
  cells_ok g -> after_queue g' = after_queue g ++ q -> Forall no_err q ->
  cells g' = cells g -> threads g' = threads g ++ ts -> cells_ok g'.
Proof.
  intros Hok Hq Hf Hc Ht t p c Hin. rewrite Hc, Ht. rewrite Hq in Hin.
  apply in_app_or in Hin as [Hin|Hin].
  - destruct (Hok t p c Hin) as (Hlt & [Hn|Hd]); split; auto. right. apply in_or_app. left. exact Hd.
  - rewrite Forall_forall in Hf. destruct (Hf _ Hin).
Qed.

(** [cells_ok] reads only the queue, the cells and the threads, which
    [tk_run] takes from the run. *)
Lemma cells_ok_tk_run m g : cells_ok (snd (m g)) -> cells_ok (tk_run m g).
Proof. unfold tk_run. destruct (m g) as [[e|u] g']; cbn; [destruct g'|]; auto. Qed.

Lemma cells_ok_snd {A} Pt (m : PyM gui A) g : eff no_err Pt m -> cells_ok g -> cells_ok (snd (m g)).
Proof.
  intros Hm Hok. destruct (Hm g) as (q & ts & Q1 & F1 & Q2 & Q3 & _ & _).
  exact (cells_ok_frame g _ q ts Hok Q1 F1 Q2 Q3).
Qed.

Lemma cells_ok_run Pt m g : eff no_err Pt m -> cells_ok g -> cells_ok (tk_run m g).
Proof. intros Hm Hok. apply cells_ok_tk_run, (cells_ok_snd Pt); assumption. Qed.

Lemma cells_ok_except t p e g : cells_ok g -> cells_ok (snd (except_cell t p e g)).
Proof.
  destruct g. intros Hok t' p' c Hin. unfold except_cell in *. gui_simpl.
  rewrite length_app. cbn [length].
  apply in_app_or in Hin as [Hin|[Hin|[]]].
  - destruct (Hok t' p' c Hin) as (Hlt & Hc). split; [lia|].
    rewrite nth_error_app1 by exact Hlt. destruct Hc as [Hc|Hc]; [left; exact Hc|right].
    apply in_or_app. left. exact Hc.
  - injection Hin as <- <- <-. split; [lia|]. right. apply in_or_app. right. left. reflexivity.
Qed.

(** A worker keeps the invariant: its error [lambda] comes with the
    thread step that deletes its cell. *)
Lemma cells_ok_worker {A} Pt (body : PyM gui A) ok t p g :
  eff no_err Pt body -> (forall x, no_err (ok x)) -> cells_ok g -> cells_ok (tk_run (worker body ok t p) g).
Proof.
  intros Hb Hok Hg. apply cells_ok_tk_run. unfold worker, try_except.
  assert (Hm : eff no_err Pt (r <- body ;; after (ok r)))
    by (apply eff_bind; [exact Hb|intros; apply eff_after, Hok]).
  pose proof (cells_ok_snd Pt _ g Hm Hg) as H1.
  destruct (bind body _ g) as [[e|u] g1]; cbn in *; [apply cells_ok_except|]; exact H1.
Qed.

Lemma in_drop_other {A} (x t : A) pre post : In x (pre ++ t :: post) -> x <> t -> In x (pre ++ post).
Proof.
  intros Hin Hne. apply in_app_or in Hin as [H|[H|H]]; apply in_or_app; auto. congruence.
Qed.

(** Taking a thread that is not the end of an [except] block off the
    list keeps the invariant. *)
Lemma cells_ok_take_thread g pre t post :
  threads g = pre ++ t :: post -> (forall c, t <> TDelCell c) -> cells_ok g ->
  cells_ok (set_threads (pre ++ post) g).
Proof.
  destruct g. intros Ht Hne Hok t' p c Hin. gui_simpl. cbn in Ht.
  destruct (Hok t' p c Hin) as (Hlt & Hc). split; [exact Hlt|].
  destruct Hc as [Hc|Hc]; [left; exact Hc|right].
  apply (in_drop_other _ t); [rewrite <- Ht; exact Hc|apply not_eq_sym, Hne].
Qed.

Lemma length_set_nth {A} i (v : A) l : length (set_nth i v l) = length l.
Proof. revert i; induction l as [|x l IH]; intros [|i]; cbn; auto. Qed.

Lemma nth_error_set_nth_eq {A} i (v : A) l : i < length l -> nth_error (set_nth i v l) i = Some v.
Proof. revert i; induction l as [|x l IH]; intros [|i] H; cbn in *; try lia; auto with arith. Qed.

Lemma nth_error_set_nth_neq {A} i j (v : A) l : i <> j -> nth_error (set_nth i v l) j = nth_error l j.
Proof.
  revert i j; induction l as [|x l IH]; intros i j H; destruct i, j; cbn; auto; try congruence.
Qed.

(** The end of an [except] block keeps the invariant. *)
Lemma cells_ok_del g pre d post :
  threads g = pre ++ TDelCell d :: post -> cells_ok g ->
  cells_ok (tk_run (del_cell d) (set_threads (pre ++ post) g)).
Proof.
  destruct g. intros Ht Hok t p c Hin. unfold tk_run, del_cell in *. gui_simpl. cbn in Ht.
  rewrite length_set_nth.
  destruct (Hok t p c Hin) as (Hlt & Hc). split; [exact Hlt|].
  destruct (Nat.eq_dec d c) as [<-|Hne].
  - left. apply nth_error_set_nth_eq, Hlt.
  - rewrite nth_error_set_nth_neq by exact Hne. destruct Hc as [Hc|Hc]; [left; exact Hc|right].
    apply (in_drop_other _ (TDelCell d)); [rewrite <- Ht; exact Hc|congruence].
Qed.

(** Running the first queued callback: its removal keeps the invariant
    for what remains. *)
Lemma cells_ok_pop g cb rest : after_queue g = cb :: rest -> cells_ok g -> cells_ok (set_after_queue rest g).
Proof.
  destruct g. intros Hq Hok t p c Hin. gui_simpl. cbn in Hq. subst.
  apply (Hok t p c). right. exact Hin.
Qed.

(** ** Paths *)

Lemma length_take_while f s : length (VideoDownloader.take_while f s) <= length s.
Proof. induction s as [|c s IH]; cbn; [lia|]. destruct (f c); cbn; lia. Qed.

(** [os.path.dirname(p)] is shorter than [p] when [p] has a last
    component. *)
Lemma length_dirname_lt p : basename p <> [] -> length (dirname p) < length p.
Proof.
  intros Hb. unfold dirname.
  assert (Hlb : 0 < length (basename p) <= length p).
  { split; [destruct (basename p); [congruence|cbn; lia]|].
    unfold basename, VideoDownloader.last_component. rewrite length_rev, <- (length_rev p).
    apply length_take_while. }
  assert (Hh : length (rev (skipn (length (basename p)) (rev p))) < length p)
    by (rewrite length_rev, length_skipn, length_rev; lia).
  destruct (negb _); [|exact Hh].
  repeat rewrite ?length_rev, ?length_skipn. rewrite ?length_rev, ?length_skipn in Hh. lia.
Qed.

(** Reading a file changes nothing. *)
(** Text without [\r] survives a write and a read in text mode. *)
Lemma universal_os_newlines b s : ~ In CR s -> universal_newlines (os_newlines b s) = s.
Proof.
  intros H. destruct b; cbn [os_newlines]; induction s as [|c s IH]; try reflexivity;
    (assert (Hc : ascii_eqb c CR = false) by (apply Ascii.eqb_neq; intros ->; apply H; left; reflexivity));
    (assert (Hs : ~ In CR s) by (intros Hi; apply H; right; exact Hi)); specialize (IH Hs).
  - cbn [flat_map]. destruct (ascii_eqb c NL) eqn:En; cbn [app universal_newlines].
    + apply Ascii.eqb_eq in En. subst c. cbn. rewrite IH. reflexivity.
    + rewrite Hc, IH. reflexivity.
  - cbn [universal_newlines]. rewrite Hc, IH. reflexivity.
Qed.

Lemma read_file_pure E p g : read_file E p g = (fst (read_file E p g), g).
Proof. unfold read_file. destruct (find _ _) as [[? ?]|]; reflexivity. Qed.

(** Runs compose. *)
Lemma rt1n_app {A} (R : A -> A -> Prop) x y z :
  clos_refl_trans_1n _ R x y -> clos_refl_trans_1n _ R y z -> clos_refl_trans_1n _ R x z.
Proof. induction 1; eauto using Relation_Operators.rt1n_trans. Qed.

End GuiStateFacts.
