(* ===== verification/GuiSubtitle.v ===== *)
(** The subtitle tab of the window (src/gui.py): [select_srt_file],
    [load_srt_preview], [translate_srt_file] with its worker [translate],
    [update_translation_progress] and [show_translation_result] (lines
    974-1087).  The worker reads the file, lets pysrt parse it and calls
    [SRTTranslator.translate_file] (the model of [Translator]) on LM
    Studio; the progress callback it passes queues one [update] per call. *)
From Stdlib Require Import String Ascii List ZArith Lia Bool SpecFloat.
From S2P Require Import Prelude PyStr Batcher World Codec Timecode ApiClient Translator VideoDownloader GuiState.
Import ListNotations.
Open Scope py_scope.
Open Scope nat_scope.

Module SubtitleTab.
Import World Codec Timecode ApiClient Translator GuiState.

(** Lines 1070-1074: [name, ext = os.path.splitext(basename)],
    [new_name = f"{name}_translated{ext}"], joined to the directory. *)
Definition translated_name (original_path : str) : str :=
  let '(name, ext) := VideoDownloader.splitext (basename original_path) in
  name ++ lit "_translated" ++ ext.

Definition translated_path (original_path : str) : str :=
  VideoDownloader.os_path_join (dirname original_path) (translated_name original_path).

(** [update_translation_progress(current, total)] (lines 1044-1054): the
    [update] it queues. *)
Definition update_translation_progress (current total : Z) : callback :=
  let progress := if (0 <? total)%Z then fdiv (float_of_int current) (float_of_int total)
                  else float_of_int 0 in
  CbTranslationUpdate progress
    (lit "Đang dịch... " ++ py_str_Z current ++ lit "/" ++ py_str_Z total ++ lit " câu (" ++
     fmt_1f (fmul progress (float_of_int 100)) ++ lit "%)").

(** The [update] run by the main loop. *)
Definition update (progress : spec_float) (label : str) : PyM gui unit :=
  modify (set_progress_bar progress) ;;; modify (set_progress_label label).

Section Handlers.
Variable E : env.

(** [load_srt_preview] (lines 985-1000): the first 30 lines of the file. *)
Definition load_srt_preview (file_path : str) : PyM gui unit :=
  try_except
    (content <- read_text E file_path ;;
     modify (set_orig_text (join [NL] (firstn 30 (split_on NL content)))) ;;;
     update_status E (lit "Đã tải file SRT: " ++ basename file_path))
    (fun e => show (DError (lit "Lỗi") (lit "Không thể đọc file SRT: " ++ exc_str e))).

(** [select_srt_file] (lines 974-983), with the path the file dialog
    returned ([[]] when it was cancelled). *)
Definition select_srt_file (file_path : str) : PyM gui unit :=
  match file_path with
  | [] => ret tt
  | _ => modify (set_srt_file_path file_path) ;;; load_srt_preview file_path
  end.

(** [translate_srt_file] (lines 1002-1042): the checks and the parsing of
    the batch size on the main thread, then the worker. *)
Definition translate_srt_file : PyM gui unit :=
  fun g =>
    let t := subtitle_tab g in
    let file_path := srt_file_path t in
    if match file_path with [] => true | _ => negb (path_exists E g file_path) end
    then show (DWarning (lit "Cảnh báo") (lit "Vui lòng chọn file SRT!")) g
    else
      let bs := match py_int_of_str (batch_size t) with Some n => n | None => 10%Z end in
      (update_status E (lit "Đang bắt đầu dịch...") ;;;
       modify (set_progress_bar (float_of_int 0)) ;;;
       start (TTranslate file_path (src_lang t) (tgt_lang t) (trans_style t) bs)) g.

(** [show_translation_result] (lines 1056-1087) *)
Definition show_translation_result (result original_path : str) : PyM gui unit :=
  modify (set_trans_text (take_codepoints 5000 result)) ;;;
  save <- ask_yes_no E (lit "Thành công") (lit "Đã dịch xong! Bạn có muốn lưu file không?") ;;
  (if save then
     let new_name := translated_name original_path in
     let save_path := translated_path original_path in
     try_except
       (write_text E save_path result ;;;
        update_status E (lit "Đã lưu file dịch: " ++ new_name) ;;;
        show (DInfo (lit "Thành công") (lit "Đã lưu file: " ++ new_name)))
       (fun e => show (DError (lit "Lỗi") (lit "Không thể lưu file: " ++ exc_str e)))
   else ret tt) ;;;
  modify (set_progress_label (lit "Hoàn thành!")) ;;;
  modify (set_progress_bar (float_of_int 1)).

(** [SRTTranslator.translate_file] on LM Studio, on the translator's
    world; the calls of [progress_callback] queue their [update]s. *)
Definition translate_call (c : client_set) (subs : list SubRipItem) (src tgt style : str) (bs : Z)
  : PyM gui str :=
  fun g =>
    let '(r, tw') := @translate_file (lm_studio_ai (lm_server E) (lm_client c)) subs src tgt style bs true
                       (lm_world g) in
    let evs := skipn (length (w_trace (lm_world g))) (w_trace tw') in
    (r, set_after_queue
          (after_queue g ++ map (fun '(k, n) => update_translation_progress k n) (progress_calls evs))
          (set_lm_world tw' g)).

(** The worker [translate] (lines 1021-1040): [self.translator], then
    [pysrt.open(file_path)] inside [translate_file], then the batches. *)
Definition translate (file_path src tgt style : str) (bs : Z) : PyM gui unit :=
  worker
    (c <- get_clients (lit "translator") ;;
     subs <- open_srt E file_path ;;
     translate_call c subs src tgt style bs)
    (fun result => CbShowTranslation result file_path)
    (lit "Lỗi") (lit "Lỗi khi dịch: ").

End Handlers.

End SubtitleTab.

Module SubtitleFacts.
Import World Codec Timecode ApiClient Translator GuiState GuiStateFacts SubtitleTab.

Section Frames.
Variable E : env.

Lemma frames_preview p : frames (load_srt_preview E p).
Proof. unfold load_srt_preview. eff_tac. Qed.

Lemma frames_select p : frames (select_srt_file E p).
Proof. unfold select_srt_file. destruct p; eff_tac. Qed.

Lemma frames_translate_srt_file : frames (translate_srt_file E).
Proof.
  intros g. unfold translate_srt_file.
  destruct (match srt_file_path (subtitle_tab g) with [] => true | _ => _ end).
  - apply eff_show.
  - match goal with |- context [snd (?m g)] => assert (Hm : frames m) by eff_tac end.
    apply Hm.
Qed.

Lemma still_result r p : still (show_translation_result E r p).
Proof. unfold show_translation_result. eff_tac. Qed.

Lemma still_update p l : still (update p l).
Proof. unfold update. eff_tac. Qed.

Lemma updates_no_err evs : Forall no_err (map (fun '(k, n) => update_translation_progress k n) evs).
Proof. apply Forall_forall. intros x Hx. apply in_map_iff in Hx as ([k n] & <- & _). exact I. Qed.

Lemma eff_translate_call Pt c subs src tgt style bs : eff no_err Pt (translate_call E c subs src tgt style bs).
Proof.
  intros g. unfold translate_call. destruct (translate_file _ _ _ _ _ _ _) as [r tw'].
  destruct g. cbn. eexists _, []. split; [reflexivity|]. rewrite app_nil_r. split; [apply updates_no_err|auto].
Qed.

(** The body of the worker starts no thread. *)
Lemma eff_translate_body Pt fp src tgt style bs :
  eff no_err Pt (c <- get_clients (lit "translator") ;;
                 subs <- open_srt E fp ;;
                 translate_call E c subs src tgt style bs).
Proof. eff_tac. apply eff_translate_call. Qed.

End Frames.

(** ** Paths *)

Definition not_slash (x : ascii) : bool := negb (ascii_eqb x "/"%char).

Lemma no_slash_forall (b : str) : ~ In "/"%char b -> Forall (fun x => not_slash x = true) (rev b).
Proof.
  intros Hb. apply Forall_forall. intros x Hx. apply in_rev in Hx. unfold not_slash.
  destruct (ascii_eqb_spec x "/"%char) as [->|]; [contradiction | reflexivity].
Qed.

Lemma basename_no_slash p : ~ In "/"%char (basename p).
Proof.
  unfold basename, VideoDownloader.last_component. rewrite <- in_rev. intros Hin.
  pose proof (VideoDownloaderFacts.take_while_all not_slash (rev p)) as H.
  rewrite Forall_forall in H. specialize (H _ Hin). discriminate H.
Qed.

(** The last component of [os.path.join(a, b)] is [b] when [b] has no
    slash. *)
Lemma basename_join a b : ~ In "/"%char b -> basename (VideoDownloader.os_path_join a b) = b.
Proof.
  intros Hb. unfold basename, VideoDownloader.last_component, VideoDownloader.os_path_join.
  destruct (rev a) as [|c ra] eqn:Ra.
  - rewrite <- (app_nil_r (rev b)), VideoDownloaderFacts.take_while_app_all by exact (no_slash_forall b Hb).
    cbn. rewrite app_nil_r, rev_involutive. reflexivity.
  - destruct (ascii_eqb_spec c "/"%char) as [->|Hc].
    + rewrite rev_app_distr, Ra, VideoDownloaderFacts.take_while_app_all by exact (no_slash_forall b Hb).
      cbn. rewrite app_nil_r, rev_involutive. reflexivity.
    + rewrite !rev_app_distr, <- app_assoc, VideoDownloaderFacts.take_while_app_all
        by exact (no_slash_forall b Hb).
      cbn. rewrite app_nil_r, rev_involutive. reflexivity.
Qed.

Lemma translated_name_parts p :
  exists n e, basename p = n ++ e /\ translated_name p = n ++ lit "_translated" ++ e.
Proof.
  unfold translated_name. pose proof (VideoDownloaderFacts.splitext_app (basename p)) as H.
  destruct (VideoDownloader.splitext (basename p)) as [n e]. cbn in H. eauto.
Qed.

(** The progress calls of [translate_file] on a non-empty file. *)
Lemma translate_call_progress E c subs src tgt style bs g :
  subs <> [] ->
  exists r tr,
    translate_call E c subs src tgt style bs g =
      (r, set_after_queue
            (after_queue g ++ map (fun k => update_translation_progress (Z.of_nat k)
                                              (Z.of_nat (length (Batcher._create_batches subs bs))))
                                  (seq 1 (length (Batcher._create_batches subs bs))))
            (set_lm_world (mk_world (w_calls (lm_world g) + length (Batcher._create_batches subs bs))
                                    (w_trace (lm_world g) ++ tr)) g)).
Proof.
  intros Hne. unfold translate_call.
  destruct (@TranslatorFacts.translate_file_progress_run (lm_studio_ai (lm_server E) (lm_client c))
              (lm_studio_total _ _) subs src tgt style bs (lm_world g) Hne) as (tr & Hw & Hp).
  destruct (translate_file _ _ _ _ _ _ _) as [r w'] eqn:Ht. cbn in Hw. subst w'.
  exists r, tr. cbn [w_trace]. rewrite skipn_app, Nat.sub_diag, skipn_all, skipn_O, app_nil_l, Hp, map_map.
  reflexivity.
Qed.

End SubtitleFacts.

Module SubtitleSpec.
Import World Codec Timecode ApiClient Translator GuiState SubtitleTab SubtitleFacts.

(** C26: the translation is saved under a new name, never over the
    original file: [translated_path p] differs from [p] for every path. *)
Theorem translated_path_new (p : str) : translated_path p <> p.
Proof.
  intros E. destruct (translated_name_parts p) as (n & e & Hb & Hn).
  assert (Hs : ~ In "/"%char (translated_name p)).
  { rewrite Hn. intros H. apply in_app_or in H as [H|H].
    - apply (basename_no_slash p). rewrite Hb. apply in_or_app. left. exact H.
    - apply in_app_or in H as [H|H]; [vm_compute in H; intuition discriminate|].
      apply (basename_no_slash p). rewrite Hb. apply in_or_app. right. exact H. }
  pose proof (basename_join (dirname p) (translated_name p) Hs) as Hj.
  fold (translated_path p) in Hj. rewrite E, Hb, Hn in Hj.
  apply (f_equal (@length ascii)) in Hj. rewrite !length_app in Hj. cbn in Hj. lia.
Qed.

(** The labels of three batches: 33.3%, 66.7% and 100.0%, rounded as
    [f"{x:.1f}"] rounds the binary64 quotient. *)
Example progress_labels :
  map (fun k => update_translation_progress (Z.of_nat k) 3) (seq 1 3) =
  [CbTranslationUpdate (fdiv (float_of_int 1) (float_of_int 3)) (lit "Đang dịch... 1/3 câu (33.3%)");
   CbTranslationUpdate (fdiv (float_of_int 2) (float_of_int 3)) (lit "Đang dịch... 2/3 câu (66.7%)");
   CbTranslationUpdate (fdiv (float_of_int 3) (float_of_int 3)) (lit "Đang dịch... 3/3 câu (100.0%)")].
Proof. vm_compute. reflexivity. Qed.

End SubtitleSpec.
