(* ===== verification/GuiStory.v ===== *)
(** The two tabs of the window (src/gui.py) that call the story editor:
    the story tab ([load_story_file], [clear_story_text],
    [process_story_edit] with its worker [process], [show_edit_result],
    [save_edited_story], lines 890-972) and the image-script tab
    ([generate_image_script] with its worker [generate],
    [show_generated_script], [save_image_script],
    [copy_script_to_clipboard], lines 1197-1274).  The workers call
    [StoryEditor] (the model of src/story_editor.py) on the LM Studio
    client that [setup_clients] built. *)
From Stdlib Require Import String Ascii List ZArith QArith Lia Bool.
From S2P Require Import Prelude PyStr World ApiClient StoryEditor GuiState.
Import ListNotations.
Open Scope py_scope.
Open Scope nat_scope.

Module StoryTab.
Import World ApiClient GuiState.

Section Handlers.
Variable E : env.

(** [load_story_file] (lines 890-906), with the path the file dialog
    returned ([[]] when it was cancelled). *)
Definition load_story_file (file_path : str) : PyM gui unit :=
  match file_path with
  | [] => ret tt
  | _ =>
      try_except
        (content <- read_text E file_path ;;
         modify (set_story_text content) ;;;
         update_status E (lit "Đã tải file: " ++ basename file_path))
        (fun e => show (DError (lit "Lỗi") (lit "Không thể đọc file: " ++ exc_str e)))
  end.

(** [clear_story_text] (lines 908-910) *)
Definition clear_story_text : PyM gui unit := modify (set_story_text []).

(** [process_story_edit] (lines 912-944): the checks on the main thread,
    then the worker. *)
Definition process_story_edit : PyM gui unit :=
  fun g =>
    let t := story_tab g in
    let story := strip (text_get (story_text t)) in
    match story with
    | [] => show (DWarning (lit "Cảnh báo") (lit "Vui lòng nhập nội dung truyện!")) g
    | _ =>
        (update_status E (lit "Đang xử lý với AI (" ++ edit_type t ++ lit ")...") ;;;
         start (TStoryEdit story (edit_type t) (length_var t))) g
    end.

(** The worker [process] (lines 925-941). *)
Definition process (story edit_type length_pref : str) : PyM gui unit :=
  worker
    (c <- get_clients (lit "editor") ;;
     on_lm (@StoryEditor.edit_story (lm_studio_text (lm_server E) (lm_client c)) story edit_type length_pref))
    CbShowEditResult
    (lit "Lỗi") (lit "Không thể xử lý truyện: ").

(** [show_edit_result] (lines 946-950) *)
Definition show_edit_result (result : str) : PyM gui unit :=
  modify (set_result_text result) ;;;
  update_status E (lit "Đã hoàn thành chỉnh sửa!").

(** [save_edited_story] (lines 952-972), with the path the save dialog
    returns when it is shown. *)
Definition save_edited_story (file_path : str) : PyM gui unit :=
  fun g =>
    match strip (text_get (result_text (story_tab g))) with
    | [] => show (DWarning (lit "Cảnh báo") (lit "Không có nội dung để lưu!")) g
    | content =>
        match file_path with
        | [] => ret tt g
        | _ =>
            try_except
              (write_text E file_path content ;;;
               update_status E (lit "Đã lưu file: " ++ basename file_path) ;;;
               show (DInfo (lit "Thành công") (lit "Đã lưu truyện thành công!")))
              (fun e => show (DError (lit "Lỗi") (lit "Không thể lưu file: " ++ exc_str e))) g
        end
    end.

End Handlers.
End StoryTab.

Module ScriptTab.
Import World ApiClient GuiState.

Section Handlers.
Variable E : env.

(** [generate_image_script] (lines 1197-1235): the checks and the parsing
    of the number of scenes on the main thread, then the worker. *)
Definition generate_image_script : PyM gui unit :=
  fun g =>
    let t := script_tab g in
    let story := strip (text_get (script_story_text t)) in
    match story with
    | [] => show (DWarning (lit "Cảnh báo") (lit "Vui lòng nhập nội dung truyện!")) g
    | _ =>
        let num_scenes := match py_int_of_str (num_scenes t) with Some n => n | None => 5%Z end in
        (update_status E (lit "Đang tạo kịch bản ảnh với AI...") ;;;
         start (TScript story num_scenes (image_style t) (detail_level t) (include_prompts t))) g
    end.

(** The worker [generate] (lines 1216-1233). *)
Definition generate (story : str) (num_scenes : Z) (style detail : str) (include_prompts : bool)
  : PyM gui unit :=
  worker
    (c <- get_clients (lit "editor") ;;
     on_lm (@StoryEditor.generate_image_script (lm_studio_text (lm_server E) (lm_client c))
              story num_scenes style detail include_prompts))
    CbShowScript
    (lit "Lỗi") (lit "Không thể tạo kịch bản: ").

(** [show_generated_script] (lines 1237-1241) *)
Definition show_generated_script (script : str) : PyM gui unit :=
  modify (set_script_output script) ;;;
  update_status E (lit "Đã tạo kịch bản ảnh!").

(** [save_image_script] (lines 1243-1263) *)
Definition save_image_script (file_path : str) : PyM gui unit :=
  fun g =>
    match strip (text_get (script_output (script_tab g))) with
    | [] => show (DWarning (lit "Cảnh báo") (lit "Không có kịch bản để lưu!")) g
    | content =>
        match file_path with
        | [] => ret tt g
        | _ =>
            try_except
              (write_text E file_path content ;;;
               update_status E (lit "Đã lưu kịch bản: " ++ basename file_path) ;;;
               show (DInfo (lit "Thành công") (lit "Đã lưu kịch bản thành công!")))
              (fun e => show (DError (lit "Lỗi") (lit "Không thể lưu file: " ++ exc_str e))) g
        end
    end.

(** [copy_script_to_clipboard] (lines 1265-1274) *)
Definition copy_script_to_clipboard : PyM gui unit :=
  fun g =>
    match strip (text_get (script_output (script_tab g))) with
    | [] => show (DWarning (lit "Cảnh báo") (lit "Không có nội dung để sao chép!")) g
    | content =>
        (modify (set_clipboard []) ;;;
         modify (fun g => set_clipboard (clipboard g ++ content) g) ;;;
         update_status E (lit "Đã sao chép kịch bản vào clipboard!") ;;;
         show (DInfo (lit "Thành công") (lit "Đã sao chép kịch bản!"))) g
    end.

End Handlers.
End ScriptTab.

Module StoryFacts.
Import World ApiClient GuiState GuiStateFacts StoryTab ScriptTab.

Section Frames.
Variable E : env.

Lemma frames_load_story p : frames (load_story_file E p).
Proof. unfold load_story_file. destruct p; eff_tac. Qed.

Lemma frames_clear_story : frames (clear_story_text).
Proof. unfold clear_story_text. eff_tac. Qed.

Lemma frames_process_story_edit : frames (process_story_edit E).
Proof.
  intros g. unfold process_story_edit. destruct (strip _); [apply eff_show|].
  match goal with |- context [snd (?m g)] => assert (Hm : frames m) by eff_tac end. apply Hm.
Qed.

Lemma still_show_edit r : still (show_edit_result E r).
Proof. unfold show_edit_result. eff_tac. Qed.

Lemma frames_save_story p : frames (save_edited_story E p).
Proof.
  intros g. unfold save_edited_story. destruct (strip _); [apply eff_show|]. destruct p; [apply eff_ret|].
  match goal with |- context [snd (?m g)] => assert (Hm : frames m) by eff_tac end. apply Hm.
Qed.

Lemma frames_generate_image_script : frames (generate_image_script E).
Proof.
  intros g. unfold generate_image_script. destruct (strip _); [apply eff_show|].
  match goal with |- context [snd (?m g)] => assert (Hm : frames m) by eff_tac end. apply Hm.
Qed.

Lemma still_show_script s : still (show_generated_script E s).
Proof. unfold show_generated_script. eff_tac. Qed.

Lemma frames_save_script p : frames (save_image_script E p).
Proof.
  intros g. unfold save_image_script. destruct (strip _); [apply eff_show|]. destruct p; [apply eff_ret|].
  match goal with |- context [snd (?m g)] => assert (Hm : frames m) by eff_tac end. apply Hm.
Qed.

Lemma frames_copy : frames (copy_script_to_clipboard E).
Proof.
  intros g. unfold copy_script_to_clipboard. destruct (strip _); [apply eff_show|].
  match goal with |- context [snd (?m g)] => assert (Hm : frames m) by eff_tac end. apply Hm.
Qed.

(** The bodies of the workers start no thread. *)
Lemma eff_process_body Pt story et lp :
  eff no_err Pt (c <- get_clients (lit "editor") ;;
                 on_lm (@StoryEditor.edit_story (lm_studio_text (lm_server E) (lm_client c)) story et lp)).
Proof. eff_tac. Qed.

Lemma eff_generate_body Pt story n st d ip :
  eff no_err Pt (c <- get_clients (lit "editor") ;;
                 on_lm (@StoryEditor.generate_image_script (lm_studio_text (lm_server E) (lm_client c))
                          story n st d ip)).
Proof. eff_tac. Qed.

End Frames.

(** [open(p, 'r').read()] after [open(p, 'w').write(c)] gives [c]. *)
Lemma read_file_written E g p c :
  fst (read_file E p (set_written (written g ++ [(p, c)]) g)) = inr c.
Proof.
  destruct g. unfold read_file. cbn [written set_written]. rewrite rev_app_distr. cbn.
  unfold str_eqb. destruct (List.list_eq_dec ascii_dec p p) as [_|]; [reflexivity|congruence].
Qed.

(** The story editor's call on LM Studio returns, whatever the server
    does: [generate_text] catches every error. *)
Lemma edit_story_returns srv cl story et lp w :
  exists r w', @StoryEditor.edit_story (lm_studio_text srv cl) story et lp w = (inr r, w').
Proof.
  unfold StoryEditor.edit_story. cbn [ai_generate_text lm_studio_text].
  destruct (ApiClientFacts.generate_text_total srv cl
              (StoryEditor.edit_story_prompt (StoryEditor.edit_instruction et lp) story)
              (mk_opts (Some 4000%Z) (Some (7 # 10)) None None) w) as (r & evs & -> & _).
  eauto.
Qed.

Lemma image_script_returns srv cl story n st d ip w :
  exists r w', @StoryEditor.generate_image_script (lm_studio_text srv cl) story n st d ip w = (inr r, w').
Proof.
  unfold StoryEditor.generate_image_script. cbn [ai_generate_image_script lm_studio_text].
  unfold ApiClient.generate_image_script.
  destruct (ApiClientFacts.generate_text_total srv cl (image_script_prompt story n st d)
              (mk_opts (Some 3000%Z) None None None) w) as (r & evs & -> & _). eauto.
Qed.

(** A worker whose body returns queues its [ok] callback and nothing else. *)
Lemma worker_returns {A} (body : PyM gui A) ok t p g x g' :
  body g = (inr x, g') -> worker body ok t p g = (inr tt, set_after_queue (after_queue g' ++ [ok x]) g').
Proof. intros H. unfold worker, try_except, bind. rewrite H. reflexivity. Qed.

(** On an HTTP error the story editor returns the client's error text. *)
Lemma edit_story_http_error srv cl story et lp w status text body :
  status <> 200%Z ->
  srv (w_calls w) (base_url cl ++ lit "/completions")
    (ReqCompletion (make_payload (StoryEditor.edit_story_prompt (StoryEditor.edit_instruction et lp) story)
                      (mk_opts (Some 4000%Z) (Some (7 # 10)) None None))) = HttpReply status text body ->
  fst (@StoryEditor.edit_story (lm_studio_text srv cl) story et lp w) = inr (lit "Error: " ++ py_str_Z status).
Proof.
  intros Hs Hr. unfold StoryEditor.edit_story. cbn [ai_generate_text lm_studio_text].
  unfold generate_text, bind, post. rewrite Hr. rewrite <- Z.eqb_neq in Hs. rewrite Hs. reflexivity.
Qed.

(** The worker [process] once the clients exist: the editor's answer is
    queued for [show_edit_result]. *)
Lemma process_run E g c story et lp r w' :
  clients g = Some c ->
  @StoryEditor.edit_story (lm_studio_text (lm_server E) (lm_client c)) story et lp (lm_world g) = (inr r, w') ->
  tk_run (process E story et lp) g = set_after_queue (after_queue g ++ [CbShowEditResult r]) (set_lm_world w' g).
Proof.
  intros Hc He. unfold tk_run, process. rewrite (worker_returns _ _ _ _ g r (set_lm_world w' g)).
  - destruct g. reflexivity.
  - unfold bind, get_clients, on_lm. rewrite Hc, He. reflexivity.
Qed.

(** The file holds what was last written to [p]. *)
Lemma read_file_last E g p c : (exists w, written g = w ++ [(p, c)]) -> fst (read_file E p g) = inr c.
Proof.
  intros (w & Hw). unfold read_file. rewrite Hw, rev_app_distr. cbn.
  unfold str_eqb. destruct (List.list_eq_dec ascii_dec p p) as [_|]; [reflexivity|congruence].
Qed.

Lemma save_story_written E g p :
  p <> [] -> open_write_error E p = None -> strip (text_get (result_text (story_tab g))) <> [] ->
  written (tk_run (save_edited_story E p) g) =
    written g ++ [(p, os_newlines (str_eqb (platform_system E) (lit "Windows")) (strip (text_get (result_text (story_tab g)))))].
Proof.
  intros Hp Hw Hs. unfold tk_run, save_edited_story. cbv beta.
  destruct (strip (text_get (result_text (story_tab g)))) as [|x xs]; [congruence|].
  destruct p as [|a p]; [congruence|].
  unfold try_except, bind, write_text. rewrite Hw. destruct g. reflexivity.
Qed.

Lemma load_story_text E g p c :
  p <> [] -> fst (read_file E p g) = inr c ->
  story_text (story_tab (tk_run (load_story_file E p) g)) = universal_newlines c.
Proof.
  destruct p as [|a p]; [congruence|]. intros _ Hr.
  unfold load_story_file, tk_run, try_except, bind, read_text. rewrite read_file_pure, Hr. destruct g. reflexivity.
Qed.

End StoryFacts.
