(* ===== verification/GuiMedia.v ===== *)
(** The two media tabs of the window (src/gui.py): the video tab
    ([select_download_folder], [check_video_url] with its worker [check],
    [show_video_info], [clear_video_url], [download_video] with its worker
    [download], the hooks [update_download_progress] and
    [update_download_status], [download_complete], lines 1089-1195) and
    the image tab ([load_image_script], [generate_images] with its worker
    [generate], [generate_batch_images], [show_generated_images],
    [open_image_folder], [download_generated_image],
    [clear_generated_image], lines 1276-1404).  The workers call the
    models of [VideoDownloader] and [ImageGenerator]. *)
From Stdlib Require Import String Ascii List ZArith QArith Lia Bool SpecFloat.
From S2P Require Import Prelude PyStr World Timecode VideoDownloader ImageGenerator GuiState.
Import ListNotations.
Open Scope py_scope.
Open Scope nat_scope.

Module VideoTab.
Import World Timecode GuiState.

(** Lines 1109-1113: the text [show_video_info] displays, from the
    dictionary [get_video_info] returns (it has every key read). *)
Definition info_text (info : VideoDownloader.info_summary) : str :=
  lit "Tìm thấy video:
" ++ lit "Tiêu đề: " ++ VideoDownloader.s_title info ++ lit "
" ++ lit "Thời lượng: " ++ py_str_Z (VideoDownloader.s_duration info) ++ lit " giây
" ++ lit "Định dạng: " ++ VideoDownloader.s_ext info ++ lit "
" ++ lit "Chất lượng có sẵn: " ++ join (lit ", ") (VideoDownloader.s_formats info) ++ lit "
".

(** What the [update] of [update_download_progress] raises: yt-dlp calls
    a progress hook with its status dictionary, and [percent / 100]
    divides that dictionary. *)
Definition dict_div_error : exc :=
  OtherError (lit "TypeError") (lit "unsupported operand type(s) for /: 'dict' and 'int'").

(** The [update] of [update_download_progress] (lines 1176-1181). *)
Definition update_progress (percent : list (str * str)) : PyM gui unit := raise dict_div_error.

(** The [update] of [update_download_status] (lines 1183-1189): the
    status is inserted at the end of the text box. *)
Definition update_status_text (status : str) : PyM gui unit :=
  modify (fun g => set_download_status (download_status (video_tab g) ++ status ++ [NL]) g).

(** The calls yt-dlp makes into [progress_hooks] and the [CustomLogger]
    during a download, with [update_download_progress] and
    [update_download_status] as the callbacks: each queues its [update]. *)
Definition hook_callbacks (evs : list ydl_event) : list callback :=
  flat_map (fun ev => match ev with
                      | YProgress d => [CbDownloadProgress d]
                      | YLog k msg =>
                          match VideoDownloader.custom_logger true k msg with
                          | Some m => [CbDownloadStatus m]
                          | None => []
                          end
                      end) evs.

Section Handlers.
Variable E : env.

(** [select_download_folder] (lines 1089-1093) *)
Definition select_download_folder (folder : str) : PyM gui unit :=
  match folder with
  | [] => ret tt
  | _ => modify (set_download_path folder)
  end.

(** [check_video_url] (lines 1095-1123): the check on the main thread,
    then the worker. *)
Definition check_video_url : PyM gui unit :=
  fun g =>
    match strip (video_url (video_tab g)) with
    | [] => show (DWarning (lit "Cảnh báo") (lit "Vui lòng nhập URL video!")) g
    | url =>
        (update_status E (lit "Đang kiểm tra URL: " ++ take_codepoints 50 url ++ lit "...") ;;;
         start (TCheckUrl url)) g
    end.

(** The worker [check] (lines 1104-1121). *)
Definition check (url : str) : PyM gui unit :=
  worker
    (_ <- get_clients (lit "video_dl") ;;
     info <- on_video (VideoDownloader.get_video_info (ydl E) url) ;;
     ret (info_text info))
    CbShowVideoInfo
    (lit "Lỗi") (lit "Không thể kiểm tra URL: ").

(** [show_video_info] (lines 1125-1129) *)
Definition show_video_info (info : str) : PyM gui unit :=
  modify (set_download_status info) ;;;
  update_status E (lit "Đã kiểm tra URL thành công!").

(** [clear_video_url] (lines 1131-1134) *)
Definition clear_video_url : PyM gui unit :=
  modify (set_video_url []) ;;; modify (set_download_status []).

(** [download_video] (lines 1136-1174): the check and the options on the
    main thread, then the worker. *)
Definition download_video : PyM gui unit :=
  fun g =>
    let t := video_tab g in
    match strip (video_url t) with
    | [] => show (DWarning (lit "Cảnh báo") (lit "Vui lòng nhập URL video!")) g
    | url =>
        (update_status E (lit "Đang bắt đầu tải video...") ;;;
         modify (set_download_progress (float_of_int 0)) ;;;
         start (TDownload url (quality t) (format_var t) (download_path t) (subtitle_var t)
                  (audio_only_var t))) g
    end.

(** The worker [download] (lines 1152-1172): yt-dlp's hook calls queue
    their [update]s while it downloads, then [download] returns the file
    name or raises. *)
Definition download (url quality fmt download_path : str) (subtitle audio_only : bool) : PyM gui unit :=
  worker
    (_ <- get_clients (lit "video_dl") ;;
     modify (fun g => set_after_queue (after_queue g ++ hook_callbacks (ydl_events E url)) g) ;;;
     on_video (VideoDownloader.download (ydl E) (home E) url quality fmt (Some download_path) subtitle
                 audio_only (Some (lit "update_download_progress")) (Some (lit "update_download_status"))))
    CbDownloadComplete
    (lit "Lỗi") (lit "Lỗi khi tải video: ").

(** [download_complete] (lines 1191-1195) *)
Definition download_complete (result : str) : PyM gui unit :=
  modify (set_download_progress (float_of_int 1)) ;;;
  update_status E (lit "Đã tải video: " ++ basename result) ;;;
  show (DInfo (lit "Thành công") (lit "Đã tải video thành công!
Lưu tại: " ++ result)).

End Handlers.
End VideoTab.

Module ImageTab.
Import World Timecode GuiState.

(** [int(s)] *)
Definition py_int (s : str) : exc + Z :=
  match py_int_of_str s with
  | Some n => inr n
  | None => inl (ValueError (lit "invalid literal for int() with base 10: '" ++ s ++ lit "'"))
  end.

(** [lst[i]] *)
Definition py_index {A} (l : list A) (i : nat) : exc + A :=
  match nth_error l i with
  | Some x => inr x
  | None => inl (IndexError (lit "list index out of range"))
  end.

(** The file [Image.open] reads: the last one written at [path]. *)
Definition image_at (w : ImageGenerator.img_world) (path : str) : option ImageGenerator.image_file :=
  option_map snd (find (fun kv => str_eqb path (fst kv)) (rev (ImageGenerator.iw_files w))).

Section Handlers.
Variable E : env.

(** [Image.open(path)]: PIL reads the header and identifies the format;
    the placeholders are PNG files PIL wrote. *)
Definition image_open (path : str) : PyM gui unit :=
  fun g =>
    match image_at (img_world g) path with
    | None => (inl (OtherError (lit "FileNotFoundError")
                      (lit "[Errno 2] No such file or directory: '" ++ path ++ lit "'")), g)
    | Some (ImageGenerator.Placeholder _ _ _) => (inr tt, g)
    | Some (ImageGenerator.PngBytes b) =>
        if pil_identifies E b then (inr tt, g)
        else (inl (OtherError (lit "UnidentifiedImageError")
                     (lit "cannot identify image file '" ++ path ++ lit "'")), g)
    end.

(** [load_image_script] (lines 1276-1292) *)
Definition load_image_script (file_path : str) : PyM gui unit :=
  match file_path with
  | [] => ret tt
  | _ =>
      try_except
        (content <- read_text E file_path ;;
         modify (set_image_prompt_text content) ;;;
         update_status E (lit "Đã tải kịch bản: " ++ basename file_path))
        (fun e => show (DError (lit "Lỗi") (lit "Không thể đọc file: " ++ exc_str e)))
  end.

(** Lines 1303-1312: the three entries are parsed in one [try]; if any
    fails, all three take their defaults. *)
Definition image_options (t : image_widgets) : Z * Z * Q :=
  match py_int_of_str (num_images t), py_int_of_str (steps t), py_float E (cfg_scale t) with
  | Some n, Some s, Some c => (n, s, c)
  | _, _, _ => (1%Z, 30%Z, 15 # 2)
  end.

(** [generate_images] (lines 1294-1339): the checks and the options on
    the main thread, then the worker. *)
Definition generate_images : PyM gui unit :=
  fun g =>
    let t := image_tab g in
    match strip (text_get (image_prompt_text t)) with
    | [] => show (DWarning (lit "Cảnh báo") (lit "Vui lòng nhập prompt hoặc kịch bản!")) g
    | prompt =>
        let '(num_images, steps, cfg_scale) := image_options t in
        (update_status E (lit "Đang tạo ảnh với AI...") ;;;
         start (TGenImages prompt (image_model t) (image_size t) num_images steps cfg_scale (sampler t))) g
    end.

(** The worker [generate] (lines 1317-1337): the arguments are evaluated
    in order, [self.image_gen] first. *)
Definition generate (prompt model size : str) (num_images steps : Z) (cfg_scale : Q) (sampler : str)
  : PyM gui unit :=
  worker
    (c <- get_clients (lit "image_gen") ;;
     w0 <- lift (py_index (split_on "x"%char size) 0) ;;
     width <- lift (py_int w0) ;;
     h0 <- lift (py_index (split_on "x"%char size) 1) ;;
     height <- lift (py_int h0) ;;
     on_img (ImageGenerator.generate (sd_server E) (sd_clock E) (sd_write_error E) (image_gen c) prompt model width height
               num_images steps cfg_scale sampler))
    CbShowImages
    (lit "Lỗi") (lit "Không thể tạo ảnh: ").

(** [generate_batch_images] (lines 1341-1344): not implemented yet. *)
Definition generate_batch_images : PyM gui unit :=
  show (DInfo (lit "Thông tin") (lit "Tính năng đang phát triển!")).

(** [download_generated_image] (lines 1396-1399): not implemented yet. *)
Definition download_generated_image : PyM gui unit :=
  show (DInfo (lit "Thông tin") (lit "Tính năng đang phát triển!")).

(** [show_generated_images] (lines 1346-1374) *)
Definition show_generated_images (image_paths : list str) : PyM gui unit :=
  match image_paths with
  | [] => show (DWarning (lit "Cảnh báo") (lit "Không tạo được ảnh nào!"))
  | first_image :: _ =>
      let n := py_str_Z (Z.of_nat (length image_paths)) in
      try_except
        (image_open first_image ;;;
         modify (set_canvas (Some first_image)) ;;;
         update_status E (lit "Đã tạo " ++ n ++ lit " ảnh!") ;;;
         show (DInfo (lit "Thành công") (lit "Đã tạo " ++ n ++ lit " ảnh!")))
        (fun e => show (DError (lit "Lỗi") (lit "Không thể hiển thị ảnh: " ++ exc_str e)))
  end.

(** [Path(d).exists()] *)
Definition dir_exists (g : gui) (d : str) : bool :=
  existsb (str_eqb d) (ImageGenerator.iw_dirs (img_world g)) || disk_exists E d.

(** [output_dir.mkdir(exist_ok=True)]: without [parents=True] a missing
    parent raises. *)
Definition mkdir (d : str) : PyM gui unit :=
  fun g =>
    if dir_exists g d then (inr tt, g)
    else if dir_exists g (dirname d) then
      (inr tt, set_img_world (ImageGenerator.mk_img_world (ImageGenerator.iw_dirs (img_world g) ++ [d])
                               (ImageGenerator.iw_files (img_world g)) (ImageGenerator.iw_log (img_world g))
                               (ImageGenerator.iw_requests (img_world g)) (ImageGenerator.iw_tick (img_world g))) g)
    else (inl (OtherError (lit "FileNotFoundError")
                 (lit "[Errno 2] No such file or directory: '" ++ d ++ lit "'")), g).

(** [Path(__file__).parent / 'output' / 'images'] of gui.py *)
Definition image_folder : str :=
  ImageGenerator.path_div (ImageGenerator.path_div (gui_dir E) (lit "output")) (lit "images").

(** Lines 1382-1391: the command [platform.system()] selects. *)
Definition folder_command : str :=
  if str_eqb (platform_system E) (lit "Windows") then lit "os.startfile"
  else if str_eqb (platform_system E) (lit "Darwin") then lit "open"
  else lit "xdg-open".

Definition open_folder (d : str) : PyM gui unit :=
  fun g => match open_folder_error E folder_command with
           | Some e => (inl e, g)
           | None => (inr tt, set_opened (opened g ++ [(folder_command, d)]) g)
           end.

(** [open_image_folder] (lines 1376-1394): the [mkdir] is outside the
    [try]. *)
Definition open_image_folder : PyM gui unit :=
  mkdir image_folder ;;;
  try_except (open_folder image_folder)
    (fun e => show (DError (lit "Lỗi") (lit "Không thể mở thư mục: " ++ exc_str e))).

(** [clear_generated_image] (lines 1401-1404) *)
Definition clear_generated_image : PyM gui unit :=
  modify (set_canvas None) ;;; update_status E (lit "Đã xóa ảnh hiển thị").

End Handlers.
End ImageTab.

Module MediaFacts.
Import World Timecode GuiState GuiStateFacts VideoTab ImageTab.

Section Frames.
Variable E : env.

Lemma frames_select_folder f : frames (select_download_folder f).
Proof. unfold select_download_folder. destruct f; eff_tac. Qed.

Lemma frames_check_video_url : frames (check_video_url E).
Proof.
  intros g. unfold check_video_url. destruct (strip _); [apply eff_show|].
  match goal with |- context [snd (?m g)] => assert (Hm : frames m) by eff_tac end. apply Hm.
Qed.

Lemma still_show_video_info i : still (show_video_info E i).
Proof. unfold show_video_info. eff_tac. Qed.

Lemma frames_clear_video_url : frames clear_video_url.
Proof. unfold clear_video_url. eff_tac. Qed.

Lemma frames_download_video : frames (download_video E).
Proof.
  intros g. unfold download_video. destruct (strip _); [apply eff_show|].
  match goal with |- context [snd (?m g)] => assert (Hm : frames m) by eff_tac end. apply Hm.
Qed.

Lemma still_update_progress d : still (update_progress d).
Proof. unfold update_progress. eff_tac. Qed.

Lemma still_update_status_text s : still (update_status_text s).
Proof. unfold update_status_text. eff_tac. Qed.

Lemma still_download_complete r : still (download_complete E r).
Proof. unfold download_complete. eff_tac. Qed.

Lemma hook_callbacks_no_err evs : Forall no_err (hook_callbacks evs).
Proof.
  apply Forall_forall. intros x Hx. unfold hook_callbacks in Hx. apply in_flat_map in Hx as (y & _ & Hx).
  destruct y as [d|k m]; cbn in Hx;
    repeat match type of Hx with context [match ?z with _ => _ end] => destruct z end;
    first [destruct Hx as [<-|[]]; exact I | destruct Hx].
Qed.

Lemma eff_hooks Pt u :
  eff no_err Pt (modify (fun g => set_after_queue (after_queue g ++ hook_callbacks (ydl_events E u)) g)).
Proof.
  intros []. eexists _, []. split; [reflexivity|]. rewrite app_nil_r. split; [apply hook_callbacks_no_err|auto].
Qed.

(** The bodies of the workers start no thread. *)
Lemma eff_check_body Pt u :
  eff no_err Pt (_ <- get_clients (lit "video_dl") ;;
                 info <- on_video (VideoDownloader.get_video_info (ydl E) u) ;; ret (info_text info)).
Proof. eff_tac. Qed.

Lemma eff_download_body Pt u q f p s a :
  eff no_err Pt (_ <- get_clients (lit "video_dl") ;;
     modify (fun g => set_after_queue (after_queue g ++ hook_callbacks (ydl_events E u)) g) ;;;
     on_video (VideoDownloader.download (ydl E) (home E) u q f (Some p) s
                 a (Some (lit "update_download_progress")) (Some (lit "update_download_status")))).
Proof. eff_tac. apply eff_hooks. Qed.

Lemma frames_load_image_script p : frames (load_image_script E p).
Proof. unfold load_image_script. destruct p; eff_tac. Qed.

Lemma frames_generate_images : frames (generate_images E).
Proof.
  intros g. unfold generate_images. destruct (strip _); [apply eff_show|].
  destruct (image_options E _) as [[n s] c].
  match goal with |- context [snd (?m g)] => assert (Hm : frames m) by eff_tac end. apply Hm.
Qed.

Lemma eff_images_body Pt prompt model size n s c sampler :
  eff no_err Pt (c0 <- get_clients (lit "image_gen") ;;
     w0 <- lift (py_index (split_on "x"%char size) 0) ;;
     width <- lift (py_int w0) ;;
     h0 <- lift (py_index (split_on "x"%char size) 1) ;;
     height <- lift (py_int h0) ;;
     on_img (ImageGenerator.generate (sd_server E) (sd_clock E) (sd_write_error E) (image_gen c0) prompt model width height
               n s c sampler)).
Proof. eff_tac. Qed.

Lemma frames_generate_batch : frames generate_batch_images.
Proof. unfold generate_batch_images. eff_tac. Qed.

Lemma frames_download_image : frames download_generated_image.
Proof. unfold download_generated_image. eff_tac. Qed.

Lemma eff_image_open Pq Pt p : eff Pq Pt (image_open E p).
Proof. unfold image_open. keeps. Qed.

Lemma still_show_images ps : still (show_generated_images E ps).
Proof. unfold show_generated_images. destruct ps; eff_tac. apply eff_image_open. Qed.

Lemma frames_open_image_folder : frames (open_image_folder E).
Proof. unfold open_image_folder, mkdir, open_folder. eff_tac. Qed.

Lemma frames_clear_image : frames (clear_generated_image E).
Proof. unfold clear_generated_image. eff_tac. Qed.

End Frames.

End MediaFacts.
