(* ===== verification/GuiApp.v ===== *)
(** The window [MainApp] (src/gui.py) as a whole: its construction
    ([create_widgets] with the status bar's connection check, then
    [setup_clients]), the sidebar's tab buttons, the dispatch of the
    user's actions to the handlers of the five tabs, of queued callbacks
    and of started threads, and the step relation that interleaves them.

    [MainApp.__init__] runs [setup_app], [create_widgets] and
    [setup_clients] in this order.  [setup_app] raises [NameError] (see
    [App]); the model takes up the window from [create_widgets] on, as it
    would run with [pathlib.Path] imported.  The status bar starts the
    thread of [check_lm_studio_connection] inside [create_widgets], before
    [setup_clients] has assigned [self.lm_client]: that thread may run
    before or after [setup_clients].  Tk's main loop, which runs the
    user's actions and the queued callbacks, starts once [__init__] has
    returned, that is once the clients are assigned. *)
From Stdlib Require Import String Ascii List ZArith QArith Lia Bool SpecFloat Relations.
From S2P Require Import Prelude PyStr Batcher World Codec Timecode ApiClient Translator SrtFile Pipeline StoryEditor VideoDownloader ImageGenerator GuiState GuiSubtitle GuiStory GuiMedia.
Import ListNotations.
Open Scope py_scope.
Open Scope nat_scope.

Module MainWindow.
Import World Timecode ApiClient GuiState.

Section Window.
Variable E : env.

(** The thread [check] of [check_lm_studio_connection] (lines 802-818):
    a bare [except] catches everything, the [AttributeError] of a missing
    [self.lm_client] included. *)
Definition check : PyM gui unit :=
  try_except
    (c <- get_clients (lit "lm_client") ;;
     ok <- on_lm (ApiClient.check_connection (lm_server E) (lm_client c)) ;;
     modify (set_center_status (if ok then lit "LM Studio: Đã kết nối ✅"
                                else lit "LM Studio: Chưa kết nối ❌")))
    (fun _ => modify (set_center_status (lit "LM Studio: Lỗi kết nối"))).

(** [check_lm_studio_connection] *)
Definition check_lm_studio_connection : PyM gui unit := start TCheckLM.

(** [create_status_bar] (lines 767-798): the two labels the program
    updates (the memory label "Bộ nhớ: --" never changes), then the
    connection check. *)
Definition create_status_bar : PyM gui unit :=
  modify (set_left_status (lit "Sẵn sàng")) ;;;
  modify (set_center_status (lit "LM Studio: Đang kiểm tra...")) ;;;
  check_lm_studio_connection.

(** [create_widgets] (lines 53-98): the sidebar, the five tabs (the
    first one shown), and [create_status_bar], which starts the
    connection check.  Nothing has been written, queued or requested
    yet; the status labels do not exist before [create_status_bar]. *)
Definition create_widgets : gui :=
  snd (create_status_bar
         (mk_gui create_tab1_content create_tab2_content (create_tab3_content (home E))
            create_tab4_content create_tab5_content (lit "Chỉnh Sửa Truyện") [] []
            [] None [] [] [] [] [] [] [] [] 0 (mk_world 0 []) []
            (ImageGenerator.mk_img_world [] [] [] 0 0))).

(** [setup_clients] (lines 45-51): [ImageGenerator.__init__] creates its
    output folder under the parent of the source folder. *)
Definition setup_clients : PyM gui unit :=
  gen <- on_img (ImageGenerator.__init__ (config_sd_url E) (dirname (gui_dir E))) ;;
  modify (set_clients (Some (mk_clients (mk_client (config_lm_url E)) gen))).

(** [show_tab1] ... [show_tab5] (lines 824-842) *)
Definition show_tab1 : PyM gui unit := modify (set_current_tab (lit "Chỉnh Sửa Truyện")).
Definition show_tab2 : PyM gui unit := modify (set_current_tab (lit "Dịch Phụ Đề")).
Definition show_tab3 : PyM gui unit := modify (set_current_tab (lit "Tải Video")).
Definition show_tab4 : PyM gui unit := modify (set_current_tab (lit "Viết Kịch Bản Ảnh")).
Definition show_tab5 : PyM gui unit := modify (set_current_tab (lit "Tạo Ảnh từ Kịch Bản")).

(** [open_settings] (lines 844-872): a [CTkToplevel] titled "Cài Đặt
    Ứng Dụng" with three empty tabs and a close button; [grab_set] sends
    every event of the application to it while it is open. *)
Definition settings_title : str := lit "Cài Đặt Ứng Dụng".

Definition open_settings : PyM gui unit :=
  modify (fun g => set_toplevels (toplevels g ++ [settings_title]) g).

(** [open_status] (lines 874-888) *)
Definition open_status : PyM gui unit :=
  modify (fun g => set_toplevels (toplevels g ++ [lit "Trạng Thái Hệ Thống"]) g).

(** [window.destroy] of the [n]-th open window (the settings window's
    "Đóng" button, or the window manager's close button). *)
Definition close_window (n : nat) : PyM gui unit :=
  modify (fun g => set_toplevels (firstn n (toplevels g) ++ skipn (S n) (toplevels g)) g).

(** While the settings window is open, its grab keeps the events of the
    other windows from the application. *)
Definition grabbed (g : gui) : bool := existsb (str_eqb settings_title) (toplevels g).

End Window.

(** The widgets the user types into or picks a value in. *)
Inductive input :=
| IStoryText | IEditType | ILength | IResultText
| ISrtPath | ISrcLang | ITgtLang | IStyle | IBatchSize
| IVideoUrl | IQuality | IFormat | IDownloadPath
| IScriptStory | IImageStyle | INumScenes | IDetail | IScriptOutput
| IImagePrompt | IImageModel | IImageSize | INumImages | ISteps | ICfgScale | ISampler.

Definition set_input (i : input) (v : str) : gui -> gui :=
  match i with
  | IStoryText => set_story_text v | IEditType => set_edit_type v | ILength => set_length_var v
  | IResultText => set_result_text v
  | ISrtPath => set_srt_file_path v | ISrcLang => set_src_lang v | ITgtLang => set_tgt_lang v
  | IStyle => set_trans_style v | IBatchSize => set_batch_size v
  | IVideoUrl => set_video_url v | IQuality => set_quality v | IFormat => set_format_var v
  | IDownloadPath => set_download_path v
  | IScriptStory => set_script_story_text v | IImageStyle => set_image_style v
  | INumScenes => set_num_scenes v | IDetail => set_detail_level v | IScriptOutput => set_script_output v
  | IImagePrompt => set_image_prompt_text v | IImageModel => set_image_model v
  | IImageSize => set_image_size v | INumImages => set_num_images v | ISteps => set_steps v
  | ICfgScale => set_cfg_scale v | ISampler => set_sampler v
  end.

(** The check boxes. *)
Inductive check_box := CSubtitle | CAudioOnly | CIncludePrompts.

Definition set_check (c : check_box) (b : bool) : gui -> gui :=
  match c with
  | CSubtitle => set_subtitle_var b
  | CAudioOnly => set_audio_only_var b
  | CIncludePrompts => set_include_prompts b
  end.

(** What the user does.  A button that opens a file dialog carries the
    path the dialog returned ([[]] when it was cancelled). *)
Inductive ui_event :=
| TypeInto (i : input) (v : str)
| Tick (c : check_box) (b : bool)
| ShowTab (n : nat) | OpenSettings | OpenStatus | CloseWindow (n : nat)
| LoadStory (path : str) | ClearStory | ProcessStory | SaveStory (path : str)
| ChooseSrtFile (path : str) | ClickTranslate
| SelectFolder (folder : str) | CheckUrl | ClearUrl | DownloadVideo
| GenerateScript | SaveScript (path : str) | CopyScript
| LoadImageScript (path : str) | GenerateImages | GenerateBatch | OpenImageFolder | DownloadImage
| ClearImage.

Section Dispatch.
Variable E : env.

(** The [command] of each widget. *)
Definition handle (ev : ui_event) : PyM gui unit :=
  match ev with
  | TypeInto i v => modify (set_input i v)
  | Tick c b => modify (set_check c b)
  | ShowTab n =>
      match n with
      | 1 => show_tab1 | 2 => show_tab2 | 3 => show_tab3 | 4 => show_tab4 | 5 => show_tab5
      | _ => ret tt
      end
  | OpenSettings => open_settings
  | OpenStatus => open_status
  | CloseWindow n => close_window n
  | LoadStory p => StoryTab.load_story_file E p
  | ClearStory => StoryTab.clear_story_text
  | ProcessStory => StoryTab.process_story_edit E
  | SaveStory p => StoryTab.save_edited_story E p
  | ChooseSrtFile p => SubtitleTab.select_srt_file E p
  | ClickTranslate => SubtitleTab.translate_srt_file E
  | SelectFolder f => VideoTab.select_download_folder f
  | CheckUrl => VideoTab.check_video_url E
  | ClearUrl => VideoTab.clear_video_url
  | DownloadVideo => VideoTab.download_video E
  | GenerateScript => ScriptTab.generate_image_script E
  | SaveScript p => ScriptTab.save_image_script E p
  | CopyScript => ScriptTab.copy_script_to_clipboard E
  | LoadImageScript p => ImageTab.load_image_script E p
  | GenerateImages => ImageTab.generate_images E
  | GenerateBatch => ImageTab.generate_batch_images
  | DownloadImage => ImageTab.download_generated_image
  | OpenImageFolder => ImageTab.open_image_folder E
  | ClearImage => ImageTab.clear_generated_image E
  end.

(** A queued callback run by the main loop. *)
Definition run_callback (cb : callback) : PyM gui unit :=
  match cb with
  | CbTranslationUpdate progress label => SubtitleTab.update progress label
  | CbShowTranslation result path => SubtitleTab.show_translation_result E result path
  | CbShowEditResult result => StoryTab.show_edit_result E result
  | CbShowVideoInfo info => VideoTab.show_video_info E info
  | CbDownloadProgress d => VideoTab.update_progress d
  | CbDownloadStatus s => VideoTab.update_status_text s
  | CbDownloadComplete result => VideoTab.download_complete E result
  | CbShowScript script => ScriptTab.show_generated_script E script
  | CbShowImages paths => ImageTab.show_generated_images E paths
  | CbErrorDialog title prefix cell => run_error_dialog title prefix cell
  end.

(** A step of a started thread. *)
Definition run_thread (t : thread) : PyM gui unit :=
  match t with
  | TCheckLM => check E
  | TTranslate fp src tgt style bs => SubtitleTab.translate E fp src tgt style bs
  | TStoryEdit story et lp => StoryTab.process E story et lp
  | TCheckUrl url => VideoTab.check E url
  | TDownload url q f p s a => VideoTab.download E url q f p s a
  | TScript story n st d ip => ScriptTab.generate E story n st d ip
  | TGenImages prompt model size n s c sampler => ImageTab.generate E prompt model size n s c sampler
  | TDelCell c => del_cell c
  end.

(** The steps nobody has to act for: the rest of [__init__], a thread,
    or the main loop running the first queued callback. *)
Inductive bg_step : gui -> gui -> Prop :=
| StepSetup g : clients g = None -> bg_step g (tk_run (setup_clients E) g)
| StepThread pre t post g :
    threads g = pre ++ t :: post -> bg_step g (tk_run (run_thread t) (set_threads (pre ++ post) g))
| StepCallback cb rest g :
    clients g <> None -> after_queue g = cb :: rest ->
    bg_step g (tk_run (run_callback cb) (set_after_queue rest g)).

(** The events the windows receive: all of them, or while the settings
    window holds the grab, only its own close button. *)
Definition receives (g : gui) (ev : ui_event) : Prop :=
  grabbed g = false \/ exists n, ev = CloseWindow n /\ nth_error (toplevels g) n = Some settings_title.

(** A step of the application: the user acts once the main loop runs, or
    a background step. *)
Inductive step : gui -> gui -> Prop :=
| StepUser ev g : clients g <> None -> receives g ev -> step g (tk_run (handle ev) g)
| StepBg g g' : bg_step g g' -> step g g'.

End Dispatch.

End MainWindow.

Module WindowFacts.
Import World Timecode ApiClient GuiState GuiStateFacts MainWindow SubtitleFacts StoryFacts MediaFacts.

Section Facts.
Variable E : env.

Lemma frames_handle ev : frames (handle E ev).
Proof.
  destruct ev; cbn [handle].
  - match goal with |- eff _ _ (modify (set_input ?i _)) => destruct i end; eff_tac.
  - match goal with |- eff _ _ (modify (set_check ?c _)) => destruct c end; eff_tac.
  - unfold show_tab1, show_tab2, show_tab3, show_tab4, show_tab5. eff_tac.
  - unfold open_settings. eff_tac.
  - unfold open_status. eff_tac.
  - unfold close_window. eff_tac.
  - apply frames_load_story.
  - apply frames_clear_story.
  - apply frames_process_story_edit.
  - apply frames_save_story.
  - apply frames_select.
  - apply frames_translate_srt_file.
  - apply frames_select_folder.
  - apply frames_check_video_url.
  - apply frames_clear_video_url.
  - apply frames_download_video.
  - apply frames_generate_image_script.
  - apply frames_save_script.
  - apply frames_copy.
  - apply frames_load_image_script.
  - apply frames_generate_images.
  - apply frames_generate_batch.
  - apply frames_open_image_folder.
  - apply frames_download_image.
  - apply frames_clear_image.
Qed.

Lemma still_callback cb : still (run_callback E cb).
Proof.
  destruct cb; cbn [run_callback];
    [ apply still_update | apply still_result | apply still_show_edit | apply still_show_video_info
    | apply still_update_progress | apply still_update_status_text | apply still_download_complete
    | apply still_show_script | apply still_show_images | apply eff_error_dialog ].
Qed.

Lemma eff_check Pq Pt : eff Pq Pt (check E).
Proof. unfold check. eff_tac. Qed.

(** What [setup_clients] does: the clients are assigned, the queue, the
    cells and the threads stay. *)
Lemma setup_run g :
  let g' := tk_run (setup_clients E) g in
  after_queue g' = after_queue g /\ cells g' = cells g /\ threads g' = threads g /\ clients g' <> None.
Proof. destruct g. cbn. repeat split. discriminate. Qed.

Lemma cells_ok_thread g pre t post :
  threads g = pre ++ t :: post -> cells_ok g ->
  cells_ok (tk_run (run_thread E t) (set_threads (pre ++ post) g)).
Proof.
  intros Ht Hok.
  assert (Htake : (forall c, t <> TDelCell c) -> cells_ok (set_threads (pre ++ post) g))
    by (intros Hne; exact (cells_ok_take_thread g pre t post Ht Hne Hok)).
  destruct t; cbn [run_thread];
    try (apply (cells_ok_worker none_thread); [|intros; exact I|apply Htake; intros; discriminate]).
  - apply (cells_ok_run none_thread); [apply eff_check|apply Htake; intros; discriminate].
  - apply eff_translate_body.
  - apply eff_process_body.
  - apply eff_check_body.
  - apply eff_download_body.
  - apply eff_generate_body.
  - apply eff_images_body.
  - apply cells_ok_del; assumption.
Qed.

Lemma cells_ok_bg g g' : bg_step E g g' -> cells_ok g -> cells_ok g'.
Proof.
  destruct 1 as [g Hc | pre t post g Ht | cb rest g Hc Hq]; intros Hok.
  - destruct (setup_run g) as (Q & C & T & _). intros t p c Hin.
    rewrite Q in Hin. rewrite C, T. exact (Hok t p c Hin).
  - exact (cells_ok_thread g pre t post Ht Hok).
  - apply (cells_ok_run none_thread).
    + eapply eff_weaken; [| |apply still_callback]; intros ? [].
    + exact (cells_ok_pop g cb rest Hq Hok).
Qed.

Lemma cells_ok_step g g' : step E g g' -> cells_ok g -> cells_ok g'.
Proof.
  destruct 1 as [ev g Hc Hr | g g' Hbg]; intros Hok.
  - exact (cells_ok_run _ _ g (frames_handle ev) Hok).
  - exact (cells_ok_bg g g' Hbg Hok).
Qed.

Lemma cells_ok_star g g' : clos_refl_trans_1n _ (step E) g g' -> cells_ok g -> cells_ok g'.
Proof. induction 1; eauto using cells_ok_step. Qed.

End Facts.

(** ** The measure that background steps decrease *)

Definition is_del (t : thread) : bool := match t with TDelCell _ => true | _ => false end.

(** The threads still to run their target, and what else is pending:
    the ends of [except] blocks, the queued callbacks, and the end of
    [__init__]. *)
Definition workers (ts : list thread) : nat := length (List.filter (fun t => negb (is_del t)) ts).
Definition pending (g : gui) : nat :=
  length (List.filter is_del (threads g)) + length (after_queue g) +
  match clients g with Some _ => 0 | None => 1 end.

Lemma workers_app a b : workers (a ++ b) = workers a + workers b.
Proof. unfold workers. rewrite filter_app, length_app. reflexivity. Qed.

Lemma workers_dels ts : Forall (fun t => is_del t = true) ts -> workers ts = 0.
Proof. induction 1 as [|t ts Ht _ IH]; cbn; [reflexivity|]. rewrite Ht. exact IH. Qed.

Lemma none_nil {A} (P : A -> Prop) l : (forall x, ~ P x) -> Forall P l -> l = [].
Proof. intros H [|x l' Hx _]; [reflexivity|destruct (H x Hx)]. Qed.

Lemma tk_run_fields m g :
  after_queue (tk_run m g) = after_queue (snd (m g)) /\ threads (tk_run m g) = threads (snd (m g)) /\
  clients (tk_run m g) = clients (snd (m g)) /\ cells (tk_run m g) = cells (snd (m g)).
Proof. unfold tk_run. destruct (m g) as [[e|u] [] ]; cbn; auto. Qed.

(** A worker whose body starts no thread leaves at most the end of its
    [except] block behind, and keeps the clients. *)
Lemma worker_threads {A} Pq (body : PyM gui A) ok t p g :
  eff Pq none_thread body ->
  exists ts, threads (snd (worker body ok t p g)) = threads g ++ ts /\
             Forall (fun t => is_del t = true) ts /\ clients (snd (worker body ok t p g)) = clients g.
Proof.
  intros Hb. unfold worker, try_except.
  assert (Hm : eff (fun _ => True) none_thread (r <- body ;; after (ok r))).
  { apply eff_bind; [eapply eff_weaken; [| |exact Hb]; auto|intros; apply eff_after; exact I]. }
  destruct (Hm g) as (q & ts & _ & _ & _ & T & F & C).
  rewrite (none_nil _ ts (fun x H => H) F), app_nil_r in T.
  destruct (bind body _ g) as [[e|u] g1]; cbn in *.
  - unfold except_cell. destruct g1. cbn in *. exists [TDelCell (length cells0)].
    rewrite T. repeat split; [repeat constructor|exact C].
  - exists []. rewrite app_nil_r. auto.
Qed.

Section Measure.
Variable E : env.

(** The threads a thread step leaves: the workers' bodies start none. *)
Lemma run_thread_threads t g :
  exists ts, threads (tk_run (run_thread E t) g) = threads g ++ ts /\
             Forall (fun t => is_del t = true) ts /\ clients (tk_run (run_thread E t) g) = clients g.
Proof.
  destruct (tk_run_fields (run_thread E t) g) as (_ & -> & -> & _).
  destruct t; cbn [run_thread];
    [ | apply (worker_threads no_err), eff_translate_body | apply (worker_threads no_err), eff_process_body
      | apply (worker_threads no_err), eff_check_body | apply (worker_threads no_err), eff_download_body
      | apply (worker_threads no_err), eff_generate_body | apply (worker_threads no_err), eff_images_body | ].
  - destruct (eff_check E none_cb none_thread g) as (q & ts & _ & _ & _ & T & F & C).
    exists ts. rewrite (none_nil _ ts (fun x H => H) F) in *. split; [exact T|split; [constructor|exact C]].
  - exists []. destruct g. cbn. rewrite app_nil_r. split; [reflexivity|split; [constructor|reflexivity]].
Qed.

Lemma workers_take pre t post : workers (pre ++ t :: post) = workers (pre ++ post) + (if is_del t then 0 else 1).
Proof. unfold workers. rewrite !filter_app, !length_app. cbn. destruct (is_del t); cbn; lia. Qed.

Lemma dels_take pre t post :
  length (List.filter is_del (pre ++ t :: post)) = length (List.filter is_del (pre ++ post)) + (if is_del t then 1 else 0).
Proof. rewrite !filter_app, !length_app. cbn. destruct (is_del t); cbn; lia. Qed.

(** Every background step lowers the number of workers, or keeps it and
    lowers what is pending. *)
Lemma bg_measure g g' :
  bg_step E g g' ->
  workers (threads g') < workers (threads g) \/
  (workers (threads g') = workers (threads g) /\ pending g' < pending g).
Proof.
  destruct 1 as [g Hc | pre t post g Ht | cb rest g Hc Hq].
  - destruct (setup_run E g) as (Q & _ & T & C). right. unfold pending. rewrite Q, T, Hc.
    destruct (clients (tk_run (setup_clients E) g)); [|congruence]. split; [reflexivity|lia].
  - destruct (is_del t) eqn:Hd.
    + destruct t; try discriminate Hd. right. destruct g. cbn in Ht |- *. rewrite Ht.
      rewrite !filter_app, !length_app. cbn. lia.
    + left. destruct (run_thread_threads t (set_threads (pre ++ post) g)) as (ts & T & F & _).
      assert (Tg : threads (set_threads (pre ++ post) g) = pre ++ post) by (destruct g; reflexivity).
      rewrite T, Tg, Ht, workers_app, (workers_dels ts F), workers_take, Hd. lia.
  - destruct (still_callback E cb (set_after_queue rest g)) as (q & ts & Q & F & _ & T & Ft & C).
    rewrite (none_nil _ q (fun x H => H) F), (none_nil _ ts (fun x H => H) Ft), app_nil_r in *.
    destruct (tk_run_fields (run_callback E cb) (set_after_queue rest g)) as (Q' & T' & C' & _).
    right. unfold pending. rewrite Q', T', C', Q, T, C. destruct g. cbn in *. rewrite Hq. cbn.
    split; [reflexivity|lia].
Qed.

End Measure.

(** Induction on a lexicographic pair of measures. *)
Lemma lex_acc {A} (R : A -> A -> Prop) (f h : A -> nat) :
  (forall x y, R x y -> f y < f x \/ (f y = f x /\ h y < h x)) -> forall x, Acc (fun y x => R x y) x.
Proof.
  intros HR.
  assert (H : forall n x, f x < n -> Acc (fun y x => R x y) x).
  { induction n as [|n IHn]; intros x0 Hf; [lia|].
    assert (Hm : forall m x, f x <= n -> h x < m -> Acc (fun y x => R x y) x).
    { induction m as [|m IHm]; intros x1 Hf1 Hh; [lia|].
      constructor. intros x2 Hs. destruct (HR x1 x2 Hs) as [Hlt|[Heq Hlt]].
      - apply IHn. lia.
      - apply IHm; lia. }
    apply (Hm (S (h x0))); lia. }
  intros x. apply (H (S (f x))). lia.
Qed.

(** ** The download progress bar *)

Definition dl_progress (g : gui) : spec_float := download_progress (video_tab g).

Section Progress.
Variable E : env.

Lemma tk_run_dl m g : dl_progress (tk_run m g) = dl_progress (snd (m g)).
Proof. unfold tk_run. destruct (m g) as [[e|u] [] ]; reflexivity. Qed.

Lemma kf_setup : keeps_field dl_progress (setup_clients E).
Proof. unfold setup_clients. kf_tac. Qed.

Lemma kf_thread t : keeps_field dl_progress (run_thread E t).
Proof.
  destruct t; cbn [run_thread]; unfold check, SubtitleTab.translate,
    StoryTab.process, VideoTab.check, VideoTab.download, ScriptTab.generate, ImageTab.generate, worker; kf_tac.
  intros g. unfold SubtitleTab.translate_call. destruct (Translator.translate_file _ _ _ _ _ _ _). destruct g. reflexivity.
Qed.

Lemma kf_handle ev : ev <> DownloadVideo -> keeps_field dl_progress (handle E ev).
Proof.
  intros Hne. destruct ev; cbn [handle].
  - match goal with |- keeps_field _ (modify (set_input ?i _)) => destruct i end; kf_tac.
  - match goal with |- keeps_field _ (modify (set_check ?c _)) => destruct c end; kf_tac.
  - unfold show_tab1, show_tab2, show_tab3, show_tab4, show_tab5. kf_tac.
  - unfold open_settings. kf_tac.
  - unfold open_status. kf_tac.
  - unfold close_window. kf_tac.
  - unfold StoryTab.load_story_file. kf_tac.
  - unfold StoryTab.clear_story_text. kf_tac.
  - unfold StoryTab.process_story_edit. kf_branch.
  - unfold StoryTab.save_edited_story. kf_branch.
  - unfold SubtitleTab.select_srt_file, SubtitleTab.load_srt_preview. kf_tac.
  - unfold SubtitleTab.translate_srt_file. kf_branch.
  - unfold VideoTab.select_download_folder. kf_tac.
  - unfold VideoTab.check_video_url. kf_branch.
  - unfold VideoTab.clear_video_url. kf_tac.
  - congruence.
  - unfold ScriptTab.generate_image_script. kf_branch.
  - unfold ScriptTab.save_image_script. kf_branch.
  - unfold ScriptTab.copy_script_to_clipboard. kf_branch.
  - unfold ImageTab.load_image_script. kf_tac.
  - unfold ImageTab.generate_images. kf_branch.
  - unfold ImageTab.generate_batch_images. kf_tac.
  - unfold ImageTab.open_image_folder, ImageTab.mkdir, ImageTab.open_folder. kf_tac.
  - unfold ImageTab.download_generated_image. kf_tac.
  - unfold ImageTab.clear_generated_image. kf_tac.
Qed.

Lemma kf_callback cb : (forall r, cb <> CbDownloadComplete r) -> keeps_field dl_progress (run_callback E cb).
Proof.
  intros Hne. destruct cb; cbn [run_callback].
  - unfold SubtitleTab.update. kf_tac.
  - unfold SubtitleTab.show_translation_result. kf_tac.
  - unfold StoryTab.show_edit_result. kf_tac.
  - unfold VideoTab.show_video_info. kf_tac.
  - unfold VideoTab.update_progress. kf_tac.
  - unfold VideoTab.update_status_text. kf_tac.
  - exfalso. eapply Hne. reflexivity.
  - unfold ScriptTab.show_generated_script. kf_tac.
  - unfold ImageTab.show_generated_images, ImageTab.image_open. kf_tac.
  - kf_tac.
Qed.

(** The bar shows nothing but its start and its end. *)
Definition dp_ok (g : gui) : Prop := dl_progress g = float_of_int 0 \/ dl_progress g = float_of_int 1.

Lemma dp_download_video g :
  dl_progress (snd (VideoTab.download_video E g)) = dl_progress g \/
  dl_progress (snd (VideoTab.download_video E g)) = float_of_int 0.
Proof. destruct g. unfold VideoTab.download_video. cbn. destruct (strip _); [left|right]; reflexivity. Qed.

Lemma dp_download_complete r g : dl_progress (snd (VideoTab.download_complete E r g)) = float_of_int 1.
Proof. destruct g. reflexivity. Qed.

Lemma dp_ok_step g g' : step E g g' -> dp_ok g -> dp_ok g'.
Proof.
  unfold dp_ok. destruct 1 as [ev g Hc Hr | g g' Hbg]; [|destruct Hbg as [g Hc | pre t post g Ht | cb rest g Hc Hq]];
    intros Hok; rewrite tk_run_dl.
  - destruct (match ev with DownloadVideo => true | _ => false end) eqn:Hd.
    + destruct ev; try discriminate Hd. cbn [handle].
      destruct (dp_download_video g) as [-> | ->]; [exact Hok|left; reflexivity].
    + rewrite (kf_handle ev); [exact Hok|intros ->; discriminate Hd].
  - rewrite kf_setup. exact Hok.
  - rewrite kf_thread. destruct g. exact Hok.
  - destruct (match cb with CbDownloadComplete _ => true | _ => false end) eqn:Hd.
    + destruct cb; try discriminate Hd. cbn [run_callback]. rewrite dp_download_complete. right. reflexivity.
    + rewrite kf_callback; [destruct g; exact Hok|intros r ->; discriminate Hd].
Qed.

Lemma dp_ok_star g g' : clos_refl_trans_1n _ (step E) g g' -> dp_ok g -> dp_ok g'.
Proof. induction 1; eauto using dp_ok_step. Qed.

End Progress.


(** The translate worker's queue, given what [translate_file] returns on
    the cues pysrt reads from the file. *)
Lemma translate_worker_outcome E g fp src tgt style bs c content :
  clients g = Some c -> fst (read_file E fp g) = inr content ->
  let g' := tk_run (run_thread E (TTranslate fp src tgt style bs)) g in
  exists q,
    Forall (fun cb => exists k n, cb = SubtitleTab.update_translation_progress k n) q /\
    match fst (@Translator.translate_file (lm_studio_ai (lm_server E) (lm_client c)) (SrtFile.parse_srt content)
                 src tgt style bs true (lm_world g)) with
    | inr result => after_queue g' = after_queue g ++ q ++ [CbShowTranslation result fp]
    | inl e => after_queue g' = after_queue g ++ q ++ [CbErrorDialog (lit "Lỗi") (lit "Lỗi khi dịch: ") (length (cells g))] /\
               nth_error (cells g') (length (cells g)) = Some (Some e)
    end.
Proof.
  intros Hc Hr g'. subst g'.
  unfold tk_run. cbn [run_thread]. unfold SubtitleTab.translate, worker, try_except, bind, get_clients, open_srt.
  rewrite Hc. unfold SrtFile.pysrt_open. rewrite Hr. unfold SubtitleTab.translate_call.
  destruct (Translator.translate_file _ _ _ _ _ _ _) as [r tw'] eqn:Ht. cbn [fst].
  remember (map _ (Translator.progress_calls _)) as Q eqn:HQ. exists Q. split.
  - subst Q. apply Forall_forall. intros cb Hcb. apply in_map_iff in Hcb. destruct Hcb as ([k n] & <- & _). eauto.
  - destruct r as [e|result]; unfold except_cell, after, start, modify, bind, ret;
      cbn [after_queue cells threads set_threads set_after_queue set_cells set_lm_world fst snd];
      rewrite <- ?app_assoc; [rewrite nth_error_app2, Nat.sub_diag by lia; split|]; reflexivity.
Qed.

End WindowFacts.

Module WindowSamples.
Import World Codec Timecode ApiClient GuiState MainWindow.

Definition srt_path : str := lit "/home/u/a.srt".
Definition story_path : str := lit "/home/u/story.txt".

Definition no_such_file (p : str) : exc :=
  OtherError (lit "FileNotFoundError") (lit "[Errno 2] No such file or directory: '" ++ p ++ lit "'").

(** What [translate_file] raises on a file in which pysrt finds no cue. *)
Definition empty_srt : exc := ValueError (lit "File SRT trống hoặc không đọc được").

(** A machine where only [a.srt] exists, holding [srt], the user answers
    yes, yt-dlp finds one song and reports progress once, and Stable
    Diffusion is busy. *)
Definition env_with (srv : World.server) (srt : str) : env :=
  mk_env (fun p => if str_eqb p srt_path then inr srt else inl (no_such_file p))
    (fun p => str_eqb p srt_path) (fun _ => None)
    (fun k => lit "12:00:" ++ fmt_0d 2 (Z.of_nat k)) (fun _ => true)
    srv (lit "http://localhost:1234/v1") (lit "http://localhost:7860")
    VideoDownloaderSpec.song_ydl (fun _ => [YProgress [(lit "status", lit "downloading")]])
    (lit "/home/u") ImageGeneratorSamples.srv503 ImageGeneratorSamples.clock0 ImageGeneratorSamples.disk_ok
    (fun s => if str_eqb s (lit "7.5") then Some (15 # 2) else None) (fun _ => false)
    (lit "/opt/motai/src") (lit "Linux") (fun _ => None).

(** LM Studio is up, and [a.srt] holds a lone index line: pysrt finds no
    cue in it. *)
Definition env_up : env := env_with (ApiSamples.srv_echo_text (lit "1. ok")) (lit "1").
(** LM Studio answers 500. *)
Definition env_500 : env := env_with ApiSamples.srv_500 (lit "1").
(** [a.srt] holds twenty-five cues, as [_create_srt_content] writes them. *)
Definition cues25 : list SubRipItem := map (fun k => TranslatorSamples.cue (Z.of_nat k)) (seq 1 25).
Definition srt25 : str :=
  match Translator._create_srt_content
          (map (fun k => (lit "line", Codec.TimeDelta (Z.of_nat k * 1000000), Codec.TimeDelta (Z.of_nat k * 1000000 + 500000)))
             (seq 1 25)) with
  | inr s => s
  | inl _ => []
  end.
Definition env_25 : env := env_with (ApiSamples.srv_echo_text (lit "1. ok")) srt25.

Definition g0 : gui := create_widgets env_up.
Definition g_set500 : gui := tk_run (setup_clients env_500) (create_widgets env_500).
Definition g_set25 : gui := tk_run (setup_clients env_25) (create_widgets env_25).

(** The connection check runs before [setup_clients] ... *)
Definition g_early : gui := tk_run (run_thread env_up TCheckLM) (set_threads [] g0).
Definition g_early_set : gui := tk_run (setup_clients env_up) g_early.
(** ... or after it. *)
Definition g_set : gui := tk_run (setup_clients env_up) g0.
Definition g_late : gui := tk_run (run_thread env_up TCheckLM) (set_threads [] g_set).

(** The user picks [a.srt] and clicks; the worker fails. *)
Definition job : thread := TTranslate srt_path (lit "auto") (lit "vi") (lit "hiện đại") 10.
Definition g_typed : gui := tk_run (handle env_up (TypeInto ISrtPath srt_path)) g_late.
Definition g_clicked : gui := tk_run (handle env_up ClickTranslate) g_typed.
Definition g_worked : gui := tk_run (run_thread env_up job) (set_threads [] g_clicked).
(** The worker then leaves its [except] block ... *)
Definition g_done : gui := tk_run (run_thread env_up (TDelCell 0)) (set_threads [] g_worked).
(** ... or the main loop runs the dialog first. *)
Definition g_race : gui :=
  tk_run (run_callback env_up (CbErrorDialog (lit "Lỗi") (lit "Lỗi khi dịch: ") 0)) (set_after_queue [] g_worked).

(** A download: yt-dlp's progress hook fires once. *)
Definition url : str := lit "https://www.bilibili.com/video/BV1".
Definition g_url : gui := tk_run (handle env_up (TypeInto IVideoUrl url)) g_late.
Definition g_dl : gui := tk_run (handle env_up DownloadVideo) g_url.
Definition dl_job : thread :=
  TDownload url (lit "best") (lit "mp4") (lit "/home/u/Downloads") true false.
Definition g_dl_run : gui := tk_run (run_thread env_up dl_job) (set_threads [] g_dl).
Definition g_hook : gui :=
  tk_run (run_callback env_up (CbDownloadProgress [(lit "status", lit "downloading")]))
    (set_after_queue [CbDownloadComplete (lit "/home/u/Downloads/Song.webm")] g_dl_run).

(** The edited story, saved and loaded back. *)
Definition g_result : gui := tk_run (handle env_up (TypeInto IResultText (lit "  Truyện mới
"))) g_late.

(** Four images asked for, with a CFG scale that does not parse. *)
Definition g_images : gui :=
  tk_run (handle env_up (TypeInto ICfgScale (lit "abc")))
    (tk_run (handle env_up (TypeInto INumImages (lit "4")))
       (tk_run (handle env_up (TypeInto IImagePrompt (lit "a cat"))) g_late)).

End WindowSamples.

Module WindowSpec.
Import World Codec Timecode ApiClient GuiState GuiStateFacts MainWindow WindowFacts WindowSamples.

(** The sample runs, step by step. *)
Lemma run_late : clos_refl_trans_1n _ (step env_up) g0 g_late.
Proof.
  apply (Relation_Operators.rt1n_trans _ _ _ g_set); [apply StepBg, StepSetup; reflexivity|].
  apply (Relation_Operators.rt1n_trans _ _ _ g_late); [apply StepBg, (StepThread _ [] TCheckLM []); reflexivity|].
  apply rt1n_refl.
Qed.

Lemma run_worked : clos_refl_trans_1n _ (step env_up) g0 g_worked.
Proof.
  apply (rt1n_app _ _ _ _ run_late).
  apply (Relation_Operators.rt1n_trans _ _ _ g_typed); [apply StepUser; [discriminate|left; reflexivity]|].
  apply (Relation_Operators.rt1n_trans _ _ _ g_clicked); [apply StepUser; [discriminate|left; reflexivity]|].
  apply (Relation_Operators.rt1n_trans _ _ _ g_worked); [apply StepBg, (StepThread _ [] job []); reflexivity|].
  apply rt1n_refl.
Qed.

Lemma run_hook : clos_refl_trans_1n _ (step env_up) g0 g_hook.
Proof.
  apply (rt1n_app _ _ _ _ run_late).
  apply (Relation_Operators.rt1n_trans _ _ _ g_url); [apply StepUser; [discriminate|left; reflexivity]|].
  apply (Relation_Operators.rt1n_trans _ _ _ g_dl); [apply StepUser; [discriminate|left; reflexivity]|].
  apply (Relation_Operators.rt1n_trans _ _ _ g_dl_run); [apply StepBg, (StepThread _ [] dl_job []); reflexivity|].
  apply (Relation_Operators.rt1n_trans _ _ _ g_hook); [apply StepBg, StepCallback; [discriminate|reflexivity]|].
  apply rt1n_refl.
Qed.

(** The clients [setup_clients] builds for the samples. *)
Definition clients_up : client_set :=
  mk_clients (mk_client (lit "http://localhost:1234/v1"))
    (ImageGenerator.mk_generator (lit "http://localhost:7860") (lit "/opt/motai/output/images")).

(** the closure-cell invariant holds in every state the application
    reaches: each queued error [lambda] refers to an allocated cell that
    is either deleted already or whose deletion is a pending thread
    step. *)
Theorem reachable_cells_ok E g :
  clos_refl_trans_1n _ (step E) (create_widgets E) g -> cells_ok g.
Proof.
  intros Hrun. apply (cells_ok_star E _ _ Hrun). intros t p c Hin. destruct Hin.
Qed.

(** C11: the error dialogs of the worker threads are lost: in every run of
    the application, once no thread is left to run, each queued
    [lambda: messagebox.showerror(..., str(e))] raises [NameError] when the
    main loop runs it, because Python deleted [e] at the end of the
    [except] block; no dialog is shown. *)
Theorem error_dialog_after_workers E g title prefix c :
  clos_refl_trans_1n _ (step E) (create_widgets E) g -> threads g = [] ->
  In (CbErrorDialog title prefix c) (after_queue g) ->
  run_callback E (CbErrorDialog title prefix c) g = (inl free_e_error, g).
Proof.
  intros Hrun Ht Hin.
  assert (Hok : cells_ok g) by (apply (cells_ok_star E _ _ Hrun); intros ? ? ? []).
  destruct (Hok _ _ _ Hin) as (_ & [Hc|Hc]); [|rewrite Ht in Hc; destruct Hc].
  cbn [run_callback]. unfold run_error_dialog. rewrite Hc. reflexivity.
Qed.

(** C13: without the user, the application stops: there is no infinite
    run of background steps (the rest of [__init__], thread steps and
    queued callbacks). *)
Theorem background_terminates E : well_founded (fun g2 g1 => bg_step E g1 g2).
Proof. intros g. exact (lex_acc (bg_step E) (fun g => workers (threads g)) pending (bg_measure E) g). Qed.

(** C14: without the user, the application always reaches a quiet state:
    [__init__] has returned, every thread has finished and the main loop
    has run every queued callback. *)
Theorem background_quiesces E g :
  exists g', clos_refl_trans_1n _ (bg_step E) g g' /\ threads g' = [] /\ after_queue g' = [] /\
             clients g' <> None.
Proof.
  induction (lex_acc (bg_step E) (fun g => workers (threads g)) pending (bg_measure E) g) as [g _ IH].
  assert (Hgo : forall g1, bg_step E g g1 ->
            exists g', clos_refl_trans_1n _ (bg_step E) g g' /\ threads g' = [] /\ after_queue g' = [] /\
                       clients g' <> None)
    by (intros g1 Hs; destruct (IH g1 Hs) as (g' & Hr & H); exists g'; split; [econstructor; eauto|exact H]).
  destruct (threads g) as [|t post] eqn:Ht; [|exact (Hgo _ (StepThread E [] t post g Ht))].
  destruct (clients g) eqn:Hc; [|exact (Hgo _ (StepSetup E g Hc))].
  destruct (after_queue g) as [|cb rest] eqn:Hq.
  - exists g. split; [apply rt1n_refl|]. rewrite Hc. split; [exact Ht|split; [exact Hq|discriminate]].
  - apply (Hgo _ (StepCallback E cb rest g ltac:(congruence) Hq)).
Qed.

(** C15: the connection check started by [create_status_bar] that runs
    before [setup_clients] finds no [self.lm_client]: the bare [except]
    catches the [AttributeError] and the status bar reads "Lỗi kết nối"
    (connection error), whatever the server. *)
Theorem check_before_setup E g :
  clients g = None -> center_status (tk_run (run_thread E TCheckLM) g) = lit "LM Studio: Lỗi kết nối".
Proof. intros Hc. destruct g. cbn in Hc. subst. reflexivity. Qed.

(** the status bar's verdict depends on the interleaving: with
    LM Studio up, the run where the check thread goes first ends with
    "Lỗi kết nối", the run where [setup_clients] goes first with
    "Đã kết nối ✅"; both runs end quiet. *)
Example lm_status_race :
  clos_refl_trans_1n _ (bg_step env_up) g0 g_early_set /\ clos_refl_trans_1n _ (bg_step env_up) g0 g_late /\
  center_status g_early_set = lit "LM Studio: Lỗi kết nối" /\
  center_status g_late = lit "LM Studio: Đã kết nối ✅" /\
  threads g_early_set = [] /\ threads g_late = [] /\ after_queue g_early_set = [] /\ after_queue g_late = [].
Proof.
  split; [|split].
  - apply (Relation_Operators.rt1n_trans _ _ _ g_early); [apply (StepThread _ [] TCheckLM []); reflexivity|].
    apply (Relation_Operators.rt1n_trans _ _ _ g_early_set); [apply StepSetup; reflexivity|].
    apply rt1n_refl.
  - apply (Relation_Operators.rt1n_trans _ _ _ g_set); [apply StepSetup; reflexivity|].
    apply (Relation_Operators.rt1n_trans _ _ _ g_late); [apply (StepThread _ [] TCheckLM []); reflexivity|].
    apply rt1n_refl.
  - vm_compute. repeat split; reflexivity.
Qed.

(** C21: the worker of [translate_srt_file] on a file in which pysrt
    ([SrtFile.parse_srt]) finds cues: its progress callbacks queue one
    [update] per batch, [(1, n)] to [(n, n)]
    with [n] the number of batches (the label calls them "câu", cues),
    and then the result or the error dialog. *)
Theorem translate_worker_queue E g fp src tgt style bs c content subs :
  clients g = Some c -> fst (read_file E fp g) = inr content -> SrtFile.parse_srt content = subs ->
  subs <> [] ->
  let n := length (Batcher._create_batches subs bs) in
  exists last,
    after_queue (tk_run (run_thread E (TTranslate fp src tgt style bs)) g) =
      after_queue g ++ map (fun k => SubtitleTab.update_translation_progress (Z.of_nat k) (Z.of_nat n))
                         (seq 1 n) ++ [last] /\
    ((exists result, last = CbShowTranslation result fp) \/
     (exists cell, last = CbErrorDialog (lit "Lỗi") (lit "Lỗi khi dịch: ") cell)).
Proof.
  intros Hc Hr Hp Hne n.
  destruct (SubtitleFacts.translate_call_progress E c subs src tgt style bs g Hne) as (r & tr & Htc).
  unfold tk_run. cbn [run_thread]. unfold SubtitleTab.translate, worker, try_except, bind, get_clients, open_srt.
  rewrite Hc. unfold SrtFile.pysrt_open. rewrite Hr, Hp, Htc.
  destruct r as [e|result]; cbn; rewrite <- app_assoc; eexists; (split; [reflexivity|]); eauto.
Qed.


(** C23: no file is ever translated in the window: on a file in which
    pysrt finds a cue, whatever the LM Studio server does, the translate
    worker queues its progress updates and then the error dialog, whose
    closure cell holds the [AttributeError] that [_timedelta_to_srt]
    raises on pysrt's [SubRipTime]. *)
Theorem translate_worker_attribute_error E g fp src tgt style bs c content :
  clients g = Some c -> fst (read_file E fp g) = inr content -> SrtFile.parse_srt content <> [] ->
  let g' := tk_run (run_thread E (TTranslate fp src tgt style bs)) g in
  exists q,
    Forall (fun cb => exists k n, cb = SubtitleTab.update_translation_progress k n) q /\
    after_queue g' = after_queue g ++ q ++ [CbErrorDialog (lit "Lỗi") (lit "Lỗi khi dịch: ") (length (cells g))] /\
    nth_error (cells g') (length (cells g)) = Some (Some Timecode.no_total_seconds).
Proof.
  intros Hc Hr Hne g'.
  destruct (translate_worker_outcome E g fp src tgt style bs c content Hc Hr) as (q & Hq & Hm).
  pose proof (SrtFileFacts.parse_srt_subriptime content) as Hs.
  destruct (SrtFile.parse_srt content) as [|o rest]; [congruence|].
  inv Hs. destruct H1 as (ms & _ & Hms & _).
  destruct (TranslatorFacts.translate_file_first_subriptime (C := lm_studio_ai (lm_server E) (lm_client c))
              o rest ms src tgt style bs true (lm_world g) Hms) as (w' & Ht & _).
  rewrite Ht in Hm. exists q. split; [exact Hq | exact Hm].
Qed.

(** C12: the progress bar of the video tab never shows progress: in every
    run it holds 0 or 1, because each call of the progress hook queues an
    [update] that divides yt-dlp's status dictionary by 100 and raises
    [TypeError]. *)
Theorem download_progress_never_partial E g :
  clos_refl_trans_1n _ (step E) (create_widgets E) g ->
  download_progress (video_tab g) = float_of_int 0 \/ download_progress (video_tab g) = float_of_int 1.
Proof.
  intros Hrun. apply (dp_ok_star E _ _ Hrun). left. reflexivity.
Qed.

(** C17: "Mở thư mục ảnh" never opens the folder the images are saved in:
    [open_image_folder] uses [Path(__file__).parent / 'output' /
    'images'] of gui.py, while the [ImageGenerator] that [setup_clients]
    builds saves under [Path(__file__).parent.parent]. *)
Theorem image_folder_differs E g c :
  basename (gui_dir E) <> [] -> clients (tk_run (setup_clients E) g) = Some c ->
  ImageTab.image_folder E <> ImageGenerator.output_dir (image_gen c).
Proof.
  intros Hb Hc. destruct g. cbn in Hc. injection Hc as <-. cbn. unfold ImageTab.image_folder.
  intros Heq. apply (f_equal (@length ascii)) in Heq. unfold ImageGenerator.path_div in Heq.
  rewrite !length_app in Heq. cbn -[dirname gui_dir] in Heq. pose proof (length_dirname_lt _ Hb). lia.
Qed.

(** C24: the story worker never shows its error dialog once the clients
    exist: when LM Studio answers an HTTP error, [generate_text] returns
    the text "Error: <status>" and the worker queues it as the edited
    story. *)
Theorem process_server_error E g c story et lp status text body :
  clients g = Some c -> status <> 200%Z ->
  lm_server E (w_calls (lm_world g)) (base_url (lm_client c) ++ lit "/completions")
    (ReqCompletion (make_payload (StoryEditor.edit_story_prompt (StoryEditor.edit_instruction et lp) story)
                      (mk_opts (Some 4000%Z) (Some (7 # 10)) None None))) = HttpReply status text body ->
  after_queue (tk_run (run_thread E (TStoryEdit story et lp)) g) =
    after_queue g ++ [CbShowEditResult (lit "Error: " ++ py_str_Z status)].
Proof.
  intros Hc Hs Hr. cbn [run_thread].
  pose proof (StoryFacts.edit_story_http_error _ _ story et lp (lm_world g) status text body Hs Hr) as He.
  destruct (@StoryEditor.edit_story _ story et lp (lm_world g)) as [r w'] eqn:Hrun. cbn in He. subst r.
  rewrite (StoryFacts.process_run E g c story et lp _ w' Hc Hrun). destruct g. reflexivity.
Qed.

(** C25: saving the edited story and loading the file back puts into
    the story box the saved text, [result_text.get(1.0, END).strip()],
    after the text-mode translations of the write ([\n] to [os.linesep])
    and of the read ([\r\n] and [\r] to [\n]); a text without [\r]
    comes back unchanged. *)
Theorem save_load_story E g p :
  p <> [] -> open_write_error E p = None -> strip (text_get (result_text (story_tab g))) <> [] ->
  let loaded := story_text (story_tab (tk_run (handle E (LoadStory p)) (tk_run (handle E (SaveStory p)) g))) in
  loaded = universal_newlines (os_newlines (str_eqb (platform_system E) (lit "Windows"))
                                 (strip (text_get (result_text (story_tab g))))) /\
  (~ In CR (result_text (story_tab g)) -> loaded = strip (text_get (result_text (story_tab g)))).
Proof.
  intros Hp Hw Hs loaded.
  assert (Hl : loaded = universal_newlines (os_newlines (str_eqb (platform_system E) (lit "Windows"))
                                              (strip (text_get (result_text (story_tab g)))))).
  { subst loaded. cbn [handle]. apply (StoryFacts.load_story_text E _ p _ Hp).
    apply StoryFacts.read_file_last. exists (written g). exact (StoryFacts.save_story_written E g p Hp Hw Hs). }
  split; [exact Hl|]. intros Hc. rewrite Hl. apply universal_os_newlines.
  intros Hin. apply strip_in in Hin. unfold text_get in Hin. apply in_app_or in Hin as [Hin|[Hin|[]]];
    [exact (Hc Hin)|discriminate].
Qed.

(** a run where the main loop shows the worker's error before the
    worker leaves its [except] block: the error is then displayed. *)
Example error_dialog_race :
  clos_refl_trans_1n _ (step env_up) g0 g_race /\
  In (DError (lit "Lỗi") (lit "Lỗi khi dịch: " ++ exc_str empty_srt)) (dialogs g_race).
Proof.
  split.
  - apply (rt1n_app _ _ _ _ run_worked).
    apply (Relation_Operators.rt1n_trans _ _ _ g_race); [apply StepBg, (StepCallback _ _ []); [discriminate|reflexivity]|].
    apply rt1n_refl.
  - vm_compute. left. reflexivity.
Qed.

(** the three entries of [generate_images] are parsed in one [try]: a
    CFG scale that does not parse also resets the number of images the
    user asked for (4) to 1 and the steps to 30. *)
Example generate_images_defaults :
  threads (tk_run (handle env_up GenerateImages) g_images) =
    [TGenImages (lit "a cat") (lit "stable-diffusion") (lit "512x512") 1 30 (15 # 2) (lit "Euler a")].
Proof. vm_compute. reflexivity. Qed.

(** ** Witnesses *)

Lemma reachable_cells_ok_witness : cells_ok g_worked.
Proof. apply (reachable_cells_ok env_up g_worked run_worked). Defined.

Lemma error_dialog_after_workers_witness :
  run_callback env_up (CbErrorDialog (lit "Lỗi") (lit "Lỗi khi dịch: ") 0) g_done = (inl free_e_error, g_done).
Proof.
  apply (error_dialog_after_workers env_up g_done).
  - apply (rt1n_app _ _ _ _ run_worked).
    apply (Relation_Operators.rt1n_trans _ _ _ g_done); [apply StepBg, (StepThread _ [] (TDelCell 0) []); reflexivity|].
    apply rt1n_refl.
  - reflexivity.
  - vm_compute. left. reflexivity.
Defined.

(** Twenty-five cues with the default batch size: three batches, and the
    label reads "1/3 câu", "2/3 câu", "3/3 câu". *)
Lemma translate_worker_queue_witness :
  exists last,
    after_queue (tk_run (run_thread env_25 (TTranslate srt_path (lit "auto") (lit "vi") (lit "hiện đại") 10)) g_set25) =
      after_queue g_set25 ++ map (fun k => SubtitleTab.update_translation_progress (Z.of_nat k) 3) (seq 1 3) ++ [last] /\
    ((exists result, last = CbShowTranslation result srt_path) \/
     (exists cell, last = CbErrorDialog (lit "Lỗi") (lit "Lỗi khi dịch: ") cell)).
Proof.
  apply (translate_worker_queue env_25 g_set25 srt_path _ _ _ 10 clients_up srt25 cues25);
    [reflexivity | reflexivity | vm_compute; reflexivity | discriminate].
Defined.


(** The twenty-five cues of [a.srt]: the worker ends in the error dialog. *)
Lemma translate_worker_attribute_error_witness :
  clients g_set25 = Some clients_up /\ fst (read_file env_25 srt_path g_set25) = inr srt25 /\
  SrtFile.parse_srt srt25 <> [] /\
  let g' := tk_run (run_thread env_25 (TTranslate srt_path (lit "auto") (lit "vi") (lit "hiện đại") 10)) g_set25 in
  exists q,
    Forall (fun cb => exists k n, cb = SubtitleTab.update_translation_progress k n) q /\
    after_queue g' = after_queue g_set25 ++ q ++
                       [CbErrorDialog (lit "Lỗi") (lit "Lỗi khi dịch: ") (length (cells g_set25))] /\
    nth_error (cells g') (length (cells g_set25)) = Some (Some Timecode.no_total_seconds).
Proof.
  assert (H1 : clients g_set25 = Some clients_up) by (vm_compute; reflexivity).
  assert (H2 : fst (read_file env_25 srt_path g_set25) = inr srt25) by (vm_compute; reflexivity).
  assert (H3 : SrtFile.parse_srt srt25 <> []) by (vm_compute; discriminate).
  split; [exact H1|]. split; [exact H2|]. split; [exact H3|].
  exact (translate_worker_attribute_error env_25 g_set25 srt_path (lit "auto") (lit "vi") (lit "hiện đại") 10
           clients_up srt25 H1 H2 H3).
Defined.

Lemma download_progress_never_partial_witness :
  download_progress (video_tab g_hook) = float_of_int 0 \/ download_progress (video_tab g_hook) = float_of_int 1.
Proof. apply (download_progress_never_partial env_up g_hook run_hook). Defined.

Lemma check_before_setup_witness :
  center_status (tk_run (run_thread env_up TCheckLM) (set_threads [] g0)) = lit "LM Studio: Lỗi kết nối".
Proof. apply (check_before_setup env_up (set_threads [] g0)). reflexivity. Defined.

Lemma image_folder_differs_witness : ImageTab.image_folder env_up <> ImageGenerator.output_dir (image_gen clients_up).
Proof. apply (image_folder_differs env_up g0 clients_up); [vm_compute; discriminate|reflexivity]. Defined.

Lemma process_server_error_witness :
  after_queue (tk_run (run_thread env_500 (TStoryEdit (lit "Once") (lit "Tóm tắt") (lit "giữ nguyên"))) g_set500) =
    after_queue g_set500 ++ [CbShowEditResult (lit "Error: 500")].
Proof.
  apply (process_server_error env_500 g_set500 clients_up _ _ _ 500 (lit "Internal Server Error")
           (JsonInvalid (lit "Expecting value: line 1 column 1 (char 0)"))); [reflexivity|discriminate|reflexivity].
Defined.

Lemma save_load_story_witness :
  let loaded := story_text (story_tab (tk_run (handle env_up (LoadStory story_path))
                                        (tk_run (handle env_up (SaveStory story_path)) g_result))) in
  loaded = universal_newlines (os_newlines (str_eqb (platform_system env_up) (lit "Windows"))
                                 (strip (text_get (result_text (story_tab g_result))))) /\
  (~ In CR (result_text (story_tab g_result)) -> loaded = strip (text_get (result_text (story_tab g_result)))).
Proof.
  apply (save_load_story env_up g_result story_path); [discriminate|reflexivity|vm_compute; discriminate].
Defined.

End WindowSpec.
